(** * be-image-builder: authentication and audit trail

    A shallow embedding of the authentication controller, the token
    service, the audit recording service, the automatic audit interceptor
    and the audit query controller, together with the properties their
    specification states about them.

    JavaScript values are embedded as a small dynamically typed universe
    ([jsval]); code that throws or touches the database, the console or the
    clock runs in a state-and-exception monad ([M]) over an explicit
    [World]. *)

From Stdlib Require Import ZArith List String Ascii Bool Lia.
From Stdlib Require Import DecimalString.
Import ListNotations.

Set Warnings "-register-all".

Local Open Scope string_scope.
Local Open Scope Z_scope.

(* ===================================================================== *)
(** ** Strings as the source uses them *)
(* ===================================================================== *)

Module Str.

Definition is_lower (c : ascii) : bool :=
  let n := nat_of_ascii c in (97 <=? n)%nat && (n <=? 122)%nat.

Definition is_upper (c : ascii) : bool :=
  let n := nat_of_ascii c in (65 <=? n)%nat && (n <=? 90)%nat.

Definition is_digit (c : ascii) : bool :=
  let n := nat_of_ascii c in (48 <=? n)%nat && (n <=? 57)%nat.

(** [0-9a-fA-F] *)
Definition is_hex (c : ascii) : bool :=
  let n := nat_of_ascii c in
  is_digit c
  || ((97 <=? n)%nat && (n <=? 102)%nat)
  || ((65 <=? n)%nat && (n <=? 70)%nat).

Definition upper_char (c : ascii) : ascii :=
  if is_lower c then ascii_of_nat (nat_of_ascii c - 32) else c.

Definition lower_char (c : ascii) : ascii :=
  if is_upper c then ascii_of_nat (nat_of_ascii c + 32) else c.

Fixpoint map_chars (f : ascii -> ascii) (s : string) : string :=
  match s with
  | EmptyString => EmptyString
  | String c r => String (f c) (map_chars f r)
  end.

(** [s.toUpperCase()] and [s.toLowerCase()] on the ASCII range. *)
Definition toUpperCase (s : string) : string := map_chars upper_char s.
Definition toLowerCase (s : string) : string := map_chars lower_char s.

Fixpoint forall_chars (p : ascii -> bool) (s : string) : bool :=
  match s with
  | EmptyString => true
  | String c r => p c && forall_chars p r
  end.

(** [s.startsWith(p)] *)
Definition startsWith (s p : string) : bool := String.prefix p s.

(** [s.split(sep)] for a one-character separator: the accumulator holds
    the characters of the current piece, most recent first. *)
Fixpoint split_acc (sep : ascii) (acc : string) (s : string) : list string :=
  match s with
  | EmptyString => [acc]
  | String c r =>
      if Ascii.eqb c sep then acc :: split_acc sep EmptyString r
      else split_acc sep (acc ++ String c EmptyString) r
  end.

Definition split (sep : ascii) (s : string) : list string :=
  split_acc sep EmptyString s.

(** [parts.join(sep)] *)
Definition join (sep : string) (parts : list string) : string :=
  String.concat sep parts.

(** [s.charAt(0)] and [s.slice(1)] *)
Definition charAt0 (s : string) : string :=
  match s with
  | EmptyString => EmptyString
  | String c _ => String c EmptyString
  end.

Definition slice1 (s : string) : string :=
  match s with
  | EmptyString => EmptyString
  | String _ r => r
  end.

(** [s.includes(t)] *)
Fixpoint includes (s t : string) : bool :=
  String.prefix t s
  || match s with
     | EmptyString => false
     | String _ r => includes r t
     end.

(** Decimal rendering of an integer, as [String(n)] prints it. *)
Definition of_Z (z : Z) : string := NilZero.string_of_int (Z.to_int z).

Definition nonempty (s : string) : bool :=
  match s with
  | EmptyString => false
  | String _ _ => true
  end.

End Str.

(* ===================================================================== *)
(** ** JavaScript values *)
(* ===================================================================== *)

(** Numbers are held at integer precision, with [NaN] for the failed
    conversions the controllers can produce. *)
Inductive number : Type :=
| NaN
| Int (z : Z).

(** [JFun name] is a built-in function, known by its name: the handlers
    meet one only as a member that a plain object inherits from
    [Object.prototype]. *)
Inductive jsval : Type :=
| JUndefined
| JNull
| JBool (b : bool)
| JNum (n : number)
| JStr (s : string)
| JArr (items : list jsval)
| JObj (fields : list (string * jsval))
| JFun (name : string).

Module JS.

Definition JInt (z : Z) : jsval := JNum (Int z).

(** ToBoolean: the falsy values are [undefined], [null], [false], [NaN],
    [0] and the empty string. *)
Definition truthy (v : jsval) : bool :=
  match v with
  | JUndefined | JNull => false
  | JBool b => b
  | JNum NaN => false
  | JNum (Int z) => negb (z =? 0)
  | JStr s => Str.nonempty s
  | JArr _ | JObj _ | JFun _ => true
  end.

(** [typeof v === 'object'] *)
Definition typeof_object (v : jsval) : bool :=
  match v with
  | JNull | JArr _ | JObj _ => true
  | _ => false
  end.

Fixpoint assoc (k : string) (fs : list (string * jsval)) : option jsval :=
  match fs with
  | [] => None
  | (k', v) :: r => if String.eqb k k' then Some v else assoc k r
  end.

(** [o.k] for one of the fixed property names the source reads, none of
    which is a member of [Object.prototype]; the source guards every such
    read by the truthiness of [o], so reading through a primitive yields
    [undefined]. A function has its [name]. *)
Definition get (o : jsval) (k : string) : jsval :=
  match o with
  | JObj fs => match assoc k fs with Some v => v | None => JUndefined end
  | JFun name => if String.eqb k "name" then JStr name else JUndefined
  | _ => JUndefined
  end.

(** The functions a plain object inherits from [Object.prototype], under
    the names they are reached by. *)
Definition prototype_methods : list string :=
  ["hasOwnProperty"; "isPrototypeOf"; "propertyIsEnumerable";
   "toLocaleString"; "toString"; "valueOf"; "__defineGetter__";
   "__defineSetter__"; "__lookupGetter__"; "__lookupSetter__"].

(** [Object.prototype] itself, which [__proto__] reads: an object with no
    enumerable property of its own. *)
Definition Object_prototype : jsval := JObj [].

(** [o[k]] with a computed key, on an object literal whose own
    properties are [fs]: the own property, else the member inherited from
    [Object.prototype] ([constructor] is the function [Object]), else
    [undefined]. *)
Definition index (fs : list (string * jsval)) (k : string) : jsval :=
  match assoc k fs with
  | Some v => v
  | None =>
      if String.eqb k "constructor" then JFun "Object"
      else if String.eqb k "__proto__" then Object_prototype
      else if existsb (String.eqb k) prototype_methods then JFun k
      else JUndefined
  end.

(** [o[k]] with a computed key on a value the source takes for a plain
    object. *)
Definition get_computed (o : jsval) (k : string) : jsval :=
  match o with
  | JObj fs => index fs k
  | _ => get o k
  end.

(** [delete o[k]] on the own properties of an object. *)
Definition delete (k : string) (fs : list (string * jsval)) : list (string * jsval) :=
  filter (fun kv => negb (String.eqb k (fst kv))) fs.

(** [o[k] = v]: an existing property keeps its place. *)
Fixpoint set (k : string) (v : jsval) (fs : list (string * jsval))
  : list (string * jsval) :=
  match fs with
  | [] => [(k, v)]
  | (k', x) :: r =>
      if String.eqb k k' then (k, v) :: r else (k', x) :: set k v r
  end.

Fixpoint index_from (i : nat) (xs : list jsval) : list (string * jsval) :=
  match xs with
  | [] => []
  | x :: r => (Str.of_Z (Z.of_nat i), x) :: index_from (S i) r
  end.

(** [{ ...v }]: the own enumerable properties of [v]; an array spreads
    to its index keys, a string to its characters, other primitives to
    nothing. *)
Definition spread (v : jsval) : list (string * jsval) :=
  match v with
  | JObj fs => fs
  | JArr xs => index_from 0 xs
  | JStr s => index_from 0 (map (fun c => JStr (String c EmptyString)) (list_ascii_of_string s))
  | _ => []
  end.

Definition num_to_string (n : number) : string :=
  match n with
  | NaN => "NaN"
  | Int z => Str.of_Z z
  end.

(** The abstract operation ToString. Array elements that are [null] or
    [undefined] print as the empty string inside [join]; a built-in
    function prints as its source text. *)
Fixpoint ToString (v : jsval) : string :=
  match v with
  | JUndefined => "undefined"
  | JNull => "null"
  | JBool true => "true"
  | JBool false => "false"
  | JNum n => num_to_string n
  | JStr s => s
  | JArr xs =>
      Str.join ","
        (map (fun x => match x with
                       | JUndefined | JNull => ""
                       | _ => ToString x
                       end) xs)
  | JObj _ => "[object Object]"
  | JFun name => "function " ++ name ++ "() { [native code] }"
  end.

End JS.

(* ===================================================================== *)
(** ** JSON.stringify and parseInt *)
(* ===================================================================== *)

Module Json.

Definition dquote : ascii := ascii_of_nat 34.
Definition backslash : ascii := ascii_of_nat 92.

Definition str1 (c : ascii) : string := String c EmptyString.

Definition hex_digit (n : nat) : ascii :=
  if (n <? 10)%nat then ascii_of_nat (48 + n) else ascii_of_nat (87 + n).

(** One character of a JSON string literal. *)
Definition escape_char (c : ascii) : string :=
  let n := nat_of_ascii c in
  if Ascii.eqb c dquote then String backslash (str1 dquote)
  else if Ascii.eqb c backslash then String backslash (str1 backslash)
  else if (n =? 8)%nat then String backslash "b"
  else if (n =? 12)%nat then String backslash "f"
  else if (n =? 10)%nat then String backslash "n"
  else if (n =? 13)%nat then String backslash "r"
  else if (n =? 9)%nat then String backslash "t"
  else if (n <? 32)%nat then
    String backslash
      ("u00" ++ str1 (hex_digit (n / 16)) ++ str1 (hex_digit (n mod 16)))
  else str1 c.

Fixpoint escape (s : string) : string :=
  match s with
  | EmptyString => EmptyString
  | String c r => escape_char c ++ escape r
  end.

Definition quote (s : string) : string :=
  str1 dquote ++ escape s ++ str1 dquote.

(** [JSON.stringify(v)] without indentation. A property whose value is
    [undefined] or a function is left out; inside an array they print as
    [null], and so does [NaN]. *)
Fixpoint stringify (v : jsval) : string :=
  match v with
  | JUndefined | JFun _ => "null"
  | JNull => "null"
  | JBool true => "true"
  | JBool false => "false"
  | JNum NaN => "null"
  | JNum (Int z) => Str.of_Z z
  | JStr s => quote s
  | JArr xs => "[" ++ Str.join "," (map stringify xs) ++ "]"
  | JObj fs =>
      "{" ++ Str.join ","
               ((fix props (l : list (string * jsval)) : list string :=
                   match l with
                   | [] => []
                   | (k, x) :: r =>
                       match x with
                       | JUndefined | JFun _ => props r
                       | _ => (quote k ++ ":" ++ stringify x) :: props r
                       end
                   end) fs)
          ++ "}"
  end.

(** [JSON.parse(JSON.stringify(v))]: what survives serialisation. A
    property holding [undefined] or a function disappears; inside an
    array they come back as [null], and so does [NaN]. *)
Fixpoint roundtrip (v : jsval) : jsval :=
  match v with
  | JUndefined | JFun _ => JUndefined
  | JNum NaN => JNull
  | JArr xs =>
      JArr (map (fun x => match x with
                          | JUndefined | JFun _ => JNull
                          | _ => roundtrip x
                          end) xs)
  | JObj fs =>
      JObj ((fix props (l : list (string * jsval)) : list (string * jsval) :=
               match l with
               | [] => []
               | (k, x) :: r =>
                   match x with
                   | JUndefined | JFun _ => props r
                   | _ => (k, roundtrip x) :: props r
                   end
               end) fs)
  | _ => v
  end.

Definition is_space (c : ascii) : bool :=
  let n := nat_of_ascii c in
  (n =? 32)%nat || ((9 <=? n)%nat && (n <=? 13)%nat).

Fixpoint skip_spaces (s : string) : string :=
  match s with
  | String c r => if is_space c then skip_spaces r else s
  | EmptyString => s
  end.

Definition digit_val (c : ascii) : option Z :=
  let n := nat_of_ascii c in
  if Str.is_digit c then Some (Z.of_nat (n - 48))
  else if ((97 <=? n)%nat && (n <=? 122)%nat) then Some (Z.of_nat (n - 87))
  else if ((65 <=? n)%nat && (n <=? 90)%nat) then Some (Z.of_nat (n - 55))
  else None.

(** The longest prefix of [s] made of digits below [radix]; [acc] is the
    value read so far, [None] while no digit has been read. *)
Fixpoint read_digits (radix : Z) (acc : option Z) (s : string) : option Z :=
  match s with
  | EmptyString => acc
  | String c r =>
      match digit_val c with
      | Some d =>
          if d <? radix then
            read_digits radix
              (Some (radix * match acc with Some a => a | None => 0 end + d)) r
          else acc
      | None => acc
      end
  end.

Definition strip_hex_prefix (s : string) : option string :=
  match s with
  | String "0" (String "x" r) => Some r
  | String "0" (String "X" r) => Some r
  | _ => None
  end.

(** [parseInt(s)] with no radix argument. *)
Definition parseInt_string (s : string) : number :=
  let s1 := skip_spaces s in
  let '(sign, s2) :=
    match s1 with
    | String "-" r => (-1, r)
    | String "+" r => (1, r)
    | _ => (1, s1)
    end in
  let digits :=
    match strip_hex_prefix s2 with
    | Some r => read_digits 16 None r
    | None => read_digits 10 None s2
    end in
  match digits with
  | Some n => Int (sign * n)
  | None => NaN
  end.

(** [parseInt(v)]: the argument is converted to a string first. An integer
    of magnitude 10^21 or more prints in exponent notation, so only its
    leading digit is read. *)
Definition parseInt (v : jsval) : number :=
  match v with
  | JNum (Int z) =>
      if Z.abs z <? 10 ^ 21 then Int z
      else parseInt_string
             (match Str.of_Z z with
              | String "-" (String d _) => String "-" (str1 d)
              | String d _ => str1 d
              | EmptyString => EmptyString
              end)
  | _ => parseInt_string (JS.ToString v)
  end.

(** [Math.max(a, b)] and [Math.min(a, b)]: [NaN] is contagious. *)
Definition math_max (a b : number) : number :=
  match a, b with
  | Int x, Int y => Int (Z.max x y)
  | _, _ => NaN
  end.

Definition math_min (a b : number) : number :=
  match a, b with
  | Int x, Int y => Int (Z.min x y)
  | _, _ => NaN
  end.

End Json.

(* ===================================================================== *)
(** ** Errors, the data model and the world the handlers run in *)
(* ===================================================================== *)

(** A thrown JavaScript [Error]: its constructor name, its message and
    the [statusCode] that [createError] attaches. *)
Record JsError : Type := mkError {
  err_name : string;
  err_message : string;
  err_statusCode : option Z
}.

(** [createError(statusCode, message)] of utils/errorUtils.js. *)
Definition createError (statusCode : Z) (message : string) : JsError :=
  mkError "Error" message (Some statusCode).

Definition TypeError (message : string) : JsError :=
  mkError "TypeError" message None.

Definition PlainError (message : string) : JsError :=
  mkError "Error" message None.

Inductive result (A : Type) : Type :=
| Ok (a : A)
| Throw (e : JsError).

Arguments Ok {A} a.
Arguments Throw {A} e.

Module User.

(** Modelled from the spec: the User schema of models/User.js, which is
    not part of the sources; the fields are those of the User entity of
    section 3, under the names the controllers read and write. *)
Record t : Type := mk {
  _id : string;
  name : string;
  email : string;
  password : option string;
  googleId : option string;
  avatar : option string;
  role : string;
  isEmailVerified : bool;
  isActive : bool;
  lastLogin : option Z;
  loginAttempts : Z;
  lockUntil : option Z;
  passwordResetToken : option string;
  passwordResetTokenExpires : option Z
}.

End User.

Module AuditLog.

(** The AuditLog document of the audit model: [action] and [entityId] are
    the strings [createLog] computes; the other fields hold what the
    schema makes of the values given. *)
Record t : Type := mk {
  _id : string;
  userId : jsval;
  action : string;
  entity : jsval;
  entityId : string;
  changes : jsval;
  metadata : jsval;
  timestamp : Z;
  description : jsval
}.

End AuditLog.

(** What [googleAuthService.verifyGoogleToken] resolves to. *)
Record GoogleUser : Type := mkGoogleUser {
  g_googleId : string;
  g_email : string;
  g_name : string;
  g_avatar : option string;
  g_isEmailVerified : bool
}.

(** A signed JSON Web Token, symbolically: the key it was signed with and
    the payload it carries. *)
Record Token : Type := mkToken {
  tk_key : string;
  tk_payload : list (string * jsval)
}.

(** A mail handed to the transport. *)
Record Mail : Type := mkMail {
  mail_to : string;
  mail_token : string;
  mail_name : string
}.

(** The collaborators outside the core, taken as parameters: the
    persistence engine's verdict on a write, the mail service and the
    Google verifier (services/emailService.js and
    services/googleAuthService.js are not part of the sources), the
    hashing and random-token primitives, the text conversions of the
    libraries, and the configuration read from the environment. *)
Record Env : Type := mkEnv {
  audit_save_ok : AuditLog.t -> bool;
  user_save_ok : User.t -> bool;
  email_configured : bool;
  email_send_ok : Mail -> bool;
  verifyGoogleToken : string -> GoogleUser + string;
  password_matches : string -> string -> bool;
  sha256_hex : string -> string;
  random_token : nat -> string;
  jwt_render : Token -> string;
  JWT_SECRET : string;
  JWT_REFRESH_SECRET : string;
  JWT_EXPIRES_IN : string;
  JWT_REFRESH_EXPIRES_IN : string;
  expires_seconds : string -> option Z;
  date_parse : string -> number;
  date_to_string : Z -> string;
  joi_integer : string -> option Z;
  APP_NAME : option string
}.

Record World : Type := mkWorld {
  users : list User.t;
  auditLogs : list AuditLog.t;
  console : list string;
  outbox : list Mail;
  now : Z;
  next_oid : nat
}.

(** ** The monad of handlers: environment, state and exceptions *)

Definition M (A : Type) : Type := Env -> World -> result A * World.

Definition ret {A} (a : A) : M A := fun _ w => (Ok a, w).

Definition bind {A B} (c : M A) (k : A -> M B) : M B :=
  fun env w =>
    match c env w with
    | (Ok a, w') => k a env w'
    | (Throw e, w') => (Throw e, w')
    end.

Definition throw {A} (e : JsError) : M A := fun _ w => (Throw e, w).

(** [try { c } catch (error) { handler(error) }] *)
Definition try_catch {A} (c : M A) (handler : JsError -> M A) : M A :=
  fun env w =>
    match c env w with
    | (Ok a, w') => (Ok a, w')
    | (Throw e, w') => handler e env w'
    end.

Definition ask : M Env := fun env w => (Ok env, w).
Definition get_world : M World := fun _ w => (Ok w, w).
Definition put_world (w : World) : M unit := fun _ _ => (Ok tt, w).
Definition lift_result {A} (r : result A) : M A := fun _ w => (r, w).

Declare Scope monad_scope.
Delimit Scope monad_scope with monad.
Notation "x <- c ;; k" := (bind c (fun x => k))
  (at level 61, c at next level, right associativity) : monad_scope.
Notation "c ;;; k" := (bind c (fun _ => k))
  (at level 61, right associativity) : monad_scope.
Local Open Scope monad_scope.

(** [Date.now()] in milliseconds. *)
Definition Date_now : M Z := fun _ w => (Ok (now w), w).

(** [console.error(label, error)] *)
Definition console_error (label : string) (e : JsError) : M unit :=
  fun _ w =>
    (Ok tt,
     mkWorld (users w) (auditLogs w)
       (console w ++ [label ++ " " ++ err_name e ++ ": " ++ err_message e])
       (outbox w) (now w) (next_oid w)).

Fixpoint zeros (n : nat) : string :=
  match n with
  | O => EmptyString
  | S k => String "0" (zeros k)
  end.

(** The identifier the driver gives the [n]-th new document: 24
    hexadecimal characters. *)
Definition oid (n : nat) : string :=
  let d := Str.of_Z (Z.of_nat n) in
  zeros (24 - String.length d) ++ d.

Definition fresh_oid : M string :=
  fun _ w =>
    (Ok (oid (next_oid w)),
     mkWorld (users w) (auditLogs w) (console w) (outbox w) (now w)
       (S (next_oid w))).

(** Method calls on a dynamically typed receiver. *)
Definition toUpperCase_m (v : jsval) : result string :=
  match v with
  | JStr s => Ok (Str.toUpperCase s)
  | JUndefined | JNull =>
      Throw (TypeError "Cannot read properties of undefined (reading 'toUpperCase')")
  | _ => Throw (TypeError "toUpperCase is not a function")
  end.

Definition toLowerCase_m (v : jsval) : result string :=
  match v with
  | JStr s => Ok (Str.toLowerCase s)
  | JUndefined | JNull =>
      Throw (TypeError "Cannot read properties of undefined (reading 'toLowerCase')")
  | _ => Throw (TypeError "toLowerCase is not a function")
  end.

Definition toString_m (v : jsval) : result string :=
  match v with
  | JUndefined | JNull =>
      Throw (TypeError "Cannot read properties of undefined (reading 'toString')")
  | _ => Ok (JS.ToString v)
  end.

(** A destructuring default: [x = d] takes [d] when [x] is [undefined]. *)
Definition default_to (d v : jsval) : jsval :=
  match v with
  | JUndefined => d
  | _ => v
  end.

(** [a || b] *)
Definition js_or (a b : jsval) : jsval := if JS.truthy a then a else b.

Definition opt_str (o : option string) : jsval :=
  match o with
  | Some s => JStr s
  | None => JUndefined
  end.

Definition opt_date (o : option Z) : jsval :=
  match o with
  | Some z => JNum (Int z)
  | None => JUndefined
  end.

(** How a handler ends: it sends a response or passes an error on. *)
Inductive Outcome : Type :=
| Responded (status : Z) (body : jsval)
| Next (error : JsError)
| Sent (status : Z) (contentType : string) (payload : string).

Module Req.

Record t : Type := mk {
  method : string;
  path : string;
  route : option string;
  ip : jsval;
  remoteAddress : jsval;
  userAgent : jsval;
  requestId : jsval;
  body : jsval;
  query : jsval;
  params : jsval;
  user : option User.t;
  originalData : jsval
}.

End Req.

(* ===================================================================== *)
(** ** Token Service (utils/jwtService.js) *)
(* ===================================================================== *)

Module Jwt.

(** The jsonwebtoken library, symbolically. A compact token is either one
    a signer produced or a string no signer produced. *)
Inductive compact : Type :=
| Signed (t : Token)
| Garbage (s : string).

Definition has (k : string) (fs : list (string * jsval)) : bool :=
  match JS.assoc k fs with
  | Some JUndefined | None => false
  | Some _ => true
  end.

(** [Math.floor(Date.now() / 1000)] *)
Definition clock_seconds : M Z :=
  (ms <- Date_now ;; ret (ms / 1000))%monad.

(** A registered claim that must be a number when present. *)
Definition numeric_or_absent (v : jsval) : bool :=
  match v with
  | JUndefined | JNum _ => true
  | _ => false
  end.

(** [jwt.sign(payload, secret, { expiresIn, issuer, audience })] called
    without a callback: failures are thrown. The token carries the
    payload as serialised, with [iat], [exp], [aud] and [iss] set by the
    signer. *)
Definition sign (payload : jsval) (secret : string)
    (expiresIn issuer audience : string) : M Token :=
  match payload with
  | JObj fs =>
      if negb (numeric_or_absent (JS.get payload "iat")) then
        throw (PlainError "iat should be a number of seconds")
      else if negb (numeric_or_absent (JS.get payload "nbf")) then
        throw (PlainError "nbf should be a number of seconds")
      else if has "exp" fs then
        throw (PlainError "Bad options.expiresIn option the payload already has an exp property.")
      else if has "aud" fs then
        throw (PlainError "Bad options.audience option. The payload already has an aud property.")
      else if has "iss" fs then
        throw (PlainError "Bad options.issuer option. The payload already has an iss property.")
      else
        env <- ask ;;
        clock <- clock_seconds ;;
        let timestamp :=
          match JS.get payload "iat" with
          | JNum (Int z) => if z =? 0 then clock else z
          | _ => clock
          end in
        match expires_seconds env expiresIn with
        | None =>
            throw (PlainError "expiresIn should be a number of seconds or string representing a timespan")
        | Some span =>
            ret (mkToken secret
                   (JS.set "iss" (JStr issuer)
                      (JS.set "aud" (JStr audience)
                         (JS.set "exp" (JS.JInt (timestamp + span))
                            (JS.set "iat" (JS.JInt timestamp)
                               (JS.spread (Json.roundtrip payload)))))))
        end
  | _ => throw (PlainError "invalid expiresIn option for string payload")
  end.

Definition JsonWebTokenError (message : string) : JsError :=
  mkError "JsonWebTokenError" message None.

Definition TokenExpiredError (message : string) : JsError :=
  mkError "TokenExpiredError" message None.

Definition NotBeforeError (message : string) : JsError :=
  mkError "NotBeforeError" message None.

(** [jwt.verify(token, secret)] with no options: the signature is checked
    first, then the not-before and expiry claims against the clock;
    audience and issuer are not checked. *)
Definition verify (token : compact) (secret : string)
  : M (list (string * jsval)) :=
  (match token with
   | Garbage _ => throw (JsonWebTokenError "jwt malformed")
   | Signed t =>
       if negb (String.eqb (tk_key t) secret) then
         throw (JsonWebTokenError "invalid signature")
       else
         clock <- clock_seconds ;;
         match JS.assoc "nbf" (tk_payload t) with
         | None | Some JUndefined => ret tt
         | Some (JNum (Int nbf)) =>
             if clock <? nbf then throw (NotBeforeError "jwt not active")
             else ret tt
         | Some _ => throw (JsonWebTokenError "invalid nbf value")
         end ;;;
         match JS.assoc "exp" (tk_payload t) with
         | None | Some JUndefined => ret (tk_payload t)
         | Some (JNum (Int exp)) =>
             if exp <=? clock then throw (TokenExpiredError "jwt expired")
             else ret (tk_payload t)
         | Some _ => throw (JsonWebTokenError "invalid exp value")
         end
   end)%monad.

End Jwt.

Module JWTService.

Definition issuer (env : Env) : string :=
  match APP_NAME env with
  | Some n => if Str.nonempty n then n else "BE Image Builder"
  | None => "BE Image Builder"
  end.

Definition generateAccessToken (payload : jsval) : M Token :=
  (env <- ask ;;
   Jwt.sign payload (JWT_SECRET env) (JWT_EXPIRES_IN env) (issuer env) "user")%monad.

Definition generateRefreshToken (payload : jsval) : M Token :=
  (env <- ask ;;
   Jwt.sign payload (JWT_REFRESH_SECRET env) (JWT_REFRESH_EXPIRES_IN env)
     (issuer env) "refresh")%monad.

(** [generateTokens(user)]: the object spread into the response bodies. *)
Definition generateTokens (user : User.t) : M (list (string * jsval)) :=
  (env <- ask ;;
   let id := js_or (JStr (User._id user)) (JStr (User._id user)) in
   let payload :=
     JObj [("id", id);
           ("email", JStr (User.email user));
           ("role", js_or (JStr (User.role user)) (JStr "user"))] in
   accessToken <- generateAccessToken payload ;;
   refreshToken <- generateRefreshToken (JObj [("id", id)]) ;;
   ret [("accessToken", JStr (jwt_render env accessToken));
        ("refreshToken", JStr (jwt_render env refreshToken));
        ("expiresIn", JStr (JWT_EXPIRES_IN env))])%monad.

Definition verifyAccessToken (token : Jwt.compact)
  : M (list (string * jsval)) :=
  (env <- ask ;;
   try_catch (Jwt.verify token (JWT_SECRET env))
     (fun error =>
        if String.eqb (err_name error) "TokenExpiredError" then
          throw (PlainError "Access token has expired")
        else if String.eqb (err_name error) "JsonWebTokenError" then
          throw (PlainError "Invalid access token")
        else throw error))%monad.

Definition verifyRefreshToken (token : Jwt.compact)
  : M (list (string * jsval)) :=
  (env <- ask ;;
   try_catch (Jwt.verify token (JWT_REFRESH_SECRET env))
     (fun error =>
        if String.eqb (err_name error) "TokenExpiredError" then
          throw (PlainError "Refresh token has expired")
        else if String.eqb (err_name error) "JsonWebTokenError" then
          throw (PlainError "Invalid refresh token")
        else throw error))%monad.

End JWTService.

(* ===================================================================== *)
(** ** Audit Log Store (the AuditLog model) *)
(* ===================================================================== *)

Module AuditLogModel.

(** The arguments of [createLog], before any conversion. *)
Record params : Type := mkParams {
  userId : jsval;
  action : jsval;
  entity : jsval;
  entityId : jsval;
  changes : jsval;
  metadata : jsval;
  description : jsval
}.

(** Equality of values, as a query filter compares them. *)
Fixpoint eqb (a b : jsval) : bool :=
  match a, b with
  | JUndefined, JUndefined => true
  | JNull, JNull => true
  | JBool x, JBool y => Bool.eqb x y
  | JNum (Int x), JNum (Int y) => x =? y
  | JStr x, JStr y => String.eqb x y
  | JArr xs, JArr ys =>
      (fix all2 (l1 l2 : list jsval) : bool :=
         match l1, l2 with
         | [], [] => true
         | x :: r1, y :: r2 => eqb x y && all2 r1 r2
         | _, _ => false
         end) xs ys
  | JObj fs, JObj gs =>
      (fix all2 (l1 l2 : list (string * jsval)) : bool :=
         match l1, l2 with
         | [], [] => true
         | (k, x) :: r1, (k', y) :: r2 =>
             String.eqb k k' && eqb x y && all2 r1 r2
         | _, _ => false
         end) fs gs
  | _, _ => false
  end.

Fixpoint trim_end (s : string) : string :=
  match s with
  | EmptyString => EmptyString
  | String c r =>
      let r' := trim_end r in
      if Json.is_space c && negb (Str.nonempty r') then EmptyString
      else String c r'
  end.

(** Every character of [s] read as a digit below [radix]. *)
Fixpoint read_all_digits (radix : Z) (acc : Z) (s : string) : option Z :=
  match s with
  | EmptyString => Some acc
  | String c r =>
      match Json.digit_val c with
      | Some d => if d <? radix then read_all_digits radix (radix * acc + d) r
                  else None
      | None => None
      end
  end.

(** ToNumber on a string holding an integer literal: blank is zero, and
    anything that is not wholly a literal is [NaN]. *)
Definition string_to_number (s : string) : number :=
  let t := trim_end (Json.skip_spaces s) in
  match t with
  | EmptyString => Int 0
  | String "-" r =>
      if Str.nonempty r then
        match read_all_digits 10 0 r with Some n => Int (- n) | None => NaN end
      else NaN
  | String "+" r =>
      if Str.nonempty r then
        match read_all_digits 10 0 r with Some n => Int n | None => NaN end
      else NaN
  | _ =>
      match Json.strip_hex_prefix t with
      | Some r =>
          if Str.nonempty r then
            match read_all_digits 16 0 r with Some n => Int n | None => NaN end
          else NaN
      | None =>
          match read_all_digits 10 0 t with Some n => Int n | None => NaN end
      end
  end.

(** ToNumber on the values an options object can carry. *)
Definition to_number (v : jsval) : number :=
  match v with
  | JNum n => n
  | JStr s => string_to_number s
  | JBool true => Int 1
  | JBool false | JNull => Int 0
  | _ => NaN
  end.

(** [s.trim()], on the ASCII range. *)
Definition trim (s : string) : string := trim_end (Json.skip_spaces s).

(** The cast of a value set on a [String] path of a schema: the text;
    nothing for a nullish value; the text of a number or a boolean; the
    source text of a function; the [_id] of an object that has one as
    text. An array or any other object cannot be cast. *)
Definition cast_string (v : jsval) : option (option string) :=
  match v with
  | JUndefined | JNull => Some None
  | JStr s => Some (Some s)
  | JNum _ | JBool _ | JFun _ => Some (Some (JS.ToString v))
  | JArr _ => None
  | JObj fs =>
      match JS.assoc "_id" fs with
      | Some (JStr s) => if Str.nonempty s then Some (Some s) else None
      | _ => None
      end
  end.

(** A [String] path with its setters: [uppercase] and [trim] run on the
    text the value casts to; a nullish value stays as it is. [None]: the
    value cannot be cast. *)
Definition string_path (uppercase trimmed : bool) (v : jsval) : option jsval :=
  match cast_string v with
  | Some (Some s) =>
      let s1 := if uppercase then Str.toUpperCase s else s in
      Some (JStr (if trimmed then trim s1 else s1))
  | Some None => Some v
  | None => None
  end.

(** A [Number] path: a number; the number a text or a boolean converts
    to, the empty text being [null]; the time value of a date. A value
    that converts to [NaN] cannot be cast. *)
Definition number_path (v : jsval) : option jsval :=
  match v with
  | JUndefined | JNull => Some v
  | JNum (Int _) => Some v
  | JStr s =>
      if Str.nonempty s then
        match string_to_number s with
        | Int z => Some (JS.JInt z)
        | NaN => None
        end
      else Some JNull
  | JBool b => Some (JS.JInt (if b then 1 else 0))
  | JObj _ =>
      match JS.get v "$date" with
      | JNum (Int ms) => Some (JS.JInt ms)
      | _ => None
      end
  | _ => None
  end.

(** The nested [changes] path of the schema: [before] and [after] hold
    any value and default to [null] when they are [undefined]; no other
    key is part of the schema. A value that is no object is not set, so
    the defaults stay; [null] is stored as it is. *)
Definition changes_path (v : jsval) : jsval :=
  match v with
  | JNull => JNull
  | JObj _ =>
      JObj [("before", default_to JNull (JS.get v "before"));
            ("after", default_to JNull (JS.get v "after"))]
  | _ => JObj [("before", JNull); ("after", JNull)]
  end.

(** The paths that were set: a path whose value is [undefined] is left
    out of the document. *)
Definition set_paths (fs : list (string * jsval)) : list (string * jsval) :=
  filter (fun kv => match snd kv with JUndefined => false | _ => true end) fs.

(** The nested [metadata] path of the schema: five [String] paths,
    trimmed ([method] in upper case), and the [Number] path
    [statusCode]; no other key is part of the schema, and a value that
    is no object is not set. *)
Definition metadata_path (v : jsval) : option jsval :=
  match v with
  | JNull => Some JNull
  | JObj _ =>
      match string_path false true (JS.get v "ip"),
            string_path false true (JS.get v "userAgent"),
            string_path false true (JS.get v "route"),
            string_path true false (JS.get v "method"),
            number_path (JS.get v "statusCode"),
            string_path false true (JS.get v "requestId") with
      | Some ip, Some userAgent, Some route, Some method, Some statusCode,
        Some requestId =>
          Some (JObj (set_paths [("ip", ip); ("userAgent", userAgent);
                                 ("route", route); ("method", method);
                                 ("statusCode", statusCode);
                                 ("requestId", requestId)]))
      | _, _, _, _, _, _ => None
      end
  | _ => Some (JObj [])
  end.

(** [new this({ userId, action, entity, entityId, changes, metadata,
    description })]: every value is set through the schema type of its
    path. [action] and [entityId] are already the texts [createLog]
    computed, which their paths leave as they are; [entity] and
    [description] are trimmed texts; the actor reference is kept as
    given, whether it names an account being part of the engine's
    verdict. [None]: some value cannot be cast, which makes the document
    invalid. *)
Definition document (id : string) (userId : jsval) (action : string)
    (entity : jsval) (entityId : string) (changes metadata : jsval)
    (timestamp : Z) (description : jsval) : option AuditLog.t :=
  match string_path false true entity, metadata_path metadata,
        string_path false true description with
  | Some entity', Some metadata', Some description' =>
      Some (AuditLog.mk id userId action entity' entityId
              (changes_path changes) metadata' timestamp description')
  | _, _, _ => None
  end.

(** What [save] rejects an invalid document with. *)
Definition invalid : JsError :=
  mkError "ValidationError" "AuditLog validation failed" None.

(** [auditLog.save()]: the persistence engine validates and writes the
    document, or rejects it. *)
Definition save (doc : AuditLog.t) : M AuditLog.t :=
  fun env w =>
    if audit_save_ok env doc then
      (Ok doc,
       mkWorld (users w) (auditLogs w ++ [doc]) (console w) (outbox w)
         (now w) (next_oid w))
    else (Throw (mkError "MongooseError" "audit log could not be saved" None), w).

(** [auditLogSchema.statics.createLog]: a document that is invalid is
    rejected by [save], before anything is written. *)
Definition createLog (p : params) : M (option AuditLog.t) :=
  (try_catch
     (action' <- lift_result (toUpperCase_m (action p)) ;;
      entityId' <- lift_result (toString_m (entityId p)) ;;
      id <- fresh_oid ;;
      timestamp <- Date_now ;;
      match document id (userId p) action' (entity p) entityId'
              (default_to (JObj []) (changes p))
              (default_to (JObj []) (metadata p))
              timestamp
              (default_to (JStr "") (description p)) with
      | Some auditLog => saved <- save auditLog ;; ret (Some saved)
      | None => throw invalid
      end)
     (fun error =>
        console_error "Failed to create audit log:" error ;;;
        ret None))%monad.

(** A [Date] object: an object (hence truthy) holding its time value. *)
Definition JDate (ms : number) : jsval := JObj [("$date", JNum ms)].

(** [new Date(v)]: the time value of a date is kept, a string is parsed, a
    number is a count of milliseconds. *)
Definition new_Date (env : Env) (v : jsval) : number :=
  match v with
  | JObj _ => match JS.get v "$date" with JNum n => n | _ => NaN end
  | JNum n => n
  | JStr s => date_parse env s
  | _ => NaN
  end.

(** One condition of a filter object against one document. *)
Definition field_matches (k : string) (v : jsval) (doc : AuditLog.t) : bool :=
  if String.eqb k "userId" then eqb (AuditLog.userId doc) v
  else if String.eqb k "action" then eqb (JStr (AuditLog.action doc)) v
  else if String.eqb k "entity" then eqb (AuditLog.entity doc) v
  else if String.eqb k "entityId" then eqb (JStr (AuditLog.entityId doc)) v
  else if String.eqb k "timestamp" then
    match JS.get v "$gte" with
    | JUndefined => true
    | JNum (Int lo) => lo <=? AuditLog.timestamp doc
    | _ => false
    end
    && match JS.get v "$lte" with
       | JUndefined => true
       | JNum (Int hi) => AuditLog.timestamp doc <=? hi
       | _ => false
       end
  else false.

Definition matches (query : list (string * jsval)) (doc : AuditLog.t) : bool :=
  forallb (fun kv => field_matches (fst kv) (snd kv) doc) query.

(** A date bound that is not a valid date cannot be cast: the query is
    rejected when it runs. *)
Definition castable (query : list (string * jsval)) : bool :=
  match JS.assoc "timestamp" query with
  | None => true
  | Some range =>
      match JS.get range "$gte" with JNum NaN => false | _ => true end
      && match JS.get range "$lte" with JNum NaN => false | _ => true end
  end.

Definition CastError : JsError :=
  mkError "CastError" "Cast to date failed" None.

(** [this.find(query)] *)
Definition find (query : list (string * jsval)) : M (list AuditLog.t) :=
  (if castable query then
     w <- get_world ;; ret (filter (matches query) (auditLogs w))
   else throw CastError)%monad.

(** [.sort({ timestamp: -1 })]: newest first. *)
Fixpoint insert_desc (d : AuditLog.t) (l : list AuditLog.t) : list AuditLog.t :=
  match l with
  | [] => [d]
  | x :: r =>
      if AuditLog.timestamp x <? AuditLog.timestamp d then d :: x :: r
      else x :: insert_desc d r
  end.

Definition sort_desc (l : list AuditLog.t) : list AuditLog.t :=
  fold_right insert_desc [] l.

(** [.limit(n)]: zero means no limit and a negative limit counts by its
    magnitude; [.skip(k)] needs a non-negative count. *)
Definition limit (n : number) (l : list AuditLog.t) : result (list AuditLog.t) :=
  match n with
  | NaN => Throw (mkError "MongooseError" "limit must be a number" None)
  | Int z => if z =? 0 then Ok l else Ok (firstn (Z.to_nat (Z.abs z)) l)
  end.

Definition skip (k : number) (l : list AuditLog.t) : result (list AuditLog.t) :=
  match k with
  | NaN => Throw (mkError "MongooseError" "skip must be a number" None)
  | Int z =>
      if z <? 0 then Throw (mkError "MongoServerError" "skip must be non-negative" None)
      else Ok (skipn (Z.to_nat z) l)
  end.

Definition find_user (id : jsval) (us : list User.t) : option User.t :=
  List.find (fun u => eqb (JStr (User._id u)) id) us.

(** [.populate('userId', 'name email')]: the actor reference is replaced
    by the referenced user's [_id], [name] and [email], or by [null] when
    no such user exists. *)
Definition populate (us : list User.t) (doc : AuditLog.t) : AuditLog.t :=
  AuditLog.mk (AuditLog._id doc)
    (match find_user (AuditLog.userId doc) us with
     | Some u => JObj [("_id", JStr (User._id u));
                       ("name", JStr (User.name u));
                       ("email", JStr (User.email u))]
     | None => JNull
     end)
    (AuditLog.action doc) (AuditLog.entity doc) (AuditLog.entityId doc)
    (AuditLog.changes doc) (AuditLog.metadata doc) (AuditLog.timestamp doc)
    (AuditLog.description doc).

Definition num_mul (a b : number) : number :=
  match a, b with
  | Int x, Int y => Int (x * y)
  | _, _ => NaN
  end.

Definition num_sub (a b : number) : number :=
  match a, b with
  | Int x, Int y => Int (x - y)
  | _, _ => NaN
  end.

(** [.limit(limit * 1).skip((page - 1) * limit)]: the driver skips
    first, then limits. *)
Definition paginate (page limit_ : jsval) (sorted : list AuditLog.t)
  : result (list AuditLog.t) :=
  match skip (num_mul (num_sub (to_number page) (Int 1)) (to_number limit_))
          sorted with
  | Ok skipped => limit (num_mul (to_number limit_) (Int 1)) skipped
  | Throw e => Throw e
  end.

(** The filter both query statics build from their options. *)
Definition date_range (env : Env) (startDate endDate : jsval)
  : list (string * jsval) :=
  if JS.truthy startDate || JS.truthy endDate then
    [("timestamp",
      JObj ((if JS.truthy startDate
             then [("$gte", JNum (new_Date env startDate))] else [])
            ++ (if JS.truthy endDate
                then [("$lte", JNum (new_Date env endDate))] else []))%list)]
  else [].

(** [auditLogSchema.statics.getEntityLogs] *)
Definition getEntityLogs (entity entityId : jsval) (options : jsval)
  : M (list AuditLog.t) :=
  (env <- ask ;;
   let page := default_to (JS.JInt 1) (JS.get options "page") in
   let limit_ := default_to (JS.JInt 20) (JS.get options "limit") in
   let action := JS.get options "action" in
   let userId := JS.get options "userId" in
   let startDate := JS.get options "startDate" in
   let endDate := JS.get options "endDate" in
   entityId' <- lift_result (toString_m entityId) ;;
   action' <- (if JS.truthy action
               then (a <- lift_result (toUpperCase_m action) ;; ret [("action", JStr a)])
               else ret []) ;;
   let query :=
     ([("entity", entity); ("entityId", JStr entityId')]
      ++ action'
      ++ (if JS.truthy userId then [("userId", userId)] else [])
      ++ date_range env startDate endDate)%list in
   found <- find query ;;
   w <- get_world ;;
   lift_result (paginate page limit_ (sort_desc (map (populate (users w)) found))))%monad.

(** [auditLogSchema.statics.getUserActivity] *)
Definition getUserActivity (userId : jsval) (options : jsval)
  : M (list AuditLog.t) :=
  (env <- ask ;;
   let page := default_to (JS.JInt 1) (JS.get options "page") in
   let limit_ := default_to (JS.JInt 20) (JS.get options "limit") in
   let action := JS.get options "action" in
   let entity := JS.get options "entity" in
   let startDate := JS.get options "startDate" in
   let endDate := JS.get options "endDate" in
   action' <- (if JS.truthy action
               then (a <- lift_result (toUpperCase_m action) ;; ret [("action", JStr a)])
               else ret []) ;;
   let query :=
     ([("userId", userId)]
      ++ action'
      ++ (if JS.truthy entity then [("entity", entity)] else [])
      ++ date_range env startDate endDate)%list in
   found <- find query ;;
   lift_result (paginate page limit_ (sort_desc found)))%monad.

(** The JSON form of a document, as [res.json] serialises it. *)
Definition to_json (doc : AuditLog.t) : jsval :=
  JObj [("_id", JStr (AuditLog._id doc));
        ("userId", AuditLog.userId doc);
        ("action", JStr (AuditLog.action doc));
        ("entity", AuditLog.entity doc);
        ("entityId", JStr (AuditLog.entityId doc));
        ("changes", AuditLog.changes doc);
        ("metadata", AuditLog.metadata doc);
        ("timestamp", JS.JInt (AuditLog.timestamp doc));
        ("description", AuditLog.description doc)].

End AuditLogModel.

(* ===================================================================== *)
(** ** Audit Recording Service (services/auditLogService.js) *)
(* ===================================================================== *)

Module AuditLogService.

(** [AuditLogService.createLog] *)
Definition createLog (p : AuditLogModel.params) : M (option AuditLog.t) :=
  (try_catch
     (AuditLogModel.createLog
        (AuditLogModel.mkParams
           (AuditLogModel.userId p) (AuditLogModel.action p)
           (AuditLogModel.entity p) (AuditLogModel.entityId p)
           (default_to (JObj []) (AuditLogModel.changes p))
           (default_to (JObj []) (AuditLogModel.metadata p))
           (default_to (JStr "") (AuditLogModel.description p))))
     (fun error =>
        console_error "Audit log creation failed:" error ;;;
        ret None))%monad.

(** [extractMetadata(req)] *)
Definition extractMetadata (req : Req.t) : jsval :=
  JObj [("ip", js_or (js_or (Req.ip req) (Req.remoteAddress req))
                 (Req.remoteAddress req));
        ("userAgent", Req.userAgent req);
        ("route", JStr (match Req.route req with
                        | Some r => r
                        | None => Req.path req
                        end));
        ("method", JStr (Req.method req));
        ("requestId", Req.requestId req)].

Definition metadata_of (req : option Req.t) : jsval :=
  match req with
  | Some r => extractMetadata r
  | None => JObj []
  end.

(** The default description: a template literal over the entity and id. *)
Definition describe (verb : string) (entity entityId : jsval) : jsval :=
  JStr (verb ++ " " ++ JS.ToString entity ++ " with ID " ++ JS.ToString entityId).

(** [logCreate({ userId, entity, entityId, data, req, description })] *)
Definition logCreate (userId entity entityId data : jsval)
    (req : option Req.t) (description : jsval) : M (option AuditLog.t) :=
  let metadata := metadata_of req in
  createLog
    (AuditLogModel.mkParams userId (JStr "CREATE") entity entityId
       (JObj [("before", JNull); ("after", data)])
       metadata
       (js_or (default_to (JStr "") description)
          (describe "Created" entity entityId))).

(** [logRead({ userId, entity, entityId, req, description })] *)
Definition logRead (userId entity entityId : jsval)
    (req : option Req.t) (description : jsval) : M (option AuditLog.t) :=
  let metadata := metadata_of req in
  createLog
    (AuditLogModel.mkParams userId (JStr "READ") entity entityId
       (JObj [])
       metadata
       (js_or (default_to (JStr "") description)
          (describe "Accessed" entity entityId))).

(** [logUpdate({ userId, entity, entityId, before, after, req, description })] *)
Definition logUpdate (userId entity entityId before after : jsval)
    (req : option Req.t) (description : jsval) : M (option AuditLog.t) :=
  let metadata := metadata_of req in
  createLog
    (AuditLogModel.mkParams userId (JStr "UPDATE") entity entityId
       (JObj [("before", before); ("after", after)])
       metadata
       (js_or (default_to (JStr "") description)
          (describe "Updated" entity entityId))).

(** [logDelete({ userId, entity, entityId, data, req, description })] *)
Definition logDelete (userId entity entityId data : jsval)
    (req : option Req.t) (description : jsval) : M (option AuditLog.t) :=
  let metadata := metadata_of req in
  createLog
    (AuditLogModel.mkParams userId (JStr "DELETE") entity entityId
       (JObj [("before", data); ("after", JNull)])
       metadata
       (js_or (default_to (JStr "") description)
          (describe "Deleted" entity entityId))).

(** [getEntityLogs(entity, entityId, options)] *)
Definition getEntityLogs (entity entityId options : jsval)
  : M (list AuditLog.t) :=
  (try_catch (AuditLogModel.getEntityLogs entity entityId options)
     (fun error =>
        console_error "Failed to fetch entity audit logs:" error ;;;
        ret []))%monad.

(** [getUserActivity(userId, options)] *)
Definition getUserActivity (userId options : jsval) : M (list AuditLog.t) :=
  (try_catch (AuditLogModel.getUserActivity userId options)
     (fun error =>
        console_error "Failed to fetch user activity logs:" error ;;;
        ret []))%monad.

End AuditLogService.

(* ===================================================================== *)
(** ** Automatic Audit Interceptor (middleware/auditLogger.js) *)
(* ===================================================================== *)

Module AuditLogger.

(** [shouldLogGetRequest(path)] *)
Definition sensitiveEndpoints : list string :=
  ["/api/auth/profile"; "/api/auth/me"; "/api/user"; "/api/admin"].

Definition shouldLogGetRequest (path : string) : bool :=
  existsb (fun endpoint => Str.startsWith path endpoint) sensitiveEndpoints.

Definition methodActionMap : list (string * jsval) :=
  [("POST", JStr "CREATE");
   ("GET", JStr "READ");
   ("PUT", JStr "UPDATE");
   ("PATCH", JStr "UPDATE");
   ("DELETE", JStr "DELETE")].

(** [getActionFromMethod(method)]: [methodActionMap[method] || 'READ']. *)
Definition getActionFromMethod (method : string) : jsval :=
  js_or (JS.index methodActionMap method) (JStr "READ").

Definition entityMap : list (string * jsval) :=
  [("auth/signup", JStr "User");
   ("auth/signin", JStr "User");
   ("auth/google", JStr "User");
   ("auth/profile", JStr "User");
   ("auth/me", JStr "User");
   ("auth/reset-password", JStr "User");
   ("auth/forgot-password", JStr "User");
   ("users", JStr "User");
   ("audit", JStr "AuditLog")].

(** [path.replace(/^\/api\//, '')] *)
Definition strip_api (path : string) : string :=
  if Str.startsWith path "/api/" then String.substring 5 (String.length path - 5) path
  else path.

(** [extractEntityFromPath(path)]: the exact match indexes the object
    literal with the whole path, so a path that is the name of a member
    of [Object.prototype] finds that member; the partial match runs over
    the own entries only. *)
Definition extractEntityFromPath (path : string) : jsval :=
  let pathParts := Str.split "/" (strip_api path) in
  match pathParts with
  | [] => JNull
  | first :: _ =>
      let fullPath := Str.join "/" pathParts in
      if JS.truthy (JS.index entityMap fullPath) then JS.index entityMap fullPath
      else
        match List.find (fun kv => Str.startsWith fullPath (fst kv)) entityMap with
        | Some kv => snd kv
        | None => JStr (Str.toUpperCase (Str.charAt0 first) ++ Str.slice1 first)
        end
  end.

(** [/^[0-9a-fA-F]{24}$/.test(part)] *)
Definition objectIdRegex (part : string) : bool :=
  Nat.eqb (String.length part) 24 && Str.forall_chars Str.is_hex part.

(** The id found in the response payload: [data.id], [data._id] or
    [data.user.id]. *)
Definition id_from_response (responseData : jsval) : option jsval :=
  let data := JS.get responseData "data" in
  if JS.truthy responseData && JS.truthy data then
    if JS.truthy (JS.get data "id") then Some (JS.get data "id")
    else if JS.truthy (JS.get data "_id") then Some (JS.get data "_id")
    else if JS.truthy (JS.get data "user")
            && JS.truthy (JS.get (JS.get data "user") "id")
    then Some (JS.get (JS.get data "user") "id")
    else None
  else None.

(** The id found in the request body: [id], [_id] or [userId]. *)
Definition id_from_body (body : jsval) : option jsval :=
  if JS.truthy body then
    if JS.truthy (JS.get body "id") then Some (JS.get body "id")
    else if JS.truthy (JS.get body "_id") then Some (JS.get body "_id")
    else if JS.truthy (JS.get body "userId") then Some (JS.get body "userId")
    else None
  else None.

(** [extractEntityIdFromPath(path, body, responseData)] *)
Definition extractEntityIdFromPath (path : string) (body responseData : jsval)
  : jsval :=
  match List.find objectIdRegex (Str.split "/" path) with
  | Some part => JStr part
  | None =>
      match id_from_response responseData with
      | Some id => id
      | None =>
          match id_from_body body with
          | Some id => id
          | None => JStr "unknown"
          end
      end
  end.

Definition sensitiveFields : list string :=
  ["password"; "passwordResetToken"; "emailVerificationToken";
   "refreshToken"; "accessToken"].

(** [sanitizeData(data)]: a shallow copy without the sensitive fields
    that hold a truthy value. *)
Definition sanitizeData (data : jsval) : jsval :=
  if negb (JS.truthy data) || negb (JS.typeof_object data) then data
  else
    JObj (fold_left
            (fun sanitized field =>
               if JS.truthy (JS.get (JObj sanitized) field)
               then JS.delete field sanitized
               else sanitized)
            sensitiveFields (JS.spread data)).

(** [generateDescription(action, entity, entityId, method)]: the
    template literals convert their operands to text, and so does the
    computed key [actionDescriptions[action]]. *)
Definition generateDescription (action entity entityId : jsval) : jsval :=
  let actionDescriptions :=
    [("CREATE", JStr ("Created " ++ JS.ToString entity));
     ("READ", JStr ("Accessed " ++ JS.ToString entity));
     ("UPDATE", JStr ("Updated " ++ JS.ToString entity));
     ("DELETE", JStr ("Deleted " ++ JS.ToString entity))] in
  let baseDescription :=
    js_or (JS.index actionDescriptions (JS.ToString action))
      (JStr (JS.ToString action ++ " " ++ JS.ToString entity)) in
  if JS.truthy entityId && negb (AuditLogModel.eqb entityId (JStr "unknown"))
  then JStr (JS.ToString baseDescription ++ " with ID " ++ JS.ToString entityId)
  else baseDescription.

(** The before/after snapshot [logRequest] builds from the method. *)
Definition changes_of (req : Req.t) (responseData : jsval) : jsval :=
  let method := Req.method req in
  if String.eqb method "POST" && JS.truthy responseData
     && JS.truthy (JS.get responseData "data")
  then JObj [("before", JNull);
             ("after", sanitizeData (JS.get responseData "data"))]
  else if String.eqb method "PUT" || String.eqb method "PATCH"
  then JObj [("before", js_or (Req.originalData req) JNull);
             ("after", sanitizeData (Req.body req))]
  else if String.eqb method "DELETE"
  then JObj [("before", js_or (Req.originalData req) JNull);
             ("after", JNull)]
  else JObj [].

(** The metadata [logRequest] builds from the request and the status
    that was sent. *)
Definition metadata_of (req : Req.t) (statusCode : jsval) : jsval :=
  JObj [("ip", js_or (Req.ip req) (Req.remoteAddress req));
        ("userAgent", Req.userAgent req);
        ("route", JStr (match Req.route req with
                        | Some r => r
                        | None => Req.path req
                        end));
        ("method", JStr (Req.method req));
        ("statusCode", statusCode);
        ("requestId", Req.requestId req)].

(** [logRequest(req, res, responseData, statusCode)], run after the
    response has been sent. *)
Definition logRequest (req : Req.t) (responseData statusCode : jsval)
  : M unit :=
  (try_catch
     (match Req.user req with
      | None => ret tt
      | Some user =>
          if String.eqb (Req.method req) "GET"
             && negb (shouldLogGetRequest (Req.path req))
          then ret tt
          else
            let action := getActionFromMethod (Req.method req) in
            let entity := extractEntityFromPath (Req.path req) in
            let entityId :=
              extractEntityIdFromPath (Req.path req) (Req.body req)
                responseData in
            if negb (JS.truthy entity) || negb (JS.truthy entityId)
            then ret tt
            else
              let changes := changes_of req responseData in
              let metadata := metadata_of req statusCode in
              AuditLogService.createLog
                (AuditLogModel.mkParams (JStr (User._id user)) action
                   entity entityId changes metadata
                   (generateDescription action entity entityId)) ;;;
              ret tt
      end)
     (fun error => console_error "Failed to create audit log:" error))%monad.

End AuditLogger.

(* ===================================================================== *)
(** ** Credential Store (the User model) *)
(* ===================================================================== *)

Module UserModel.

Definition set_lastLogin (u : User.t) (t : option Z) : User.t :=
  User.mk (User._id u) (User.name u) (User.email u) (User.password u)
    (User.googleId u) (User.avatar u) (User.role u) (User.isEmailVerified u)
    (User.isActive u) t (User.loginAttempts u) (User.lockUntil u)
    (User.passwordResetToken u) (User.passwordResetTokenExpires u).

Definition set_googleId (u : User.t) (g : option string) : User.t :=
  User.mk (User._id u) (User.name u) (User.email u) (User.password u)
    g (User.avatar u) (User.role u) (User.isEmailVerified u)
    (User.isActive u) (User.lastLogin u) (User.loginAttempts u)
    (User.lockUntil u) (User.passwordResetToken u)
    (User.passwordResetTokenExpires u).

Definition set_avatar (u : User.t) (a : option string) : User.t :=
  User.mk (User._id u) (User.name u) (User.email u) (User.password u)
    (User.googleId u) a (User.role u) (User.isEmailVerified u)
    (User.isActive u) (User.lastLogin u) (User.loginAttempts u)
    (User.lockUntil u) (User.passwordResetToken u)
    (User.passwordResetTokenExpires u).

Definition set_isEmailVerified (u : User.t) (b : bool) : User.t :=
  User.mk (User._id u) (User.name u) (User.email u) (User.password u)
    (User.googleId u) (User.avatar u) (User.role u) b
    (User.isActive u) (User.lastLogin u) (User.loginAttempts u)
    (User.lockUntil u) (User.passwordResetToken u)
    (User.passwordResetTokenExpires u).

Definition set_lockout (u : User.t) (attempts : Z) (until : option Z) : User.t :=
  User.mk (User._id u) (User.name u) (User.email u) (User.password u)
    (User.googleId u) (User.avatar u) (User.role u) (User.isEmailVerified u)
    (User.isActive u) (User.lastLogin u) attempts until
    (User.passwordResetToken u) (User.passwordResetTokenExpires u).

Definition set_reset (u : User.t) (token : option string) (expires : option Z)
  : User.t :=
  User.mk (User._id u) (User.name u) (User.email u) (User.password u)
    (User.googleId u) (User.avatar u) (User.role u) (User.isEmailVerified u)
    (User.isActive u) (User.lastLogin u) (User.loginAttempts u)
    (User.lockUntil u) token expires.

(** Truthiness of an optional string field. *)
Definition present (o : option string) : bool :=
  match o with
  | Some s => Str.nonempty s
  | None => false
  end.

(** Replace the stored document that has the same [_id], or insert. *)
Fixpoint upsert (u : User.t) (us : list User.t) : list User.t :=
  match us with
  | [] => [u]
  | x :: r =>
      if String.eqb (User._id x) (User._id u) then u :: r
      else x :: upsert u r
  end.

Definition put_users (us : list User.t) : M unit :=
  fun _ w =>
    (Ok tt, mkWorld us (auditLogs w) (console w) (outbox w) (now w) (next_oid w)).

(** [user.save()]: the persistence engine validates and writes the
    document, or rejects it. *)
Definition save (u : User.t) : M unit :=
  (env <- ask ;;
   if user_save_ok env u then
     w <- get_world ;; put_users (upsert u (users w))
   else throw (mkError "ValidationError" "User validation failed" None))%monad.

(** [User.findOne({ email })] *)
Definition findOne_email (email : string) : M (option User.t) :=
  (w <- get_world ;;
   ret (List.find (fun u => String.eqb (User.email u) email) (users w)))%monad.

(** [User.findOne({ $or: [{ email }, { googleId }] })] *)
Definition findOne_email_or_googleId (email googleId : string)
  : M (option User.t) :=
  (w <- get_world ;;
   ret (List.find
          (fun u =>
             String.eqb (User.email u) email
             || match User.googleId u with
                | Some g => String.eqb g googleId
                | None => false
                end)
          (users w)))%monad.

(** Modelled from the spec: the [isLocked] virtual of models/User.js,
    which is not part of the sources; 4.1 gives it as derived from
    lock-until > now. *)
Definition isLocked (u : User.t) (now : Z) : bool :=
  match User.lockUntil u with
  | Some until => now <? until
  | None => false
  end.

(** Modelled from the spec: the lockout threshold and duration of
    models/User.js, which is not part of the sources; 4.1 gives 5 attempts
    and 2 hours (here in milliseconds). *)
Definition MAX_LOGIN_ATTEMPTS : Z := 5.
Definition LOCK_TIME : Z := 2 * 60 * 60 * 1000.

(** Modelled from the spec: [incLoginAttempts] of models/User.js, which
    is not part of the sources; 4.1: increments the counter; when it
    crosses the threshold (5), sets lock-until = now + 2 hours and resets
    the counter; applied to the stored record in one step. *)
Definition incLoginAttempts (u : User.t) : M unit :=
  (t <- Date_now ;;
   w <- get_world ;;
   let attempts := User.loginAttempts u + 1 in
   let u' :=
     if MAX_LOGIN_ATTEMPTS <=? attempts
     then set_lockout u 0 (Some (t + LOCK_TIME))
     else set_lockout u attempts (User.lockUntil u) in
   put_users (upsert u' (users w)))%monad.

(** Modelled from the spec: [resetLoginAttempts] of models/User.js, which
    is not part of the sources; 4.1: clears the counter and lock-until. *)
Definition resetLoginAttempts (u : User.t) : M User.t :=
  (w <- get_world ;;
   let u' := set_lockout u 0 None in
   put_users (upsert u' (users w)) ;;;
   ret u')%monad.

(** Modelled from the spec: [comparePassword] of models/User.js, which is
    not part of the sources; 4.1: a hash comparison of the candidate
    against the stored hash. An account without a password matches
    nothing. *)
Definition comparePassword (env : Env) (u : User.t) (candidate : jsval) : bool :=
  match User.password u, candidate with
  | Some hash, JStr c => password_matches env c hash
  | _, _ => false
  end.

(** Modelled from the spec: the lifetime of a reset token in
    models/User.js, which is not part of the sources; 4.1 gives 10
    minutes (here in milliseconds). *)
Definition RESET_TOKEN_TTL : Z := 10 * 60 * 1000.

(** Modelled from the spec: [createPasswordResetToken] of models/User.js,
    which is not part of the sources; 4.1: generates a random token,
    stores only its hash plus an expiry (10 minutes), returns the
    plaintext. *)
Definition createPasswordResetToken (u : User.t) : M (string * User.t) :=
  (env <- ask ;;
   t <- Date_now ;;
   w <- get_world ;;
   let plain := random_token env (next_oid w) in
   ret (plain,
        set_reset u (Some (sha256_hex env plain)) (Some (t + RESET_TOKEN_TTL))))%monad.

(** The user object the auth responses carry. *)
Definition to_json (u : User.t) (withLastLogin : bool) : jsval :=
  JObj ([("id", JStr (User._id u));
         ("name", JStr (User.name u));
         ("email", JStr (User.email u));
         ("role", JStr (User.role u));
         ("avatar", opt_str (User.avatar u));
         ("isEmailVerified", JBool (User.isEmailVerified u))]
        ++ (if withLastLogin
            then [("lastLogin", opt_date (User.lastLogin u))] else []))%list.

End UserModel.

(* ===================================================================== *)
(** ** Authentication Orchestrator (controllers/authController.js) *)
(* ===================================================================== *)

Module EmailService.

(** [emailService.isConfigured()] *)
Definition isConfigured : M bool :=
  (env <- ask ;; ret (email_configured env))%monad.

(** [emailService.sendPasswordResetEmail(email, token, name)]: the
    transport delivers the mail or fails. *)
Definition sendPasswordResetEmail (to token name : string) : M unit :=
  fun env w =>
    let mail := mkMail to token name in
    if email_send_ok env mail then
      (Ok tt,
       mkWorld (users w) (auditLogs w) (console w) (outbox w ++ [mail])
         (now w) (next_oid w))
    else (Throw (PlainError "Failed to send password reset email"), w).

End EmailService.

Module AuthController.

(** The [try { ... } catch (error) { next(error) }] around each handler. *)
Definition try_next (c : M Outcome) : M Outcome :=
  try_catch c (fun error => ret (Next error)).

(** [const { ... } = req.body] needs a body to read from. *)
Definition destructure (body : jsval) : M unit :=
  match body with
  | JUndefined | JNull =>
      throw (TypeError "Cannot destructure property of req.body as it is undefined.")
  | _ => ret tt
  end.

(** [AuthController.signin] *)
Definition signin (req : Req.t) : M Outcome :=
  (try_next
     (destructure (Req.body req) ;;;
      let email := JS.get (Req.body req) "email" in
      let password := JS.get (Req.body req) "password" in
      lowered <- lift_result (toLowerCase_m email) ;;
      found <- UserModel.findOne_email lowered ;;
      match found with
      | None => ret (Next (createError 401 "Invalid email or password"))
      | Some user =>
          t <- Date_now ;;
          if UserModel.isLocked user t then
            ret (Next (createError 423
              "Account is temporarily locked due to multiple failed login attempts"))
          else if negb (User.isActive user) then
            ret (Next (createError 401 "Account is deactivated"))
          else
            env <- ask ;;
            let isPasswordValid := UserModel.comparePassword env user password in
            if negb isPasswordValid then
              UserModel.incLoginAttempts user ;;;
              ret (Next (createError 401 "Invalid email or password"))
            else
              user1 <- (if 0 <? User.loginAttempts user
                        then UserModel.resetLoginAttempts user
                        else ret user) ;;
              let user2 := UserModel.set_lastLogin user1 (Some t) in
              UserModel.save user2 ;;;
              tokens <- JWTService.generateTokens user2 ;;
              AuditLogService.logRead (JStr (User._id user2)) (JStr "User")
                (JStr (User._id user2)) (Some req)
                (JStr "User signed in with email and password") ;;;
              ret (Responded 200
                     (JObj [("success", JBool true);
                            ("message", JStr "Login successful");
                            ("data",
                             JObj ([("user", UserModel.to_json user2 true)]
                                   ++ tokens)%list)]))
      end))%monad.

(** The backfill of an existing account from the Google profile. *)
Definition backfill (user : User.t) (googleUser : GoogleUser) : User.t * bool :=
  let '(u1, s1) :=
    if negb (UserModel.present (User.googleId user))
    then (UserModel.set_googleId user (Some (g_googleId googleUser)), true)
    else (user, false) in
  let '(u2, s2) :=
    if negb (UserModel.present (User.avatar u1))
       && UserModel.present (g_avatar googleUser)
    then (UserModel.set_avatar u1 (g_avatar googleUser), true)
    else (u1, s1) in
  if negb (User.isEmailVerified u2) && g_isEmailVerified googleUser
  then (UserModel.set_isEmailVerified u2 (g_isEmailVerified googleUser), true)
  else (u2, s2).

(** [AuthController.googleAuth]. A new account starts active, with no
    failed attempts and no lock: the defaults of the User schema. *)
Definition googleAuth (req : Req.t) : M Outcome :=
  (try_catch
     (destructure (Req.body req) ;;;
      let token := JS.get (Req.body req) "token" in
      if negb (JS.truthy token) then
        ret (Next (createError 400 "Google token is required"))
      else
        env <- ask ;;
        googleUser <- match verifyGoogleToken env (JS.ToString token) with
                      | inl g => ret g
                      | inr message => throw (PlainError message)
                      end ;;
        found <- UserModel.findOne_email_or_googleId (g_email googleUser)
                   (g_googleId googleUser) ;;
        t <- Date_now ;;
        r <- match found with
             | None =>
                 id <- fresh_oid ;;
                 let user :=
                   User.mk id (g_name googleUser) (g_email googleUser) None
                     (Some (g_googleId googleUser)) (g_avatar googleUser)
                     "user" (g_isEmailVerified googleUser) true None 0 None
                     None None in
                 UserModel.save user ;;;
                 AuditLogService.logCreate (JStr (User._id user)) (JStr "User")
                   (JStr (User._id user))
                   (JObj [("name", JStr (User.name user));
                          ("email", JStr (User.email user));
                          ("googleId", opt_str (User.googleId user));
                          ("role", JStr (User.role user))])
                   (Some req) (JStr "User signed up with Google OAuth") ;;;
                 ret (user, true)
             | Some user =>
                 let '(user1, shouldUpdate) := backfill user googleUser in
                 (if shouldUpdate then UserModel.save user1 else ret tt) ;;;
                 let user2 := UserModel.set_lastLogin user1 (Some t) in
                 UserModel.save user2 ;;;
                 AuditLogService.logRead (JStr (User._id user2)) (JStr "User")
                   (JStr (User._id user2)) (Some req)
                   (JStr "User signed in with Google OAuth") ;;;
                 ret (user2, false)
             end ;;
        let '(user, isNewUser) := r in
        if negb (User.isActive user) then
          ret (Next (createError 401 "Account is deactivated"))
        else
          tokens <- JWTService.generateTokens user ;;
          ret (Responded 200
                 (JObj [("success", JBool true);
                        ("message",
                         JStr (if isNewUser
                               then "Account created and login successful"
                               else "Login successful"));
                        ("data",
                         JObj ([("user", UserModel.to_json user true)]
                               ++ tokens
                               ++ [("isNewUser", JBool isNewUser)])%list)])))
     (fun error =>
        if Str.includes (err_message error) "Google"
        then ret (Next (createError 400 (err_message error)))
        else ret (Next error)))%monad.

(** The body both early returns of [forgotPassword] send. *)
Definition generic_reset_body : jsval :=
  JObj [("success", JBool true);
        ("message",
         JStr "If a user with that email exists, a password reset link has been sent.")].

(** [AuthController.forgotPassword] *)
Definition forgotPassword (req : Req.t) : M Outcome :=
  (try_next
     (destructure (Req.body req) ;;;
      let email := JS.get (Req.body req) "email" in
      lowered <- lift_result (toLowerCase_m email) ;;
      found <- UserModel.findOne_email lowered ;;
      match found with
      | None => ret (Responded 200 generic_reset_body)
      | Some user =>
          if negb (User.isActive user) then
            ret (Responded 200 generic_reset_body)
          else
            issued <- UserModel.createPasswordResetToken user ;;
            let '(resetToken, user1) := issued in
            UserModel.save user1 ;;;
            configured <- EmailService.isConfigured ;;
            if configured then
              sent <- try_catch
                (EmailService.sendPasswordResetEmail (User.email user1)
                   resetToken (User.name user1) ;;;
                 AuditLogService.logUpdate (JStr (User._id user1))
                   (JStr "User") (JStr (User._id user1))
                   (JObj [("passwordResetRequested", JBool false)])
                   (JObj [("passwordResetRequested", JBool true)])
                   (Some req) (JStr "Password reset requested") ;;;
                 ret (@None Outcome))
                (fun emailError =>
                   console_error "Failed to send password reset email:"
                     emailError ;;;
                   UserModel.save (UserModel.set_reset user1 None None) ;;;
                   ret (Some (Next (createError 500
                     "Failed to send password reset email. Please try again.")))) ;;
              match sent with
              | Some early => ret early
              | None =>
                  ret (Responded 200
                         (JObj [("success", JBool true);
                                ("message",
                                 JStr "Password reset link has been sent to your email.")]))
              end
            else ret (Next (createError 500 "Email service is not configured"))
      end))%monad.

End AuthController.

(* ===================================================================== *)
(** ** Query validation (middleware/validation.js) *)
(* ===================================================================== *)

Module Validation.

(** The largest integer a JavaScript number holds exactly. *)
Definition MAX_SAFE_INTEGER : Z := 9007199254740991.

Definition in_range (lo : Z) (hi : option Z) (z : Z) : bool :=
  (lo <=? z) && (Z.abs z <=? MAX_SAFE_INTEGER)
  && match hi with Some h => z <=? h | None => true end.

(** [Joi.number().integer().min(lo).max(hi).default(d).optional()] on one
    key: [None] is a validation error, [Some []] cannot occur because of
    the default. Text is converted by the library ([joi_integer]). *)
Definition integer_field (env : Env) (k : string) (lo : Z) (hi : option Z)
    (d : Z) (v : jsval) : option (list (string * jsval)) :=
  match v with
  | JUndefined => Some [(k, JS.JInt d)]
  | JNum (Int z) => if in_range lo hi z then Some [(k, JS.JInt z)] else None
  | JStr s =>
      match joi_integer env s with
      | Some z => if in_range lo hi z then Some [(k, JS.JInt z)] else None
      | None => None
      end
  | _ => None
  end.

(** [Joi.string().valid('CREATE', 'READ', 'UPDATE', 'DELETE').uppercase()] *)
Definition action_field (v : jsval) : option (list (string * jsval)) :=
  match v with
  | JUndefined => Some []
  | JStr s =>
      let u := Str.toUpperCase s in
      if existsb (String.eqb u) ["CREATE"; "READ"; "UPDATE"; "DELETE"]
      then Some [("action", JStr u)] else None
  | _ => None
  end.

(** [Joi.string().trim()]: the empty string is not allowed. *)
Definition trimmed_field (k : string) (v : jsval)
  : option (list (string * jsval)) :=
  match v with
  | JUndefined => Some []
  | JStr s =>
      let t := AuditLogModel.trim s in
      if Str.nonempty t then Some [(k, JStr t)] else None
  | _ => None
  end.

(** [Joi.string().pattern(/^[0-9a-fA-F]{24}$/)] *)
Definition objectId_field (k : string) (v : jsval)
  : option (list (string * jsval)) :=
  match v with
  | JUndefined => Some []
  | JStr s => if AuditLogger.objectIdRegex s then Some [(k, v)] else None
  | _ => None
  end.

(** [Joi.date().iso()]: the text becomes a date, or is rejected. *)
Definition date_field (env : Env) (v : jsval) : option (option Z) :=
  match v with
  | JUndefined => Some None
  | JStr s =>
      match date_parse env s with
      | Int ms => Some (Some ms)
      | NaN => None
      end
  | _ => None
  end.

Definition dates (env : Env) (startDate endDate : jsval)
  : option (list (string * jsval)) :=
  match date_field env startDate, date_field env endDate with
  | Some s, Some e =>
      let ordered :=
        match s, e with
        | Some lo, Some hi => lo <=? hi
        | _, _ => true
        end in
      if ordered then
        Some ((match s with
               | Some lo => [("startDate", AuditLogModel.JDate (Int lo))]
               | None => []
               end)
              ++ (match e with
                  | Some hi => [("endDate", AuditLogModel.JDate (Int hi))]
                  | None => []
                  end))%list
      else None
  | _, _ => None
  end.

Fixpoint collect (fields : list (option (list (string * jsval))))
  : option (list (string * jsval)) :=
  match fields with
  | [] => Some []
  | None :: _ => None
  | Some f :: r =>
      match collect r with
      | Some rest => Some (f ++ rest)%list
      | None => None
      end
  end.

(** [schemas.auditQuery], with unknown keys stripped. *)
Definition auditQuery (env : Env) (query : jsval) : option jsval :=
  match
    collect
      [integer_field env "page" 1 None 1 (JS.get query "page");
       integer_field env "limit" 1 (Some 100) 20 (JS.get query "limit");
       action_field (JS.get query "action");
       trimmed_field "entity" (JS.get query "entity");
       trimmed_field "entityId" (JS.get query "entityId");
       objectId_field "userId" (JS.get query "userId");
       dates env (JS.get query "startDate") (JS.get query "endDate")]
  with
  | Some fields => Some (JObj fields)
  | None => None
  end.

(** [schemas.exportQuery] *)
Definition format_field (v : jsval) : option (list (string * jsval)) :=
  match v with
  | JUndefined => Some [("format", JStr "json")]
  | JStr s =>
      if String.eqb s "json" || String.eqb s "csv"
      then Some [("format", v)] else None
  | _ => None
  end.

Definition exportQuery (env : Env) (query : jsval) : option jsval :=
  match
    collect
      [format_field (JS.get query "format");
       dates env (JS.get query "startDate") (JS.get query "endDate");
       action_field (JS.get query "action");
       trimmed_field "entity" (JS.get query "entity");
       objectId_field "userId" (JS.get query "userId")]
  with
  | Some fields => Some (JObj fields)
  | None => None
  end.

Definition set_query (req : Req.t) (q : jsval) : Req.t :=
  Req.mk (Req.method req) (Req.path req) (Req.route req) (Req.ip req)
    (Req.remoteAddress req) (Req.userAgent req) (Req.requestId req)
    (Req.body req) q (Req.params req) (Req.user req) (Req.originalData req).

(** [validate(schema, 'query')] followed by the next handler: a
    rejected query never reaches it; an accepted one replaces
    [req.query]. *)
Definition validate_query (schema : Env -> jsval -> option jsval)
    (handler : Req.t -> M Outcome) (req : Req.t) : M Outcome :=
  (env <- ask ;;
   match schema env (Req.query req) with
   | None => ret (Next (createError 400 "Validation failed"))
   | Some value => handler (set_query req value)
   end)%monad.

End Validation.

(* ===================================================================== *)
(** ** Audit query surface (the AuditController) *)
(* ===================================================================== *)

Module AuditController.

(** [Math.max(1, parseInt(page))] *)
Definition pageNum (page : jsval) : number :=
  Json.math_max (Int 1) (Json.parseInt page).

(** [Math.min(100, Math.max(1, parseInt(limit)))] *)
Definition limitNum (limit : jsval) : number :=
  Json.math_min (Int 100) (Json.math_max (Int 1) (Json.parseInt limit)).

(** [req.user]: reading a property of a missing user throws. *)
Definition req_user (req : Req.t) : M User.t :=
  match Req.user req with
  | Some u => ret u
  | None => throw (TypeError "Cannot read properties of undefined (reading 'role')")
  end.

Definition is_admin (u : User.t) : bool := String.eqb (User.role u) "admin".

(** [{ ...base, ...extra }] *)
Definition merge (base extra : list (string * jsval)) : list (string * jsval) :=
  fold_left (fun acc kv => JS.set (fst kv) (snd kv) acc) extra base.

(** The filter object [getAuditLogs] and [exportAuditLogs] build from the
    query string. *)
Definition build_query (q : jsval) (withEntityId : bool)
  : M (list (string * jsval)) :=
  (env <- ask ;;
   let action := JS.get q "action" in
   let entity := JS.get q "entity" in
   let entityId := JS.get q "entityId" in
   let userId := JS.get q "userId" in
   action' <- (if JS.truthy action
               then (a <- lift_result (toUpperCase_m action) ;; ret [("action", JStr a)])
               else ret []) ;;
   entityId' <- (if withEntityId && JS.truthy entityId
                 then (i <- lift_result (toString_m entityId) ;; ret [("entityId", JStr i)])
                 else ret []) ;;
   ret (action'
        ++ (if JS.truthy entity then [("entity", entity)] else [])
        ++ entityId'
        ++ (if JS.truthy userId then [("userId", userId)] else [])
        ++ AuditLogModel.date_range env (JS.get q "startDate") (JS.get q "endDate"))%list)%monad.

(** The options [getAuditLogs] hands to the store: the clamped page and
    limit, then the filter, with the actor forced for a non-admin. *)
Definition getAuditLogs_query (req : Req.t) : M (list (string * jsval)) :=
  (query <- build_query (Req.query req) true ;;
   user <- req_user req ;;
   ret (if negb (is_admin user)
        then JS.set "userId" (JStr (User._id user)) query
        else query))%monad.

Definition getAuditLogs_options (req : Req.t) (query : list (string * jsval))
  : jsval :=
  let page := default_to (JS.JInt 1) (JS.get (Req.query req) "page") in
  let limit := default_to (JS.JInt 20) (JS.get (Req.query req) "limit") in
  JObj (merge [("page", JNum (pageNum page)); ("limit", JNum (limitNum limit))]
          query).

(** [Math.ceil(totalCount / limitNum)] *)
Definition totalPages (totalCount : Z) (limit : number) : number :=
  match limit with
  | Int l => if 0 <? l then Int ((totalCount + l - 1) / l) else NaN
  | NaN => NaN
  end.

Definition num_lt (a b : number) : bool :=
  match a, b with
  | Int x, Int y => x <? y
  | _, _ => false
  end.

(** [AuditController.getAuditLogs] *)
Definition getAuditLogs (req : Req.t) : M Outcome :=
  (AuthController.try_next
     (AuthController.destructure (Req.query req) ;;;
      let page := default_to (JS.JInt 1) (JS.get (Req.query req) "page") in
      let limit := default_to (JS.JInt 20) (JS.get (Req.query req) "limit") in
      query <- getAuditLogs_query req ;;
      auditLogs <- AuditLogService.getEntityLogs (JStr "") (JStr "")
                     (getAuditLogs_options req query) ;;
      matching <- AuditLogModel.find query ;;
      let totalCount := Z.of_nat (List.length matching) in
      let pages := totalPages totalCount (limitNum limit) in
      ret (Responded 200
             (JObj [("success", JBool true);
                    ("data",
                     JObj [("auditLogs", JArr (map AuditLogModel.to_json auditLogs));
                           ("pagination",
                            JObj [("currentPage", JNum (pageNum page));
                                  ("totalPages", JNum pages);
                                  ("totalItems", JS.JInt totalCount);
                                  ("itemsPerPage", JNum (limitNum limit));
                                  ("hasNextPage", JBool (num_lt (pageNum page) pages));
                                  ("hasPrevPage", JBool (num_lt (Int 1) (pageNum page)))])])]))))%monad.

(** The options the entity and activity handlers build. *)
Definition page_options (q : jsval) (withEntity : bool)
  : M (list (string * jsval)) :=
  (let page := default_to (JS.JInt 1) (JS.get q "page") in
   let limit := default_to (JS.JInt 20) (JS.get q "limit") in
   let action := JS.get q "action" in
   let entity := JS.get q "entity" in
   let startDate := JS.get q "startDate" in
   let endDate := JS.get q "endDate" in
   action' <- (if JS.truthy action
               then (a <- lift_result (toUpperCase_m action) ;; ret [("action", JStr a)])
               else ret []) ;;
   ret ([("page", JNum (pageNum page)); ("limit", JNum (limitNum limit))]
        ++ action'
        ++ (if withEntity && JS.truthy entity then [("entity", entity)] else [])
        ++ (if JS.truthy startDate then [("startDate", startDate)] else [])
        ++ (if JS.truthy endDate then [("endDate", endDate)] else []))%list)%monad.

(** The options [getEntityAuditLogs] hands to the store: a non-admin
    caller is added as the actor filter. *)
Definition getEntityAuditLogs_options (user : User.t)
    (options : list (string * jsval)) : jsval :=
  JObj (if negb (is_admin user)
        then JS.set "userId" (JStr (User._id user)) options
        else options).

(** [AuditController.getEntityAuditLogs] *)
Definition getEntityAuditLogs (req : Req.t) : M Outcome :=
  (AuthController.try_next
     (AuthController.destructure (Req.params req) ;;;
      AuthController.destructure (Req.query req) ;;;
      let entity := JS.get (Req.params req) "entity" in
      let entityId := JS.get (Req.params req) "entityId" in
      if negb (JS.truthy entity) || negb (JS.truthy entityId) then
        ret (Next (createError 400 "Entity and entityId are required"))
      else
        options <- page_options (Req.query req) false ;;
        user <- req_user req ;;
        if negb (is_admin user)
           && AuditLogModel.eqb entity (JStr "User")
           && negb (AuditLogModel.eqb entityId (JStr (User._id user)))
        then
          ret (Next (createError 403
                 "Access denied. You can only view your own audit logs."))
        else
          auditLogs <- AuditLogService.getEntityLogs entity entityId
                         (getEntityAuditLogs_options user options) ;;
          ret (Responded 200
                 (JObj [("success", JBool true);
                        ("data",
                         JObj [("entity", entity);
                               ("entityId", entityId);
                               ("auditLogs",
                                JArr (map AuditLogModel.to_json auditLogs))])]))))%monad.

(** The options [getUserActivity] hands to the store. *)
Definition getUserActivity_options (req : Req.t) : M jsval :=
  (options <- page_options (Req.query req) true ;; ret (JObj options))%monad.

(** [AuditController.getUserActivity] *)
Definition getUserActivity (req : Req.t) : M Outcome :=
  (AuthController.try_next
     (AuthController.destructure (Req.params req) ;;;
      AuthController.destructure (Req.query req) ;;;
      let userId := JS.get (Req.params req) "userId" in
      user <- req_user req ;;
      if negb (is_admin user)
         && negb (AuditLogModel.eqb userId (JStr (User._id user)))
      then
        ret (Next (createError 403
               "Access denied. You can only view your own activity."))
      else
        options <- getUserActivity_options req ;;
        activityLogs <- AuditLogService.getUserActivity userId options ;;
        ret (Responded 200
               (JObj [("success", JBool true);
                      ("data",
                       JObj [("userId", userId);
                             ("activityLogs",
                              JArr (map AuditLogModel.to_json activityLogs))])]))))%monad.

(** The cap of an export. *)
Definition EXPORT_LIMIT : Z := 10000.

(** [AuditLog.find(query).populate(...).sort({ timestamp: -1 })
    .limit(10000).lean()] *)
Definition export_records (query : list (string * jsval))
  : M (list AuditLog.t) :=
  (found <- AuditLogModel.find query ;;
   w <- get_world ;;
   lift_result
     (AuditLogModel.limit (Int EXPORT_LIMIT)
        (AuditLogModel.sort_desc (map (AuditLogModel.populate (users w)) found))))%monad.

Definition csv_headers : list string :=
  ["ID"; "User ID"; "User Name"; "User Email"; "Action"; "Entity";
   "Entity ID"; "Timestamp"; "Description"; "IP Address"; "User Agent";
   "Route"; "Method"; "Status Code"].

(** [o?.k]: a nullish receiver gives [undefined]. *)
Definition opt_get (o : jsval) (k : string) : jsval := JS.get o k.

(** An array element as [join] prints it. *)
Definition cell (v : jsval) : string :=
  match v with
  | JUndefined | JNull => ""
  | _ => JS.ToString v
  end.

Definition quoted (v : jsval) : string :=
  Json.str1 Json.dquote ++ JS.ToString (js_or v (JStr "")) ++ Json.str1 Json.dquote.

(** One data row of the CSV. *)
Definition csv_row (env : Env) (log : AuditLog.t) : string :=
  let userId := AuditLog.userId log in
  let metadata := AuditLog.metadata log in
  Str.join ","
    [AuditLog._id log;
     cell (js_or (opt_get userId "_id") userId);
     cell (js_or (opt_get userId "name") (JStr ""));
     cell (js_or (opt_get userId "email") (JStr ""));
     AuditLog.action log;
     cell (AuditLog.entity log);
     AuditLog.entityId log;
     date_to_string env (AuditLog.timestamp log);
     quoted (AuditLog.description log);
     cell (js_or (opt_get metadata "ip") (JStr ""));
     quoted (opt_get metadata "userAgent");
     cell (js_or (opt_get metadata "route") (JStr ""));
     cell (js_or (opt_get metadata "method") (JStr ""));
     cell (js_or (opt_get metadata "statusCode") (JStr ""))].

(** The rows [convertToCSV] joins: the header, then one per record. *)
Definition csvRows (env : Env) (auditLogs : list AuditLog.t) : list string :=
  Str.join "," csv_headers :: map (csv_row env) auditLogs.

Definition newline : string := Json.str1 (ascii_of_nat 10).

(** [AuditController.convertToCSV] *)
Definition convertToCSV (env : Env) (auditLogs : list AuditLog.t) : string :=
  match auditLogs with
  | [] => "No data available"
  | _ => Str.join newline (csvRows env auditLogs)
  end.

(** [AuditController.exportAuditLogs]. The handler reads
    [this.convertToCSV]: [bound] tells whether it was called with the
    class as receiver. *)
Definition exportAuditLogs (bound : bool) (req : Req.t) : M Outcome :=
  (AuthController.try_next
     (AuthController.destructure (Req.query req) ;;;
      env <- ask ;;
      let format := default_to (JStr "json") (JS.get (Req.query req) "format") in
      query <- build_query (Req.query req) false ;;
      auditLogs <- export_records query ;;
      if AuditLogModel.eqb format (JStr "csv") then
        if bound then
          ret (Sent 200 "text/csv" (convertToCSV env auditLogs))
        else
          throw (TypeError "Cannot read properties of undefined (reading 'convertToCSV')")
      else
        t <- Date_now ;;
        ret (Responded 200
               (JObj [("success", JBool true);
                      ("data",
                       JObj [("auditLogs",
                              JArr (map AuditLogModel.to_json auditLogs));
                             ("exportDate", JStr (date_to_string env t));
                             ("totalRecords",
                              JS.JInt (Z.of_nat (List.length auditLogs)))])]))))%monad.

End AuditController.

(* ===================================================================== *)
(** ** Routes of the audit query surface (routes/auditRoutes.js) *)
(* ===================================================================== *)

Module AuditRoutes.

Definition set_params (req : Req.t) (p : jsval) : Req.t :=
  Req.mk (Req.method req) (Req.path req) (Req.route req) (Req.ip req)
    (Req.remoteAddress req) (Req.userAgent req) (Req.requestId req)
    (Req.body req) (Req.query req) p (Req.user req) (Req.originalData req).

(** [schemas.auditParams] and [schemas.userIdParam]: required keys. *)
Definition required (f : option (list (string * jsval)))
  : option (list (string * jsval)) :=
  match f with
  | Some [] => None
  | _ => f
  end.

Definition auditParams (params : jsval) : option jsval :=
  match
    Validation.collect
      [required (Validation.trimmed_field "entity" (JS.get params "entity"));
       required (Validation.trimmed_field "entityId" (JS.get params "entityId"))]
  with
  | Some fields => Some (JObj fields)
  | None => None
  end.

Definition userIdParam (params : jsval) : option jsval :=
  match required (Validation.objectId_field "userId" (JS.get params "userId")) with
  | Some fields => Some (JObj fields)
  | None => None
  end.

Definition validate_params (schema : jsval -> option jsval)
    (handler : Req.t -> M Outcome) (req : Req.t) : M Outcome :=
  match schema (Req.params req) with
  | None => ret (Next (createError 400 "Validation failed"))
  | Some value => handler (set_params req value)
  end.

(** [GET /api/audit/logs], after [authenticate]. *)
Definition logs : Req.t -> M Outcome :=
  Validation.validate_query Validation.auditQuery AuditController.getAuditLogs.

(** [GET /api/audit/entity/:entity/:entityId], after [authenticate]. *)
Definition entity : Req.t -> M Outcome :=
  validate_params auditParams
    (Validation.validate_query Validation.auditQuery
       AuditController.getEntityAuditLogs).

(** [GET /api/audit/user/:userId/activity], after [authenticate]. *)
Definition activity : Req.t -> M Outcome :=
  validate_params userIdParam
    (Validation.validate_query Validation.auditQuery
       AuditController.getUserActivity).

(** [GET /api/audit/export], after [authenticate] and
    [authorize('admin')]: the router calls the handler as a plain
    function. *)
Definition export : Req.t -> M Outcome :=
  Validation.validate_query Validation.exportQuery
    (AuditController.exportAuditLogs false).

End AuditRoutes.

(* ===================================================================== *)
(** ** Observations used by the properties *)
(* ===================================================================== *)


(** The world at a later reading of the clock. *)
Definition at_time (t : Z) (w : World) : World :=
  mkWorld (users w) (auditLogs w) (console w) (outbox w) t (next_oid w).

(** The actor of a returned entry: the [_id] of the populated user. *)
Definition actor (doc : AuditLog.t) : jsval :=
  JS.get (AuditLog.userId doc) "_id".

(** What a call to the recorder may do to the world: it never touches
    the users; it either appends the entry it returns, which the store
    accepted, or appends nothing and leaves one line on the console. *)
Definition recorded (env : Env) (w w' : World) (r : option AuditLog.t) : Prop :=
  users w' = users w /\
  match r with
  | Some doc =>
      audit_save_ok env doc = true /\
      auditLogs w' = (auditLogs w ++ [doc])%list /\ console w' = console w
  | None =>
      auditLogs w' = auditLogs w /\
      exists line, console w' = (console w ++ [line])%list
  end.

(** A computation that only reads: whatever it returns or throws, the
    world is as before. *)
Definition readonly {A} (c : M A) : Prop :=
  forall env w, snd (c env w) = w.

(** A filter fragment: empty, or one condition on the key [k]. *)
Definition at_most (k : string) (l : list (string * jsval)) : Prop :=
  l = [] \/ exists v, l = [(k, v)].

(** The body of a JSON response, and the payload of a raw one. *)
Definition body_of (r : result Outcome) : jsval :=
  match r with
  | Ok (Responded _ body) => body
  | _ => JUndefined
  end.

Definition payload_of (r : result Outcome) : string :=
  match r with
  | Ok (Sent _ _ payload) => payload
  | _ => EmptyString
  end.

(** The two errors [signin] passes on for a locked account and for wrong
    credentials. *)
Definition locked_out : JsError :=
  createError 423
    "Account is temporarily locked due to multiple failed login attempts".

Definition bad_credentials : JsError :=
  createError 401 "Invalid email or password".


(* ===================================================================== *)
(** ** Concrete collaborators and requests *)
(* ===================================================================== *)

Module Scenario.

(** Collaborators that accept every write and deliver every mail. *)
Definition env : Env :=
  mkEnv (fun _ => true) (fun _ => true) true (fun _ => true)
    (fun t => if String.eqb t "google-id-token-of-bob"
              then inl (mkGoogleUser "g-bob" "bob@example.com" "Bob"
                          (Some "https://img.example.com/bob.png") true)
              else inr "Invalid Google token")
    (fun candidate hash => String.eqb ("bcrypt:" ++ candidate) hash)
    (fun s => "sha256:" ++ s)
    (fun n => "reset-" ++ Str.of_Z (Z.of_nat n))
    (fun t => "jwt:" ++ tk_key t ++ ":" ++ Json.stringify (JObj (tk_payload t)))
    "access-secret" "refresh-secret" "7d" "30d"
    (fun span => if String.eqb span "7d" then Some 604800
                 else if String.eqb span "30d" then Some 2592000 else None)
    (fun _ => NaN)
    (fun ms => Str.of_Z ms)
    (fun s => match AuditLogModel.string_to_number s with
              | Int z => Some z
              | NaN => None
              end)
    None.

Definition alice : User.t :=
  User.mk (oid 1) "Alice" "alice@example.com" (Some "bcrypt:Password123")
    None None "user" true true None 0 None None None.

(** A deactivated account without a Google link. *)
Definition bob : User.t :=
  User.mk (oid 2) "Bob" "bob@example.com" (Some "bcrypt:Secret456")
    None None "user" false false None 0 None None None.

Definition world : World := mkWorld [alice; bob] [] [] [] 1700000000000 3.

Definition post (path : string) (body : jsval) (user : option User.t) : Req.t :=
  Req.mk "POST" path None (JStr "203.0.113.7") JUndefined (JStr "curl/8.0")
    (JStr "req-1") body (JObj []) (JObj []) user JUndefined.

Definition get_ (path : string) (query : jsval) (user : option User.t) : Req.t :=
  Req.mk "GET" path None (JStr "203.0.113.7") JUndefined (JStr "curl/8.0")
    (JStr "req-2") JUndefined query (JObj []) user JUndefined.

Definition entry (id : nat) (userId : string) (t : Z) : AuditLog.t :=
  AuditLog.mk (oid id) (JStr userId) "READ" (JStr "") "" (JObj []) (JObj [])
    t (JStr "seeded").

(** A world with three recorded entries, two of them alice's. *)
Definition audit_world : World :=
  mkWorld [alice; bob]
    [entry 10 (oid 1) 1699999990000;
     entry 11 (oid 2) 1699999995000;
     entry 12 (oid 1) 1699999999000]
    [] [] 1700000000000 13.

Definition signin_req (password : string) : Req.t :=
  post "/api/auth/signin"
    (JObj [("email", JStr "alice@example.com"); ("password", JStr password)])
    None.

(** The world after [n] signin attempts with a wrong password, one second
    apart. *)
Fixpoint after_failures (n : nat) (w : World) : World :=
  match n with
  | O => w
  | S k =>
      let w1 := after_failures k w in
      at_time (now w1 + 1000)
        (snd (AuthController.signin (signin_req "not-the-password") env w1))
  end.

End Scenario.

(* ===================================================================== *)
(** ** Token Service, continued (utils/jwtService.js) *)
(* ===================================================================== *)

Module JWTTools.

(** [extractToken(authHeader)]: the second of exactly two pieces split at
    a space, when the first is [Bearer]; [null] otherwise. *)
Definition extractToken (authHeader : jsval) : result jsval :=
  if negb (JS.truthy authHeader) then Ok JNull
  else
    match authHeader with
    | JStr s =>
        match Str.split " " s with
        | [scheme; token] =>
            if String.eqb scheme "Bearer" then Ok (JStr token) else Ok JNull
        | _ => Ok JNull
        end
    | _ => Throw (TypeError "authHeader.split is not a function")
    end.

(** [decodeToken(token)], that is [jwt.decode(token)]: the payload, with
    no check of signature or dates; [null] for a string no signer made. *)
Definition decodeToken (token : Jwt.compact) : jsval :=
  match token with
  | Jwt.Signed t => JObj (tk_payload t)
  | Jwt.Garbage _ => JNull
  end.

(** ToNumber, as the comparison [exp < currentTime] applies it. *)
Definition to_number (v : jsval) : number :=
  match v with
  | JArr _ => AuditLogModel.string_to_number (JS.ToString v)
  | _ => AuditLogModel.to_number v
  end.

(** [isTokenExpired(token)] *)
Definition isTokenExpired (token : Jwt.compact) : M bool :=
  let decoded := decodeToken token in
  if negb (JS.truthy decoded) || negb (JS.truthy (JS.get decoded "exp"))
  then ret true
  else
    currentTime <- Jwt.clock_seconds ;;
    ret (AuditController.num_lt (to_number (JS.get decoded "exp"))
           (Int currentTime)).

(** [getTokenExpiration(token)]: the expiry as a date, or [null]. *)
Definition getTokenExpiration (token : Jwt.compact) : jsval :=
  let decoded := decodeToken token in
  if negb (JS.truthy decoded) || negb (JS.truthy (JS.get decoded "exp"))
  then JNull
  else
    AuditLogModel.JDate
      (AuditLogModel.num_mul (to_number (JS.get decoded "exp")) (Int 1000)).

End JWTTools.

(* ===================================================================== *)
(** ** Authentication middleware (middleware/authMiddleware.js) *)
(* ===================================================================== *)

(** How a middleware ends: the request goes on, an error is passed on, or
    a response is sent. *)
Inductive Passed : Type :=
| Continue (req : Req.t)
| Reject (error : JsError)
| Answer (status : Z) (body : jsval).

Module AuthMiddleware.

Definition set_user (req : Req.t) (u : User.t) : Req.t :=
  Req.mk (Req.method req) (Req.path req) (Req.route req) (Req.ip req)
    (Req.remoteAddress req) (Req.userAgent req) (Req.requestId req)
    (Req.body req) (Req.query req) (Req.params req) (Some u)
    (Req.originalData req).

(** Modelled from the spec: [User.findById(id)] of models/User.js, which
    is not part of the sources; the account read by id carries its active
    flag and its lock time (4.1). A missing id finds nothing, a
    24-character hexadecimal id is looked up, and anything else cannot be
    cast. *)
Definition findById (id : jsval) : M (option User.t) :=
  match id with
  | JUndefined | JNull => ret None
  | JStr s =>
      if AuditLogger.objectIdRegex s then
        w <- get_world ;;
        ret (List.find (fun u => String.eqb (User._id u) s) (users w))
      else throw (mkError "CastError" "Cast to ObjectId failed" None)
  | _ => throw (mkError "CastError" "Cast to ObjectId failed" None)
  end.

(** The token a header or body carries as text, read as the library
    reads it ([parse]). *)
Definition as_compact (parse : string -> Jwt.compact) (token : jsval)
  : Jwt.compact :=
  match token with
  | JStr s => parse s
  | _ => Jwt.Garbage (JS.ToString token)
  end.

(** [authenticate(req, res, next)], given the Authorization header. *)
Definition authenticate (parse : string -> Jwt.compact) (authorization : jsval)
    (req : Req.t) : M Passed :=
  try_catch
    (token <- lift_result (JWTTools.extractToken authorization) ;;
     if negb (JS.truthy token) then
       ret (Reject (createError 401 "Access token is required"))
     else
       decoded <- JWTService.verifyAccessToken (as_compact parse token) ;;
       found <- findById (JS.get (JObj decoded) "id") ;;
       match found with
       | None => ret (Reject (createError 401 "User not found or token is invalid"))
       | Some user =>
           if negb (User.isActive user) then
             ret (Reject (createError 401 "Account is deactivated"))
           else
             t <- Date_now ;;
             if UserModel.isLocked user t then
               ret (Reject (createError 423
                 "Account is temporarily locked due to multiple failed login attempts"))
             else ret (Continue (set_user req user))
       end)
    (fun error =>
       if Str.includes (err_message error) "expired" then
         ret (Reject (createError 401 "Access token has expired"))
       else if Str.includes (err_message error) "invalid" then
         ret (Reject (createError 401 "Invalid access token"))
       else ret (Reject (createError 401 "Authentication failed"))).

(** [optionalAuth(req, res, next)] *)
Definition optionalAuth (parse : string -> Jwt.compact) (authorization : jsval)
    (req : Req.t) : M Passed :=
  try_catch
    (token <- lift_result (JWTTools.extractToken authorization) ;;
     if negb (JS.truthy token) then ret (Continue req)
     else
       decoded <- JWTService.verifyAccessToken (as_compact parse token) ;;
       found <- findById (JS.get (JObj decoded) "id") ;;
       t <- Date_now ;;
       match found with
       | Some user =>
           if User.isActive user && negb (UserModel.isLocked user t)
           then ret (Continue (set_user req user))
           else ret (Continue req)
       | None => ret (Continue req)
       end)
    (fun _ => ret (Continue req)).

(** [authorize(...roles)] *)
Definition authorize (roles : list string) (req : Req.t) : Passed :=
  match Req.user req with
  | None => Reject (createError 401 "Authentication required")
  | Some user =>
      if negb (existsb (String.eqb (User.role user)) roles)
      then Reject (createError 403 "Insufficient permissions")
      else Continue req
  end.

(** [checkOwnership(userIdField)] *)
Definition checkOwnership (userIdField : string) (req : Req.t) : Passed :=
  match Req.user req with
  | None => Reject (createError 401 "Authentication required")
  | Some user =>
      let resourceUserId := JS.get_computed (Req.params req) userIdField in
      if String.eqb (User.role user) "admin" then Continue req
      else if negb (AuditLogModel.eqb resourceUserId (JStr (User._id user)))
      then Reject (createError 403
             "Access denied. You can only access your own resources.")
      else Continue req
  end.

(** [refreshToken(req, res, next)] *)
Definition refreshToken (parse : string -> Jwt.compact) (req : Req.t)
  : M Passed :=
  try_catch
    (AuthController.destructure (Req.body req) ;;;
     let token := JS.get (Req.body req) "refreshToken" in
     if negb (JS.truthy token) then
       ret (Reject (createError 400 "Refresh token is required"))
     else
       decoded <- JWTService.verifyRefreshToken (as_compact parse token) ;;
       found <- findById (JS.get (JObj decoded) "id") ;;
       match found with
       | None =>
           ret (Reject (createError 401 "Invalid refresh token or user not found"))
       | Some user =>
           if negb (User.isActive user) then
             ret (Reject (createError 401 "Invalid refresh token or user not found"))
           else
             tokens <- JWTService.generateTokens user ;;
             ret (Answer 200
                    (JObj [("success", JBool true);
                           ("message", JStr "Tokens refreshed successfully");
                           ("data",
                            JObj ([("user", UserModel.to_json user false)]
                                  ++ tokens)%list)]))
       end)
    (fun error =>
       if Str.includes (err_message error) "expired" then
         ret (Reject (createError 401 "Refresh token has expired"))
       else if Str.includes (err_message error) "invalid" then
         ret (Reject (createError 401 "Invalid refresh token"))
       else ret (Reject (createError 401 "Token refresh failed"))).

(** [requireEmailVerification(req, res, next)] *)
Definition requireEmailVerification (req : Req.t) : Passed :=
  match Req.user req with
  | None => Reject (createError 401 "Authentication required")
  | Some user =>
      if negb (User.isEmailVerified user)
      then Reject (createError 403 "Email verification required")
      else Continue req
  end.

End AuthMiddleware.

(* ===================================================================== *)
(** ** Automatic Audit Interceptor, the entry point
       (middleware/auditLogger.js) *)
(* ===================================================================== *)

Module AuditInterceptor.

Definition skipRoutes : list string :=
  ["/health"; "/api/audit"; "/favicon.ico"].

(** [auditLogger(req, res, next)] together with the hook it leaves on
    [res.end]: what runs once the response has ended, with the payload
    [res.json] captured ([null] when it was never called) and the status
    code. *)
Definition auditLogger (req : Req.t) (responseData statusCode : jsval)
  : M unit :=
  if existsb (fun route => Str.startsWith (Req.path req) route) skipRoutes
  then ret tt
  else AuditLogger.logRequest req responseData statusCode.

End AuditInterceptor.

(* ===================================================================== *)
(** ** Further observations *)
(* ===================================================================== *)

(** The text holds no separator. *)
Definition no_sep (sep : ascii) (s : string) : bool :=
  Str.forall_chars (fun c => negb (Ascii.eqb c sep)) s.

(** The four claims the signer stamps on a payload at the time of [w]. *)
Definition stamps (w : World) (span : Z) (audience issuer : string)
  : list (string * jsval) :=
  [("iat", JS.JInt (now w / 1000));
   ("exp", JS.JInt (now w / 1000 + span));
   ("aud", JStr audience);
   ("iss", JStr issuer)].

(** The body of [POST /auth/refresh-token]. *)
Definition refresh_body (tokens : list (string * jsval)) : jsval :=
  JObj [("refreshToken", JS.get (JObj tokens) "refreshToken")].

(** The account stored under an id. *)
Definition stored (w : World) (id : string) : option User.t :=
  List.find (fun u => String.eqb (User._id u) id) (users w).

(** A session of alice: the refresh token issued to her in
    [Scenario.world], a reader of token text that knows this token, and
    the request that presents it. *)
Module Session.

Definition refresh : Token :=
  mkToken "refresh-secret"
    ([("id", JStr (oid 1))]
     ++ stamps Scenario.world 2592000 "refresh" "BE Image Builder")%list.

Definition parse (s : string) : Jwt.compact :=
  if String.eqb s (jwt_render Scenario.env refresh) then Jwt.Signed refresh
  else Jwt.Garbage s.

Definition refresh_req : Req.t :=
  Scenario.post "/api/auth/refresh-token"
    (JObj [("refreshToken", JStr (jwt_render Scenario.env refresh))]) None.

(** A trail in which alice and bob both changed the same thing. *)
Definition thing (id : nat) (userId : string) (t : Z) : AuditLog.t :=
  AuditLog.mk (oid id) (JStr userId) "UPDATE" (JStr "Thing") "t1" (JObj [])
    (JObj []) t (JStr "seeded").

Definition things_world : World :=
  mkWorld [Scenario.alice; Scenario.bob]
    [thing 20 (oid 1) 1699999990000; thing 21 (oid 2) 1699999995000]
    [] [] 1700000000000 22.

Definition entity_req : Req.t :=
  AuditRoutes.set_params
    (Scenario.get_ "/api/audit/entity/Thing/t1" (JObj []) (Some Scenario.alice))
    (JObj [("entity", JStr "Thing"); ("entityId", JStr "t1")]).

Definition activity_req (userId : string) : Req.t :=
  AuditRoutes.set_params
    (Scenario.get_ "/api/audit/user/activity" (JObj []) (Some Scenario.alice))
    (JObj [("userId", JStr userId)]).

End Session.

(** Collaborators whose issuer name holds no space, so that a rendered
    token can travel in a header, and a reader that knows the access
    token issued to alice. *)
Module Header.

Definition env : Env :=
  mkEnv (audit_save_ok Scenario.env) (user_save_ok Scenario.env)
    (email_configured Scenario.env) (email_send_ok Scenario.env)
    (verifyGoogleToken Scenario.env) (password_matches Scenario.env)
    (sha256_hex Scenario.env) (random_token Scenario.env)
    (jwt_render Scenario.env) (JWT_SECRET Scenario.env)
    (JWT_REFRESH_SECRET Scenario.env) (JWT_EXPIRES_IN Scenario.env)
    (JWT_REFRESH_EXPIRES_IN Scenario.env) (expires_seconds Scenario.env)
    (date_parse Scenario.env) (date_to_string Scenario.env)
    (joi_integer Scenario.env) (Some "be-image-builder").

Definition access : Token :=
  mkToken "access-secret"
    ([("id", JStr (oid 1)); ("email", JStr "alice@example.com");
      ("role", JStr "user")]
     ++ stamps Scenario.world 604800 "user" "be-image-builder")%list.

Definition parse (s : string) : Jwt.compact :=
  if String.eqb s (jwt_render env access) then Jwt.Signed access
  else Jwt.Garbage s.

Definition req : Req.t := Scenario.get_ "/api/auth/me" (JObj []) None.

End Header.

(* ===================================================================== *)
(** ** Error objects and the error handler
       (utils/errorUtils.js, middleware/errorHandler.js) *)
(* ===================================================================== *)

(** An [Error] as the handler sees it: the name its constructor gives
    it, its message, its stack (own, not enumerable, so a spread loses
    it; a plain object has none) and its own enumerable properties. *)
Record ErrorObject : Type := mkErrorObject {
  eo_name : string;
  eo_message : string;
  eo_stack : option string;
  eo_own : list (string * jsval)
}.

Module ErrorUtils.

(** [err.k] *)
Definition prop (err : ErrorObject) (k : string) : jsval :=
  if String.eqb k "message" then JStr (eo_message err)
  else if String.eqb k "name" then JStr (eo_name err)
  else if String.eqb k "stack" then
    match eo_stack err with
    | Some s => JStr s
    | None => JS.get (JObj (eo_own err)) "stack"
    end
  else JS.get (JObj (eo_own err)) k.

(** [err.k = v] for an enumerable property. *)
Definition set_prop (k : string) (v : jsval) (err : ErrorObject) : ErrorObject :=
  mkErrorObject (eo_name err) (eo_message err) (eo_stack err)
    (JS.set k v (eo_own err)).

Definition set_message (m : string) (err : ErrorObject) : ErrorObject :=
  mkErrorObject (eo_name err) m (eo_stack err) (eo_own err).

(** [createError(statusCode, message, code = null, details = null)]; the
    runtime writes the stack: the name, the message and the call frames
    ([frames]). *)
Definition createError (frames : string) (statusCode : Z) (message : string)
    (code details : jsval) : ErrorObject :=
  mkErrorObject "Error" message (Some ("Error: " ++ message ++ frames))
    [("statusCode", JS.JInt statusCode);
     ("code", default_to JNull code);
     ("details", default_to JNull details);
     ("isOperational", JBool true)].

(** [Object.values(v)] and [Object.keys(v)] *)
Definition values (v : jsval) : result (list jsval) :=
  match v with
  | JUndefined | JNull =>
      Throw (TypeError "Cannot convert undefined or null to object")
  | _ => Ok (map snd (JS.spread v))
  end.

Definition keys (v : jsval) : result (list string) :=
  match v with
  | JUndefined | JNull =>
      Throw (TypeError "Cannot convert undefined or null to object")
  | _ => Ok (map fst (JS.spread v))
  end.

(** [val.k] on an element that may be nullish. *)
Definition read (val : jsval) (k : string) : result jsval :=
  match val with
  | JUndefined | JNull =>
      Throw (TypeError "Cannot read properties of undefined")
  | _ => Ok (JS.get val k)
  end.

Fixpoint map_result {A B} (f : A -> result B) (l : list A) : result (list B) :=
  match l with
  | [] => Ok []
  | x :: r =>
      match f x with
      | Throw e => Throw e
      | Ok y =>
          match map_result f r with
          | Throw e => Throw e
          | Ok ys => Ok (y :: ys)
          end
      end
  end.

(** [handleValidationError(err)] *)
Definition handleValidationError (frames : string) (err : ErrorObject)
  : result ErrorObject :=
  match values (prop err "errors") with
  | Throw e => Throw e
  | Ok vals =>
      match
        map_result
          (fun val =>
             match read val "path" with
             | Throw e => Throw e
             | Ok path =>
                 Ok (JObj [("field", path);
                           ("message", JS.get val "message");
                           ("value", JS.get val "value")])
             end) vals
      with
      | Throw e => Throw e
      | Ok errors =>
          Ok (createError frames 400 "Validation failed"
                (JStr "VALIDATION_ERROR") (JObj [("errors", JArr errors)]))
      end
  end.

(** [handleDuplicateKeyError(err)] *)
Definition handleDuplicateKeyError (frames : string) (err : ErrorObject)
  : result ErrorObject :=
  let keyValue := prop err "keyValue" in
  match keys keyValue with
  | Throw e => Throw e
  | Ok ks =>
      let field := match ks with k :: _ => JStr k | [] => JUndefined end in
      let value := JS.get (JObj (JS.spread keyValue)) (JS.ToString field) in
      Ok (createError frames 409
            (JS.ToString field ++ " '" ++ JS.ToString value ++ "' already exists")
            (JStr "DUPLICATE_KEY_ERROR")
            (JObj [("field", field); ("value", value)]))
  end.

(** [handleCastError(err)] *)
Definition handleCastError (frames : string) (err : ErrorObject) : ErrorObject :=
  createError frames 400
    ("Invalid " ++ JS.ToString (prop err "path") ++ ": "
     ++ JS.ToString (prop err "value"))
    (JStr "CAST_ERROR")
    (JObj [("field", prop err "path"); ("value", prop err "value")]).

(** [handleJWTError(err)] *)
Definition handleJWTError (frames : string) (err : ErrorObject) : ErrorObject :=
  if String.eqb (eo_name err) "JsonWebTokenError" then
    createError frames 401 "Invalid token" (JStr "INVALID_TOKEN") JUndefined
  else if String.eqb (eo_name err) "TokenExpiredError" then
    createError frames 401 "Token expired" (JStr "TOKEN_EXPIRED") JUndefined
  else createError frames 401 "Authentication failed" (JStr "AUTH_ERROR") JUndefined.

(** [process.env.NODE_ENV === 'development'] *)
Definition development (node_env : option string) : bool :=
  match node_env with
  | Some s => String.eqb s "development"
  | None => false
  end.

(** [formatErrorResponse(err, req)] *)
Definition formatErrorResponse (node_env : option string) (err : ErrorObject)
    (req : Req.t) : jsval :=
  let detailed :=
    development node_env
    || AuditLogModel.eqb (prop err "code") (JStr "VALIDATION_ERROR") in
  JObj
    [("success", JBool false);
     ("error",
      JObj ([("message", prop err "message");
             ("code", js_or (prop err "code") (JStr "INTERNAL_ERROR"));
             ("statusCode", js_or (prop err "statusCode") (JS.JInt 500))]
            ++ (if detailed && JS.truthy (prop err "details")
                then [("details", prop err "details")] else [])
            ++ (if detailed && JS.truthy (prop err "stack")
                   && development node_env
                then [("stack", prop err "stack")] else [])
            ++ (if JS.truthy (Req.requestId req)
                then [("requestId", Req.requestId req)] else []))%list)].

(** [isOperationalError(error)] *)
Definition isOperationalError (err : ErrorObject) : bool :=
  AuditLogModel.eqb (prop err "isOperational") (JBool true).

End ErrorUtils.

Module ErrorHandler.

(** [console.error(...)]: one line on the console; how the runtime
    prints an object argument is not modelled, the line holds the text
    arguments. *)
Definition console_line (line : string) : M unit :=
  fun _ w =>
    (Ok tt,
     mkWorld (users w) (auditLogs w) (console w ++ [line]) (outbox w)
       (now w) (next_oid w)).

(** What the handler sends: [res.status(status).json(body)]. *)
Record Reply : Type := mkReply {
  reply_status : jsval;
  reply_body : jsval
}.

(** [errorHandler(err, req, res, next)]. [{ ...err }] copies the own
    enumerable properties, so the copy has neither the stack nor the
    name of [err]. *)
Definition errorHandler (frames : string) (node_env : option string)
    (err : ErrorObject) (req : Req.t) : M Reply :=
  (let error0 :=
     mkErrorObject "Object" (eo_message err) None (eo_own err) in
   console_line ("Error: " ++ eo_message error0) ;;;
   (if ErrorUtils.development node_env
    then console_line (JS.ToString (ErrorUtils.prop error0 "stack"))
    else ret tt) ;;;
   error1 <- (if String.eqb (eo_name err) "ValidationError"
              then lift_result (ErrorUtils.handleValidationError frames err)
              else ret error0) ;;
   error2 <- (if AuditLogModel.eqb (ErrorUtils.prop err "code") (JS.JInt 11000)
              then lift_result (ErrorUtils.handleDuplicateKeyError frames err)
              else ret error1) ;;
   let error3 :=
     if String.eqb (eo_name err) "CastError"
     then ErrorUtils.handleCastError frames err else error2 in
   let error4 :=
     if String.eqb (eo_name err) "JsonWebTokenError"
        || String.eqb (eo_name err) "TokenExpiredError"
     then ErrorUtils.handleJWTError frames err else error3 in
   let error5 :=
     if negb (JS.truthy (ErrorUtils.prop error4 "statusCode")) then
       ErrorUtils.set_prop "code" (JStr "INTERNAL_ERROR")
         (ErrorUtils.set_message "Internal Server Error"
            (ErrorUtils.set_prop "statusCode" (JS.JInt 500) error4))
     else error4 in
   ret (mkReply (ErrorUtils.prop error5 "statusCode")
          (ErrorUtils.formatErrorResponse node_env error5 req)))%monad.

(** [developmentErrorHandler] and [productionErrorHandler]: one more
    line on the console, then [errorHandler]. *)
Definition developmentErrorHandler (frames : string)
    (node_env : option string) (err : ErrorObject) (req : Req.t) : M Reply :=
  (console_line "Error Details:" ;;;
   errorHandler frames node_env err req)%monad.

Definition productionErrorHandler (frames : string)
    (node_env : option string) (err : ErrorObject) (req : Req.t) : M Reply :=
  ((if ErrorUtils.isOperationalError err
    then console_line "Operational Error:"
    else console_line "Programming Error:") ;;;
   errorHandler frames node_env err req)%monad.

(** [getErrorHandler()], the handler the module exports. *)
Definition getErrorHandler (node_env : option string)
  : string -> option string -> ErrorObject -> Req.t -> M Reply :=
  if ErrorUtils.development node_env
  then developmentErrorHandler else productionErrorHandler.

(** [notFound(req, res, next)], given [req.originalUrl]. *)
Definition notFound (originalUrl : string) (req : Req.t) : Reply :=
  mkReply (JS.JInt 404)
    (JObj [("success", JBool false);
           ("error",
            JObj [("message", JStr ("Route " ++ originalUrl ++ " not found"));
                  ("code", JStr "NOT_FOUND");
                  ("statusCode", JS.JInt 404);
                  ("requestId", Req.requestId req)])]).

End ErrorHandler.

(* ===================================================================== *)
(** ** Authentication Orchestrator, continued
       (controllers/authController.js) *)
(* ===================================================================== *)

Module AuthAccount.

Definition set_password (u : User.t) (p : option string) : User.t :=
  User.mk (User._id u) (User.name u) (User.email u) p
    (User.googleId u) (User.avatar u) (User.role u) (User.isEmailVerified u)
    (User.isActive u) (User.lastLogin u) (User.loginAttempts u)
    (User.lockUntil u) (User.passwordResetToken u)
    (User.passwordResetTokenExpires u).

Definition set_name (u : User.t) (n : string) : User.t :=
  User.mk (User._id u) n (User.email u) (User.password u)
    (User.googleId u) (User.avatar u) (User.role u) (User.isEmailVerified u)
    (User.isActive u) (User.lastLogin u) (User.loginAttempts u)
    (User.lockUntil u) (User.passwordResetToken u)
    (User.passwordResetTokenExpires u).

(** The cast of a value assigned to a [String] path of a schema: the
    text, nothing for a nullish value, or no cast at all for an array or
    a plain object. *)
Definition cast_string (v : jsval) : option (option string) :=
  AuditLogModel.cast_string v.

Definition cast_failed : JsError :=
  mkError "ValidationError" "User validation failed" None.

(** Modelled from the spec: the pre-save hook of models/User.js, which is
    not part of the sources; 4.1: the Credential Store owns password
    hashing. [hash] is the hash function it applies to a password that
    was assigned; a value that cannot be cast makes the save fail. *)
Definition save_with_password (hash : string -> string) (u : User.t)
    (password : jsval) : M User.t :=
  match cast_string password with
  | Some p =>
      (let u' := set_password u (option_map hash p) in
       UserModel.save u' ;;; ret u')%monad
  | None => throw cast_failed
  end.

(** [req.user], of which a property is read next. *)
Definition the_user (reading : string) (req : Req.t) : M User.t :=
  match Req.user req with
  | Some u => ret u
  | None =>
      throw (TypeError ("Cannot read properties of undefined (reading '"
                        ++ reading ++ "')"))
  end.

(** [String.prototype.trim] *)
Definition trim (s : string) : string := AuditLogModel.trim s.

Definition trim_m (v : jsval) : result string :=
  match v with
  | JStr s => Ok (trim s)
  | JUndefined | JNull =>
      Throw (TypeError "Cannot read properties of null (reading 'trim')")
  | _ => Throw (TypeError "name.trim is not a function")
  end.

(** [crypto.createHash('sha256').update(token).digest('hex')]: [update]
    takes a string. *)
Definition sha256_m (token : jsval) : M string :=
  (env <- ask ;;
   match token with
   | JStr s => ret (sha256_hex env s)
   | _ =>
       throw (TypeError
         "The data argument must be of type string or an instance of Buffer")
   end)%monad.

(** [User.findOne({ passwordResetToken: hashedToken,
     passwordResetTokenExpires: { $gt: Date.now() } })] *)
Definition holds_reset_token (hashedToken : string) (t : Z) (u : User.t) : bool :=
  match User.passwordResetToken u, User.passwordResetTokenExpires u with
  | Some h, Some expires => String.eqb h hashedToken && (t <? expires)
  | _, _ => false
  end.

Definition findOne_reset (hashedToken : string) : M (option User.t) :=
  (t <- Date_now ;;
   w <- get_world ;;
   ret (List.find (holds_reset_token hashedToken t) (users w)))%monad.

(** [AuthController.resetPassword] *)
Definition resetPassword (hash : string -> string) (req : Req.t) : M Outcome :=
  (AuthController.try_next
     (AuthController.destructure (Req.body req) ;;;
      let token := JS.get (Req.body req) "token" in
      let password := JS.get (Req.body req) "password" in
      if negb (JS.truthy token) || negb (JS.truthy password) then
        ret (Next (createError 400 "Token and new password are required"))
      else
        hashedToken <- sha256_m token ;;
        found <- findOne_reset hashedToken ;;
        match found with
        | None =>
            ret (Next (createError 400 "Invalid or expired password reset token"))
        | Some user =>
            if negb (User.isActive user) then
              ret (Next (createError 401 "Account is deactivated"))
            else
              user1 <- (if 0 <? User.loginAttempts user
                        then UserModel.resetLoginAttempts user
                        else ret user) ;;
              user3 <- save_with_password hash
                         (UserModel.set_reset user1 None None) password ;;
              AuditLogService.logUpdate (JStr (User._id user3)) (JStr "User")
                (JStr (User._id user3))
                (JObj [("passwordReset", JBool false)])
                (JObj [("passwordReset", JBool true)])
                (Some req) (JStr "Password reset completed") ;;;
              ret (Responded 200
                     (JObj [("success", JBool true);
                            ("message",
                             JStr "Password has been reset successfully. Please login with your new password.")]))
        end))%monad.

(** [AuthController.updateProfile]; [updatedAt] is what the response
    reads from [user.updatedAt], a timestamp the schema maintains. *)
Definition updateProfile (updatedAt : jsval) (req : Req.t) : M Outcome :=
  (AuthController.try_next
     (AuthController.destructure (Req.body req) ;;;
      let name := JS.get (Req.body req) "name" in
      let avatar := JS.get (Req.body req) "avatar" in
      user <- the_user "name" req ;;
      let originalData :=
        JObj [("name", JStr (User.name user));
              ("avatar", opt_str (User.avatar user))] in
      user1 <- match name with
               | JUndefined => ret user
               | _ => n <- lift_result (trim_m name) ;; ret (set_name user n)
               end ;;
      user2 <- match avatar with
               | JUndefined => ret (Some user1)
               | _ =>
                   match cast_string avatar with
                   | Some a => ret (Some (UserModel.set_avatar user1 a))
                   | None => ret None
                   end
               end ;;
      match user2 with
      | None => throw cast_failed
      | Some user3 =>
          UserModel.save user3 ;;;
          AuditLogService.logUpdate (JStr (User._id user3)) (JStr "User")
            (JStr (User._id user3)) originalData
            (JObj [("name", JStr (User.name user3));
                   ("avatar", opt_str (User.avatar user3))])
            (Some req) (JStr "User updated their profile") ;;;
          ret (Responded 200
                 (JObj [("success", JBool true);
                        ("message", JStr "Profile updated successfully");
                        ("data",
                         JObj [("user",
                                JObj [("id", JStr (User._id user3));
                                      ("name", JStr (User.name user3));
                                      ("email", JStr (User.email user3));
                                      ("role", JStr (User.role user3));
                                      ("avatar", opt_str (User.avatar user3));
                                      ("isEmailVerified",
                                       JBool (User.isEmailVerified user3));
                                      ("lastLogin", opt_date (User.lastLogin user3));
                                      ("updatedAt", updatedAt)])])]))
      end))%monad.

(** [User.findById(req.user._id).select('+password')] *)
Definition findById_with_password (id : string) : M (option User.t) :=
  (w <- get_world ;;
   ret (List.find (fun u => String.eqb (User._id u) id) (users w)))%monad.

(** [AuthController.changePassword] *)
Definition changePassword (hash : string -> string) (req : Req.t) : M Outcome :=
  (AuthController.try_next
     (AuthController.destructure (Req.body req) ;;;
      let currentPassword := JS.get (Req.body req) "currentPassword" in
      let newPassword := JS.get (Req.body req) "newPassword" in
      caller <- the_user "_id" req ;;
      found <- findById_with_password (User._id caller) ;;
      match found with
      | None =>
          throw (TypeError "Cannot read properties of null (reading 'password')")
      | Some user =>
          env <- ask ;;
          let refused :=
            if UserModel.present (User.password user) then
              if negb (UserModel.comparePassword env user currentPassword)
              then Some (createError 400 "Current password is incorrect")
              else None
            else if JS.truthy currentPassword
            then Some (createError 400
                   "You signed up with Google. Current password is not required.")
            else None in
          match refused with
          | Some e => ret (Next e)
          | None =>
              user1 <- save_with_password hash user newPassword ;;
              AuditLogService.logUpdate (JStr (User._id user1)) (JStr "User")
                (JStr (User._id user1))
                (JObj [("passwordChanged", JBool false)])
                (JObj [("passwordChanged", JBool true)])
                (Some req) (JStr "User changed their password") ;;;
              ret (Responded 200
                     (JObj [("success", JBool true);
                            ("message", JStr "Password changed successfully")]))
          end
      end))%monad.

(** [AuthController.getProfile]; [createdAt] and [updatedAt] are what
    the response reads from the timestamps the schema maintains. *)
Definition getProfile (createdAt updatedAt : jsval) (req : Req.t) : M Outcome :=
  (AuthController.try_next
     (user <- the_user "_id" req ;;
      AuditLogService.logRead (JStr (User._id user)) (JStr "User")
        (JStr (User._id user)) (Some req) (JStr "User accessed their profile") ;;;
      ret (Responded 200
             (JObj [("success", JBool true);
                    ("data",
                     JObj [("user",
                            JObj [("id", JStr (User._id user));
                                  ("name", JStr (User.name user));
                                  ("email", JStr (User.email user));
                                  ("role", JStr (User.role user));
                                  ("avatar", opt_str (User.avatar user));
                                  ("isEmailVerified",
                                   JBool (User.isEmailVerified user));
                                  ("lastLogin", opt_date (User.lastLogin user));
                                  ("createdAt", createdAt);
                                  ("updatedAt", updatedAt)])])]))))%monad.

(** [AuthController.logout] *)
Definition logout (req : Req.t) : M Outcome :=
  (AuthController.try_next
     (user <- the_user "_id" req ;;
      AuditLogService.logRead (JStr (User._id user)) (JStr "User")
        (JStr (User._id user)) (Some req) (JStr "User logged out") ;;;
      ret (Responded 200
             (JObj [("success", JBool true);
                    ("message", JStr "Logged out successfully")]))))%monad.

End AuthAccount.

(** What of an account the profile path must leave alone. *)
Definition identity_of (u : User.t)
  : string * string * string * bool * option string :=
  (User._id u, User.email u, User.role u, User.isActive u, User.password u).

(** A reset in progress: alice holds the hash of a mailed token. *)
Module Resetting.

Definition hash (p : string) : string := "bcrypt:" ++ p.

Definition alice : User.t :=
  UserModel.set_reset Scenario.alice (Some "sha256:reset-3")
    (Some 1700000600000).

Definition world : World :=
  mkWorld [alice; Scenario.bob] [] [] [] 1700000000000 3.

Definition req : Req.t :=
  Scenario.post "/api/auth/reset-password"
    (JObj [("token", JStr "reset-3"); ("password", JStr "NewPassword1")]) None.

Definition profile_req : Req.t :=
  Req.mk "PUT" "/api/auth/profile" None (JStr "203.0.113.7") JUndefined
    (JStr "curl/8.0") (JStr "req-3")
    (JObj [("name", JStr "  Alice L.  "); ("role", JStr "admin");
           ("email", JStr "root@example.com")])
    (JObj []) (JObj []) (Some Scenario.alice) JUndefined.

Definition profile_outcome : Outcome :=
  Responded 200
     (JObj [("success", JBool true);
            ("message", JStr "Profile updated successfully");
            ("data",
             JObj [("user",
                    JObj [("id", JStr (oid 1));
                          ("name", JStr "Alice L.");
                          ("email", JStr "alice@example.com");
                          ("role", JStr "user");
                          ("avatar", JUndefined);
                          ("isEmailVerified", JBool true);
                          ("lastLogin", JUndefined);
                          ("updatedAt", JUndefined)])])]).

Definition password_req : Req.t :=
  Scenario.post "/api/auth/change-password"
    (JObj [("currentPassword", JStr "Password123");
           ("newPassword", JStr "NewPassword1")])
    (Some Scenario.alice).

End Resetting.

(* ===================================================================== *)
(** ** Two runs that differ in the audit store's verdict *)
(* ===================================================================== *)

(** The same collaborators, with another verdict of the audit store. *)
Definition with_audit_verdict (v : AuditLog.t -> bool) (env : Env) : Env :=
  mkEnv v (user_save_ok env) (email_configured env) (email_send_ok env)
    (verifyGoogleToken env) (password_matches env) (sha256_hex env)
    (random_token env) (jwt_render env) (JWT_SECRET env)
    (JWT_REFRESH_SECRET env) (JWT_EXPIRES_IN env) (JWT_REFRESH_EXPIRES_IN env)
    (expires_seconds env) (date_parse env) (date_to_string env)
    (joi_integer env) (APP_NAME env).

(** Two worlds that agree on everything but the audit trail and the
    console. *)
Definition same_but_audit (w w' : World) : Prop :=
  users w = users w' /\ outbox w = outbox w' /\ now w = now w'
  /\ next_oid w = next_oid w'.

(** Two runs that end alike: the same value or the same error, in
    worlds that agree on everything but the audit trail and the
    console. *)
Definition alike {A} (R : A -> A -> Prop) (x y : result A * World) : Prop :=
  same_but_audit (snd x) (snd y)
  /\ match fst x, fst y with
     | Ok a, Ok b => R a b
     | Throw e, Throw e' => e = e'
     | _, _ => False
     end.

(** [c] under one verdict and [c'] under another end alike from worlds
    that are alike. *)
Definition blind {A} (v : AuditLog.t -> bool) (env : Env)
    (R : A -> A -> Prop) (c c' : M A) : Prop :=
  forall w w',
    same_but_audit w w' ->
    alike R (c env w) (c' (with_audit_verdict v env) w').

(** The handlers of the authentication routes that write audit entries
    through the recording service. *)
Definition audited_handlers (hash : string -> string)
    (createdAt updatedAt : jsval) : list (Req.t -> M Outcome) :=
  [AuthController.signin;
   AuthController.googleAuth;
   AuthController.forgotPassword;
   AuthAccount.resetPassword hash;
   AuthAccount.getProfile createdAt updatedAt;
   AuthAccount.updateProfile updatedAt;
   AuthAccount.changePassword hash;
   AuthAccount.logout].

(** An audit store that rejects every entry. *)
Definition rejecting : AuditLog.t -> bool := fun _ => false.

(* ===================================================================== *)
(** ** Audit statistics (the AuditLog model's [getStats], the service and
       the controller) *)
(* ===================================================================== *)

(** One group of the first [$group] stage: an action on an entity, how
    often it was recorded and when last. *)
Record ActionStat : Type := mkActionStat {
  as_action : string;
  as_entity : jsval;
  as_count : Z;
  as_lastActivity : Z
}.

(** One document of the result: an entity, its actions and their total. *)
Record EntityStat : Type := mkEntityStat {
  es_entity : jsval;
  es_actions : list ActionStat;
  es_totalCount : Z
}.

Module AuditStats.

(** [{ $group: { _id: { action, entity }, count: { $sum: 1 },
     lastActivity: { $max: '$timestamp' } } }]: a document joins the
    group of its action and entity or opens a new one. The store does
    not promise an order of the groups; here they stand in the order in
    which they were opened. *)
Fixpoint count_doc (doc : AuditLog.t) (groups : list ActionStat)
  : list ActionStat :=
  match groups with
  | [] =>
      [mkActionStat (AuditLog.action doc) (AuditLog.entity doc) 1
         (AuditLog.timestamp doc)]
  | g :: r =>
      if String.eqb (as_action g) (AuditLog.action doc)
         && AuditLogModel.eqb (as_entity g) (AuditLog.entity doc)
      then mkActionStat (as_action g) (as_entity g) (as_count g + 1)
             (Z.max (as_lastActivity g) (AuditLog.timestamp doc)) :: r
      else g :: count_doc doc r
  end.

Definition group_actions (docs : list AuditLog.t) : list ActionStat :=
  fold_left (fun groups doc => count_doc doc groups) docs [].

(** [{ $group: { _id: '$_id.entity', actions: { $push: ... },
     totalCount: { $sum: '$count' } } }] *)
Fixpoint push_action (a : ActionStat) (groups : list EntityStat)
  : list EntityStat :=
  match groups with
  | [] => [mkEntityStat (as_entity a) [a] (as_count a)]
  | g :: r =>
      if AuditLogModel.eqb (es_entity g) (as_entity a)
      then mkEntityStat (es_entity g) (es_actions g ++ [a])%list
             (es_totalCount g + as_count a) :: r
      else g :: push_action a r
  end.

Definition group_entities (stats : list ActionStat) : list EntityStat :=
  fold_left (fun groups a => push_action a groups) stats [].

(** [{ $sort: { totalCount: -1 } }] *)
Fixpoint insert_total (g : EntityStat) (l : list EntityStat) : list EntityStat :=
  match l with
  | [] => [g]
  | x :: r =>
      if es_totalCount x <? es_totalCount g then g :: x :: r
      else x :: insert_total g r
  end.

Definition sort_total (l : list EntityStat) : list EntityStat :=
  fold_right insert_total [] l.

(** The stages after [$match]. *)
Definition pipeline (matched : list AuditLog.t) : list EntityStat :=
  sort_total (group_entities (group_actions matched)).

(** [auditLogSchema.statics.getStats]. The aggregation applies no schema
    casting: [objectId] is the [ObjectId] constructor and [matcher] the
    store's evaluation of the [$match] stage on a document. *)
Definition getStats (objectId : jsval -> result jsval)
    (matcher : list (string * jsval) -> AuditLog.t -> bool) (options : jsval)
  : M (list EntityStat) :=
  (let options := default_to (JObj []) options in
   AuthController.destructure options ;;;
   env <- ask ;;
   let startDate := JS.get options "startDate" in
   let endDate := JS.get options "endDate" in
   let userId := JS.get options "userId" in
   let entity := JS.get options "entity" in
   userId' <- (if JS.truthy userId
               then (i <- lift_result (objectId userId) ;; ret [("userId", i)])
               else ret []) ;;
   let matchStage :=
     (AuditLogModel.date_range env startDate endDate
      ++ userId'
      ++ (if JS.truthy entity then [("entity", entity)] else []))%list in
   w <- get_world ;;
   ret (pipeline (filter (matcher matchStage) (auditLogs w))))%monad.

(** [AuditLogService.getStats] *)
Definition service_getStats (objectId : jsval -> result jsval)
    (matcher : list (string * jsval) -> AuditLog.t -> bool) (options : jsval)
  : M (list EntityStat) :=
  (try_catch (getStats objectId matcher (default_to (JObj []) options))
     (fun error =>
        console_error "Failed to fetch audit statistics:" error ;;;
        ret []))%monad.

Definition action_json (a : ActionStat) : jsval :=
  JObj [("action", JStr (as_action a));
        ("count", JS.JInt (as_count a));
        ("lastActivity", AuditLogModel.JDate (Int (as_lastActivity a)))].

Definition to_json (g : EntityStat) : jsval :=
  JObj [("_id", es_entity g);
        ("actions", JArr (map action_json (es_actions g)));
        ("totalCount", JS.JInt (es_totalCount g))].

(** [AuditController.getAuditStats] *)
Definition getAuditStats (objectId : jsval -> result jsval)
    (matcher : list (string * jsval) -> AuditLog.t -> bool) (req : Req.t)
  : M Outcome :=
  (AuthController.try_next
     (AuthController.destructure (Req.query req) ;;;
      let startDate := JS.get (Req.query req) "startDate" in
      let endDate := JS.get (Req.query req) "endDate" in
      let userId := JS.get (Req.query req) "userId" in
      let entity := JS.get (Req.query req) "entity" in
      let options :=
        JObj ((if JS.truthy startDate then [("startDate", startDate)] else [])
              ++ (if JS.truthy endDate then [("endDate", endDate)] else [])
              ++ (if JS.truthy userId then [("userId", userId)] else [])
              ++ (if JS.truthy entity then [("entity", entity)] else []))%list in
      stats <- service_getStats objectId matcher options ;;
      ret (Responded 200
             (JObj [("success", JBool true);
                    ("data",
                     JObj [("statistics", JArr (map to_json stats));
                           ("period",
                            JObj [("startDate",
                                   js_or startDate (JStr "All time"));
                                  ("endDate",
                                   js_or endDate (JStr "Present"))])])]))))%monad.

End AuditStats.

(** The sum of the totals of a result, and of the counts of its groups. *)
Fixpoint sum_totals (l : list EntityStat) : Z :=
  match l with
  | [] => 0
  | g :: r => es_totalCount g + sum_totals r
  end.

Fixpoint sum_counts (l : list ActionStat) : Z :=
  match l with
  | [] => 0
  | a :: r => as_count a + sum_counts r
  end.

Fixpoint descending (l : list EntityStat) : Prop :=
  match l with
  | [] => True
  | g :: r =>
      (forall x, In x r -> es_totalCount x <= es_totalCount g) /\ descending r
  end.

(** What holds of every group of the second stage: its total is the sum
    of the counts of its actions, each of which is positive. *)
Definition sound_group (g : EntityStat) : Prop :=
  es_totalCount g = sum_counts (es_actions g)
  /\ Forall (fun a => 0 < as_count a) (es_actions g)
  /\ 0 < es_totalCount g.

(** The statistics a run returned, none if it threw. *)
Definition stats_of (r : result (list EntityStat)) : list EntityStat :=
  match r with
  | Ok stats => stats
  | Throw _ => []
  end.

(** The statistics of the scenario's trail, with the store's usual
    matching and an [ObjectId] constructor that takes 24 hexadecimal
    characters. *)
Definition objectId_of (v : jsval) : result jsval :=
  match v with
  | JStr s =>
      if AuditLogger.objectIdRegex s then Ok v
      else Throw (mkError "BSONError" "input must be a 24 character hex string" None)
  | _ => Throw (mkError "BSONError" "input must be a 24 character hex string" None)
  end.

Definition scenario_stats : result (list EntityStat) * World :=
  AuditStats.getStats objectId_of AuditLogModel.matches (JObj [])
    Scenario.env Scenario.audit_world.

(* ===================================================================== *)
(** ** Properties *)
(* ===================================================================== *)

(** *** Reading a run backwards *)

Lemma bind_Ok {A B} (c : M A) (k : A -> M B) (env : Env) (w w2 : World) (b : B) :
  bind c k env w = (Ok b, w2) ->
  exists a w1, c env w = (Ok a, w1) /\ k a env w1 = (Ok b, w2).
Proof.
  unfold bind. destruct (c env w) as [[a | e] w1]; intros H.
  - exists a, w1. auto.
  - discriminate H.
Qed.

Lemma ret_Ok {A} (a b : A) (env : Env) (w w1 : World) :
  ret a env w = (Ok b, w1) -> b = a /\ w1 = w.
Proof. unfold ret. intros H. inversion H. auto. Qed.

Lemma lift_result_Ok {A} (r : result A) (a : A) (env : Env) (w w1 : World) :
  lift_result r env w = (Ok a, w1) -> r = Ok a /\ w1 = w.
Proof. unfold lift_result. intros H. inversion H. auto. Qed.

Lemma ask_Ok (e env : Env) (w w1 : World) :
  ask env w = (Ok e, w1) -> e = env /\ w1 = w.
Proof. unfold ask. intros H. inversion H. auto. Qed.

Lemma get_world_Ok (x : World) (env : Env) (w w1 : World) :
  get_world env w = (Ok x, w1) -> x = w /\ w1 = w.
Proof. unfold get_world. intros H. inversion H. auto. Qed.

Lemma throw_not_Ok {A} (e : JsError) (a : A) (env : Env) (w w1 : World) :
  throw e env w = (Ok a, w1) -> False.
Proof. unfold throw. intros H. discriminate H. Qed.

(** A guarded handler returns normally in two ways: the body did, or the
    handler did after the body threw. *)
Lemma try_catch_Ok {A} (c : M A) (h : JsError -> M A) (env : Env)
    (w w2 : World) (a : A) :
  try_catch c h env w = (Ok a, w2) ->
  c env w = (Ok a, w2)
  \/ exists e w1, c env w = (Throw e, w1) /\ h e env w1 = (Ok a, w2).
Proof.
  unfold try_catch. destruct (c env w) as [[x | e] w1]; intros H.
  - left. exact H.
  - right. exists e, w1. auto.
Qed.

(** The catch-all of a controller never answers for the body. *)
Lemma try_next_Responded (c : M Outcome) (env : Env) (w w2 : World)
    (status : Z) (body : jsval) :
  AuthController.try_next c env w = (Ok (Responded status body), w2) ->
  c env w = (Ok (Responded status body), w2).
Proof.
  intros H. apply try_catch_Ok in H. destruct H as [H | (e & w1 & _ & H)].
  - exact H.
  - apply ret_Ok in H. destruct H as [H _]. discriminate H.
Qed.

Lemma destructure_Ok (v : jsval) (env : Env) (w w1 : World) (u : unit) :
  AuthController.destructure v env w = (Ok u, w1) -> w1 = w.
Proof.
  destruct v; cbn; intros H; inversion H; reflexivity.
Qed.

(** *** Computations that only read *)

Lemma readonly_ret {A} (a : A) : readonly (ret a).
Proof. intros env w. reflexivity. Qed.

Lemma readonly_throw {A} (e : JsError) : readonly (@throw A e).
Proof. intros env w. reflexivity. Qed.

Lemma readonly_lift {A} (r : result A) : readonly (lift_result r).
Proof. intros env w. reflexivity. Qed.

Lemma readonly_ask : readonly ask.
Proof. intros env w. reflexivity. Qed.

Lemma readonly_get_world : readonly get_world.
Proof. intros env w. reflexivity. Qed.

Lemma readonly_Date_now : readonly Date_now.
Proof. intros env w. reflexivity. Qed.

Lemma readonly_bind {A B} (c : M A) (k : A -> M B) :
  readonly c -> (forall a, readonly (k a)) -> readonly (bind c k).
Proof.
  intros Hc Hk env w. unfold bind. specialize (Hc env w).
  destruct (c env w) as [[a | e] w1]; cbn in *; subst; [apply Hk | reflexivity].
Qed.

Lemma readonly_if {A} (b : bool) (c d : M A) :
  readonly c -> readonly d -> readonly (if b then c else d).
Proof. destruct b; auto. Qed.

Lemma readonly_run {A} (c : M A) (env : Env) (w w1 : World) (r : result A) :
  readonly c -> c env w = (r, w1) -> w1 = w.
Proof. intros Hc H. specialize (Hc env w). rewrite H in Hc. exact Hc. Qed.

Create HintDb readonly.
#[export] Hint Resolve readonly_ret readonly_throw readonly_lift readonly_ask
  readonly_get_world readonly_Date_now : readonly.

Ltac readonly_step :=
  first
    [ apply readonly_bind; [| intros ?]
    | apply readonly_if
    | solve [auto with readonly] ].

Ltac prove_readonly := repeat readonly_step.

(** *** Recording never fails its caller *)

Lemma model_createLog_absorbs (p : AuditLogModel.params) (env : Env) (w : World) :
  exists r w', AuditLogModel.createLog p env w = (Ok r, w') /\ recorded env w w' r.
Proof.
  unfold AuditLogModel.createLog, try_catch, bind, lift_result.
  destruct (toUpperCase_m (AuditLogModel.action p)) as [a | e]; cbn.
  2: { eexists _, _; split; [reflexivity |]. repeat split; cbn; eauto. }
  destruct (toString_m (AuditLogModel.entityId p)) as [i | e]; cbn.
  2: { eexists _, _; split; [reflexivity |]. repeat split; cbn; eauto. }
  match goal with |- context [AuditLogModel.document ?id ?u ?a ?e ?i ?c ?m ?t ?d] =>
    destruct (AuditLogModel.document id u a e i c m t d) as [doc |] end; cbn.
  2: { eexists _, _; split; [reflexivity |]. repeat split; cbn; eauto. }
  unfold AuditLogModel.save; cbn.
  destruct (audit_save_ok env doc) eqn:Hok; cbn.
  - eexists _, _; split; [reflexivity |]. repeat split; cbn; eauto.
  - eexists _, _; split; [reflexivity |]. repeat split; cbn; eauto.
Qed.

(** The recorder leaves the accounts, the outbox and the clock alone. *)
Lemma model_createLog_frame (p : AuditLogModel.params) (env : Env)
    (w w' : World) (r : result (option AuditLog.t)) :
  AuditLogModel.createLog p env w = (r, w') ->
  users w' = users w /\ outbox w' = outbox w /\ now w' = now w.
Proof.
  unfold AuditLogModel.createLog, try_catch, bind, lift_result.
  destruct (toUpperCase_m (AuditLogModel.action p)) as [a | e]; cbn;
    [| intros H; inversion H; cbn; auto].
  destruct (toString_m (AuditLogModel.entityId p)) as [i | e]; cbn;
    [| intros H; inversion H; cbn; auto].
  match goal with |- context [AuditLogModel.document ?id ?u ?a ?e ?i ?c ?m ?t ?d] =>
    destruct (AuditLogModel.document id u a e i c m t d) as [doc |] end; cbn;
    [| intros H; inversion H; cbn; auto].
  unfold AuditLogModel.save; cbn.
  destruct (audit_save_ok env doc); cbn; intros H; inversion H; cbn; auto.
Qed.

Lemma service_createLog_frame (p : AuditLogModel.params) (env : Env)
    (w w' : World) (r : result (option AuditLog.t)) :
  AuditLogService.createLog p env w = (r, w') ->
  users w' = users w /\ outbox w' = outbox w /\ now w' = now w.
Proof.
  unfold AuditLogService.createLog, try_catch.
  match goal with |- context [AuditLogModel.createLog ?q env w] =>
    destruct (model_createLog_absorbs q env w) as (x & w1 & E & _);
    pose proof (model_createLog_frame q env w w1 _ E) as F end.
  rewrite E. intros H. inversion H; subst. exact F.
Qed.

Lemma service_createLog_absorbs (p : AuditLogModel.params) (env : Env) (w : World) :
  exists r w', AuditLogService.createLog p env w = (Ok r, w') /\ recorded env w w' r.
Proof.
  unfold AuditLogService.createLog, try_catch.
  match goal with |- context [AuditLogModel.createLog ?q env w] =>
    destruct (model_createLog_absorbs q env w) as (r & w' & E & R) end.
  rewrite E. eauto.
Qed.

(** C6. Appending an audit entry never raises: the store's [createLog]
    and the service's [createLog] both return normally on every input,
    giving either the entry that was persisted or [null]; in the latter
    case nothing is stored and one line is written to the console. *)
Theorem createLog_never_raises (p : AuditLogModel.params) (env : Env) (w : World) :
  (exists r w', AuditLogModel.createLog p env w = (Ok r, w') /\ recorded env w w' r)
  /\ (exists r w', AuditLogService.createLog p env w = (Ok r, w') /\ recorded env w w' r).
Proof.
  split; [apply model_createLog_absorbs | apply service_createLog_absorbs].
Qed.

(** A rejected write is reported as [null]. *)
Lemma createLog_storage_error (p : AuditLogModel.params) (env : Env) (w : World) :
  (forall doc, audit_save_ok env doc = false) ->
  exists w', AuditLogService.createLog p env w = (Ok None, w').
Proof.
  intros Hrej.
  destruct (service_createLog_absorbs p env w) as (r & w' & E & _ & R).
  destruct r as [doc |]; [| eauto].
  destruct R as (Hok & _). rewrite Hrej in Hok. discriminate.
Qed.

(** *** What a persisted entry holds *)

(** The fields of a document that could be built. *)
Lemma document_Some (id : string) (userId : jsval) (action : string)
    (entity : jsval) (entityId : string) (changes metadata : jsval)
    (timestamp : Z) (description : jsval) (doc : AuditLog.t) :
  AuditLogModel.document id userId action entity entityId changes metadata
    timestamp description = Some doc ->
  AuditLog._id doc = id
  /\ AuditLog.userId doc = userId
  /\ AuditLog.action doc = action
  /\ AuditLogModel.string_path false true entity = Some (AuditLog.entity doc)
  /\ AuditLog.entityId doc = entityId
  /\ AuditLog.changes doc = AuditLogModel.changes_path changes
  /\ AuditLogModel.metadata_path metadata = Some (AuditLog.metadata doc)
  /\ AuditLog.timestamp doc = timestamp
  /\ AuditLogModel.string_path false true description
     = Some (AuditLog.description doc).
Proof.
  unfold AuditLogModel.document.
  destruct (AuditLogModel.string_path false true entity) as [e |];
    [| intros H; discriminate H].
  destruct (AuditLogModel.metadata_path metadata) as [m |];
    [| intros H; discriminate H].
  destruct (AuditLogModel.string_path false true description) as [d |];
    [| intros H; discriminate H].
  intros H. injection H as <-. cbn. repeat split; reflexivity.
Qed.

Lemma model_createLog_persists (p : AuditLogModel.params) (env : Env)
    (w w' : World) (doc : AuditLog.t) :
  AuditLogModel.createLog p env w = (Ok (Some doc), w') ->
  AuditLog.userId doc = AuditLogModel.userId p
  /\ toUpperCase_m (AuditLogModel.action p) = Ok (AuditLog.action doc)
  /\ AuditLogModel.string_path false true (AuditLogModel.entity p)
     = Some (AuditLog.entity doc)
  /\ toString_m (AuditLogModel.entityId p) = Ok (AuditLog.entityId doc)
  /\ AuditLog.changes doc
     = AuditLogModel.changes_path (default_to (JObj []) (AuditLogModel.changes p))
  /\ AuditLogModel.string_path false true
       (default_to (JStr "") (AuditLogModel.description p))
     = Some (AuditLog.description doc)
  /\ AuditLog.timestamp doc = now w
  /\ auditLogs w' = (auditLogs w ++ [doc])%list
  /\ users w' = users w.
Proof.
  unfold AuditLogModel.createLog, try_catch, bind, lift_result.
  destruct (toUpperCase_m (AuditLogModel.action p)) as [a | e]; cbn;
    [| intros H; inversion H].
  destruct (toString_m (AuditLogModel.entityId p)) as [i | e]; cbn;
    [| intros H; inversion H].
  match goal with |- context [AuditLogModel.document ?id ?u ?a ?e ?i ?c ?m ?t ?d] =>
    destruct (AuditLogModel.document id u a e i c m t d) as [built |] eqn:D end;
    cbn; [| intros H; inversion H].
  apply document_Some in D.
  destruct D as (_ & Du & Da & De & Di & Dc & _ & Dt & Dd).
  unfold AuditLogModel.save; cbn.
  destruct (audit_save_ok env built); cbn; intros H; inversion H; subst doc;
    subst w'; cbn.
  rewrite Du, Da, Di, Dc, Dt. repeat split; assumption.
Qed.

Lemma default_to_idem (d v : jsval) : default_to d (default_to d v) = default_to d v.
Proof. destruct v; cbn; try reflexivity. destruct d; reflexivity. Qed.

Lemma service_createLog_persists (p : AuditLogModel.params) (env : Env)
    (w w' : World) (doc : AuditLog.t) :
  AuditLogService.createLog p env w = (Ok (Some doc), w') ->
  AuditLog.userId doc = AuditLogModel.userId p
  /\ toUpperCase_m (AuditLogModel.action p) = Ok (AuditLog.action doc)
  /\ AuditLogModel.string_path false true (AuditLogModel.entity p)
     = Some (AuditLog.entity doc)
  /\ toString_m (AuditLogModel.entityId p) = Ok (AuditLog.entityId doc)
  /\ AuditLog.changes doc
     = AuditLogModel.changes_path (default_to (JObj []) (AuditLogModel.changes p))
  /\ AuditLogModel.string_path false true
       (default_to (JStr "") (AuditLogModel.description p))
     = Some (AuditLog.description doc)
  /\ AuditLog.timestamp doc = now w
  /\ auditLogs w' = (auditLogs w ++ [doc])%list
  /\ users w' = users w.
Proof.
  unfold AuditLogService.createLog, try_catch.
  match goal with |- context [AuditLogModel.createLog ?q env w] =>
    destruct (model_createLog_absorbs q env w) as (r & w1 & E & R);
    pose proof (model_createLog_persists q env w w1) as P end.
  rewrite E in *. intros H; inversion H; subst.
  specialize (P doc eq_refl). cbn in P.
  rewrite !default_to_idem in P. exact P.
Qed.

(** *** Forgot-password *)

(** C1. At a concrete pair of requests the code answers differently:
    for an address no account has, the body is the generic message; for
    the address of an active account, once the mail is sent, the body
    carries another message, so the two serialised bodies differ. *)
Theorem forgotPassword_bodies_differ :
  exists unknown known,
    fst (AuthController.forgotPassword
           (Scenario.post "/api/auth/forgot-password"
              (JObj [("email", JStr "nobody@example.com")]) None)
           Scenario.env Scenario.world) = Ok (Responded 200 unknown)
    /\ fst (AuthController.forgotPassword
              (Scenario.post "/api/auth/forgot-password"
                 (JObj [("email", JStr "alice@example.com")]) None)
              Scenario.env Scenario.world) = Ok (Responded 200 known)
    /\ Json.stringify unknown <> Json.stringify known.
Proof.
  eexists _, _. split; [vm_compute; reflexivity |].
  split; [vm_compute; reflexivity |].
  vm_compute. intros H. discriminate H.
Qed.

(** The unknown-address branch, in general: the generic body, and a
    world left as it was. *)
Lemma forgotPassword_unknown_address (env : Env) (w : World) (req : Req.t)
    (address : string) :
  toLowerCase_m (JS.get (Req.body req) "email") = Ok address ->
  List.find (fun u => String.eqb (User.email u) address) (users w) = None ->
  AuthController.forgotPassword req env w
  = (Ok (Responded 200 AuthController.generic_reset_body), w).
Proof.
  intros Hl Hf.
  unfold AuthController.forgotPassword, AuthController.try_next, try_catch, bind.
  assert (Hd : AuthController.destructure (Req.body req) env w = (Ok tt, w)).
  { destruct (Req.body req); cbn in *; try reflexivity; discriminate Hl. }
  rewrite Hd. unfold lift_result. rewrite Hl.
  unfold UserModel.findOne_email, bind, get_world, ret. rewrite Hf. reflexivity.
Qed.

(** The branch of an active account whose mail is delivered: another
    body. *)
Lemma forgotPassword_known_address (env : Env) (w : World) (req : Req.t)
    (address : string) (user : User.t) :
  toLowerCase_m (JS.get (Req.body req) "email") = Ok address ->
  List.find (fun u => String.eqb (User.email u) address) (users w) = Some user ->
  User.isActive user = true ->
  (forall u, user_save_ok env u = true) ->
  email_configured env = true ->
  (forall m, email_send_ok env m = true) ->
  fst (AuthController.forgotPassword req env w)
  = Ok (Responded 200
          (JObj [("success", JBool true);
                 ("message", JStr "Password reset link has been sent to your email.")])).
Proof.
  intros Hl Hf Ha Hsave Hconf Hsend.
  unfold AuthController.forgotPassword, AuthController.try_next, try_catch, bind.
  assert (Hd : AuthController.destructure (Req.body req) env w = (Ok tt, w)).
  { destruct (Req.body req); cbn in *; try reflexivity; discriminate Hl. }
  rewrite Hd. unfold lift_result. rewrite Hl.
  unfold UserModel.findOne_email, bind, get_world, ret. rewrite Hf, Ha. cbn.
  unfold UserModel.save, bind, ask, get_world. rewrite Hsave. cbn.
  unfold EmailService.isConfigured, bind, ask, ret. rewrite Hconf.
  unfold EmailService.sendPasswordResetEmail. rewrite Hsend.
  unfold AuditLogService.logUpdate.
  match goal with |- context [AuditLogService.createLog ?q env ?w1] =>
    destruct (service_createLog_absorbs q env w1) as (r & w2 & E & _) end.
  rewrite E. reflexivity.
Qed.

(** *** Sanitising of snapshots *)

Lemma assoc_delete_same (k : string) (fs : list (string * jsval)) :
  JS.assoc k (JS.delete k fs) = None.
Proof.
  induction fs as [| [k' v] r IH]; cbn; [reflexivity |].
  destruct (String.eqb k k') eqn:E; cbn; [exact IH |].
  rewrite E. exact IH.
Qed.

Lemma assoc_delete_other (k g : string) (fs : list (string * jsval)) :
  String.eqb g k = false ->
  JS.assoc k (JS.delete g fs) = JS.assoc k fs.
Proof.
  intros Hne.
  induction fs as [| [k' v] r IH]; cbn; [reflexivity |].
  destruct (String.eqb g k') eqn:E; cbn.
  - apply String.eqb_eq in E. subst k'.
    rewrite String.eqb_sym, Hne. exact IH.
  - destruct (String.eqb k k'); [reflexivity | exact IH].
Qed.

(** One step of the loop over the sensitive fields. *)
Lemma sanitize_step_kills (f : string) (s : list (string * jsval)) :
  JS.truthy
    (JS.get (JObj (if JS.truthy (JS.get (JObj s) f) then JS.delete f s else s)) f)
  = false.
Proof.
  destruct (JS.truthy (JS.get (JObj s) f)) eqn:E; [| exact E].
  cbn. rewrite assoc_delete_same. reflexivity.
Qed.

Lemma sanitize_step_keeps (f g : string) (s : list (string * jsval)) :
  JS.truthy (JS.get (JObj s) f) = false ->
  JS.truthy
    (JS.get (JObj (if JS.truthy (JS.get (JObj s) g) then JS.delete g s else s)) f)
  = false.
Proof.
  intros H.
  destruct (String.eqb g f) eqn:Egf.
  - apply String.eqb_eq in Egf. subst g. apply sanitize_step_kills.
  - destruct (JS.truthy (JS.get (JObj s) g)); [| exact H].
    cbn in *. rewrite assoc_delete_other by exact Egf. exact H.
Qed.

Lemma sanitize_fold_keeps (f : string) (fields : list string) :
  forall s,
    JS.truthy (JS.get (JObj s) f) = false ->
    JS.truthy
      (JS.get
         (JObj (fold_left
                  (fun sanitized field =>
                     if JS.truthy (JS.get (JObj sanitized) field)
                     then JS.delete field sanitized else sanitized)
                  fields s)) f) = false.
Proof.
  induction fields as [| g r IH]; intros s H; cbn [fold_left]; [exact H |].
  apply IH. apply sanitize_step_keeps. exact H.
Qed.

Lemma sanitize_fold_kills (f : string) (fields : list string) :
  In f fields ->
  forall s,
    JS.truthy
      (JS.get
         (JObj (fold_left
                  (fun sanitized field =>
                     if JS.truthy (JS.get (JObj sanitized) field)
                     then JS.delete field sanitized else sanitized)
                  fields s)) f) = false.
Proof.
  induction fields as [| g r IH]; intros Hin s; [destruct Hin |].
  cbn [fold_left]. destruct Hin as [-> | Hin].
  - apply sanitize_fold_keeps. apply sanitize_step_kills.
  - apply IH. exact Hin.
Qed.

(** After [sanitizeData], no sensitive field holds a truthy value at the
    top level. *)
Lemma sanitizeData_removes (data : jsval) (field : string) :
  In field AuditLogger.sensitiveFields ->
  JS.truthy (JS.get (AuditLogger.sanitizeData data) field) = false.
Proof.
  intros Hin. unfold AuditLogger.sanitizeData.
  destruct (negb (JS.truthy data) || negb (JS.typeof_object data)) eqn:E.
  - destruct data; cbn in *; try reflexivity; try discriminate E.
    repeat (destruct Hin as [<- | Hin]; [reflexivity |]). destruct Hin.
  - apply sanitize_fold_kills. exact Hin.
Qed.

(** C2, as stated, fails: an entry recorded through [logCreate] keeps the
    password its caller put in the snapshot. *)
Lemma logCreate_keeps_password :
  exists doc w',
    AuditLogService.logCreate (JStr (oid 1)) (JStr "User") (JStr (oid 1))
      (JObj [("email", JStr "alice@example.com");
             ("password", JStr "Password123")])
      None (JStr "created") Scenario.env Scenario.world
    = (Ok (Some doc), w')
    /\ In doc (auditLogs w')
    /\ JS.get (JS.get (AuditLog.changes doc) "after") "password"
       = JStr "Password123".
Proof.
  eexists _, _. split; [vm_compute; reflexivity |].
  split; [cbn; left; reflexivity | reflexivity].
Qed.

(** C2, amended. The sanitising is done by the interceptor: in the
    snapshot it builds, the "after" side never holds a truthy value under
    one of the five sensitive names. The recording service removes
    nothing: [logCreate], [logUpdate] and [logDelete] store the
    snapshots their caller gives them, every field included, a snapshot
    that is [undefined] being stored as [null], the default of the
    schema. *)
Theorem snapshots_sanitised_by_interceptor_only :
  (forall (req : Req.t) (responseData : jsval) (field : string),
      In field AuditLogger.sensitiveFields ->
      JS.truthy
        (JS.get (JS.get (AuditLogger.changes_of req responseData) "after") field)
      = false)
  /\ (forall env w w' doc userId entity entityId data req description,
         AuditLogService.logCreate userId entity entityId data req description env w
         = (Ok (Some doc), w') ->
         AuditLog.changes doc
         = JObj [("before", JNull); ("after", default_to JNull data)])
  /\ (forall env w w' doc userId entity entityId before after req description,
         AuditLogService.logUpdate userId entity entityId before after req
           description env w
         = (Ok (Some doc), w') ->
         AuditLog.changes doc
         = JObj [("before", default_to JNull before);
                 ("after", default_to JNull after)])
  /\ (forall env w w' doc userId entity entityId data req description,
         AuditLogService.logDelete userId entity entityId data req description env w
         = (Ok (Some doc), w') ->
         AuditLog.changes doc
         = JObj [("before", default_to JNull data); ("after", JNull)]).
Proof.
  split; [| split; [| split]].
  - intros req responseData field Hin. unfold AuditLogger.changes_of.
    destruct (String.eqb (Req.method req) "POST" && JS.truthy responseData
              && JS.truthy (JS.get responseData "data")).
    + cbn. apply sanitizeData_removes. exact Hin.
    + destruct (String.eqb (Req.method req) "PUT"
                || String.eqb (Req.method req) "PATCH").
      * cbn. apply sanitizeData_removes. exact Hin.
      * destruct (String.eqb (Req.method req) "DELETE"); reflexivity.
  - intros env w w' doc userId entity entityId data req description H.
    apply service_createLog_persists in H.
    destruct H as (_ & _ & _ & _ & H & _). exact H.
  - intros env w w' doc userId entity entityId before after req description H.
    apply service_createLog_persists in H.
    destruct H as (_ & _ & _ & _ & H & _). exact H.
  - intros env w w' doc userId entity entityId data req description H.
    apply service_createLog_persists in H.
    destruct H as (_ & _ & _ & _ & H & _). exact H.
Qed.

Lemma snapshots_sanitised_by_interceptor_only_witness :
  JS.truthy
    (JS.get
       (JS.get
          (AuditLogger.changes_of
             (Scenario.post "/api/auth/signup"
                (JObj [("password", JStr "Password123")]) (Some Scenario.alice))
             (JObj [("success", JBool true);
                    ("data", JObj [("user", JObj [("id", JStr (oid 1))]);
                                   ("accessToken", JStr "jwt-a");
                                   ("refreshToken", JStr "jwt-r")])]))
          "after") "accessToken") = false
  /\ AuditLog.changes
       (AuditLog.mk (oid 3) (JStr (oid 1)) "CREATE" (JStr "User") (oid 1)
          (JObj [("before", JNull);
                 ("after", JObj [("password", JStr "Password123")])])
          (JObj []) 1700000000000 (JStr "created"))
     = JObj [("before", JNull);
             ("after",
              default_to JNull (JObj [("password", JStr "Password123")]))]
  /\ AuditLog.changes
       (AuditLog.mk (oid 3) (JStr (oid 1)) "UPDATE" (JStr "User") (oid 1)
          (JObj [("before", JNull);
                 ("after", JObj [("password", JStr "new")])])
          (JObj []) 1700000000000 (JStr "changed"))
     = JObj [("before", default_to JNull JUndefined);
             ("after", default_to JNull (JObj [("password", JStr "new")]))]
  /\ AuditLog.changes
       (AuditLog.mk (oid 3) (JStr (oid 1)) "DELETE" (JStr "User") (oid 1)
          (JObj [("before", JObj [("refreshToken", JStr "jwt-r")]);
                 ("after", JNull)])
          (JObj []) 1700000000000 (JStr "removed"))
     = JObj [("before",
              default_to JNull (JObj [("refreshToken", JStr "jwt-r")]));
             ("after", JNull)].
Proof.
  split; [| split; [| split]].
  - apply (proj1 snapshots_sanitised_by_interceptor_only).
    cbn. right. right. right. right. left. reflexivity.
  - apply (proj1 (proj2 snapshots_sanitised_by_interceptor_only)
             Scenario.env Scenario.world
             (mkWorld (users Scenario.world)
                [AuditLog.mk (oid 3) (JStr (oid 1)) "CREATE" (JStr "User") (oid 1)
                   (JObj [("before", JNull);
                          ("after", JObj [("password", JStr "Password123")])])
                   (JObj []) 1700000000000 (JStr "created")]
                [] [] 1700000000000 4)
             _ (JStr (oid 1)) (JStr "User") (JStr (oid 1))
             (JObj [("password", JStr "Password123")])
             None (JStr "created")).
    vm_compute. reflexivity.
  - apply (proj1 (proj2 (proj2 snapshots_sanitised_by_interceptor_only))
             Scenario.env Scenario.world
             (mkWorld (users Scenario.world)
                [AuditLog.mk (oid 3) (JStr (oid 1)) "UPDATE" (JStr "User") (oid 1)
                   (JObj [("before", JNull);
                          ("after", JObj [("password", JStr "new")])])
                   (JObj []) 1700000000000 (JStr "changed")]
                [] [] 1700000000000 4)
             _ (JStr (oid 1)) (JStr "User") (JStr (oid 1))
             JUndefined (JObj [("password", JStr "new")])
             None (JStr "changed")).
    vm_compute. reflexivity.
  - apply (proj2 (proj2 (proj2 snapshots_sanitised_by_interceptor_only))
             Scenario.env Scenario.world
             (mkWorld (users Scenario.world)
                [AuditLog.mk (oid 3) (JStr (oid 1)) "DELETE" (JStr "User") (oid 1)
                   (JObj [("before", JObj [("refreshToken", JStr "jwt-r")]);
                          ("after", JNull)])
                   (JObj []) 1700000000000 (JStr "removed")]
                [] [] 1700000000000 4)
             _ (JStr (oid 1)) (JStr "User") (JStr (oid 1))
             (JObj [("refreshToken", JStr "jwt-r")])
             None (JStr "removed")).
    vm_compute. reflexivity.
Defined.
(** *** What the interceptor derives from the method and the path *)

Lemma split_acc_nonempty (sep : ascii) (s acc : string) :
  Str.split_acc sep acc s <> [].
Proof.
  revert acc. induction s as [| c r IH]; intros acc; cbn [Str.split_acc].
  - discriminate.
  - destruct (Ascii.eqb c sep); [discriminate | apply IH].
Qed.

(** A key read from an object literal whose own values are texts gives a
    text, or what the literal inherits: a function, the prototype, or
    nothing. *)
Lemma index_shape (fs : list (string * jsval)) (k : string) :
  Forall (fun kv => exists s, snd kv = JStr s) fs ->
  (exists s, JS.index fs k = JStr s /\ In (k, JStr s) fs)
  \/ (exists n, JS.index fs k = JFun n)
  \/ JS.index fs k = JS.Object_prototype
  \/ JS.index fs k = JUndefined.
Proof.
  intros Hall. unfold JS.index.
  destruct (JS.assoc k fs) as [v |] eqn:A.
  - left. induction fs as [| [k' x] r IH]; [discriminate A |].
    inversion Hall as [| ? ? [s Hs] Hr]; subst. cbn in A, Hs.
    destruct (String.eqb k k') eqn:E.
    + apply String.eqb_eq in E. subst k'. injection A as <-. subst x.
      exists s. split; [reflexivity | left; reflexivity].
    + destruct (IH Hr A) as (s' & -> & Hin). exists s'. split; [reflexivity |].
      right. exact Hin.
  - right.
    destruct (String.eqb k "constructor"); [left; eauto |].
    destruct (String.eqb k "__proto__"); [right; left; reflexivity |].
    destruct (existsb (String.eqb k) JS.prototype_methods);
      [left; eauto | right; right; reflexivity].
Qed.

Lemma methodActionMap_texts :
  Forall (fun kv : string * jsval => exists s, snd kv = JStr s)
    AuditLogger.methodActionMap.
Proof. repeat constructor; cbn; eauto. Qed.


(** The action of a method is one of the four of the schema, or, for a
    method that bears the name of a member of [Object.prototype], a
    value that has no upper case. *)
Lemma getActionFromMethod_cases (method : string) :
  (exists a,
      AuditLogger.getActionFromMethod method = JStr a
      /\ In a ["CREATE"; "READ"; "UPDATE"; "DELETE"])
  \/ exists e,
       toUpperCase_m (AuditLogger.getActionFromMethod method) = Throw e.
Proof.
  unfold AuditLogger.getActionFromMethod, js_or.
  destruct (index_shape AuditLogger.methodActionMap method methodActionMap_texts)
    as [(s & E & Hin) | [(n & E) | [E | E]]]; rewrite E.
  - left. cbn in Hin.
    destruct Hin as [Hin | [Hin | [Hin | [Hin | [Hin | []]]]]];
      injection Hin as _ <-; cbn; eexists; (split; [reflexivity | cbn; tauto]).
  - right. cbn. eauto.
  - right. cbn. eauto.
  - left. cbn. exists "READ". split; [reflexivity | cbn; tauto].
Qed.


Lemma toUpperCase_action (a : string) :
  In a ["CREATE"; "READ"; "UPDATE"; "DELETE"] -> Str.toUpperCase a = a.
Proof.
  cbn. intros [<- | [<- | [<- | [<- | []]]]]; reflexivity.
Qed.




(** *** The recorder on an entry the store accepts *)



(** *** The sentinel entity id *)


(** The id the interceptor derives is never falsy, so the guard on it
    never skips a request. *)
Lemma extractEntityId_truthy (path : string) (body responseData : jsval) :
  JS.truthy (AuditLogger.extractEntityIdFromPath path body responseData) = true.
Proof.
  unfold AuditLogger.extractEntityIdFromPath.
  destruct (List.find AuditLogger.objectIdRegex (Str.split "/" path)) as [part |] eqn:F.
  - apply find_some in F. destruct F as [_ F].
    unfold AuditLogger.objectIdRegex in F. apply andb_prop in F.
    destruct F as [F _]. destruct part; [discriminate F | reflexivity].
  - unfold AuditLogger.id_from_response, AuditLogger.id_from_body.
    repeat match goal with
           | |- context [if ?c then _ else _] => destruct c eqn:?
           end; cbn; try reflexivity; try assumption;
      repeat match goal with
             | H : _ && _ = true |- _ => apply andb_prop in H; destruct H
             end; assumption.
Qed.




(** Logging is skipped when the path gives no entity name. *)
Lemma logRequest_skips_empty_entity (env : Env) (w : World) (req : Req.t)
    (responseData statusCode : jsval) :
  JS.truthy (AuditLogger.extractEntityFromPath (Req.path req)) = false ->
  AuditLogger.logRequest req responseData statusCode env w = (Ok tt, w).
Proof.
  intros Hent. unfold AuditLogger.logRequest, try_catch.
  destruct (Req.user req); [| reflexivity].
  destruct (String.eqb (Req.method req) "GET"
            && negb (AuditLogger.shouldLogGetRequest (Req.path req)));
    [reflexivity |].
  rewrite Hent. reflexivity.
Qed.

(** A path that is the name of a function of [Object.prototype] is
    recorded under the source text of that function. *)
Lemma logRequest_inherited_entity :
  exists doc,
    auditLogs
      (snd (AuditLogger.logRequest
              (Scenario.post "/api/constructor" (JObj [("name", JStr "lamp")])
                 (Some Scenario.alice))
              (JObj [("success", JBool true)]) (JS.JInt 201)
              Scenario.env Scenario.world))
    = (auditLogs Scenario.world ++ [doc])%list
    /\ AuditLog.entity doc = JStr "function Object() { [native code] }"
    /\ AuditLog.entityId doc = "unknown".
Proof.
  eexists. split; [vm_compute; reflexivity | split; reflexivity].
Qed.

(** Under [/api/__proto__] the entity is the prototype itself, which no
    text path holds: the entry is refused and nothing is recorded. *)
Lemma logRequest_prototype_entity :
  exists line,
    AuditLogger.logRequest
      (Scenario.post "/api/__proto__" (JObj [("name", JStr "lamp")])
         (Some Scenario.alice))
      (JObj [("success", JBool true)]) (JS.JInt 201)
      Scenario.env Scenario.world
    = (Ok tt,
       mkWorld (users Scenario.world) (auditLogs Scenario.world) [line]
         (outbox Scenario.world) (now Scenario.world)
         (S (next_oid Scenario.world))).
Proof. eexists. vm_compute. reflexivity. Qed.

(** *** Membership through the query pipeline *)

Lemma In_insert_desc (d x : AuditLog.t) (l : list AuditLog.t) :
  In x (AuditLogModel.insert_desc d l) -> x = d \/ In x l.
Proof.
  induction l as [| y r IH]; cbn.
  - intros [H | []]; auto.
  - destruct (AuditLog.timestamp y <? AuditLog.timestamp d); cbn.
    + intros [H | [H | H]]; auto.
    + intros [H | H]; auto. destruct (IH H); auto.
Qed.

Lemma In_sort_desc (x : AuditLog.t) (l : list AuditLog.t) :
  In x (AuditLogModel.sort_desc l) -> In x l.
Proof.
  induction l as [| y r IH]; cbn; [auto |].
  intros H. apply In_insert_desc in H. destruct H as [-> | H]; auto.
Qed.

Lemma In_firstn {A} (n : nat) (x : A) (l : list A) : In x (firstn n l) -> In x l.
Proof.
  revert l. induction n as [| n IH]; intros [| y r]; cbn; try tauto.
  intros [H | H]; auto.
Qed.

Lemma In_skipn {A} (n : nat) (x : A) (l : list A) : In x (skipn n l) -> In x l.
Proof.
  revert l. induction n as [| n IH]; intros [| y r]; cbn; try tauto.
  intros H. right. apply IH. exact H.
Qed.

Lemma In_limit (n : number) (l l' : list AuditLog.t) (x : AuditLog.t) :
  AuditLogModel.limit n l = Ok l' -> In x l' -> In x l.
Proof.
  destruct n as [| z]; cbn; [discriminate |].
  destruct (z =? 0); intros H; inversion H; subst; auto. apply In_firstn.
Qed.

Lemma In_skip (n : number) (l l' : list AuditLog.t) (x : AuditLog.t) :
  AuditLogModel.skip n l = Ok l' -> In x l' -> In x l.
Proof.
  destruct n as [| z]; cbn; [discriminate |].
  destruct (z <? 0); intros H; inversion H; subst. apply In_skipn.
Qed.

Lemma eqb_JStr (v : jsval) (s : string) :
  AuditLogModel.eqb v (JStr s) = true -> v = JStr s.
Proof.
  destruct v as [| | b | [| z] | t | xs | fs | fn]; cbn; try discriminate.
  intros H. apply String.eqb_eq in H. congruence.
Qed.

Lemma matches_In (query : list (string * jsval)) (doc : AuditLog.t)
    (k : string) (v : jsval) :
  AuditLogModel.matches query doc = true ->
  In (k, v) query ->
  AuditLogModel.field_matches k v doc = true.
Proof.
  unfold AuditLogModel.matches. rewrite forallb_forall.
  intros H Hin. exact (H (k, v) Hin).
Qed.

(** *** Own entries only *)

Lemma In_paginate (page limit_ : jsval) (l l' : list AuditLog.t) (x : AuditLog.t) :
  AuditLogModel.paginate page limit_ l = Ok l' -> In x l' -> In x l.
Proof.
  unfold AuditLogModel.paginate.
  match goal with |- context [AuditLogModel.skip ?n l] =>
    destruct (AuditLogModel.skip n l) as [skipped | e] eqn:Hskip end;
    [| intros H; discriminate H].
  intros Hlimit Hin.
  apply (In_skip _ _ _ _ Hskip). apply (In_limit _ _ _ _ Hlimit). exact Hin.
Qed.

Lemma readonly_find (query : list (string * jsval)) :
  readonly (AuditLogModel.find query).
Proof. unfold AuditLogModel.find. prove_readonly. Qed.

Lemma readonly_model_getEntityLogs (entity entityId options : jsval) :
  readonly (AuditLogModel.getEntityLogs entity entityId options).
Proof.
  unfold AuditLogModel.getEntityLogs. prove_readonly.
Qed.

Lemma readonly_model_getUserActivity (userId options : jsval) :
  readonly (AuditLogModel.getUserActivity userId options).
Proof.
  unfold AuditLogModel.getUserActivity. prove_readonly.
Qed.

Lemma find_Ok (query : list (string * jsval)) (env : Env) (w w1 : World)
    (found : list AuditLog.t) :
  AuditLogModel.find query env w = (Ok found, w1) ->
  w1 = w /\ found = filter (AuditLogModel.matches query) (auditLogs w).
Proof.
  unfold AuditLogModel.find.
  destruct (AuditLogModel.castable query).
  - intros H. apply bind_Ok in H. destruct H as (x & w0 & H0 & H).
    apply get_world_Ok in H0. destruct H0 as [-> ->].
    apply ret_Ok in H. destruct H as [-> ->]. auto.
  - intros H. apply throw_not_Ok in H. destruct H.
Qed.

(** The store's entity query, given an actor filter: every entry it
    returns is a stored entry of that actor, populated. *)
Lemma model_getEntityLogs_by_actor (env : Env) (w w1 : World)
    (entity entityId options uid : jsval) (logs : list AuditLog.t) :
  JS.get options "userId" = uid ->
  JS.truthy uid = true ->
  AuditLogModel.getEntityLogs entity entityId options env w = (Ok logs, w1) ->
  w1 = w
  /\ forall doc, In doc logs ->
       exists orig,
         In orig (auditLogs w)
         /\ AuditLogModel.eqb (AuditLog.userId orig) uid = true
         /\ doc = AuditLogModel.populate (users w) orig.
Proof.
  intros Hget Htruthy H.
  unfold AuditLogModel.getEntityLogs in H. rewrite Hget, Htruthy in H.
  apply bind_Ok in H. destruct H as (env' & w2 & H0 & H).
  apply ask_Ok in H0. destruct H0 as [-> ->].
  apply bind_Ok in H. destruct H as (i & w2 & H0 & H).
  apply lift_result_Ok in H0. destruct H0 as [_ ->].
  apply bind_Ok in H. destruct H as (action' & w2 & H0 & H).
  assert (w2 = w) as ->.
  { destruct (JS.truthy (JS.get options "action")).
    - apply bind_Ok in H0. destruct H0 as (a & w3 & H0 & H1).
      apply lift_result_Ok in H0. destruct H0 as [_ ->].
      apply ret_Ok in H1. tauto.
    - apply ret_Ok in H0. tauto. }
  clear H0.
  apply bind_Ok in H. destruct H as (found & w2 & H0 & H).
  apply find_Ok in H0. destruct H0 as [-> Hfound].
  apply bind_Ok in H. destruct H as (x & w2 & H0 & H).
  apply get_world_Ok in H0. destruct H0 as [-> ->].
  apply lift_result_Ok in H. destruct H as [Hpage ->].
  split; [reflexivity |].
  intros doc Hin.
  apply (In_paginate _ _ _ _ _ Hpage) in Hin.
  apply In_sort_desc in Hin. apply in_map_iff in Hin.
  destruct Hin as (orig & Hdoc & Hin). rewrite Hfound in Hin.
  apply filter_In in Hin. destruct Hin as (Hin & Hm).
  exists orig. repeat split; auto.
  apply (matches_In _ orig "userId" uid) in Hm.
  - exact Hm.
  - apply in_or_app. right. apply in_or_app. right. left. reflexivity.
Qed.

Lemma service_getEntityLogs_by_actor (env : Env) (w w1 : World)
    (entity entityId options uid : jsval) (logs : list AuditLog.t) :
  JS.get options "userId" = uid ->
  JS.truthy uid = true ->
  AuditLogService.getEntityLogs entity entityId options env w = (Ok logs, w1) ->
  users w1 = users w /\ auditLogs w1 = auditLogs w
  /\ forall doc, In doc logs ->
       exists orig,
         In orig (auditLogs w)
         /\ AuditLogModel.eqb (AuditLog.userId orig) uid = true
         /\ doc = AuditLogModel.populate (users w) orig.
Proof.
  intros Hget Htruthy H.
  unfold AuditLogService.getEntityLogs in H. apply try_catch_Ok in H.
  destruct H as [H | (e & w2 & Hthrow & H)].
  - destruct (model_getEntityLogs_by_actor _ _ _ _ _ _ _ _ Hget Htruthy H)
      as [-> Hall].
    auto.
  - apply bind_Ok in H. destruct H as (u & w3 & H0 & H).
    apply ret_Ok in H. destruct H as [-> ->].
    apply (readonly_run _ _ _ _ _ (readonly_model_getEntityLogs _ _ _)) in Hthrow.
    subst w2. unfold console_error in H0. inversion H0; subst; cbn.
    repeat split; auto. intros doc [].
Qed.

Lemma date_range_shape (env : Env) (startDate endDate : jsval) :
  at_most "timestamp" (AuditLogModel.date_range env startDate endDate).
Proof.
  unfold AuditLogModel.date_range, at_most.
  destruct (JS.truthy startDate || JS.truthy endDate); eauto.
Qed.

Lemma build_query_Ok (q : jsval) (withEntityId : bool) (env : Env)
    (w w1 : World) (query : list (string * jsval)) :
  AuditController.build_query q withEntityId env w = (Ok query, w1) ->
  w1 = w
  /\ exists a e i u d,
       query = (a ++ e ++ i ++ u ++ d)%list
       /\ at_most "action" a /\ at_most "entity" e /\ at_most "entityId" i
       /\ at_most "userId" u /\ at_most "timestamp" d.
Proof.
  intros H. unfold AuditController.build_query in H.
  apply bind_Ok in H. destruct H as (env' & w2 & H0 & H).
  apply ask_Ok in H0. destruct H0 as [-> ->].
  apply bind_Ok in H. destruct H as (a & w2 & Ha & H).
  apply bind_Ok in H. destruct H as (i & w3 & Hi & H).
  apply ret_Ok in H. destruct H as [-> ->].
  assert (w2 = w /\ at_most "action" a) as [-> Sa].
  { destruct (JS.truthy (JS.get q "action")).
    - apply bind_Ok in Ha. destruct Ha as (x & w4 & H0 & H1).
      apply lift_result_Ok in H0. destruct H0 as [_ ->].
      apply ret_Ok in H1. destruct H1 as [-> ->]. split; [reflexivity |].
      right. eauto.
    - apply ret_Ok in Ha. destruct Ha as [-> ->]. split; [reflexivity |].
      left. reflexivity. }
  assert (w3 = w /\ at_most "entityId" i) as [-> Si].
  { destruct (withEntityId && JS.truthy (JS.get q "entityId")).
    - apply bind_Ok in Hi. destruct Hi as (x & w4 & H0 & H1).
      apply lift_result_Ok in H0. destruct H0 as [_ ->].
      apply ret_Ok in H1. destruct H1 as [-> ->]. split; [reflexivity |].
      right. eauto.
    - apply ret_Ok in Hi. destruct Hi as [-> ->]. split; [reflexivity |].
      left. reflexivity. }
  split; [reflexivity |].
  eexists a, _, i, _, _. split; [reflexivity |].
  repeat split; auto.
  - unfold at_most. destruct (JS.truthy (JS.get q "entity")); eauto.
  - unfold at_most. destruct (JS.truthy (JS.get q "userId")); eauto.
  - apply date_range_shape.
Qed.

(** For a caller who is not an admin, the options handed to the store
    name the caller as the actor, whatever the query string asked for. *)
Lemma getAuditLogs_query_actor (env : Env) (w w1 : World) (req : Req.t)
    (user : User.t) (query : list (string * jsval)) :
  Req.user req = Some user ->
  AuditController.is_admin user = false ->
  AuditController.getAuditLogs_query req env w = (Ok query, w1) ->
  w1 = w
  /\ JS.get (AuditController.getAuditLogs_options req query) "userId"
     = JStr (User._id user).
Proof.
  intros Hu Hadmin H. unfold AuditController.getAuditLogs_query in H.
  apply bind_Ok in H. destruct H as (q0 & w2 & Hq & H).
  apply build_query_Ok in Hq.
  destruct Hq as (-> & a & e & i & u & d & -> & Sa & Se & Si & Su & Sd).
  apply bind_Ok in H. destruct H as (user' & w2 & H0 & H).
  unfold AuditController.req_user in H0. rewrite Hu in H0.
  apply ret_Ok in H0. destruct H0 as [-> ->].
  apply ret_Ok in H. destruct H as [-> ->].
  split; [reflexivity |]. rewrite Hadmin.
  unfold AuditController.getAuditLogs_options, AuditController.merge.
  destruct Sa as [-> | [? ->]], Se as [-> | [? ->]], Si as [-> | [? ->]],
    Su as [-> | [? ->]], Sd as [-> | [? ->]]; reflexivity.
Qed.

Lemma populate_actor (us : list User.t) (orig : AuditLog.t) (user : User.t) :
  AuditLogModel.eqb (AuditLog.userId orig) (JStr (User._id user)) = true ->
  In user us ->
  actor (AuditLogModel.populate us orig) = JStr (User._id user).
Proof.
  intros Heq Hin. apply eqb_JStr in Heq.
  unfold actor, AuditLogModel.populate, AuditLogModel.find_user. cbn.
  rewrite Heq. cbn.
  match goal with |- context [List.find ?p us] =>
    destruct (List.find p us) as [u |] eqn:F end.
  - apply find_some in F. destruct F as [_ F].
    apply String.eqb_eq in F. cbn. rewrite F. reflexivity.
  - apply (find_none _ _ F) in Hin. cbn in Hin.
    rewrite String.eqb_refl in Hin. discriminate Hin.
Qed.

Lemma controller_getAuditLogs_own (env : Env) (w w' : World) (req : Req.t)
    (user : User.t) (status : Z) (body : jsval) :
  Req.user req = Some user ->
  AuditController.is_admin user = false ->
  Str.nonempty (User._id user) = true ->
  In user (users w) ->
  AuditController.getAuditLogs req env w = (Ok (Responded status body), w') ->
  exists logs,
    JS.get (JS.get body "data") "auditLogs"
    = JArr (map AuditLogModel.to_json logs)
    /\ Forall (fun doc => actor doc = JStr (User._id user)) logs.
Proof.
  intros Hu Hadmin Hid Hin H.
  unfold AuditController.getAuditLogs in H. apply try_next_Responded in H.
  apply bind_Ok in H. destruct H as (u0 & w1 & Hd & H).
  apply destructure_Ok in Hd. subst w1.
  apply bind_Ok in H. destruct H as (query & w1 & Hq & H).
  destruct (getAuditLogs_query_actor _ _ _ _ _ _ Hu Hadmin Hq) as [-> Hopt].
  apply bind_Ok in H. destruct H as (logs & w1 & Hlogs & H).
  apply (service_getEntityLogs_by_actor _ _ _ _ _ _ _ _ Hopt Hid) in Hlogs.
  destruct Hlogs as (Husers & _ & Hall).
  apply bind_Ok in H. destruct H as (matching & w2 & _ & H).
  apply ret_Ok in H. destruct H as [H _]. inversion H; subst.
  exists logs. split; [reflexivity |].
  apply Forall_forall. intros doc Hdoc.
  destruct (Hall doc Hdoc) as (orig & _ & Heq & ->).
  apply populate_actor; assumption.
Qed.

(** C4. A caller of GET /audit/logs who is not an admin only receives
    entries whose actor is the caller, whatever filters the query string
    carries; this holds of the controller on any request and of the route
    that validates the query first. *)
Theorem getAuditLogs_own_entries_only (handler : Req.t -> M Outcome)
    (env : Env) (w w' : World) (req : Req.t) (user : User.t) (status : Z)
    (body : jsval) :
  handler = AuditController.getAuditLogs \/ handler = AuditRoutes.logs ->
  Req.user req = Some user ->
  AuditController.is_admin user = false ->
  Str.nonempty (User._id user) = true ->
  In user (users w) ->
  handler req env w = (Ok (Responded status body), w') ->
  exists logs,
    JS.get (JS.get body "data") "auditLogs"
    = JArr (map AuditLogModel.to_json logs)
    /\ Forall (fun doc => actor doc = JStr (User._id user)) logs.
Proof.
  intros [-> | ->] Hu Hadmin Hid Hin H.
  - eapply controller_getAuditLogs_own; eassumption.
  - unfold AuditRoutes.logs, Validation.validate_query in H.
    apply bind_Ok in H. destruct H as (env' & w1 & H0 & H).
    apply ask_Ok in H0. destruct H0 as [-> ->].
    destruct (Validation.auditQuery env (Req.query req)) as [value |].
    + eapply controller_getAuditLogs_own; [| eassumption | eassumption | eassumption | exact H].
      exact Hu.
    + apply ret_Ok in H. destruct H as [H _]. discriminate H.
Qed.

Lemma getAuditLogs_own_entries_only_witness :
  exists logs,
    JS.get
      (JS.get
         (body_of
            (fst (AuditRoutes.logs
                    (Scenario.get_ "/api/audit/logs"
                       (JObj [("userId", JStr (oid 2)); ("limit", JStr "50")])
                       (Some Scenario.alice))
                    Scenario.env Scenario.audit_world)))
         "data") "auditLogs"
    = JArr (map AuditLogModel.to_json logs)
    /\ Forall (fun doc => actor doc = JStr (User._id Scenario.alice)) logs.
Proof.
  apply (getAuditLogs_own_entries_only AuditRoutes.logs Scenario.env
           Scenario.audit_world
           (snd (AuditRoutes.logs
                   (Scenario.get_ "/api/audit/logs"
                      (JObj [("userId", JStr (oid 2)); ("limit", JStr "50")])
                      (Some Scenario.alice))
                   Scenario.env Scenario.audit_world))
           (Scenario.get_ "/api/audit/logs"
              (JObj [("userId", JStr (oid 2)); ("limit", JStr "50")])
              (Some Scenario.alice))
           Scenario.alice 200).
  - right. reflexivity.
  - reflexivity.
  - reflexivity.
  - reflexivity.
  - left. reflexivity.
  - vm_compute. reflexivity.
Defined.

(** *** Lockout *)

Lemma find_upsert_email (address : string) (u u' : User.t) (us : list User.t) :
  List.find (fun x => String.eqb (User.email x) address) us = Some u ->
  User._id u' = User._id u ->
  User.email u' = User.email u ->
  (forall x, In x us -> User._id x = User._id u -> x = u) ->
  List.find (fun x => String.eqb (User.email x) address) (UserModel.upsert u' us)
  = Some u'.
Proof.
  intros Hfind Hid Hemail.
  assert (Hu : String.eqb (User.email u) address = true).
  { apply find_some in Hfind. tauto. }
  induction us as [| x r IH]; intros Huniq; [discriminate Hfind |].
  cbn in Hfind. cbn [UserModel.upsert].
  destruct (String.eqb (User.email x) address) eqn:Ex.
  - inversion Hfind; subst x. rewrite Hid, String.eqb_refl. cbn.
    rewrite Hemail, Hu. reflexivity.
  - destruct (String.eqb (User._id x) (User._id u')) eqn:Eid.
    + apply String.eqb_eq in Eid. rewrite Hid in Eid.
      rewrite (Huniq x (or_introl eq_refl) Eid) in Ex. congruence.
    + cbn. rewrite Ex. apply IH; [exact Hfind |].
      intros y Hy. apply Huniq. right. exact Hy.
Qed.

Lemma signin_locked (env : Env) (w : World) (req : Req.t) (address : string)
    (user : User.t) (until : Z) :
  toLowerCase_m (JS.get (Req.body req) "email") = Ok address ->
  List.find (fun u => String.eqb (User.email u) address) (users w) = Some user ->
  User.lockUntil user = Some until ->
  now w < until ->
  AuthController.signin req env w = (Ok (Next locked_out), w).
Proof.
  intros Hl Hf Hlock Hnow.
  unfold AuthController.signin, AuthController.try_next, try_catch, bind.
  assert (Hd : AuthController.destructure (Req.body req) env w = (Ok tt, w)).
  { destruct (Req.body req); cbn in *; try reflexivity; discriminate Hl. }
  rewrite Hd. unfold lift_result. rewrite Hl.
  unfold UserModel.findOne_email, bind, get_world, ret. rewrite Hf.
  unfold Date_now, UserModel.isLocked. rewrite Hlock.
  apply Z.ltb_lt in Hnow. rewrite Hnow. reflexivity.
Qed.

(** The failed attempt that reaches the threshold locks the stored
    account for the lockout duration. *)
Lemma signin_failure_locks (env : Env) (w : World) (req : Req.t)
    (address : string) (user : User.t) :
  toLowerCase_m (JS.get (Req.body req) "email") = Ok address ->
  List.find (fun u => String.eqb (User.email u) address) (users w) = Some user ->
  UserModel.isLocked user (now w) = false ->
  User.isActive user = true ->
  UserModel.comparePassword env user (JS.get (Req.body req) "password") = false ->
  UserModel.MAX_LOGIN_ATTEMPTS <= User.loginAttempts user + 1 ->
  (forall x, In x (users w) -> User._id x = User._id user -> x = user) ->
  exists w1,
    AuthController.signin req env w = (Ok (Next bad_credentials), w1)
    /\ now w1 = now w
    /\ List.find (fun u => String.eqb (User.email u) address) (users w1)
       = Some (UserModel.set_lockout user 0 (Some (now w + UserModel.LOCK_TIME))).
Proof.
  intros Hl Hf Hunlocked Hactive Hwrong Hmax Huniq.
  unfold AuthController.signin, AuthController.try_next, try_catch, bind.
  assert (Hd : AuthController.destructure (Req.body req) env w = (Ok tt, w)).
  { destruct (Req.body req); cbn in *; try reflexivity; discriminate Hl. }
  rewrite Hd. unfold lift_result. rewrite Hl.
  unfold UserModel.findOne_email, bind, get_world, ret. rewrite Hf.
  unfold Date_now. rewrite Hunlocked, Hactive. cbn [negb].
  unfold ask. rewrite Hwrong. cbn [negb].
  unfold UserModel.incLoginAttempts, bind, Date_now, get_world, UserModel.put_users.
  apply Z.leb_le in Hmax. rewrite Hmax.
  eexists. split; [reflexivity |]. split; [reflexivity |]. cbn [users].
  apply find_upsert_email with (u := user); auto.
Qed.

(** C5. While the lock-until timestamp of the account is in the future,
    signin answers 423 whatever password is supplied. In particular, once
    a failed attempt has reached the threshold, every attempt made before
    the lockout duration has elapsed answers 423, the correct password
    included. *)
Theorem signin_locked_regardless_of_password :
  (forall (env : Env) (w : World) (req : Req.t) (address : string)
          (user : User.t) (until : Z),
      toLowerCase_m (JS.get (Req.body req) "email") = Ok address ->
      List.find (fun u => String.eqb (User.email u) address) (users w)
      = Some user ->
      User.lockUntil user = Some until ->
      now w < until ->
      AuthController.signin req env w = (Ok (Next locked_out), w))
  /\ (forall (env : Env) (w : World) (failed later : Req.t) (address : string)
             (user : User.t) (t : Z),
         toLowerCase_m (JS.get (Req.body failed) "email") = Ok address ->
         toLowerCase_m (JS.get (Req.body later) "email") = Ok address ->
         List.find (fun u => String.eqb (User.email u) address) (users w)
         = Some user ->
         UserModel.isLocked user (now w) = false ->
         User.isActive user = true ->
         UserModel.comparePassword env user (JS.get (Req.body failed) "password")
         = false ->
         UserModel.MAX_LOGIN_ATTEMPTS <= User.loginAttempts user + 1 ->
         (forall x, In x (users w) -> User._id x = User._id user -> x = user) ->
         t < now w + UserModel.LOCK_TIME ->
         exists w1,
           AuthController.signin failed env w = (Ok (Next bad_credentials), w1)
           /\ AuthController.signin later env (at_time t w1)
              = (Ok (Next locked_out), at_time t w1)).
Proof.
  split.
  - intros. eapply signin_locked; eassumption.
  - intros env w failed later address user t Hl1 Hl2 Hf Hunlocked Hactive
      Hwrong Hmax Huniq Ht.
    destruct (signin_failure_locks env w failed address user Hl1 Hf Hunlocked
                Hactive Hwrong Hmax Huniq) as (w1 & Hrun & Hnow & Hfind).
    exists w1. split; [exact Hrun |].
    eapply signin_locked with (until := now w + UserModel.LOCK_TIME).
    + exact Hl2.
    + exact Hfind.
    + reflexivity.
    + exact Ht.
Qed.

Lemma signin_locked_regardless_of_password_witness :
  AuthController.signin (Scenario.signin_req "Password123") Scenario.env
    (Scenario.after_failures 5 Scenario.world)
  = (Ok (Next locked_out), Scenario.after_failures 5 Scenario.world)
  /\ exists w1,
       AuthController.signin (Scenario.signin_req "not-the-password")
         Scenario.env (Scenario.after_failures 4 Scenario.world)
       = (Ok (Next bad_credentials), w1)
       /\ AuthController.signin (Scenario.signin_req "Password123")
            Scenario.env (at_time (1700000004000 + 3600000) w1)
          = (Ok (Next locked_out), at_time (1700000004000 + 3600000) w1).
Proof.
  split.
  - apply (proj1 signin_locked_regardless_of_password Scenario.env
             (Scenario.after_failures 5 Scenario.world)
             (Scenario.signin_req "Password123") "alice@example.com"
             (UserModel.set_lockout Scenario.alice 0 (Some 1700007204000))
             1700007204000).
    + reflexivity.
    + vm_compute. reflexivity.
    + reflexivity.
    + vm_compute. reflexivity.
  - apply (proj2 signin_locked_regardless_of_password Scenario.env
             (Scenario.after_failures 4 Scenario.world)
             (Scenario.signin_req "not-the-password")
             (Scenario.signin_req "Password123") "alice@example.com"
             (UserModel.set_lockout Scenario.alice 4 None)
             (1700000004000 + 3600000)).
    + reflexivity.
    + reflexivity.
    + vm_compute. reflexivity.
    + reflexivity.
    + reflexivity.
    + vm_compute. reflexivity.
    + vm_compute. discriminate.
    + intros x Hin Hid. vm_compute in Hin.
      destruct Hin as [<- | [<- | []]]; [reflexivity | discriminate Hid].
    + vm_compute. reflexivity.
Defined.

(** *** Token round trip *)

Lemma assoc_app (k : string) (l1 l2 : list (string * jsval)) :
  JS.assoc k (l1 ++ l2)
  = match JS.assoc k l1 with
    | Some v => Some v
    | None => JS.assoc k l2
    end.
Proof.
  induction l1 as [| [k' v] r IH]; cbn; [reflexivity |].
  destruct (String.eqb k k'); [reflexivity | exact IH].
Qed.

Lemma set_absent (k : string) (v : jsval) (l : list (string * jsval)) :
  JS.assoc k l = None -> JS.set k v l = (l ++ [(k, v)])%list.
Proof.
  induction l as [| [k' x] r IH]; cbn; [reflexivity |].
  destruct (String.eqb k k'); [discriminate |].
  intros H. rewrite (IH H). reflexivity.
Qed.

(** What the signer makes of a payload that carries no registered claim:
    the claims, then the four it stamps. *)
Lemma sign_payload (env : Env) (w : World) (claims : list (string * jsval))
    (secret expiresIn issuer audience : string) (span : Z) :
  Json.roundtrip (JObj claims) = JObj claims ->
  JS.assoc "iat" claims = None ->
  JS.assoc "nbf" claims = None ->
  JS.assoc "exp" claims = None ->
  JS.assoc "aud" claims = None ->
  JS.assoc "iss" claims = None ->
  expires_seconds env expiresIn = Some span ->
  Jwt.sign (JObj claims) secret expiresIn issuer audience env w
  = (Ok (mkToken secret
           (claims ++ [("iat", JS.JInt (now w / 1000));
                       ("exp", JS.JInt (now w / 1000 + span));
                       ("aud", JStr audience);
                       ("iss", JStr issuer)])%list), w).
Proof.
  intros Hjson Hiat Hnbf Hexp Haud Hiss Hspan.
  unfold Jwt.sign, Jwt.has. cbn [JS.get]. rewrite Hiat, Hnbf, Hexp, Haud, Hiss.
  cbn [Jwt.numeric_or_absent negb].
  unfold bind, ask, Jwt.clock_seconds, Date_now, ret.
  rewrite Hspan, Hjson. cbn [JS.spread].
  replace (match JS.get (JObj claims) "iat" with
           | JNum (Int z) => if z =? 0 then now w / 1000 else z
           | _ => now w / 1000
           end) with (now w / 1000)
    by (cbn [JS.get]; rewrite Hiat; reflexivity).
  cbv [bind ret].
  rewrite (set_absent "iat") by exact Hiat.
  rewrite (set_absent "exp") by (rewrite assoc_app, Hexp; reflexivity).
  rewrite (set_absent "aud")
    by (rewrite !assoc_app, Haud; reflexivity).
  rewrite (set_absent "iss")
    by (rewrite !assoc_app, Hiss; reflexivity).
  rewrite <- !app_assoc. reflexivity.
Qed.

(** C7, as stated, fails: not every claims payload comes back. A
    payload that carries its own [iat] is signed with an expiry counted
    from it and is refused as expired at once; one that carries [exp]
    cannot be signed at all; one that carries a later [nbf] is refused
    as not yet active; and for a payload without registered claims the
    verified object is not the original: the signer has added four
    claims to it. *)
Lemma round_trip_not_for_every_payload :
  (exists token,
      JWTService.generateAccessToken
        (JObj [("id", JStr (oid 1)); ("iat", JS.JInt 5)])
        Scenario.env Scenario.world = (Ok token, Scenario.world)
      /\ JWTService.verifyAccessToken (Jwt.Signed token) Scenario.env
           Scenario.world
         = (Throw (PlainError "Access token has expired"), Scenario.world))
  /\ (exists e,
         JWTService.generateAccessToken
           (JObj [("id", JStr (oid 1)); ("exp", JS.JInt 1800000000)])
           Scenario.env Scenario.world = (Throw e, Scenario.world))
  /\ (exists token,
         JWTService.generateAccessToken
           (JObj [("id", JStr (oid 1)); ("nbf", JS.JInt 1800000000)])
           Scenario.env Scenario.world = (Ok token, Scenario.world)
         /\ JWTService.verifyAccessToken (Jwt.Signed token) Scenario.env
              Scenario.world
            = (Throw (Jwt.NotBeforeError "jwt not active"), Scenario.world))
  /\ (exists token decoded,
         JWTService.generateAccessToken (JObj [("id", JStr (oid 1))])
           Scenario.env Scenario.world = (Ok token, Scenario.world)
         /\ JWTService.verifyAccessToken (Jwt.Signed token) Scenario.env
              Scenario.world
            = (Ok decoded, Scenario.world)
         /\ decoded <> [("id", JStr (oid 1))]).
Proof.
  split; [| split; [| split]].
  - eexists. split; [vm_compute; reflexivity |]. vm_compute. reflexivity.
  - eexists. vm_compute. reflexivity.
  - eexists. split; [vm_compute; reflexivity |]. vm_compute. reflexivity.
  - eexists _, _. split; [vm_compute; reflexivity |].
    split; [vm_compute; reflexivity |]. intros H. discriminate H.
Qed.

(** C7, amended. An access token issued for a claims payload that is
    JSON data and carries no registered claim of its own ([iat], [nbf],
    [exp], [aud], [iss]), verified at once, gives back every claim with
    its value: the decoded object is the claims followed by the [iat],
    [exp], [aud] and [iss] the signer stamps (the configured lifetime
    being positive). Verified once the clock has reached its expiry, the
    same token fails with the expired error, which is not the
    invalid-token error. *)
Theorem access_token_round_trip (env : Env) (w : World)
    (claims : list (string * jsval)) (span : Z) :
  Json.roundtrip (JObj claims) = JObj claims ->
  JS.assoc "iat" claims = None ->
  JS.assoc "nbf" claims = None ->
  JS.assoc "exp" claims = None ->
  JS.assoc "aud" claims = None ->
  JS.assoc "iss" claims = None ->
  expires_seconds env (JWT_EXPIRES_IN env) = Some span ->
  0 < span ->
  exists token decoded,
    JWTService.generateAccessToken (JObj claims) env w = (Ok token, w)
    /\ JWTService.verifyAccessToken (Jwt.Signed token) env w = (Ok decoded, w)
    /\ (forall k v, JS.assoc k claims = Some v -> JS.assoc k decoded = Some v)
    /\ decoded
       = (claims ++ [("iat", JS.JInt (now w / 1000));
                     ("exp", JS.JInt (now w / 1000 + span));
                     ("aud", JStr "user");
                     ("iss", JStr (JWTService.issuer env))])%list
    /\ (forall t,
           now w / 1000 + span <= t / 1000 ->
           JWTService.verifyAccessToken (Jwt.Signed token) env (at_time t w)
           = (Throw (PlainError "Access token has expired"), at_time t w))
    /\ PlainError "Access token has expired" <> PlainError "Invalid access token".
Proof.
  intros Hjson Hiat Hnbf Hexp Haud Hiss Hspan Hpos.
  eexists _, _.
  split.
  { cbv [JWTService.generateAccessToken bind ask].
    apply sign_payload with (span := span); assumption. }
  assert (Hn : JS.assoc "nbf"
                 (claims ++ [("iat", JS.JInt (now w / 1000));
                             ("exp", JS.JInt (now w / 1000 + span));
                             ("aud", JStr "user");
                             ("iss", JStr (JWTService.issuer env))]) = None).
  { rewrite assoc_app, Hnbf. reflexivity. }
  assert (He : JS.assoc "exp"
                 (claims ++ [("iat", JS.JInt (now w / 1000));
                             ("exp", JS.JInt (now w / 1000 + span));
                             ("aud", JStr "user");
                             ("iss", JStr (JWTService.issuer env))])
               = Some (JNum (Int (now w / 1000 + span)))).
  { rewrite assoc_app, Hexp. reflexivity. }
  split; [| split; [| split; [| split]]].
  - unfold JWTService.verifyAccessToken, bind, ask, try_catch, Jwt.verify.
    cbn [tk_key tk_payload]. rewrite String.eqb_refl. cbn [negb].
    unfold bind, Jwt.clock_seconds, Date_now, ret. cbn.
    rewrite Hn, He.
    assert (Hlate : (now w / 1000 + span <=? now w / 1000) = false)
      by (apply Z.leb_gt; lia).
    rewrite Hlate. reflexivity.
  - intros k v Hk. rewrite assoc_app, Hk. reflexivity.
  - reflexivity.
  - intros t Ht.
    unfold JWTService.verifyAccessToken, bind, ask, try_catch, Jwt.verify.
    cbn [tk_key tk_payload]. rewrite String.eqb_refl. cbn [negb].
    unfold bind, Jwt.clock_seconds, Date_now, ret. cbn.
    rewrite Hn, He.
    apply Z.leb_le in Ht. rewrite Ht. reflexivity.
  - discriminate.
Qed.

Lemma access_token_round_trip_witness :
  exists token decoded,
    JWTService.generateAccessToken
      (JObj [("id", JStr (oid 1)); ("email", JStr "alice@example.com");
             ("role", JStr "user")])
      Scenario.env Scenario.world = (Ok token, Scenario.world)
    /\ JWTService.verifyAccessToken (Jwt.Signed token) Scenario.env Scenario.world
       = (Ok decoded, Scenario.world)
    /\ (forall k v,
           JS.assoc k [("id", JStr (oid 1)); ("email", JStr "alice@example.com");
                       ("role", JStr "user")] = Some v ->
           JS.assoc k decoded = Some v)
    /\ decoded
       = [("id", JStr (oid 1)); ("email", JStr "alice@example.com");
          ("role", JStr "user");
          ("iat", JS.JInt (now Scenario.world / 1000));
          ("exp", JS.JInt (now Scenario.world / 1000 + 604800));
          ("aud", JStr "user");
          ("iss", JStr (JWTService.issuer Scenario.env))]
    /\ (forall t,
           now Scenario.world / 1000 + 604800 <= t / 1000 ->
           JWTService.verifyAccessToken (Jwt.Signed token) Scenario.env
             (at_time t Scenario.world)
           = (Throw (PlainError "Access token has expired"),
              at_time t Scenario.world))
    /\ PlainError "Access token has expired" <> PlainError "Invalid access token".
Proof.
  apply (access_token_round_trip Scenario.env Scenario.world
           [("id", JStr (oid 1)); ("email", JStr "alice@example.com");
            ("role", JStr "user")] 604800).
  - reflexivity.
  - reflexivity.
  - reflexivity.
  - reflexivity.
  - reflexivity.
  - reflexivity.
  - reflexivity.
  - reflexivity.
Defined.

(** A token signed with another key is the invalid-token error. *)
Lemma verifyAccessToken_wrong_key (env : Env) (w : World) (t : Token) :
  String.eqb (tk_key t) (JWT_SECRET env) = false ->
  JWTService.verifyAccessToken (Jwt.Signed t) env w
  = (Throw (PlainError "Invalid access token"), w).
Proof.
  intros H.
  unfold JWTService.verifyAccessToken, bind, ask, try_catch, Jwt.verify.
  rewrite H. reflexivity.
Qed.

(** The payload [generateTokens] builds for a user meets the conditions
    of the round trip: three string claims, none of them registered. *)
Lemma generateTokens_payload_plain (user : User.t) :
  let claims :=
    [("id", js_or (JStr (User._id user)) (JStr (User._id user)));
     ("email", JStr (User.email user));
     ("role", js_or (JStr (User.role user)) (JStr "user"))] in
  Json.roundtrip (JObj claims) = JObj claims
  /\ JS.assoc "iat" claims = None
  /\ JS.assoc "nbf" claims = None
  /\ JS.assoc "exp" claims = None
  /\ JS.assoc "aud" claims = None
  /\ JS.assoc "iss" claims = None.
Proof.
  cbv zeta. unfold js_or. cbn [JS.truthy].
  destruct (Str.nonempty (User._id user)), (Str.nonempty (User.role user));
    repeat split; reflexivity.
Qed.

(** *** The export cap *)

Lemma limit_length (z : Z) (l l' : list AuditLog.t) :
  z <> 0 ->
  AuditLogModel.limit (Int z) l = Ok l' ->
  Z.of_nat (List.length l') <= Z.abs z.
Proof.
  intros Hz. unfold AuditLogModel.limit.
  destruct (z =? 0) eqn:E; [apply Z.eqb_eq in E; contradiction |].
  intros H. injection H as <-.
  pose proof (firstn_le_length (Z.to_nat (Z.abs z)) l). lia.
Qed.




(** Called by the router, the handler has no receiver: a CSV export ends
    in the error handler instead of a file. *)
Lemma export_csv_unbound :
  fst (AuditRoutes.export
         (Scenario.get_ "/api/audit/export" (JObj [("format", JStr "csv")])
            (Some Scenario.alice))
         Scenario.env Scenario.audit_world)
  = Ok (Next (TypeError "Cannot read properties of undefined (reading 'convertToCSV')")).
Proof. vm_compute. reflexivity. Qed.
(** *** Google sign-in of a deactivated account *)


Lemma upsert_upsert (u u' : User.t) (us : list User.t) :
  User._id u' = User._id u ->
  UserModel.upsert u' (UserModel.upsert u us) = UserModel.upsert u' us.
Proof.
  intros Hid. induction us as [| x r IH]; cbn.
  - rewrite Hid, String.eqb_refl. reflexivity.
  - destruct (String.eqb (User._id x) (User._id u)) eqn:E; cbn.
    + rewrite Hid, String.eqb_refl, E. reflexivity.
    + rewrite Hid, E. f_equal. exact IH.
Qed.

Lemma In_upsert_inv (u x : User.t) (us : list User.t) :
  NoDup (map User._id us) ->
  In x (UserModel.upsert u us) ->
  x = u \/ (In x us /\ User._id x <> User._id u).
Proof.
  intros Hnd. induction us as [| y r IH]; cbn.
  - intros [<- | []]. auto.
  - inversion Hnd as [| ? ? Hy Hr]; subst.
    destruct (String.eqb (User._id y) (User._id u)) eqn:E; cbn.
    + apply String.eqb_eq in E. intros [<- | Hin]; [auto |].
      right. split; [auto |]. intros Hx. apply Hy. rewrite E, <- Hx.
      apply in_map. exact Hin.
    + apply String.eqb_neq in E. intros [<- | Hin]; [auto |].
      destruct (IH Hr Hin) as [-> | [Hin' Hne]]; auto.
Qed.

(** With unique ids, two stored accounts of one id are the same. *)
Lemma same_id_same_account (a b : User.t) (us : list User.t) :
  NoDup (map User._id us) ->
  In a us -> In b us -> User._id a = User._id b -> a = b.
Proof.
  intros Hnd Ha Hb Hid. induction us as [| x r IH]; [destruct Ha |].
  inversion Hnd as [| ? ? Hx Hr]; subst.
  destruct Ha as [-> | Ha], Hb as [-> | Hb]; auto.
  - exfalso. apply Hx. rewrite Hid. apply in_map. exact Hb.
  - exfalso. apply Hx. rewrite <- Hid. apply in_map. exact Ha.
Qed.




(** In the scenario the stored account differs from what it was: bob is
    stored with the Google id, the avatar, the verified flag and the
    last login. *)
Lemma googleAuth_deactivated_changes_account :
  users (snd (AuthController.googleAuth
                (Scenario.post "/api/auth/google"
                   (JObj [("token", JStr "google-id-token-of-bob")]) None)
                Scenario.env Scenario.world))
  = [Scenario.alice;
     User.mk (oid 2) "Bob" "bob@example.com" (Some "bcrypt:Secret456")
       (Some "g-bob") (Some "https://img.example.com/bob.png") "user" true
       false (Some 1700000000000) 0 None None None]
  /\ users (snd (AuthController.googleAuth
                   (Scenario.post "/api/auth/google"
                      (JObj [("token", JStr "google-id-token-of-bob")]) None)
                   Scenario.env Scenario.world))
     <> users Scenario.world.
Proof.
  split; [vm_compute; reflexivity |].
  vm_compute. intros H. discriminate H.
Qed.

(** *** Pagination bounds *)

(** The two clamps, on any value [parseInt] reads as a number. *)
Lemma pageNum_clamped (v : jsval) (z : Z) :
  Json.parseInt v = Int z ->
  AuditController.pageNum v = Int (Z.max 1 z) /\ 1 <= Z.max 1 z.
Proof.
  intros H. unfold AuditController.pageNum. rewrite H. cbn. split; [reflexivity | lia].
Qed.

Lemma limitNum_clamped (v : jsval) (z : Z) :
  Json.parseInt v = Int z ->
  AuditController.limitNum v = Int (Z.min 100 (Z.max 1 z))
  /\ 1 <= Z.min 100 (Z.max 1 z) <= 100.
Proof.
  intros H. unfold AuditController.limitNum. rewrite H. cbn. split; [reflexivity | lia].
Qed.

(** Without a number to read, the clamps yield [NaN]: it is the query
    validation that keeps such values away from the handlers. *)
Lemma limitNum_of_text : AuditController.limitNum (JStr "ten") = NaN.
Proof. reflexivity. Qed.

Lemma parseInt_safe_integer (z : Z) :
  Z.abs z <= Validation.MAX_SAFE_INTEGER ->
  Json.parseInt (JS.JInt z) = Int z.
Proof.
  intros H. unfold Json.parseInt, JS.JInt.
  assert (E : (Z.abs z <? 10 ^ 21) = true).
  { apply Z.ltb_lt. unfold Validation.MAX_SAFE_INTEGER in H.
    assert (9007199254740991 < 10 ^ 21) by reflexivity. lia. }
  rewrite E. reflexivity.
Qed.

Lemma integer_field_Some (env : Env) (k : string) (lo : Z) (hi : option Z)
    (d : Z) (v : jsval) (f : list (string * jsval)) :
  Validation.in_range lo hi d = true ->
  Validation.integer_field env k lo hi d v = Some f ->
  exists z, f = [(k, JS.JInt z)] /\ Validation.in_range lo hi z = true.
Proof.
  intros Hd. unfold Validation.integer_field.
  destruct v as [| | b | [| z] | s | xs | fs | fn]; try discriminate.
  - intros H. injection H as <-. eauto.
  - destruct (Validation.in_range lo hi z) eqn:E; [| discriminate].
    intros H. injection H as <-. eauto.
  - destruct (joi_integer env s) as [z |]; [| discriminate].
    destruct (Validation.in_range lo hi z) eqn:E; [| discriminate].
    intros H. injection H as <-. eauto.
Qed.

Lemma collect_cons (f : option (list (string * jsval)))
    (r : list (option (list (string * jsval)))) (fields : list (string * jsval)) :
  Validation.collect (f :: r) = Some fields ->
  exists x rest,
    f = Some x /\ Validation.collect r = Some rest /\ fields = (x ++ rest)%list.
Proof.
  cbn. destruct f as [x |]; [| discriminate].
  destruct (Validation.collect r) as [rest |]; [| discriminate].
  intros H. injection H as <-. eauto.
Qed.

(** A query that passes validation carries an integer page of at least 1
    and an integer limit between 1 and 100. *)
Lemma auditQuery_paging (env : Env) (query q : jsval) :
  Validation.auditQuery env query = Some q ->
  exists p l,
    JS.get q "page" = JS.JInt p /\ JS.get q "limit" = JS.JInt l
    /\ 1 <= p <= Validation.MAX_SAFE_INTEGER /\ 1 <= l <= 100.
Proof.
  unfold Validation.auditQuery.
  match goal with |- context [Validation.collect ?fs] =>
    destruct (Validation.collect fs) as [fields |] eqn:C end; [| discriminate].
  intros H. injection H as <-.
  apply collect_cons in C. destruct C as (x1 & r1 & Hp & C & ->).
  apply collect_cons in C. destruct C as (x2 & r2 & Hl & _ & ->).
  apply integer_field_Some in Hp; [| reflexivity].
  apply integer_field_Some in Hl; [| reflexivity].
  destruct Hp as (p & -> & Rp). destruct Hl as (l & -> & Rl).
  exists p, l. split; [reflexivity |]. split; [reflexivity |].
  unfold Validation.in_range in *.
  apply andb_prop in Rp. destruct Rp as [Rp _].
  apply andb_prop in Rp. destruct Rp as [Rp1 Rp2].
  apply andb_prop in Rl. destruct Rl as [Rl Rl3].
  apply andb_prop in Rl. destruct Rl as [Rl1 _].
  apply Z.leb_le in Rp1, Rp2, Rl1, Rl3. lia.
Qed.

Lemma getAuditLogs_options_paging (env : Env) (w w1 : World) (req : Req.t)
    (query : list (string * jsval)) :
  AuditController.getAuditLogs_query req env w = (Ok query, w1) ->
  JS.get (AuditController.getAuditLogs_options req query) "page"
  = JNum (AuditController.pageNum
            (default_to (JS.JInt 1) (JS.get (Req.query req) "page")))
  /\ JS.get (AuditController.getAuditLogs_options req query) "limit"
     = JNum (AuditController.limitNum
               (default_to (JS.JInt 20) (JS.get (Req.query req) "limit"))).
Proof.
  intros H. unfold AuditController.getAuditLogs_query in H.
  apply bind_Ok in H. destruct H as (q0 & w2 & Hq & H).
  apply build_query_Ok in Hq.
  destruct Hq as (-> & a & e & i & u & d & -> & Sa & Se & Si & Su & Sd).
  apply bind_Ok in H. destruct H as (user & w2 & _ & H).
  apply ret_Ok in H. destruct H as [-> _].
  unfold AuditController.getAuditLogs_options, AuditController.merge.
  destruct (negb (AuditController.is_admin user));
    destruct Sa as [-> | [? ->]], Se as [-> | [? ->]], Si as [-> | [? ->]],
      Su as [-> | [? ->]], Sd as [-> | [? ->]]; split; reflexivity.
Qed.

Lemma page_options_paging (q : jsval) (withEntity : bool) (env : Env)
    (w w1 : World) (options : list (string * jsval)) :
  AuditController.page_options q withEntity env w = (Ok options, w1) ->
  exists rest,
    options
    = (("page", JNum (AuditController.pageNum
                        (default_to (JS.JInt 1) (JS.get q "page"))))
       :: ("limit", JNum (AuditController.limitNum
                            (default_to (JS.JInt 20) (JS.get q "limit"))))
       :: rest).
Proof.
  intros H. unfold AuditController.page_options in H.
  apply bind_Ok in H. destruct H as (a & w2 & _ & H).
  apply ret_Ok in H. destruct H as [-> _].
  eexists. cbn [app]. reflexivity.
Qed.

(** The clamped page and limit of a validated query. *)
Lemma audit_queries_paging_bounds (env : Env) (query q : jsval) :
  Validation.auditQuery env query = Some q ->
  exists p l,
    1 <= p /\ 1 <= l <= 100
    /\ AuditController.pageNum (default_to (JS.JInt 1) (JS.get q "page")) = Int p
    /\ AuditController.limitNum (default_to (JS.JInt 20) (JS.get q "limit"))
       = Int l.
Proof.
  intros Hv. apply auditQuery_paging in Hv.
  destruct Hv as (p & l & Hp & Hl & Rp & Rl).
  exists p, l. split; [lia |]. split; [lia |]. split.
  - rewrite Hp. cbn [default_to JS.JInt].
    destruct (pageNum_clamped (JS.JInt p) p) as [E _].
    + apply parseInt_safe_integer. lia.
    + rewrite E. f_equal. lia.
  - rewrite Hl. cbn [default_to JS.JInt].
    destruct (limitNum_clamped (JS.JInt l) l) as [E _].
    + apply parseInt_safe_integer. unfold Validation.MAX_SAFE_INTEGER. lia.
    + rewrite E. f_equal. lia.
Qed.

(** A query that fails validation never reaches a handler. *)
Lemma rejected_query_skips_handler (handler : Req.t -> M Outcome) (env : Env)
    (w : World) (req : Req.t) :
  Validation.auditQuery env (Req.query req) = None ->
  Validation.validate_query Validation.auditQuery handler req env w
  = (Ok (Next (createError 400 "Validation failed")), w).
Proof.
  intros H. unfold Validation.validate_query, bind, ask. rewrite H. reflexivity.
Qed.

(** C10, as stated, fails. The handlers clamp numbers only: a limit
    that [parseInt] cannot read makes the limit handed to the store
    [NaN]. And on the routes nothing reaches the clamp that is out of
    range: a limit of 1000 is refused with 400 by the query validation,
    and no query is made. *)
Lemma paging_not_clamped_regardless :
  (exists options,
      AuditController.page_options (JObj [("limit", JStr "ten")]) false
        Scenario.env Scenario.audit_world
      = (Ok options, Scenario.audit_world)
      /\ JS.get (AuditController.getEntityAuditLogs_options Scenario.alice
                   options) "limit" = JNum NaN)
  /\ (exists query,
         AuditController.getAuditLogs_query
           (Scenario.get_ "/api/audit/logs" (JObj [("limit", JStr "ten")])
              (Some Scenario.alice))
           Scenario.env Scenario.audit_world
         = (Ok query, Scenario.audit_world)
         /\ JS.get (AuditController.getAuditLogs_options
                      (Scenario.get_ "/api/audit/logs"
                         (JObj [("limit", JStr "ten")]) (Some Scenario.alice))
                      query) "limit" = JNum NaN)
  /\ AuditRoutes.logs
       (Scenario.get_ "/api/audit/logs" (JObj [("limit", JStr "1000")])
          (Some Scenario.alice))
       Scenario.env Scenario.audit_world
     = (Ok (Next (createError 400 "Validation failed")), Scenario.audit_world).
Proof.
  split; [| split].
  - eexists. split; [vm_compute; reflexivity |]. vm_compute. reflexivity.
  - eexists. split; [vm_compute; reflexivity |]. vm_compute. reflexivity.
  - vm_compute. reflexivity.
Qed.

(** C10, amended. The three audit query handlers clamp every page and
    limit that [parseInt] reads as a number, whatever the number: the
    page they hand to the store is the larger of 1 and the page
    supplied, the limit the smaller of 100 and the larger of 1 and the
    limit supplied, so the page is at least 1 and the limit between 1
    and 100. *)
Theorem audit_queries_paging_clamped (req : Req.t) (p l : Z) :
  Json.parseInt (default_to (JS.JInt 1) (JS.get (Req.query req) "page"))
  = Int p ->
  Json.parseInt (default_to (JS.JInt 20) (JS.get (Req.query req) "limit"))
  = Int l ->
  1 <= Z.max 1 p
  /\ 1 <= Z.min 100 (Z.max 1 l) <= 100
  /\ (forall env w w1 query,
         AuditController.getAuditLogs_query req env w = (Ok query, w1) ->
         JS.get (AuditController.getAuditLogs_options req query) "page"
         = JS.JInt (Z.max 1 p)
         /\ JS.get (AuditController.getAuditLogs_options req query) "limit"
            = JS.JInt (Z.min 100 (Z.max 1 l)))
  /\ (forall env w w1 user options,
         AuditController.page_options (Req.query req) false env w
         = (Ok options, w1) ->
         JS.get (AuditController.getEntityAuditLogs_options user options) "page"
         = JS.JInt (Z.max 1 p)
         /\ JS.get (AuditController.getEntityAuditLogs_options user options)
              "limit" = JS.JInt (Z.min 100 (Z.max 1 l)))
  /\ (forall env w w1 options,
         AuditController.getUserActivity_options req env w = (Ok options, w1) ->
         JS.get options "page" = JS.JInt (Z.max 1 p)
         /\ JS.get options "limit" = JS.JInt (Z.min 100 (Z.max 1 l))).
Proof.
  intros Hp Hl.
  destruct (pageNum_clamped _ _ Hp) as [Hpage Rp].
  destruct (limitNum_clamped _ _ Hl) as [Hlimit Rl].
  split; [exact Rp |]. split; [exact Rl |].
  split; [| split].
  - intros env w w1 query H. apply getAuditLogs_options_paging in H.
    rewrite Hpage, Hlimit in H. exact H.
  - intros env w w1 user options H.
    apply page_options_paging in H. destruct H as (rest & ->).
    rewrite Hpage, Hlimit.
    unfold AuditController.getEntityAuditLogs_options.
    destruct (negb (AuditController.is_admin user)); split; reflexivity.
  - intros env w w1 options H. unfold AuditController.getUserActivity_options in H.
    apply bind_Ok in H. destruct H as (opts & w2 & H0 & H).
    apply ret_Ok in H. destruct H as [-> _].
    apply page_options_paging in H0. destruct H0 as (rest & ->).
    rewrite Hpage, Hlimit. split; reflexivity.
Qed.

Lemma audit_queries_paging_clamped_witness :
  1 <= Z.max 1 (-3)
  /\ 1 <= Z.min 100 (Z.max 1 1000) <= 100
  /\ (forall env w w1 query,
         AuditController.getAuditLogs_query
           (Scenario.get_ "/api/audit/logs"
              (JObj [("page", JStr "-3"); ("limit", JStr "1000")])
              (Some Scenario.alice)) env w = (Ok query, w1) ->
         JS.get (AuditController.getAuditLogs_options
                   (Scenario.get_ "/api/audit/logs"
                      (JObj [("page", JStr "-3"); ("limit", JStr "1000")])
                      (Some Scenario.alice)) query) "page"
         = JS.JInt (Z.max 1 (-3))
         /\ JS.get (AuditController.getAuditLogs_options
                      (Scenario.get_ "/api/audit/logs"
                         (JObj [("page", JStr "-3"); ("limit", JStr "1000")])
                         (Some Scenario.alice)) query) "limit"
            = JS.JInt (Z.min 100 (Z.max 1 1000)))
  /\ (forall env w w1 user options,
         AuditController.page_options
           (Req.query
              (Scenario.get_ "/api/audit/logs"
                 (JObj [("page", JStr "-3"); ("limit", JStr "1000")])
                 (Some Scenario.alice))) false env w
         = (Ok options, w1) ->
         JS.get (AuditController.getEntityAuditLogs_options user options) "page"
         = JS.JInt (Z.max 1 (-3))
         /\ JS.get (AuditController.getEntityAuditLogs_options user options)
              "limit" = JS.JInt (Z.min 100 (Z.max 1 1000)))
  /\ (forall env w w1 options,
         AuditController.getUserActivity_options
           (Scenario.get_ "/api/audit/logs"
              (JObj [("page", JStr "-3"); ("limit", JStr "1000")])
              (Some Scenario.alice)) env w = (Ok options, w1) ->
         JS.get options "page" = JS.JInt (Z.max 1 (-3))
         /\ JS.get options "limit" = JS.JInt (Z.min 100 (Z.max 1 1000))).
Proof.
  apply (audit_queries_paging_clamped
           (Scenario.get_ "/api/audit/logs"
              (JObj [("page", JStr "-3"); ("limit", JStr "1000")])
              (Some Scenario.alice))
           (-3) 1000).
  - vm_compute. reflexivity.
  - vm_compute. reflexivity.
Defined.

(** Called with a page of -3 and a limit of 1000, the handler of
    GET /audit/logs reports page 1 and 100 items per page. *)
Lemma getAuditLogs_clamps_out_of_range :
  JS.get
    (JS.get
       (JS.get
          (body_of
             (fst (AuditController.getAuditLogs
                     (Scenario.get_ "/api/audit/logs"
                        (JObj [("page", JStr "-3"); ("limit", JStr "1000")])
                        (Some Scenario.alice))
                     Scenario.env Scenario.audit_world)))
          "data") "pagination") "currentPage" = JS.JInt 1
  /\ JS.get
       (JS.get
          (JS.get
             (body_of
                (fst (AuditController.getAuditLogs
                        (Scenario.get_ "/api/audit/logs"
                           (JObj [("page", JStr "-3"); ("limit", JStr "1000")])
                           (Some Scenario.alice))
                        Scenario.env Scenario.audit_world)))
             "data") "pagination") "itemsPerPage" = JS.JInt 100.
Proof. split; vm_compute; reflexivity. Qed.

(** On GET /audit/logs the clamped values are the ones the response
    reports. *)
Lemma logs_route_reports_clamped_paging (env : Env) (w w' : World)
    (req : Req.t) (status : Z) (body : jsval) :
  AuditRoutes.logs req env w = (Ok (Responded status body), w') ->
  exists p l,
    1 <= p /\ 1 <= l <= 100
    /\ JS.get (JS.get (JS.get body "data") "pagination") "currentPage"
       = JS.JInt p
    /\ JS.get (JS.get (JS.get body "data") "pagination") "itemsPerPage"
       = JS.JInt l.
Proof.
  intros H. unfold AuditRoutes.logs, Validation.validate_query in H.
  apply bind_Ok in H. destruct H as (env' & w1 & H0 & H).
  apply ask_Ok in H0. destruct H0 as [-> ->].
  destruct (Validation.auditQuery env (Req.query req)) as [q |] eqn:Hv.
  2: { apply ret_Ok in H. destruct H as [H _]. discriminate H. }
  destruct (audit_queries_paging_bounds env (Req.query req) q Hv)
    as (p & l & Rp & Rl & Hpage & Hlimit).
  unfold AuditController.getAuditLogs in H. apply try_next_Responded in H.
  apply bind_Ok in H. destruct H as (u0 & w1 & _ & H).
  apply bind_Ok in H. destruct H as (query & w2 & _ & H).
  apply bind_Ok in H. destruct H as (logs & w3 & _ & H).
  apply bind_Ok in H. destruct H as (matching & w4 & _ & H).
  apply ret_Ok in H. destruct H as [H _]. injection H as _ Hb. subst body.
  cbn [Validation.set_query Req.query]. rewrite Hpage, Hlimit.
  exists p, l. repeat split; try lia; reflexivity.
Qed.

(** *** The clamped limit bounds what a route returns *)

Lemma paginate_length (page : jsval) (l : Z) (sorted r : list AuditLog.t) :
  1 <= l ->
  AuditLogModel.paginate page (JS.JInt l) sorted = Ok r ->
  Z.of_nat (List.length r) <= l.
Proof.
  intros Hl. unfold AuditLogModel.paginate.
  match goal with |- context [AuditLogModel.skip ?n sorted] =>
    destruct (AuditLogModel.skip n sorted) as [skipped | e] end;
    [| intros H; discriminate H].
  cbn [AuditLogModel.to_number JS.JInt AuditLogModel.num_mul].
  intros H. apply limit_length in H; lia.
Qed.

Lemma model_getEntityLogs_length (env : Env) (w w1 : World)
    (entity entityId options : jsval) (l : Z) (logs : list AuditLog.t) :
  JS.get options "limit" = JS.JInt l ->
  1 <= l ->
  AuditLogModel.getEntityLogs entity entityId options env w = (Ok logs, w1) ->
  Z.of_nat (List.length logs) <= l.
Proof.
  intros Hget Hl H.
  unfold AuditLogModel.getEntityLogs in H. rewrite Hget in H.
  cbn [default_to JS.JInt] in H.
  apply bind_Ok in H. destruct H as (env' & w2 & _ & H).
  apply bind_Ok in H. destruct H as (i & w3 & _ & H).
  apply bind_Ok in H. destruct H as (a & w4 & _ & H).
  apply bind_Ok in H. destruct H as (found & w5 & _ & H).
  apply bind_Ok in H. destruct H as (x & w6 & _ & H).
  apply lift_result_Ok in H. destruct H as [H _].
  apply (paginate_length _ l) in H; assumption.
Qed.

Lemma model_getUserActivity_length (env : Env) (w w1 : World)
    (userId options : jsval) (l : Z) (logs : list AuditLog.t) :
  JS.get options "limit" = JS.JInt l ->
  1 <= l ->
  AuditLogModel.getUserActivity userId options env w = (Ok logs, w1) ->
  Z.of_nat (List.length logs) <= l.
Proof.
  intros Hget Hl H.
  unfold AuditLogModel.getUserActivity in H. rewrite Hget in H.
  cbn [default_to JS.JInt] in H.
  apply bind_Ok in H. destruct H as (env' & w2 & _ & H).
  apply bind_Ok in H. destruct H as (a & w4 & _ & H).
  apply bind_Ok in H. destruct H as (found & w5 & _ & H).
  apply lift_result_Ok in H. destruct H as [H _].
  apply (paginate_length _ l) in H; assumption.
Qed.

Lemma service_getEntityLogs_length (env : Env) (w w1 : World)
    (entity entityId options : jsval) (l : Z) (logs : list AuditLog.t) :
  JS.get options "limit" = JS.JInt l ->
  1 <= l ->
  AuditLogService.getEntityLogs entity entityId options env w = (Ok logs, w1) ->
  Z.of_nat (List.length logs) <= l.
Proof.
  intros Hget Hl H. unfold AuditLogService.getEntityLogs in H.
  apply try_catch_Ok in H. destruct H as [H | (e & w2 & _ & H)].
  - eapply model_getEntityLogs_length; eassumption.
  - apply bind_Ok in H. destruct H as (u & w3 & _ & H).
    apply ret_Ok in H. destruct H as [-> _]. cbn. lia.
Qed.

Lemma service_getUserActivity_length (env : Env) (w w1 : World)
    (userId options : jsval) (l : Z) (logs : list AuditLog.t) :
  JS.get options "limit" = JS.JInt l ->
  1 <= l ->
  AuditLogService.getUserActivity userId options env w = (Ok logs, w1) ->
  Z.of_nat (List.length logs) <= l.
Proof.
  intros Hget Hl H. unfold AuditLogService.getUserActivity in H.
  apply try_catch_Ok in H. destruct H as [H | (e & w2 & _ & H)].
  - eapply model_getUserActivity_length; eassumption.
  - apply bind_Ok in H. destruct H as (u & w3 & _ & H).
    apply ret_Ok in H. destruct H as [-> _]. cbn. lia.
Qed.

(** GET /audit/logs never returns more than 100 entries. *)
Lemma logs_route_page_size (env : Env) (w w' : World) (req : Req.t)
    (status : Z) (body : jsval) :
  AuditRoutes.logs req env w = (Ok (Responded status body), w') ->
  exists logs,
    JS.get (JS.get body "data") "auditLogs"
    = JArr (map AuditLogModel.to_json logs)
    /\ Z.of_nat (List.length logs) <= 100.
Proof.
  intros H. unfold AuditRoutes.logs, Validation.validate_query in H.
  apply bind_Ok in H. destruct H as (env' & w1 & H0 & H).
  apply ask_Ok in H0. destruct H0 as [-> ->].
  destruct (Validation.auditQuery env (Req.query req)) as [q |] eqn:Hv.
  2: { apply ret_Ok in H. destruct H as [H _]. discriminate H. }
  destruct (audit_queries_paging_bounds env (Req.query req) q Hv)
    as (p & l & Rp & Rl & Hpage & Hlimit).
  unfold AuditController.getAuditLogs in H. apply try_next_Responded in H.
  apply bind_Ok in H. destruct H as (u0 & w1 & _ & H).
  apply bind_Ok in H. destruct H as (query & w2 & Hq & H).
  apply getAuditLogs_options_paging in Hq. destruct Hq as [_ Hopt].
  cbn [Validation.set_query Req.query] in Hopt. rewrite Hlimit in Hopt.
  apply bind_Ok in H. destruct H as (logs & w3 & Hlogs & H).
  apply (service_getEntityLogs_length _ _ _ _ _ _ l) in Hlogs;
    [| exact Hopt | lia].
  apply bind_Ok in H. destruct H as (matching & w4 & _ & H).
  apply ret_Ok in H. destruct H as [H _]. injection H as _ Hb. subst body.
  exists logs. split; [reflexivity | lia].
Qed.

(** GET /audit/entity/:entity/:entityId never returns more than 100
    entries. *)
Lemma entity_route_page_size (env : Env) (w w' : World) (req : Req.t)
    (status : Z) (body : jsval) :
  AuditRoutes.entity req env w = (Ok (Responded status body), w') ->
  exists logs,
    JS.get (JS.get body "data") "auditLogs"
    = JArr (map AuditLogModel.to_json logs)
    /\ Z.of_nat (List.length logs) <= 100.
Proof.
  intros H. unfold AuditRoutes.entity, AuditRoutes.validate_params in H.
  destruct (AuditRoutes.auditParams (Req.params req)) as [params |].
  2: { apply ret_Ok in H. destruct H as [H _]. discriminate H. }
  unfold Validation.validate_query in H.
  apply bind_Ok in H. destruct H as (env' & w1 & H0 & H).
  apply ask_Ok in H0. destruct H0 as [-> ->].
  cbn [AuditRoutes.set_params Req.query] in H.
  destruct (Validation.auditQuery env (Req.query req)) as [q |] eqn:Hv.
  2: { apply ret_Ok in H. destruct H as [H _]. discriminate H. }
  destruct (audit_queries_paging_bounds env (Req.query req) q Hv)
    as (p & l & Rp & Rl & Hpage & Hlimit).
  unfold AuditController.getEntityAuditLogs in H.
  apply try_next_Responded in H.
  apply bind_Ok in H. destruct H as (u0 & w1 & _ & H).
  apply bind_Ok in H. destruct H as (u1 & w2 & _ & H).
  match type of H with (if ?c then _ else _) _ _ = _ => destruct c end.
  { apply ret_Ok in H. destruct H as [H _]. discriminate H. }
  apply bind_Ok in H. destruct H as (options & w3 & Hopt & H).
  cbn [Validation.set_query Req.query] in Hopt.
  apply page_options_paging in Hopt. destruct Hopt as (rest & ->).
  apply bind_Ok in H. destruct H as (user & w4 & _ & H).
  match type of H with (if ?c then _ else _) _ _ = _ => destruct c end.
  { apply ret_Ok in H. destruct H as [H _]. discriminate H. }
  apply bind_Ok in H. destruct H as (logs & w5 & Hlogs & H).
  apply (service_getEntityLogs_length _ _ _ _ _ _ l) in Hlogs; [| | lia].
  - apply ret_Ok in H. destruct H as [H _]. injection H as _ Hb. subst body.
    exists logs. split; [reflexivity | lia].
  - rewrite Hlimit. unfold AuditController.getEntityAuditLogs_options.
    destruct (negb (AuditController.is_admin user)); reflexivity.
Qed.

(** GET /audit/user/:userId/activity never returns more than 100
    entries. *)
Lemma activity_route_page_size (env : Env) (w w' : World) (req : Req.t)
    (status : Z) (body : jsval) :
  AuditRoutes.activity req env w = (Ok (Responded status body), w') ->
  exists logs,
    JS.get (JS.get body "data") "activityLogs"
    = JArr (map AuditLogModel.to_json logs)
    /\ Z.of_nat (List.length logs) <= 100.
Proof.
  intros H. unfold AuditRoutes.activity, AuditRoutes.validate_params in H.
  destruct (AuditRoutes.userIdParam (Req.params req)) as [params |].
  2: { apply ret_Ok in H. destruct H as [H _]. discriminate H. }
  unfold Validation.validate_query in H.
  apply bind_Ok in H. destruct H as (env' & w1 & H0 & H).
  apply ask_Ok in H0. destruct H0 as [-> ->].
  cbn [AuditRoutes.set_params Req.query] in H.
  destruct (Validation.auditQuery env (Req.query req)) as [q |] eqn:Hv.
  2: { apply ret_Ok in H. destruct H as [H _]. discriminate H. }
  destruct (audit_queries_paging_bounds env (Req.query req) q Hv)
    as (p & l & Rp & Rl & Hpage & Hlimit).
  unfold AuditController.getUserActivity in H.
  apply try_next_Responded in H.
  apply bind_Ok in H. destruct H as (u0 & w1 & _ & H).
  apply bind_Ok in H. destruct H as (u1 & w2 & _ & H).
  apply bind_Ok in H. destruct H as (user & w3 & _ & H).
  match type of H with (if ?c then _ else _) _ _ = _ => destruct c end.
  { apply ret_Ok in H. destruct H as [H _]. discriminate H. }
  apply bind_Ok in H. destruct H as (options & w4 & Hopt & H).
  unfold AuditController.getUserActivity_options in Hopt.
  apply bind_Ok in Hopt. destruct Hopt as (opts & w5 & Hopt & Hret).
  apply ret_Ok in Hret. destruct Hret as [-> _].
  cbn [Validation.set_query Req.query] in Hopt.
  apply page_options_paging in Hopt. destruct Hopt as (rest & ->).
  apply bind_Ok in H. destruct H as (logs & w6 & Hlogs & H).
  apply (service_getUserActivity_length _ _ _ _ _ l) in Hlogs; [| | lia].
  - apply ret_Ok in H. destruct H as [H _]. injection H as _ Hb. subst body.
    exists logs. split; [reflexivity | lia].
  - rewrite Hlimit. reflexivity.
Qed.

(* ===================================================================== *)
(** ** Further properties of the code *)
(* ===================================================================== *)

(** *** Splitting and joining *)

Lemma append_assoc_str (a b c : string) : ((a ++ b) ++ c = a ++ (b ++ c))%string.
Proof.
  induction a as [| x a IH]; cbn; [reflexivity | rewrite IH; reflexivity].
Qed.

Lemma append_empty_r (a : string) : (a ++ "")%string = a.
Proof.
  induction a as [| x a IH]; cbn; [reflexivity | rewrite IH; reflexivity].
Qed.

Lemma forall_chars_app (p : ascii -> bool) (a b : string) :
  Str.forall_chars p (a ++ b) = Str.forall_chars p a && Str.forall_chars p b.
Proof.
  induction a as [| x a IH]; cbn; [reflexivity |].
  rewrite IH. rewrite andb_assoc. reflexivity.
Qed.

(** The pieces of a split, joined again, give the text back. *)
Lemma split_acc_join (sep : ascii) (s : string) :
  forall acc,
    Str.join (String sep EmptyString) (Str.split_acc sep acc s)
    = (acc ++ s)%string.
Proof.
  induction s as [| c r IH]; intros acc; cbn [Str.split_acc].
  - cbn. rewrite append_empty_r. reflexivity.
  - destruct (Ascii.eqb c sep) eqn:E.
    + apply Ascii.eqb_eq in E. subst c.
      unfold Str.join in *. cbn [String.concat].
      specialize (IH EmptyString).
      destruct (Str.split_acc sep "" r) as [| p ps] eqn:S.
      * apply split_acc_nonempty in S. destruct S.
      * rewrite IH. cbn. reflexivity.
    + rewrite IH. rewrite append_assoc_str. reflexivity.
Qed.


Lemma split_acc_no_sep (sep : ascii) (s : string) :
  no_sep sep s = true ->
  forall acc, Str.split_acc sep acc s = [(acc ++ s)%string].
Proof.
  induction s as [| c r IH]; intros H acc; cbn [Str.split_acc].
  - rewrite append_empty_r. reflexivity.
  - unfold no_sep in H. cbn in H. apply andb_prop in H. destruct H as [Hc Hr].
    apply negb_true_iff in Hc. rewrite Hc.
    rewrite (IH Hr). rewrite append_assoc_str. reflexivity.
Qed.

Lemma split_acc_one (sep : ascii) (s : string) :
  forall acc b,
    Str.split_acc sep acc s = [b] ->
    b = (acc ++ s)%string /\ no_sep sep s = true.
Proof.
  induction s as [| c r IH]; intros acc b H; cbn [Str.split_acc] in H.
  - injection H as <-. rewrite append_empty_r. auto.
  - destruct (Ascii.eqb c sep) eqn:E.
    + injection H as _ H. apply split_acc_nonempty in H. destruct H.
    + apply IH in H. destruct H as [-> Hr].
      rewrite append_assoc_str. split; [reflexivity |].
      unfold no_sep in *. cbn. rewrite E. exact Hr.
Qed.

(** A split into exactly two pieces: the text is the first piece, the
    separator and the second piece, and neither piece holds a
    separator. *)
Lemma split_acc_two (sep : ascii) (s : string) :
  forall acc a b,
    Str.split_acc sep acc s = [a; b] ->
    exists a', a = (acc ++ a')%string
               /\ s = (a' ++ String sep b)%string
               /\ no_sep sep a' = true /\ no_sep sep b = true.
Proof.
  induction s as [| c r IH]; intros acc a b H; cbn [Str.split_acc] in H.
  - discriminate H.
  - destruct (Ascii.eqb c sep) eqn:E.
    + apply Ascii.eqb_eq in E. subst c.
      injection H as Ha Hb. subst a.
      apply split_acc_one in Hb. destruct Hb as [-> Hr].
      exists EmptyString. rewrite append_empty_r. cbn. repeat split; auto.
    + apply IH in H. destruct H as (a' & -> & -> & Ha' & Hb).
      exists (String c a'). rewrite append_assoc_str. cbn.
      repeat split; auto.
      unfold no_sep in *. cbn. rewrite E. cbn. exact Ha'.
Qed.

Lemma extractToken_Ok_iff (header token : string) :
  JWTTools.extractToken (JStr header) = Ok (JStr token)
  <-> header = ("Bearer " ++ token)%string /\ no_sep " " token = true.
Proof.
  split.
  - unfold JWTTools.extractToken. cbn [JS.truthy].
    destruct (Str.nonempty header) eqn:Hne; cbn [negb]; [| discriminate].
    unfold Str.split.
    destruct (Str.split_acc " " "" header) as [| a [| b [| c r]]] eqn:S;
      try discriminate.
    destruct (String.eqb a "Bearer") eqn:Ea; [| discriminate].
    intros H. injection H as <-.
    apply String.eqb_eq in Ea. subst a.
    apply split_acc_two in S. destruct S as (a' & Ha & Hs & _ & Hb).
    cbn in Ha. subst a'. subst header. auto.
  - intros [-> Hns]. unfold JWTTools.extractToken. cbn [JS.truthy Str.nonempty].
    cbn [negb]. unfold Str.split. cbn.
    rewrite (split_acc_no_sep " " token Hns). reflexivity.
Qed.

(** X1. [extractToken] returns a token exactly for the headers made of
    [Bearer], one space and a token that holds no space; the token it
    returns is that text. *)
Theorem extractToken_bearer (header token : string) :
  JWTTools.extractToken (JStr header) = Ok (JStr token)
  <-> header = ("Bearer " ++ token)%string /\ no_sep " " token = true.
Proof. exact (extractToken_Ok_iff header token). Qed.

(** Any other text, and a missing header, give [null]; nothing is
    thrown. *)
Lemma extractToken_otherwise (header : string) :
  (forall token, header <> ("Bearer " ++ token)%string) ->
  JWTTools.extractToken (JStr header) = Ok JNull.
Proof.
  intros Hno. unfold JWTTools.extractToken. cbn [JS.truthy].
  destruct (Str.nonempty header); cbn [negb]; [| reflexivity].
  unfold Str.split.
  destruct (Str.split_acc " " "" header) as [| a [| b [| c r]]] eqn:S;
    try reflexivity.
  destruct (String.eqb a "Bearer") eqn:Ea; [| reflexivity].
  apply String.eqb_eq in Ea. subst a.
  apply split_acc_two in S. destruct S as (a' & Ha & Hs & _ & _).
  cbn in Ha. subst a'. destruct (Hno b Hs).
Qed.

(** *** Token classes and expiry *)

Lemma verify_signed (env : Env) (w : World) (t : Token) (secret : string)
    (e : Z) :
  tk_key t = secret ->
  JS.assoc "nbf" (tk_payload t) = None ->
  JS.assoc "exp" (tk_payload t) = Some (JNum (Int e)) ->
  Jwt.verify (Jwt.Signed t) secret env w
  = if e <=? now w / 1000
    then (Throw (Jwt.TokenExpiredError "jwt expired"), w)
    else (Ok (tk_payload t), w).
Proof.
  intros Hk Hn He. unfold Jwt.verify. rewrite Hk, String.eqb_refl. cbn [negb].
  cbv [bind Jwt.clock_seconds Date_now ret]. rewrite Hn, He.
  destruct (e <=? now w / 1000); reflexivity.
Qed.

(** X2. A refresh token is turned away by the access-token check exactly
    because the two secrets differ: with distinct secrets it is the
    invalid-token error; were the secrets equal, the check would accept
    it, refresh audience and all. Stated for a payload that is JSON data
    without registered claims of its own, as the one [generateTokens]
    builds, and a positive refresh lifetime. *)
Theorem refresh_token_not_an_access_token (env : Env) (w : World)
    (claims : list (string * jsval)) (span : Z) :
  Json.roundtrip (JObj claims) = JObj claims ->
  JS.assoc "iat" claims = None ->
  JS.assoc "nbf" claims = None ->
  JS.assoc "exp" claims = None ->
  JS.assoc "aud" claims = None ->
  JS.assoc "iss" claims = None ->
  expires_seconds env (JWT_REFRESH_EXPIRES_IN env) = Some span ->
  0 < span ->
  exists token,
    JWTService.generateRefreshToken (JObj claims) env w = (Ok token, w)
    /\ (String.eqb (JWT_REFRESH_SECRET env) (JWT_SECRET env) = false ->
        JWTService.verifyAccessToken (Jwt.Signed token) env w
        = (Throw (PlainError "Invalid access token"), w))
    /\ (JWT_REFRESH_SECRET env = JWT_SECRET env ->
        exists decoded,
          JWTService.verifyAccessToken (Jwt.Signed token) env w
          = (Ok decoded, w)
          /\ JS.assoc "aud" decoded = Some (JStr "refresh")).
Proof.
  intros Hjson Hiat Hnbf Hexp Haud Hiss Hspan Hpos.
  eexists. split.
  { cbv [JWTService.generateRefreshToken bind ask].
    apply sign_payload with (span := span); assumption. }
  split.
  - intros Hdiff. apply verifyAccessToken_wrong_key. exact Hdiff.
  - intros Hsame. eexists.
    cbv [JWTService.verifyAccessToken bind ask try_catch].
    rewrite (verify_signed env w _ (JWT_SECRET env) (now w / 1000 + span)).
    + assert (E : (now w / 1000 + span <=? now w / 1000) = false)
        by (apply Z.leb_gt; lia).
      rewrite E. split; [reflexivity |].
      cbn [tk_payload]. rewrite assoc_app, Haud. reflexivity.
    + exact Hsame.
    + cbn [tk_payload]. rewrite assoc_app, Hnbf. reflexivity.
    + cbn [tk_payload]. rewrite assoc_app, Hexp. reflexivity.
Qed.

Lemma refresh_token_not_an_access_token_witness :
  exists token,
    JWTService.generateRefreshToken (JObj [("id", JStr (oid 1))])
      Scenario.env Scenario.world = (Ok token, Scenario.world)
    /\ (String.eqb (JWT_REFRESH_SECRET Scenario.env) (JWT_SECRET Scenario.env)
        = false ->
        JWTService.verifyAccessToken (Jwt.Signed token) Scenario.env
          Scenario.world
        = (Throw (PlainError "Invalid access token"), Scenario.world))
    /\ (JWT_REFRESH_SECRET Scenario.env = JWT_SECRET Scenario.env ->
        exists decoded,
          JWTService.verifyAccessToken (Jwt.Signed token) Scenario.env
            Scenario.world
          = (Ok decoded, Scenario.world)
          /\ JS.assoc "aud" decoded = Some (JStr "refresh")).
Proof.
  apply (refresh_token_not_an_access_token Scenario.env Scenario.world
           [("id", JStr (oid 1))] 2592000);
    reflexivity.
Defined.

(** X3. For a token signed with the access secret that carries an expiry,
    [isTokenExpired] says expired only strictly after the expiry second,
    while verification fails as expired from the expiry second on: at
    that one second the two disagree. *)
Theorem isTokenExpired_lags_verification (env : Env) (w : World) (t : Token)
    (e : Z) :
  tk_key t = JWT_SECRET env ->
  JS.assoc "nbf" (tk_payload t) = None ->
  JS.assoc "exp" (tk_payload t) = Some (JNum (Int e)) ->
  e <> 0 ->
  JWTTools.isTokenExpired (Jwt.Signed t) env w = (Ok (e <? now w / 1000), w)
  /\ (JWTService.verifyAccessToken (Jwt.Signed t) env w
      = (Throw (PlainError "Access token has expired"), w)
      <-> e <= now w / 1000).
Proof.
  intros Hk Hn He Hz. split.
  - unfold JWTTools.isTokenExpired, JWTTools.decodeToken.
    cbn [JS.truthy JS.get negb orb]. rewrite He. cbn [JS.truthy].
    assert (E : (e =? 0) = false) by (apply Z.eqb_neq; exact Hz).
    rewrite E. cbn [negb].
    cbv [bind Jwt.clock_seconds Date_now ret]. reflexivity.
  - cbv [JWTService.verifyAccessToken bind ask try_catch].
    rewrite (verify_signed env w t (JWT_SECRET env) e Hk Hn He).
    destruct (e <=? now w / 1000) eqn:E.
    + apply Z.leb_le in E. cbn. split; auto.
    + apply Z.leb_gt in E. split; [intros H; discriminate H | lia].
Qed.

Lemma isTokenExpired_lags_verification_witness :
  JWTTools.isTokenExpired
    (Jwt.Signed (mkToken "access-secret"
                   [("id", JStr (oid 1)); ("exp", JS.JInt 1700000000)]))
    Scenario.env Scenario.world
  = (Ok (1700000000 <? now Scenario.world / 1000), Scenario.world)
  /\ (JWTService.verifyAccessToken
        (Jwt.Signed (mkToken "access-secret"
                       [("id", JStr (oid 1)); ("exp", JS.JInt 1700000000)]))
        Scenario.env Scenario.world
      = (Throw (PlainError "Access token has expired"), Scenario.world)
      <-> 1700000000 <= now Scenario.world / 1000).
Proof.
  apply (isTokenExpired_lags_verification Scenario.env Scenario.world
           (mkToken "access-secret"
              [("id", JStr (oid 1)); ("exp", JS.JInt 1700000000)])
           1700000000).
  - reflexivity.
  - reflexivity.
  - reflexivity.
  - discriminate.
Defined.

(** *** The authentication middleware *)

Lemma findById_Ok (id : jsval) (env : Env) (w w1 : World) (r : option User.t) :
  AuthMiddleware.findById id env w = (Ok r, w1) ->
  w1 = w
  /\ match r with
     | Some user => id = JStr (User._id user) /\ In user (users w)
     | None => True
     end.
Proof.
  unfold AuthMiddleware.findById.
  destruct id as [| | b | n | s | xs | fs | fn];
    try (intros H; apply throw_not_Ok in H; destruct H);
    try (intros H; apply ret_Ok in H; destruct H as [-> ->]; auto).
  destruct (AuditLogger.objectIdRegex s);
    [| intros H; apply throw_not_Ok in H; destruct H].
  intros H. apply bind_Ok in H. destruct H as (x & w2 & H0 & H).
  apply get_world_Ok in H0. destruct H0 as [-> ->].
  apply ret_Ok in H. destruct H as [-> ->]. split; [reflexivity |].
  destruct (List.find (fun u => String.eqb (User._id u) s) (users w))
    as [user |] eqn:F; [| exact I].
  apply find_some in F. destruct F as [Hin Heq].
  apply String.eqb_eq in Heq. subst s. auto.
Qed.

Lemma readonly_findById (id : jsval) : readonly (AuthMiddleware.findById id).
Proof.
  unfold AuthMiddleware.findById.
  destruct id; prove_readonly.
Qed.

Lemma readonly_verify (token : Jwt.compact) (secret : string) :
  readonly (Jwt.verify token secret).
Proof.
  unfold Jwt.verify, Jwt.clock_seconds. destruct token as [t | s];
    [| prove_readonly].
  destruct (negb (String.eqb (tk_key t) secret)); [prove_readonly |].
  apply readonly_bind; [prove_readonly |]. intros clock.
  apply readonly_bind.
  - destruct (JS.assoc "nbf" (tk_payload t)) as [[| | b | [| z] | s | xs | fs | fn] |];
      prove_readonly.
  - intros _.
    destruct (JS.assoc "exp" (tk_payload t)) as [[| | b | [| z] | s | xs | fs | fn] |];
      prove_readonly.
Qed.

Lemma readonly_verifyAccessToken (token : Jwt.compact) :
  readonly (JWTService.verifyAccessToken token).
Proof.
  unfold JWTService.verifyAccessToken.
  apply readonly_bind; [prove_readonly |]. intros env'.
  intros env w. unfold try_catch.
  pose proof (readonly_verify token (JWT_SECRET env') env w) as R.
  destruct (Jwt.verify token (JWT_SECRET env') env w) as [[a | e] w1];
    cbn in R; subst w1; [reflexivity |].
  destruct (String.eqb (err_name e) "TokenExpiredError"); [reflexivity |].
  destruct (String.eqb (err_name e) "JsonWebTokenError"); reflexivity.
Qed.

Lemma readonly_verifyRefreshToken (token : Jwt.compact) :
  readonly (JWTService.verifyRefreshToken token).
Proof.
  unfold JWTService.verifyRefreshToken.
  apply readonly_bind; [prove_readonly |]. intros env'.
  intros env w. unfold try_catch.
  pose proof (readonly_verify token (JWT_REFRESH_SECRET env') env w) as R.
  destruct (Jwt.verify token (JWT_REFRESH_SECRET env') env w) as [[a | e] w1];
    cbn in R; subst w1; [reflexivity |].
  destruct (String.eqb (err_name e) "TokenExpiredError"); [reflexivity |].
  destruct (String.eqb (err_name e) "JsonWebTokenError"); reflexivity.
Qed.

(** What a successful verification tells: the token was signed with the
    secret and its expiry, if it carries one, lies ahead. *)
Lemma verify_Ok (token : Jwt.compact) (secret : string) (env : Env)
    (w w1 : World) (decoded : list (string * jsval)) :
  Jwt.verify token secret env w = (Ok decoded, w1) ->
  exists t,
    token = Jwt.Signed t /\ tk_key t = secret /\ decoded = tk_payload t
    /\ forall e, JS.assoc "exp" decoded = Some (JNum (Int e)) ->
                 now w / 1000 < e.
Proof.
  unfold Jwt.verify. destruct token as [t | s];
    [| intros H; apply throw_not_Ok in H; destruct H].
  destruct (String.eqb (tk_key t) secret) eqn:K; cbn [negb];
    [| intros H; apply throw_not_Ok in H; destruct H].
  apply String.eqb_eq in K.
  intros H. apply bind_Ok in H. destruct H as (clock & w2 & H0 & H).
  cbv [Jwt.clock_seconds bind Date_now ret] in H0.
  injection H0 as <- <-.
  apply bind_Ok in H. destruct H as (u & w3 & H0 & H).
  assert (w3 = w) as ->.
  { apply (readonly_run _ _ _ _ _ (fun env0 w0 => eq_refl)) in H0 || idtac.
    destruct (JS.assoc "nbf" (tk_payload t)) as [[| | b | [| z] | s | xs | fs | fn] |];
      try (apply ret_Ok in H0; tauto);
      try (apply throw_not_Ok in H0; destruct H0).
    destruct (now w / 1000 <? z);
      [apply throw_not_Ok in H0; destruct H0 | apply ret_Ok in H0; tauto]. }
  clear H0.
  exists t. split; [reflexivity |]. split; [exact K |].
  destruct (JS.assoc "exp" (tk_payload t)) as [[| | b | [| z] | s | xs | fs | fn] |] eqn:E;
    try (apply throw_not_Ok in H; destruct H);
    try (apply ret_Ok in H; destruct H as [-> _]; split; [reflexivity |];
         intros e He; rewrite E in He; discriminate He).
  destruct (z <=? now w / 1000) eqn:L;
    [apply throw_not_Ok in H; destruct H |].
  apply ret_Ok in H. destruct H as [-> _]. split; [reflexivity |].
  intros e He. rewrite E in He. injection He as <-. apply Z.leb_gt in L. lia.
Qed.

Lemma verifyAccessToken_Ok (token : Jwt.compact) (env : Env) (w w1 : World)
    (decoded : list (string * jsval)) :
  JWTService.verifyAccessToken token env w = (Ok decoded, w1) ->
  w1 = w
  /\ exists t,
       token = Jwt.Signed t /\ tk_key t = JWT_SECRET env
       /\ decoded = tk_payload t
       /\ forall e, JS.assoc "exp" decoded = Some (JNum (Int e)) ->
                    now w / 1000 < e.
Proof.
  intros H.
  pose proof (readonly_run _ _ _ _ _ (readonly_verifyAccessToken token) H) as ->.
  split; [reflexivity |].
  unfold JWTService.verifyAccessToken in H.
  apply bind_Ok in H. destruct H as (env' & w2 & H0 & H).
  apply ask_Ok in H0. destruct H0 as [-> ->].
  apply try_catch_Ok in H. destruct H as [H | (e & w3 & _ & H)].
  - apply verify_Ok in H. exact H.
  - destruct (String.eqb (err_name e) "TokenExpiredError");
      [apply throw_not_Ok in H; destruct H |].
    destruct (String.eqb (err_name e) "JsonWebTokenError");
      apply throw_not_Ok in H; destruct H.
Qed.

Lemma readonly_authenticate_body (parse : string -> Jwt.compact)
    (user : User.t) (req : Req.t) :
  readonly
    (if negb (User.isActive user) then
       ret (Reject (createError 401 "Account is deactivated"))
     else
       t <- Date_now ;;
       if UserModel.isLocked user t then
         ret (Reject (createError 423
           "Account is temporarily locked due to multiple failed login attempts"))
       else ret (Continue (AuthMiddleware.set_user req user))).
Proof. prove_readonly. Qed.

Lemma readonly_authenticate (parse : string -> Jwt.compact)
    (authorization : jsval) (req : Req.t) :
  readonly (AuthMiddleware.authenticate parse authorization req).
Proof.
  unfold AuthMiddleware.authenticate. intros env w. unfold try_catch.
  match goal with
  | |- context [match ?c env w with _ => _ end] =>
      assert (readonly c) as R
  end.
  { apply readonly_bind; [prove_readonly |]. intros token.
    apply readonly_if; [prove_readonly |].
    apply readonly_bind; [apply readonly_verifyAccessToken |]. intros decoded.
    apply readonly_bind; [apply readonly_findById |]. intros [user |];
      [| prove_readonly].
    apply (readonly_authenticate_body parse). }
  specialize (R env w).
  match goal with
  | |- context [match ?c env w with _ => _ end] =>
      destruct (c env w) as [[p | e] w1]
  end; cbn in R; subst w1; [reflexivity |].
  destruct (Str.includes (err_message e) "expired"); [reflexivity |].
  destruct (Str.includes (err_message e) "invalid"); reflexivity.
Qed.

(** X4. When [authenticate] lets a request through, the Authorization
    header was [Bearer], a space and a token; that token was signed with
    the access secret and its expiry, if any, lies ahead; the user
    attached to the request is a stored, active account whose id is the
    token's [id]; nothing was written. *)
Theorem authenticate_sound (parse : string -> Jwt.compact)
    (authorization : jsval) (req req' : Req.t) (env : Env) (w w1 : World) :
  AuthMiddleware.authenticate parse authorization req env w
    = (Ok (Continue req'), w1) ->
  w1 = w
  /\ exists text t user,
       authorization = JStr ("Bearer " ++ text)
       /\ parse text = Jwt.Signed t
       /\ tk_key t = JWT_SECRET env
       /\ (forall e, JS.assoc "exp" (tk_payload t) = Some (JNum (Int e)) ->
                     now w / 1000 < e)
       /\ JS.assoc "id" (tk_payload t) = Some (JStr (User._id user))
       /\ In user (users w)
       /\ User.isActive user = true
       /\ req' = AuthMiddleware.set_user req user.
Proof.
  intros H.
  pose proof (readonly_run _ _ _ _ _
                (readonly_authenticate parse authorization req) H) as ->.
  split; [reflexivity |].
  unfold AuthMiddleware.authenticate in H.
  apply try_catch_Ok in H. destruct H as [H | (e & w2 & _ & H)].
  2:{ destruct (Str.includes (err_message e) "expired");
        [apply ret_Ok in H; destruct H as [H _]; discriminate H |].
      destruct (Str.includes (err_message e) "invalid");
        apply ret_Ok in H; destruct H as [H _]; discriminate H. }
  apply bind_Ok in H. destruct H as (token & w2 & H0 & H).
  apply lift_result_Ok in H0. destruct H0 as [X ->].
  destruct (negb (JS.truthy token)) eqn:T;
    [apply ret_Ok in H; destruct H as [H _]; discriminate H |].
  apply bind_Ok in H. destruct H as (decoded & w2 & H0 & H).
  apply verifyAccessToken_Ok in H0.
  destruct H0 as (-> & t & Hp & Hk & -> & Hexp).
  apply bind_Ok in H. destruct H as (found & w2 & H0 & H).
  apply findById_Ok in H0. destruct H0 as [-> Hf].
  destruct found as [user |];
    [| apply ret_Ok in H; destruct H as [H _]; discriminate H].
  destruct Hf as [Hid Hin].
  destruct (User.isActive user) eqn:A; cbn [negb] in H;
    [| apply ret_Ok in H; destruct H as [H _]; discriminate H].
  apply bind_Ok in H. destruct H as (tm & w2 & H0 & H).
  destruct (UserModel.isLocked user tm);
    apply ret_Ok in H; destruct H as [H _]; [discriminate H |].
  injection H as ->.
  (* the header *)
  destruct authorization as [| | b | n | header | xs | fs | fn];
    try (cbn in X; injection X as <-; discriminate T);
    try (unfold JWTTools.extractToken in X;
         destruct (negb (JS.truthy _)); [injection X as <-; discriminate T
                                        | discriminate X]).
  destruct token as [| | b | n | text | xs | fs | fn];
    try (discriminate T);
    try (exfalso; revert X; unfold JWTTools.extractToken;
         destruct (negb (JS.truthy (JStr header))); [intros X; discriminate X |];
         destruct (Str.split " " header) as [| a [| b' [| c l]]];
         try (intros X; discriminate X);
         destruct (String.eqb a "Bearer"); intros X; discriminate X).
  apply extractToken_Ok_iff in X. destruct X as [-> _].
  exists text, t, user. cbn [AuthMiddleware.as_compact] in Hp.
  unfold JS.get in Hid.
  repeat split; auto.
  destruct (JS.assoc "id" (tk_payload t)) as [v |]; [| discriminate Hid].
  rewrite Hid. reflexivity.
Qed.

Ltac ret_inv H :=
  apply ret_Ok in H; destruct H as [H _].

(** X5. [authenticate] never throws and writes nothing: it lets the
    request through with a user attached, or passes on an error made by
    [createError] with status 401 or 423; it never answers itself. *)
Theorem authenticate_outcomes (parse : string -> Jwt.compact)
    (authorization : jsval) (req : Req.t) (env : Env) (w : World) :
  exists p,
    AuthMiddleware.authenticate parse authorization req env w = (Ok p, w)
    /\ match p with
       | Continue r => exists user, r = AuthMiddleware.set_user req user
       | Reject e =>
           exists message,
             e = createError 401 message \/ e = createError 423 message
       | Answer _ _ => False
       end.
Proof.
  pose proof (readonly_authenticate parse authorization req env w) as R.
  destruct (AuthMiddleware.authenticate parse authorization req env w)
    as [[p | e] w1] eqn:H; cbn in R; subst w1.
  - exists p. split; [reflexivity |].
    unfold AuthMiddleware.authenticate in H.
    apply try_catch_Ok in H. destruct H as [H | (e & w2 & _ & H)].
    2:{ destruct (Str.includes (err_message e) "expired");
          [ret_inv H; subst p; eauto |].
        destruct (Str.includes (err_message e) "invalid");
          ret_inv H; subst p; eauto. }
    apply bind_Ok in H. destruct H as (token & w2 & _ & H).
    destruct (negb (JS.truthy token)); [ret_inv H; subst p; eauto |].
    apply bind_Ok in H. destruct H as (decoded & w3 & _ & H).
    apply bind_Ok in H. destruct H as (found & w4 & _ & H).
    destruct found as [user |]; [| ret_inv H; subst p; eauto].
    destruct (negb (User.isActive user)); [ret_inv H; subst p; eauto |].
    apply bind_Ok in H. destruct H as (tm & w5 & _ & H).
    destruct (UserModel.isLocked user tm); ret_inv H; subst p; eauto.
  - exfalso. unfold AuthMiddleware.authenticate, try_catch in H.
    match type of H with
    | context [match ?c env w with _ => _ end] =>
        destruct (c env w) as [[p | e'] w1]
    end; [discriminate H |].
    destruct (Str.includes (err_message e') "expired"); [discriminate H |].
    destruct (Str.includes (err_message e') "invalid"); discriminate H.
Qed.

Lemma extractToken_of_bearer (text : string) :
  no_sep " " text = true ->
  JWTTools.extractToken (JStr ("Bearer " ++ text)) = Ok (JStr text).
Proof.
  intros N. apply extractToken_Ok_iff. auto.
Qed.

Lemma nonempty_truthy (s : string) :
  s <> EmptyString -> JS.truthy (JStr s) = true.
Proof. destruct s; [congruence | reflexivity]. Qed.

Lemma verifyAccessToken_rejects (token : Jwt.compact) (env : Env) (w : World) :
  match token with
  | Jwt.Signed t => tk_key t <> JWT_SECRET env
  | Jwt.Garbage _ => True
  end ->
  JWTService.verifyAccessToken token env w
    = (Throw (PlainError "Invalid access token"), w).
Proof.
  destruct token as [t | s]; intros H.
  - apply verifyAccessToken_wrong_key. apply String.eqb_neq. exact H.
  - reflexivity.
Qed.

(** X6. A token that the access secret did not sign, or that no signer
    made at all, is answered with 401 [Authentication failed]: the message
    [Invalid access token] of the token service holds no lower-case
    [invalid], so the branch written for it is not the one taken. *)
Theorem authenticate_foreign_token (parse : string -> Jwt.compact)
    (text : string) (req : Req.t) (env : Env) (w : World) :
  text <> EmptyString ->
  no_sep " " text = true ->
  match parse text with
  | Jwt.Signed t => tk_key t <> JWT_SECRET env
  | Jwt.Garbage _ => True
  end ->
  AuthMiddleware.authenticate parse (JStr ("Bearer " ++ text)) req env w
    = (Ok (Reject (createError 401 "Authentication failed")), w).
Proof.
  intros Hne Hsp Hkey.
  unfold AuthMiddleware.authenticate, try_catch, bind at 1, lift_result.
  rewrite (extractToken_of_bearer text Hsp).
  rewrite (nonempty_truthy text Hne). cbn [negb].
  unfold bind at 1. cbn [AuthMiddleware.as_compact].
  rewrite (verifyAccessToken_rejects (parse text) env w Hkey).
  reflexivity.
Qed.

Lemma authenticate_foreign_token_witness :
  AuthMiddleware.authenticate
    (fun s => Jwt.Signed (mkToken "refresh-secret" [("id", JStr (oid 1))]))
    (JStr "Bearer abc.def.ghi") (Scenario.get_ "/api/auth/me" (JObj []) None)
    Scenario.env Scenario.world
  = (Ok (Reject (createError 401 "Authentication failed")), Scenario.world).
Proof.
  apply (authenticate_foreign_token
           (fun s => Jwt.Signed (mkToken "refresh-secret" [("id", JStr (oid 1))]))
           "abc.def.ghi").
  - intros H; discriminate H.
  - reflexivity.
  - cbn. intros H; discriminate H.
Defined.

(** X7. A token signed with the access secret whose expiry has come (and
    that is not held back by a not-before claim) is answered with 401
    [Access token has expired], whoever its [id] names. *)
Theorem authenticate_expired_token (parse : string -> Jwt.compact)
    (text : string) (t : Token) (e : Z) (req : Req.t) (env : Env)
    (w : World) :
  text <> EmptyString ->
  no_sep " " text = true ->
  parse text = Jwt.Signed t ->
  tk_key t = JWT_SECRET env ->
  JS.assoc "nbf" (tk_payload t) = None ->
  JS.assoc "exp" (tk_payload t) = Some (JNum (Int e)) ->
  e <= now w / 1000 ->
  AuthMiddleware.authenticate parse (JStr ("Bearer " ++ text)) req env w
    = (Ok (Reject (createError 401 "Access token has expired")), w).
Proof.
  intros Hne Hsp Hp Hk Hnbf Hexp Hle.
  unfold AuthMiddleware.authenticate, try_catch, bind at 1, lift_result.
  rewrite (extractToken_of_bearer text Hsp).
  rewrite (nonempty_truthy text Hne). cbn [negb].
  unfold bind at 1. cbn [AuthMiddleware.as_compact]. rewrite Hp.
  assert (JWTService.verifyAccessToken (Jwt.Signed t) env w
          = (Throw (PlainError "Access token has expired"), w)) as V.
  { unfold JWTService.verifyAccessToken, Jwt.verify, Jwt.clock_seconds.
    cbv [bind ask try_catch Date_now ret].
    rewrite Hk, String.eqb_refl. cbn [negb]. rewrite Hnbf, Hexp.
    cbv [ret throw].
    destruct (e <=? now w / 1000) eqn:L; [reflexivity |].
    apply Z.leb_gt in L. lia. }
  rewrite V. reflexivity.
Qed.

Lemma authenticate_expired_token_witness :
  AuthMiddleware.authenticate
    (fun s => Jwt.Signed (mkToken "access-secret"
                            [("id", JStr (oid 1)); ("exp", JS.JInt 1600000000)]))
    (JStr "Bearer abc.def.ghi") (Scenario.get_ "/api/auth/me" (JObj []) None)
    Scenario.env Scenario.world
  = (Ok (Reject (createError 401 "Access token has expired")), Scenario.world).
Proof.
  apply (authenticate_expired_token
           (fun s => Jwt.Signed (mkToken "access-secret"
                            [("id", JStr (oid 1)); ("exp", JS.JInt 1600000000)]))
           "abc.def.ghi"
           (mkToken "access-secret"
              [("id", JStr (oid 1)); ("exp", JS.JInt 1600000000)])
           1600000000).
  - intros H; discriminate H.
  - reflexivity.
  - reflexivity.
  - reflexivity.
  - reflexivity.
  - reflexivity.
  - vm_compute. intros H; discriminate H.
Defined.

(** X8. [optionalAuth] never stops a request and never throws or writes:
    whatever the header holds, the request goes on, either as it came or
    with a stored, active user attached. *)
Theorem optionalAuth_never_rejects (parse : string -> Jwt.compact)
    (authorization : jsval) (req : Req.t) (env : Env) (w : World) :
  exists r,
    AuthMiddleware.optionalAuth parse authorization req env w
      = (Ok (Continue r), w)
    /\ (r = req
        \/ exists user,
             In user (users w) /\ User.isActive user = true
             /\ r = AuthMiddleware.set_user req user).
Proof.
  unfold AuthMiddleware.optionalAuth, try_catch.
  match goal with
  | |- context [match ?c env w with _ => _ end] =>
      assert (readonly c) as R;
      [| specialize (R env w); destruct (c env w) as [[p | e] w1] eqn:H;
         cbn in R; subst w1 ]
  end.
  - apply readonly_bind; [prove_readonly |]. intros token.
    apply readonly_if; [prove_readonly |].
    apply readonly_bind; [apply readonly_verifyAccessToken |]. intros decoded.
    apply readonly_bind; [apply readonly_findById |]. intros found.
    apply readonly_bind; [prove_readonly |]. intros tm.
    destruct found as [user |]; prove_readonly.
  - apply bind_Ok in H. destruct H as (token & w2 & H0 & H).
    apply lift_result_Ok in H0. destruct H0 as [_ ->].
    destruct (negb (JS.truthy token)); [ret_inv H; subst p; eauto |].
    apply bind_Ok in H. destruct H as (decoded & w3 & H0 & H).
    apply verifyAccessToken_Ok in H0. destruct H0 as [-> _].
    apply bind_Ok in H. destruct H as (found & w4 & H0 & H).
    apply findById_Ok in H0. destruct H0 as [-> Hf].
    apply bind_Ok in H. destruct H as (tm & w5 & _ & H).
    destruct found as [user |]; [| ret_inv H; subst p; eauto].
    destruct Hf as [_ Hin].
    destruct (User.isActive user) eqn:A; cbn [andb] in H;
      [| ret_inv H; subst p; eauto].
    destruct (negb (UserModel.isLocked user tm));
      ret_inv H; subst p; [| eauto].
    exists (AuthMiddleware.set_user req user). split; [reflexivity |].
    right. exists user. auto.
  - exists req. split; [reflexivity | auto].
Qed.

Lemma authenticate_sound_witness :
  Scenario.world = Scenario.world
  /\ exists text t user,
       JStr "Bearer abc.def.ghi" = JStr ("Bearer " ++ text)
       /\ (fun _ : string =>
             Jwt.Signed (mkToken "access-secret"
                           [("id", JStr (oid 1)); ("exp", JS.JInt 1800000000)]))
            text = Jwt.Signed t
       /\ tk_key t = JWT_SECRET Scenario.env
       /\ (forall e, JS.assoc "exp" (tk_payload t) = Some (JNum (Int e)) ->
                     now Scenario.world / 1000 < e)
       /\ JS.assoc "id" (tk_payload t) = Some (JStr (User._id user))
       /\ In user (users Scenario.world)
       /\ User.isActive user = true
       /\ AuthMiddleware.set_user
            (Scenario.get_ "/api/auth/me" (JObj []) None) Scenario.alice
          = AuthMiddleware.set_user
              (Scenario.get_ "/api/auth/me" (JObj []) None) user.
Proof.
  apply (authenticate_sound
           (fun _ : string =>
              Jwt.Signed (mkToken "access-secret"
                            [("id", JStr (oid 1)); ("exp", JS.JInt 1800000000)]))
           (JStr "Bearer abc.def.ghi")
           (Scenario.get_ "/api/auth/me" (JObj []) None)
           (AuthMiddleware.set_user
              (Scenario.get_ "/api/auth/me" (JObj []) None) Scenario.alice)
           Scenario.env Scenario.world Scenario.world).
  vm_compute. reflexivity.
Defined.

(** *** Refreshing a token pair *)

Lemma js_or_same (v : jsval) : js_or v v = v.
Proof. unfold js_or. destruct (JS.truthy v); reflexivity. Qed.

(** The pair [generateTokens] makes, written out. *)
Lemma generateTokens_run (user : User.t) (env : Env) (w : World)
    (life span : Z) :
  expires_seconds env (JWT_EXPIRES_IN env) = Some life ->
  expires_seconds env (JWT_REFRESH_EXPIRES_IN env) = Some span ->
  JWTService.generateTokens user env w
  = (Ok [("accessToken",
          JStr (jwt_render env
                  (mkToken (JWT_SECRET env)
                     ([("id", JStr (User._id user));
                       ("email", JStr (User.email user));
                       ("role", js_or (JStr (User.role user)) (JStr "user"))]
                      ++ stamps w life "user" (JWTService.issuer env)))));
         ("refreshToken",
          JStr (jwt_render env
                  (mkToken (JWT_REFRESH_SECRET env)
                     ([("id", JStr (User._id user))]
                      ++ stamps w span "refresh" (JWTService.issuer env)))));
         ("expiresIn", JStr (JWT_EXPIRES_IN env))], w).
Proof.
  intros Hlife Hspan.
  pose proof (generateTokens_payload_plain user) as P. cbv zeta in P.
  rewrite js_or_same in P.
  destruct P as (Pj & Piat & Pnbf & Pexp & Paud & Piss).
  unfold JWTService.generateTokens. rewrite js_or_same.
  unfold bind at 1. unfold ask at 1.
  unfold bind at 1. unfold JWTService.generateAccessToken at 1.
  unfold bind at 1. unfold ask at 1.
  rewrite (sign_payload env w _ _ _ _ _ life Pj Piat Pnbf Pexp Paud Piss Hlife).
  unfold bind at 1. unfold JWTService.generateRefreshToken at 1.
  unfold bind at 1. unfold ask at 1.
  rewrite (sign_payload env w [("id", JStr (User._id user))] _ _ _ _ span);
    try reflexivity; try assumption.
Qed.

Lemma verifyRefreshToken_signed (env : Env) (w : World) (t : Token) (e : Z) :
  tk_key t = JWT_REFRESH_SECRET env ->
  JS.assoc "nbf" (tk_payload t) = None ->
  JS.assoc "exp" (tk_payload t) = Some (JNum (Int e)) ->
  JWTService.verifyRefreshToken (Jwt.Signed t) env w
  = if e <=? now w / 1000
    then (Throw (PlainError "Refresh token has expired"), w)
    else (Ok (tk_payload t), w).
Proof.
  intros Hk Hn He.
  cbv [JWTService.verifyRefreshToken bind ask try_catch].
  rewrite (verify_signed env w t (JWT_REFRESH_SECRET env) e Hk Hn He).
  destruct (e <=? now w / 1000); reflexivity.
Qed.

(** X9. The refresh token of a pair that [generateTokens] issued buys a
    new pair for as long as it has not expired and its account is stored
    and active: [refreshToken] answers 200 with the stored account and a
    pair freshly made for it, and writes nothing, so the same refresh
    token works again. Once its lifetime is over the answer is 401
    [Refresh token has expired]. *)
Theorem refresh_rotation (parse : string -> Jwt.compact) (user : User.t)
    (env : Env) (w0 w : World) (life span : Z) (t : Token) (req : Req.t) :
  expires_seconds env (JWT_EXPIRES_IN env) = Some life ->
  expires_seconds env (JWT_REFRESH_EXPIRES_IN env) = Some span ->
  AuditLogger.objectIdRegex (User._id user) = true ->
  JWTService.generateRefreshToken (JObj [("id", JStr (User._id user))]) env w0
    = (Ok t, w0) ->
  parse (jwt_render env t) = Jwt.Signed t ->
  jwt_render env t <> EmptyString ->
  exists tokens,
    JWTService.generateTokens user env w0 = (Ok tokens, w0)
    /\ (Req.body req = refresh_body tokens ->
        (now w0 / 1000 + span <= now w / 1000 ->
         AuthMiddleware.refreshToken parse req env w
         = (Ok (Reject (createError 401 "Refresh token has expired")), w))
        /\ (now w / 1000 < now w0 / 1000 + span ->
            forall account,
              stored w (User._id user) = Some account ->
              User.isActive account = true ->
              exists fresh,
                JWTService.generateTokens account env w = (Ok fresh, w)
                /\ AuthMiddleware.refreshToken parse req env w
                   = (Ok (Answer 200
                            (JObj [("success", JBool true);
                                   ("message",
                                    JStr "Tokens refreshed successfully");
                                   ("data",
                                    JObj ([("user",
                                            UserModel.to_json account false)]
                                          ++ fresh)%list)])), w))).
Proof.
  intros Hlife Hspan Hid Hsign Hparse Hne.
  assert (t = mkToken (JWT_REFRESH_SECRET env)
                ([("id", JStr (User._id user))]
                 ++ stamps w0 span "refresh" (JWTService.issuer env))%list)
    as Ht.
  { cbv [JWTService.generateRefreshToken bind ask] in Hsign.
    rewrite (sign_payload env w0 [("id", JStr (User._id user))] _ _ _ _ span)
      in Hsign; try reflexivity; try assumption.
    injection Hsign as <-. reflexivity. }
  clear Hsign.
  eexists. split; [apply (generateTokens_run user env w0 life span Hlife Hspan) |].
  intros Hbody.
  rewrite <- Ht in Hbody.
  assert (V := verifyRefreshToken_signed env w t (now w0 / 1000 + span)).
  rewrite Ht in V at 1 2 3. specialize (V eq_refl eq_refl eq_refl).
  assert (B : AuthMiddleware.refreshToken parse req env w
              = try_catch
                  (decoded <- JWTService.verifyRefreshToken (Jwt.Signed t) ;;
                   found <- AuthMiddleware.findById (JS.get (JObj decoded) "id") ;;
                   match found with
                   | None =>
                       ret (Reject (createError 401
                              "Invalid refresh token or user not found"))
                   | Some u =>
                       if negb (User.isActive u) then
                         ret (Reject (createError 401
                                "Invalid refresh token or user not found"))
                       else
                         tokens <- JWTService.generateTokens u ;;
                         ret (Answer 200
                                (JObj [("success", JBool true);
                                       ("message",
                                        JStr "Tokens refreshed successfully");
                                       ("data",
                                        JObj ([("user", UserModel.to_json u false)]
                                              ++ tokens)%list)]))
                   end)
                  (fun error =>
                     if Str.includes (err_message error) "expired" then
                       ret (Reject (createError 401 "Refresh token has expired"))
                     else if Str.includes (err_message error) "invalid" then
                       ret (Reject (createError 401 "Invalid refresh token"))
                     else ret (Reject (createError 401 "Token refresh failed")))
                  env w).
  { unfold AuthMiddleware.refreshToken. rewrite Hbody.
    unfold refresh_body. cbn [JS.get JS.assoc String.eqb Ascii.eqb Bool.eqb].
    unfold try_catch, bind at 1. cbn [AuthController.destructure ret].
    rewrite (nonempty_truthy _ Hne). cbn [negb].
    cbn [AuthMiddleware.as_compact]. rewrite Hparse. reflexivity. }
  split.
  - intros Hlate. rewrite B. unfold try_catch, bind at 1. rewrite V.
    apply Z.leb_le in Hlate. rewrite Hlate. reflexivity.
  - intros Hearly account Hst Hact.
    assert (E : (now w0 / 1000 + span <=? now w / 1000) = false)
      by (apply Z.leb_gt; lia).
    eexists.
    split; [apply (generateTokens_run account env w life span Hlife Hspan) |].
    rewrite B. unfold try_catch, bind at 1. rewrite V, E.
    unfold bind at 1. rewrite Ht.
    cbn [tk_payload app JS.get JS.assoc String.eqb Ascii.eqb Bool.eqb].
    unfold AuthMiddleware.findById. rewrite Hid.
    unfold stored in Hst. cbv [bind get_world ret]. rewrite Hst, Hact.
    cbn [negb].
    rewrite (generateTokens_run account env w life span Hlife Hspan).
    reflexivity.
Qed.

Lemma refresh_rotation_witness :
  exists tokens,
    JWTService.generateTokens Scenario.alice Scenario.env Scenario.world
      = (Ok tokens, Scenario.world)
    /\ (Req.body Session.refresh_req = refresh_body tokens ->
        (now Scenario.world / 1000 + 2592000
           <= now (at_time 1700000060000 Scenario.world) / 1000 ->
         AuthMiddleware.refreshToken Session.parse Session.refresh_req
           Scenario.env (at_time 1700000060000 Scenario.world)
         = (Ok (Reject (createError 401 "Refresh token has expired")),
            at_time 1700000060000 Scenario.world))
        /\ (now (at_time 1700000060000 Scenario.world) / 1000
              < now Scenario.world / 1000 + 2592000 ->
            forall account,
              stored (at_time 1700000060000 Scenario.world)
                (User._id Scenario.alice) = Some account ->
              User.isActive account = true ->
              exists fresh,
                JWTService.generateTokens account Scenario.env
                  (at_time 1700000060000 Scenario.world)
                  = (Ok fresh, at_time 1700000060000 Scenario.world)
                /\ AuthMiddleware.refreshToken Session.parse
                     Session.refresh_req Scenario.env
                     (at_time 1700000060000 Scenario.world)
                   = (Ok (Answer 200
                            (JObj [("success", JBool true);
                                   ("message",
                                    JStr "Tokens refreshed successfully");
                                   ("data",
                                    JObj ([("user",
                                            UserModel.to_json account false)]
                                          ++ fresh)%list)])),
                      at_time 1700000060000 Scenario.world))).
Proof.
  apply (refresh_rotation Session.parse Scenario.alice Scenario.env
           Scenario.world (at_time 1700000060000 Scenario.world)
           604800 2592000 Session.refresh Session.refresh_req).
  - reflexivity.
  - reflexivity.
  - reflexivity.
  - vm_compute. reflexivity.
  - vm_compute. reflexivity.
  - vm_compute. intros H; discriminate H.
Defined.

(** The hypotheses of the witness are met: the request carries the
    refresh token of the pair, and alice is stored and active. *)
Lemma refresh_session_runs :
  exists tokens fresh,
    JWTService.generateTokens Scenario.alice Scenario.env Scenario.world
      = (Ok tokens, Scenario.world)
    /\ Req.body Session.refresh_req = refresh_body tokens
    /\ stored (at_time 1700000060000 Scenario.world) (User._id Scenario.alice)
       = Some Scenario.alice
    /\ AuthMiddleware.refreshToken Session.parse Session.refresh_req
         Scenario.env (at_time 1700000060000 Scenario.world)
       = (Ok (Answer 200
                (JObj [("success", JBool true);
                       ("message", JStr "Tokens refreshed successfully");
                       ("data",
                        JObj ([("user", UserModel.to_json Scenario.alice false)]
                              ++ fresh)%list)])),
          at_time 1700000060000 Scenario.world).
Proof.
  eexists _, _. vm_compute. repeat split; reflexivity.
Qed.

(** *** The interceptor *)

Lemma logRequest_effect (req : Req.t) (responseData statusCode : jsval)
    (env : Env) (w : World) :
  exists w',
    AuditLogger.logRequest req responseData statusCode env w = (Ok tt, w')
    /\ users w' = users w
    /\ outbox w' = outbox w
    /\ (auditLogs w' = auditLogs w
        \/ exists user doc,
             Req.user req = Some user
             /\ (String.eqb (Req.method req) "GET"
                 && negb (AuditLogger.shouldLogGetRequest (Req.path req)))
                = false
             /\ JS.truthy (AuditLogger.extractEntityFromPath (Req.path req))
                = true
             /\ auditLogs w' = (auditLogs w ++ [doc])%list
             /\ AuditLog.userId doc = JStr (User._id user)
             /\ JStr (AuditLog.action doc)
                = AuditLogger.getActionFromMethod (Req.method req)).
Proof.
  unfold AuditLogger.logRequest, try_catch.
  destruct (Req.user req) as [user |]; [| exists w; cbn; auto].
  destruct (String.eqb (Req.method req) "GET"
            && negb (AuditLogger.shouldLogGetRequest (Req.path req))) eqn:G;
    [exists w; cbn; auto |].
  destruct (JS.truthy (AuditLogger.extractEntityFromPath (Req.path req)))
    eqn:E; cbn [negb orb]; [| exists w; cbn; auto].
  destruct (negb (JS.truthy
              (AuditLogger.extractEntityIdFromPath (Req.path req)
                 (Req.body req) responseData))); [exists w; cbn; auto |].
  unfold bind.
  match goal with
  | |- context [AuditLogService.createLog ?p env w] =>
      destruct (service_createLog_absorbs p env w) as (r & w' & C & R);
      pose proof (fun doc => service_createLog_persists p env w w' doc) as P
  end.
  rewrite C in *. exists w'. split; [reflexivity |].
  assert (outbox w' = outbox w) as Hout.
  { clear P R. revert C.
    intros C. apply service_createLog_frame in C. tauto. }
  destruct R as [Hu R]. split; [exact Hu |]. split; [exact Hout |].
  destruct r as [doc |].
  - right. exists user, doc.
    destruct (P doc eq_refl) as (Huid & Hact & _ & _ & _ & _ & _ & Hlogs & _).
    cbn [AuditLogModel.userId AuditLogModel.action] in Huid, Hact.
    repeat split; auto.
    destruct (getActionFromMethod_cases (Req.method req))
      as [(a & Ha & Hin) | (e & He)].
    + rewrite Ha in Hact |- *. cbn in Hact. injection Hact as <-.
      rewrite (toUpperCase_action _ Hin). reflexivity.
    + rewrite He in Hact. discriminate Hact.
  - left. tauto.
Qed.

(** X10. The interceptor never throws and never touches the accounts or
    the outbox: once a response has ended it leaves the audit trail as it
    was or appends exactly one entry, and that entry names the request's
    user as actor and carries the action of the request's method. *)
Theorem auditLogger_appends_at_most_one (req : Req.t)
    (responseData statusCode : jsval) (env : Env) (w : World) :
  exists w',
    AuditInterceptor.auditLogger req responseData statusCode env w
      = (Ok tt, w')
    /\ users w' = users w
    /\ outbox w' = outbox w
    /\ (auditLogs w' = auditLogs w
        \/ exists user doc,
             Req.user req = Some user
             /\ auditLogs w' = (auditLogs w ++ [doc])%list
             /\ AuditLog.userId doc = JStr (User._id user)
             /\ JStr (AuditLog.action doc)
                = AuditLogger.getActionFromMethod (Req.method req)).
Proof.
  unfold AuditInterceptor.auditLogger.
  destruct (existsb (fun route => Str.startsWith (Req.path req) route)
              AuditInterceptor.skipRoutes).
  - exists w. cbn. auto.
  - destruct (logRequest_effect req responseData statusCode env w)
      as (w' & H & Hu & Ho & [Hl | (user & doc & Hr & _ & _ & Hl & Hid & Ha)]).
    + exists w'. auto.
    + exists w'. repeat split; auto. right. exists user, doc. auto.
Qed.

(** The entity name of a path that starts with a slash but not with the
    [/api/] prefix is empty. *)
Lemma extractEntityFromPath_outside_api (rest : string) :
  Str.startsWith (String "/" rest) "/api/" = false ->
  AuditLogger.extractEntityFromPath (String "/" rest) = JStr EmptyString.
Proof.
  intros Hapi. unfold AuditLogger.extractEntityFromPath, AuditLogger.strip_api.
  rewrite Hapi. unfold Str.split. cbn [Str.split_acc].
  change (Ascii.eqb "/" "/") with true. cbn iota.
  destruct (Str.split_acc "/" "" rest) as [| p ps] eqn:S;
    [exfalso; exact (split_acc_nonempty _ _ _ S) |].
  unfold Str.join. cbn [String.concat append hd].
  cbn. reflexivity.
Qed.

(** X11. The interceptor records only under [/api/], and never under
    [/api/audit]: when a request whose path starts with a slash leaves an
    entry, the path starts with [/api/], does not start with
    [/api/audit], and the request carries a user. *)
Theorem auditLogger_records_api_only (req : Req.t)
    (responseData statusCode : jsval) (env : Env) (w : World)
    (rest : string) :
  Req.path req = String "/" rest ->
  auditLogs (snd (AuditInterceptor.auditLogger req responseData statusCode
                    env w))
    <> auditLogs w ->
  Str.startsWith (Req.path req) "/api/" = true
  /\ Str.startsWith (Req.path req) "/api/audit" = false
  /\ exists user, Req.user req = Some user.
Proof.
  intros Hpath Hchg. unfold AuditInterceptor.auditLogger in Hchg.
  destruct (existsb (fun route => Str.startsWith (Req.path req) route)
              AuditInterceptor.skipRoutes) eqn:Skip;
    [exfalso; apply Hchg; reflexivity |].
  destruct (logRequest_effect req responseData statusCode env w)
    as (w' & H & _ & _ & [Hl | (user & doc & Hr & _ & Hent & _)]).
  - rewrite H in Hchg. exfalso. apply Hchg. exact Hl.
  - split; [| split; [| eauto]].
    + destruct (Str.startsWith (Req.path req) "/api/") eqn:A; [reflexivity |].
      rewrite Hpath in A, Hent.
      rewrite (extractEntityFromPath_outside_api rest A) in Hent.
      discriminate Hent.
    + cbn [existsb AuditInterceptor.skipRoutes] in Skip.
      apply orb_false_elim in Skip. destruct Skip as [_ Skip].
      apply orb_false_elim in Skip. destruct Skip as [Skip _]. exact Skip.
Qed.

Lemma auditLogger_records_api_only_witness :
  Str.startsWith
    (Req.path (Scenario.post "/api/things" (JObj [("name", JStr "lamp")])
                 (Some Scenario.alice))) "/api/" = true
  /\ Str.startsWith
       (Req.path (Scenario.post "/api/things" (JObj [("name", JStr "lamp")])
                    (Some Scenario.alice))) "/api/audit" = false
  /\ exists user,
       Req.user (Scenario.post "/api/things" (JObj [("name", JStr "lamp")])
                   (Some Scenario.alice)) = Some user.
Proof.
  apply (auditLogger_records_api_only
           (Scenario.post "/api/things" (JObj [("name", JStr "lamp")])
              (Some Scenario.alice))
           (JObj [("success", JBool true)]) (JS.JInt 201)
           Scenario.env Scenario.world "api/things").
  - reflexivity.
  - vm_compute. intros H. discriminate H.
Defined.

Lemma sanitize_fold_clean (fields : list string) (fs : list (string * jsval)) :
  (forall f, In f fields -> JS.truthy (JS.get (JObj fs) f) = false) ->
  fold_left
    (fun sanitized field =>
       if JS.truthy (JS.get (JObj sanitized) field)
       then JS.delete field sanitized else sanitized)
    fields fs = fs.
Proof.
  induction fields as [| f r IH]; intros H; [reflexivity |].
  cbn [fold_left]. rewrite (H f (or_introl eq_refl)).
  apply IH. intros g Hg. apply H. right. exact Hg.
Qed.

(** X12. [sanitizeData] looks at the top level only: an object none of
    whose own sensitive fields holds a truthy value comes back as it is,
    whatever its nested objects hold. *)
Theorem sanitizeData_top_level_only (fs : list (string * jsval)) :
  (forall f, In f AuditLogger.sensitiveFields ->
             JS.truthy (JS.get (JObj fs) f) = false) ->
  AuditLogger.sanitizeData (JObj fs) = JObj fs.
Proof.
  intros H. unfold AuditLogger.sanitizeData. cbn [JS.truthy JS.typeof_object negb orb JS.spread].
  rewrite (sanitize_fold_clean _ _ H). reflexivity.
Qed.

Lemma sanitizeData_top_level_only_witness :
  AuditLogger.sanitizeData
    (JObj [("user", JObj [("email", JStr "alice@example.com");
                          ("password", JStr "Password123")])])
  = JObj [("user", JObj [("email", JStr "alice@example.com");
                         ("password", JStr "Password123")])].
Proof.
  apply (sanitizeData_top_level_only
           [("user", JObj [("email", JStr "alice@example.com");
                           ("password", JStr "Password123")])]).
  intros f Hf. cbn in Hf.
  repeat (destruct Hf as [<- | Hf]; [reflexivity |]). destruct Hf.
Defined.

(** *** The entity, activity and export routes *)

Lemma assoc_set_same (k : string) (v : jsval) (fs : list (string * jsval)) :
  JS.assoc k (JS.set k v fs) = Some v.
Proof.
  induction fs as [| [k' x] r IH]; cbn.
  - rewrite String.eqb_refl. reflexivity.
  - destruct (String.eqb k k') eqn:E; cbn.
    + rewrite String.eqb_refl. reflexivity.
    + rewrite E. exact IH.
Qed.

Lemma page_options_Ok (q : jsval) (withEntity : bool) (env : Env)
    (w w1 : World) (options : list (string * jsval)) :
  AuditController.page_options q withEntity env w = (Ok options, w1) ->
  w1 = w.
Proof.
  unfold AuditController.page_options. intros H.
  apply bind_Ok in H. destruct H as (a & w2 & H0 & H).
  apply ret_Ok in H. destruct H as [_ ->].
  destruct (JS.truthy (JS.get q "action")).
  - apply bind_Ok in H0. destruct H0 as (x & w3 & H0 & H1).
    apply lift_result_Ok in H0. destruct H0 as [_ ->].
    apply ret_Ok in H1. tauto.
  - apply ret_Ok in H0. tauto.
Qed.

Lemma controller_getEntityAuditLogs_own (env : Env) (w w' : World)
    (req : Req.t) (user : User.t) (status : Z) (body : jsval) :
  Req.user req = Some user ->
  AuditController.is_admin user = false ->
  Str.nonempty (User._id user) = true ->
  In user (users w) ->
  AuditController.getEntityAuditLogs req env w
    = (Ok (Responded status body), w') ->
  exists logs,
    JS.get (JS.get body "data") "auditLogs"
    = JArr (map AuditLogModel.to_json logs)
    /\ Forall (fun doc => actor doc = JStr (User._id user)) logs
    /\ (JS.get (JS.get body "data") "entity" = JStr "User" ->
        JS.get (JS.get body "data") "entityId" = JStr (User._id user)).
Proof.
  intros Hu Hadmin Hid Hin H.
  unfold AuditController.getEntityAuditLogs in H. apply try_next_Responded in H.
  apply bind_Ok in H. destruct H as (u0 & w1 & Hd & H).
  apply destructure_Ok in Hd. subst w1.
  apply bind_Ok in H. destruct H as (u1 & w1 & Hd & H).
  apply destructure_Ok in Hd. subst w1.
  destruct (negb (JS.truthy (JS.get (Req.params req) "entity"))
            || negb (JS.truthy (JS.get (Req.params req) "entityId")));
    [ret_inv H; discriminate H |].
  apply bind_Ok in H. destruct H as (options & w1 & Ho & H).
  apply page_options_Ok in Ho. subst w1.
  apply bind_Ok in H. destruct H as (user' & w1 & H0 & H).
  unfold AuditController.req_user in H0. rewrite Hu in H0.
  apply ret_Ok in H0. destruct H0 as [-> ->].
  rewrite Hadmin in H. cbn [negb andb] in H.
  destruct (AuditLogModel.eqb (JS.get (Req.params req) "entity") (JStr "User")
            && negb (AuditLogModel.eqb (JS.get (Req.params req) "entityId")
                       (JStr (User._id user)))) eqn:Guard;
    [ret_inv H; discriminate H |].
  assert (Hown : JS.get (Req.params req) "entity" = JStr "User" ->
                 JS.get (Req.params req) "entityId" = JStr (User._id user)).
  { intros He. rewrite He in Guard. cbn in Guard.
    destruct (AuditLogModel.eqb (JS.get (Req.params req) "entityId")
                (JStr (User._id user))) eqn:E; [| discriminate Guard].
    apply eqb_JStr in E. exact E. }
  apply bind_Ok in H. destruct H as (logs & w1 & Hlogs & H).
  assert (Hopt : JS.get (AuditController.getEntityAuditLogs_options user options)
                   "userId" = JStr (User._id user)).
  { unfold AuditController.getEntityAuditLogs_options. rewrite Hadmin.
    cbn [negb JS.get]. rewrite assoc_set_same. reflexivity. }
  apply (service_getEntityLogs_by_actor _ _ _ _ _ _ _ _ Hopt Hid) in Hlogs.
  destruct Hlogs as (_ & _ & Hall).
  ret_inv H. inversion H; subst.
  exists logs. split; [reflexivity |]. split; [| exact Hown].
  apply Forall_forall. intros doc Hdoc.
  destruct (Hall doc Hdoc) as (orig & _ & Heq & ->).
  apply populate_actor; assumption.
Qed.

(** X13. A caller of the entity trail who is not an admin only receives
    entries whose actor is the caller, and for the entity [User] only
    under the caller's own id; this holds of the controller on any
    request and of the route that validates parameters and query first. *)
Theorem entity_logs_own_entries_only (handler : Req.t -> M Outcome)
    (env : Env) (w w' : World) (req : Req.t) (user : User.t) (status : Z)
    (body : jsval) :
  handler = AuditController.getEntityAuditLogs \/ handler = AuditRoutes.entity ->
  Req.user req = Some user ->
  AuditController.is_admin user = false ->
  Str.nonempty (User._id user) = true ->
  In user (users w) ->
  handler req env w = (Ok (Responded status body), w') ->
  exists logs,
    JS.get (JS.get body "data") "auditLogs"
    = JArr (map AuditLogModel.to_json logs)
    /\ Forall (fun doc => actor doc = JStr (User._id user)) logs
    /\ (JS.get (JS.get body "data") "entity" = JStr "User" ->
        JS.get (JS.get body "data") "entityId" = JStr (User._id user)).
Proof.
  intros [-> | ->] Hu Hadmin Hid Hin H.
  - eapply controller_getEntityAuditLogs_own; eassumption.
  - unfold AuditRoutes.entity, AuditRoutes.validate_params in H.
    destruct (AuditRoutes.auditParams (Req.params req)) as [params |];
      [| ret_inv H; discriminate H].
    unfold Validation.validate_query in H.
    apply bind_Ok in H. destruct H as (env' & w1 & H0 & H).
    apply ask_Ok in H0. destruct H0 as [-> ->].
    match type of H with
    | context [Validation.auditQuery env ?q] =>
        destruct (Validation.auditQuery env q) as [value |]
    end; [| ret_inv H; discriminate H].
    eapply controller_getEntityAuditLogs_own;
      [| eassumption | eassumption | eassumption | exact H].
    exact Hu.
Qed.

Lemma entity_logs_own_entries_only_witness :
  exists logs,
    JS.get
      (JS.get
         (body_of
            (fst (AuditRoutes.entity Session.entity_req Scenario.env
                    Session.things_world)))
         "data") "auditLogs"
    = JArr (map AuditLogModel.to_json logs)
    /\ Forall (fun doc => actor doc = JStr (User._id Scenario.alice)) logs
    /\ (JS.get
          (JS.get
             (body_of
                (fst (AuditRoutes.entity Session.entity_req Scenario.env
                        Session.things_world)))
             "data") "entity" = JStr "User" ->
        JS.get
          (JS.get
             (body_of
                (fst (AuditRoutes.entity Session.entity_req Scenario.env
                        Session.things_world)))
             "data") "entityId" = JStr (User._id Scenario.alice)).
Proof.
  apply (entity_logs_own_entries_only AuditRoutes.entity Scenario.env
           Session.things_world
           (snd (AuditRoutes.entity Session.entity_req Scenario.env
                   Session.things_world))
           Session.entity_req Scenario.alice 200
           (body_of
              (fst (AuditRoutes.entity Session.entity_req Scenario.env
                      Session.things_world)))).
  - right. reflexivity.
  - reflexivity.
  - reflexivity.
  - reflexivity.
  - left. reflexivity.
  - vm_compute. reflexivity.
Defined.

(** In that trail the route shows alice her own change and hides bob's. *)
Lemma entity_route_hides_other_actor :
  JS.get
    (JS.get
       (body_of
          (fst (AuditRoutes.entity Session.entity_req Scenario.env
                  Session.things_world)))
       "data") "auditLogs"
  = JArr [AuditLogModel.to_json
            (AuditLogModel.populate (users Session.things_world)
               (Session.thing 20 (oid 1) 1699999990000))].
Proof. vm_compute. reflexivity. Qed.

(** The store's activity query: every entry it returns is a stored entry
    whose actor is the user asked for. *)
Lemma model_getUserActivity_of_user (env : Env) (w w1 : World)
    (userId options : jsval) (logs : list AuditLog.t) :
  AuditLogModel.getUserActivity userId options env w = (Ok logs, w1) ->
  w1 = w
  /\ forall doc, In doc logs ->
       In doc (auditLogs w)
       /\ AuditLogModel.eqb (AuditLog.userId doc) userId = true.
Proof.
  intros H. unfold AuditLogModel.getUserActivity in H.
  apply bind_Ok in H. destruct H as (env' & w2 & H0 & H).
  apply ask_Ok in H0. destruct H0 as [-> ->].
  apply bind_Ok in H. destruct H as (action' & w2 & H0 & H).
  assert (w2 = w) as ->.
  { destruct (JS.truthy (JS.get options "action")).
    - apply bind_Ok in H0. destruct H0 as (a & w3 & H0 & H1).
      apply lift_result_Ok in H0. destruct H0 as [_ ->].
      apply ret_Ok in H1. tauto.
    - apply ret_Ok in H0. tauto. }
  clear H0.
  apply bind_Ok in H. destruct H as (found & w2 & H0 & H).
  apply find_Ok in H0. destruct H0 as [-> Hfound].
  apply lift_result_Ok in H. destruct H as [Hpage ->].
  split; [reflexivity |].
  intros doc Hin.
  apply (In_paginate _ _ _ _ _ Hpage) in Hin.
  apply In_sort_desc in Hin. rewrite Hfound in Hin.
  apply filter_In in Hin. destruct Hin as (Hin & Hm).
  split; [exact Hin |].
  apply (matches_In _ doc "userId" userId) in Hm; [exact Hm |].
  left. reflexivity.
Qed.

Lemma service_getUserActivity_of_user (env : Env) (w w1 : World)
    (userId options : jsval) (logs : list AuditLog.t) :
  AuditLogService.getUserActivity userId options env w = (Ok logs, w1) ->
  forall doc, In doc logs ->
    In doc (auditLogs w)
    /\ AuditLogModel.eqb (AuditLog.userId doc) userId = true.
Proof.
  intros H. unfold AuditLogService.getUserActivity in H.
  apply try_catch_Ok in H. destruct H as [H | (e & w2 & _ & H)].
  - apply model_getUserActivity_of_user in H. tauto.
  - apply bind_Ok in H. destruct H as (u & w3 & _ & H).
    apply ret_Ok in H. destruct H as [-> _]. intros doc [].
Qed.

Lemma controller_getUserActivity_own (env : Env) (w w' : World)
    (req : Req.t) (user : User.t) (status : Z) (body : jsval) :
  Req.user req = Some user ->
  AuditController.getUserActivity req env w
    = (Ok (Responded status body), w') ->
  exists logs,
    JS.get (JS.get body "data") "activityLogs"
    = JArr (map AuditLogModel.to_json logs)
    /\ Forall (fun doc =>
                 In doc (auditLogs w)
                 /\ AuditLogModel.eqb (AuditLog.userId doc)
                      (JS.get (JS.get body "data") "userId") = true) logs
    /\ (AuditController.is_admin user = false ->
        JS.get (JS.get body "data") "userId" = JStr (User._id user)).
Proof.
  intros Hu H.
  unfold AuditController.getUserActivity in H. apply try_next_Responded in H.
  apply bind_Ok in H. destruct H as (u0 & w1 & Hd & H).
  apply destructure_Ok in Hd. subst w1.
  apply bind_Ok in H. destruct H as (u1 & w1 & Hd & H).
  apply destructure_Ok in Hd. subst w1.
  apply bind_Ok in H. destruct H as (user' & w1 & H0 & H).
  unfold AuditController.req_user in H0. rewrite Hu in H0.
  apply ret_Ok in H0. destruct H0 as [-> ->].
  destruct (negb (AuditController.is_admin user)
            && negb (AuditLogModel.eqb (JS.get (Req.params req) "userId")
                       (JStr (User._id user)))) eqn:Guard;
    [ret_inv H; discriminate H |].
  apply bind_Ok in H. destruct H as (options & w1 & Ho & H).
  assert (w1 = w) as ->.
  { unfold AuditController.getUserActivity_options in Ho.
    apply bind_Ok in Ho. destruct Ho as (o & w2 & Ho & Hr).
    apply page_options_Ok in Ho. subst w2.
    apply ret_Ok in Hr. tauto. }
  apply bind_Ok in H. destruct H as (logs & w1 & Hlogs & H).
  pose proof (service_getUserActivity_of_user _ _ _ _ _ _ Hlogs) as Hall.
  ret_inv H. inversion H; subst.
  exists logs. split; [reflexivity |]. split.
  - apply Forall_forall. intros doc Hdoc. exact (Hall doc Hdoc).
  - intros Hadmin. rewrite Hadmin in Guard. cbn in Guard.
    destruct (AuditLogModel.eqb (JS.get (Req.params req) "userId")
                (JStr (User._id user))) eqn:E; [| discriminate Guard].
    apply eqb_JStr in E. exact E.
Qed.

(** X14. The activity a caller receives is made of stored entries of the
    user whose id the response names, and for a caller who is not an
    admin that user is the caller: nobody but an admin reads another
    user's activity. This holds of the controller and of the route that
    validates parameters and query first. *)
Theorem activity_only_of_requested_user (handler : Req.t -> M Outcome)
    (env : Env) (w w' : World) (req : Req.t) (user : User.t) (status : Z)
    (body : jsval) :
  handler = AuditController.getUserActivity \/ handler = AuditRoutes.activity ->
  Req.user req = Some user ->
  handler req env w = (Ok (Responded status body), w') ->
  exists logs,
    JS.get (JS.get body "data") "activityLogs"
    = JArr (map AuditLogModel.to_json logs)
    /\ Forall (fun doc =>
                 In doc (auditLogs w)
                 /\ AuditLogModel.eqb (AuditLog.userId doc)
                      (JS.get (JS.get body "data") "userId") = true) logs
    /\ (AuditController.is_admin user = false ->
        JS.get (JS.get body "data") "userId" = JStr (User._id user)).
Proof.
  intros [-> | ->] Hu H.
  - eapply controller_getUserActivity_own; eassumption.
  - unfold AuditRoutes.activity, AuditRoutes.validate_params in H.
    destruct (AuditRoutes.userIdParam (Req.params req)) as [params |];
      [| ret_inv H; discriminate H].
    unfold Validation.validate_query in H.
    apply bind_Ok in H. destruct H as (env' & w1 & H0 & H).
    apply ask_Ok in H0. destruct H0 as [-> ->].
    match type of H with
    | context [Validation.auditQuery env ?q] =>
        destruct (Validation.auditQuery env q) as [value |]
    end; [| ret_inv H; discriminate H].
    eapply controller_getUserActivity_own; [| exact H].
    exact Hu.
Qed.

Lemma activity_only_of_requested_user_witness :
  exists logs,
    JS.get
      (JS.get
         (body_of
            (fst (AuditRoutes.activity (Session.activity_req (oid 1))
                    Scenario.env Session.things_world)))
         "data") "activityLogs"
    = JArr (map AuditLogModel.to_json logs)
    /\ Forall (fun doc =>
                 In doc (auditLogs Session.things_world)
                 /\ AuditLogModel.eqb (AuditLog.userId doc)
                      (JS.get
                         (JS.get
                            (body_of
                               (fst (AuditRoutes.activity
                                       (Session.activity_req (oid 1))
                                       Scenario.env Session.things_world)))
                            "data") "userId") = true) logs
    /\ (AuditController.is_admin Scenario.alice = false ->
        JS.get
          (JS.get
             (body_of
                (fst (AuditRoutes.activity (Session.activity_req (oid 1))
                        Scenario.env Session.things_world)))
             "data") "userId" = JStr (User._id Scenario.alice)).
Proof.
  apply (activity_only_of_requested_user AuditRoutes.activity Scenario.env
           Session.things_world
           (snd (AuditRoutes.activity (Session.activity_req (oid 1))
                   Scenario.env Session.things_world))
           (Session.activity_req (oid 1)) Scenario.alice 200
           (body_of
              (fst (AuditRoutes.activity (Session.activity_req (oid 1))
                      Scenario.env Session.things_world)))).
  - right. reflexivity.
  - reflexivity.
  - vm_compute. reflexivity.
Defined.

(** Asked by alice for bob's activity, the route passes on a 403. *)
Lemma activity_route_denies_other_user :
  AuditRoutes.activity (Session.activity_req (oid 2)) Scenario.env
    Session.things_world
  = (Ok (Next (createError 403
                 "Access denied. You can only view your own activity.")),
     Session.things_world).
Proof. vm_compute. reflexivity. Qed.

Lemma readonly_try_next (c : M Outcome) :
  readonly c -> readonly (AuthController.try_next c).
Proof.
  intros R env w. unfold AuthController.try_next, try_catch.
  specialize (R env w). destruct (c env w) as [[a | e] w1]; exact R.
Qed.

Lemma try_next_returns (c : M Outcome) (env : Env) (w : World) :
  exists out w', AuthController.try_next c env w = (Ok out, w').
Proof.
  unfold AuthController.try_next, try_catch.
  destruct (c env w) as [[a | e] w1]; eexists _, _; reflexivity.
Qed.

Lemma readonly_destructure (v : jsval) : readonly (AuthController.destructure v).
Proof. destruct v; intros env w; reflexivity. Qed.

Lemma readonly_build_query (q : jsval) (b : bool) :
  readonly (AuditController.build_query q b).
Proof. unfold AuditController.build_query. prove_readonly. Qed.

Lemma readonly_export_records (query : list (string * jsval)) :
  readonly (AuditController.export_records query).
Proof.
  unfold AuditController.export_records.
  apply readonly_bind; [apply readonly_find |]. intros found. prove_readonly.
Qed.

Lemma readonly_exportAuditLogs (bound : bool) (req : Req.t) :
  readonly (AuditController.exportAuditLogs bound req).
Proof.
  unfold AuditController.exportAuditLogs. apply readonly_try_next.
  apply readonly_bind; [apply readonly_destructure |]. intros _.
  apply readonly_bind; [prove_readonly |]. intros env.
  apply readonly_bind; [apply readonly_build_query |]. intros query.
  apply readonly_bind; [apply readonly_export_records |]. intros logs.
  prove_readonly.
Qed.

(** X15. Mounted on the router, the export handler runs without its
    class as receiver, so it never delivers a CSV file: the export route
    never throws and writes nothing, it answers with JSON or passes an
    error on, and a request whose validated format is [csv] always ends
    with an error passed on. *)
Theorem export_route_never_sends_csv (req : Req.t) (env : Env) (w : World) :
  exists out,
    AuditRoutes.export req env w = (Ok out, w)
    /\ (forall status contentType payload,
           out <> Sent status contentType payload)
    /\ (forall value,
           Validation.exportQuery env (Req.query req) = Some value ->
           JS.get value "format" = JStr "csv" ->
           exists error, out = Next error).
Proof.
  unfold AuditRoutes.export, Validation.validate_query, bind, ask.
  destruct (Validation.exportQuery env (Req.query req)) as [value |].
  2:{ eexists. split; [reflexivity |]. split.
      - intros s c p H. discriminate H.
      - intros v H. discriminate H. }
  set (req' := Validation.set_query req value).
  pose proof (readonly_exportAuditLogs false req' env w) as R.
  destruct (try_next_returns
              (AuthController.destructure (Req.query req') ;;;
               env0 <- ask ;;
               let format :=
                 default_to (JStr "json") (JS.get (Req.query req') "format") in
               query <- AuditController.build_query (Req.query req') false ;;
               auditLogs <- AuditController.export_records query ;;
               if AuditLogModel.eqb format (JStr "csv") then
                 throw (TypeError
                   "Cannot read properties of undefined (reading 'convertToCSV')")
               else
                 t <- Date_now ;;
                 ret (Responded 200
                        (JObj [("success", JBool true);
                               ("data",
                                JObj [("auditLogs",
                                       JArr (map AuditLogModel.to_json auditLogs));
                                      ("exportDate", JStr (date_to_string env0 t));
                                      ("totalRecords",
                                       JS.JInt (Z.of_nat (List.length auditLogs)))])]))
              )%monad env w) as (out & w' & H).
  change (AuditController.exportAuditLogs false req' env w = (Ok out, w')) in H.
  rewrite H in R. cbn in R. subst w'.
  exists out. split; [exact H |].
  unfold AuditController.exportAuditLogs in H.
  apply try_catch_Ok in H. destruct H as [H | (e & w1 & _ & H)].
  2:{ ret_inv H. subst out. split.
      - intros s c p H. discriminate H.
      - intros v _ _. eauto. }
  apply bind_Ok in H. destruct H as (u & w1 & _ & H).
  apply bind_Ok in H. destruct H as (env' & w2 & _ & H).
  apply bind_Ok in H. destruct H as (query & w3 & _ & H).
  apply bind_Ok in H. destruct H as (logs & w4 & _ & H).
  destruct (AuditLogModel.eqb
              (default_to (JStr "json") (JS.get (Req.query req') "format"))
              (JStr "csv")) eqn:F.
  - apply throw_not_Ok in H. destruct H.
  - apply bind_Ok in H. destruct H as (t & w5 & _ & H).
    ret_inv H. subst out. split.
    + intros s c p H. discriminate H.
    + intros v Hv Hcsv. injection Hv as <-.
      unfold req' in F. cbn [Validation.set_query Req.query] in F.
      rewrite Hcsv in F. discriminate F.
Qed.

(** *** The error handler *)

Lemma console_line_Ok (line : string) (u : unit) (env : Env) (w w1 : World) :
  ErrorHandler.console_line line env w = (Ok u, w1) ->
  users w1 = users w /\ auditLogs w1 = auditLogs w /\ outbox w1 = outbox w.
Proof.
  unfold ErrorHandler.console_line. intros H. injection H as _ <-. cbn. auto.
Qed.

Lemma assoc_set_other (k g : string) (v : jsval) (fs : list (string * jsval)) :
  String.eqb k g = false ->
  JS.assoc k (JS.set g v fs) = JS.assoc k fs.
Proof.
  intros Hne. induction fs as [| [k' x] r IH]; cbn.
  - rewrite Hne. reflexivity.
  - destruct (String.eqb g k') eqn:E; cbn.
    + apply String.eqb_eq in E. subst k'. rewrite Hne. reflexivity.
    + destruct (String.eqb k k'); [reflexivity | exact IH].
Qed.

(** What a reply of [errorHandler] is made of: the last error object the
    handler holds has a truthy status code, which is the status sent and
    the one the body reports. *)
Lemma errorHandler_Ok (frames : string) (node_env : option string)
    (err : ErrorObject) (req : Req.t) (env : Env) (w w1 : World)
    (reply : ErrorHandler.Reply) :
  ErrorHandler.errorHandler frames node_env err req env w = (Ok reply, w1) ->
  users w1 = users w /\ auditLogs w1 = auditLogs w
  /\ exists error,
       JS.truthy (ErrorUtils.prop error "statusCode") = true
       /\ reply
          = ErrorHandler.mkReply (ErrorUtils.prop error "statusCode")
              (ErrorUtils.formatErrorResponse node_env error req).
Proof.
  unfold ErrorHandler.errorHandler. intros H.
  apply bind_Ok in H. destruct H as (u & w2 & H0 & H).
  apply console_line_Ok in H0. destruct H0 as (U0 & A0 & _).
  apply bind_Ok in H. destruct H as (u' & w3 & H0 & H).
  assert (users w3 = users w2 /\ auditLogs w3 = auditLogs w2) as [U1 A1].
  { destruct (ErrorUtils.development node_env).
    - apply console_line_Ok in H0. tauto.
    - apply ret_Ok in H0. destruct H0 as [_ ->]. auto. }
  clear H0.
  apply bind_Ok in H. destruct H as (error1 & w4 & H0 & H).
  assert (w4 = w3) as ->.
  { destruct (String.eqb (eo_name err) "ValidationError").
    - apply lift_result_Ok in H0. tauto.
    - apply ret_Ok in H0. tauto. }
  clear H0.
  apply bind_Ok in H. destruct H as (error2 & w4 & H0 & H).
  assert (w4 = w3) as ->.
  { destruct (AuditLogModel.eqb (ErrorUtils.prop err "code") (JS.JInt 11000)).
    - apply lift_result_Ok in H0. tauto.
    - apply ret_Ok in H0. tauto. }
  clear H0.
  apply ret_Ok in H. destruct H as [-> ->].
  split; [congruence |]. split; [congruence |].
  eexists. split; [| reflexivity].
  match goal with
  | |- context [if negb (JS.truthy ?s) then _ else _] =>
      destruct (JS.truthy s) eqn:T
  end; cbn [negb]; [exact T |].
  unfold ErrorUtils.set_prop, ErrorUtils.set_message, ErrorUtils.prop.
  cbn [String.eqb Ascii.eqb Bool.eqb eo_own eo_stack eo_message eo_name JS.get].
  rewrite assoc_set_other by reflexivity.
  rewrite assoc_set_same. reflexivity.
Qed.

Lemma getErrorHandler_Ok (frames : string) (node_env : option string)
    (err : ErrorObject) (req : Req.t) (env : Env) (w w1 : World)
    (reply : ErrorHandler.Reply) :
  ErrorHandler.getErrorHandler node_env frames node_env err req env w
    = (Ok reply, w1) ->
  exists w0,
    users w0 = users w /\ auditLogs w0 = auditLogs w
    /\ ErrorHandler.errorHandler frames node_env err req env w0 = (Ok reply, w1).
Proof.
  unfold ErrorHandler.getErrorHandler.
  destruct (ErrorUtils.development node_env).
  - unfold ErrorHandler.developmentErrorHandler. intros H.
    apply bind_Ok in H. destruct H as (u & w0 & H0 & H).
    apply console_line_Ok in H0. exists w0. tauto.
  - unfold ErrorHandler.productionErrorHandler. intros H.
    apply bind_Ok in H. destruct H as (u & w0 & H0 & H).
    exists w0. split; [| split; [| exact H]];
      destruct (ErrorUtils.isOperationalError err);
      apply console_line_Ok in H0; tauto.
Qed.

Lemma formatted_statusCode (node_env : option string) (error : ErrorObject)
    (req : Req.t) :
  JS.truthy (ErrorUtils.prop error "statusCode") = true ->
  JS.get (JS.get (ErrorUtils.formatErrorResponse node_env error req) "error")
    "statusCode"
  = ErrorUtils.prop error "statusCode"
  /\ JS.get (ErrorUtils.formatErrorResponse node_env error req) "success"
     = JBool false.
Proof.
  intros T. unfold ErrorUtils.formatErrorResponse, js_or. rewrite T.
  split; reflexivity.
Qed.

(** X16. Whatever error reaches the handler the server mounts, the
    status it sends is the status code its body reports, and the body
    says [success: false]; the handler writes to the console only,
    never to the accounts or the audit trail. (It can only fail to
    reply on a malformed validation or duplicate-key error.) *)
Theorem error_reply_status_agrees
    (handler : string -> option string -> ErrorObject -> Req.t
               -> M ErrorHandler.Reply)
    (frames : string) (node_env : option string) (err : ErrorObject)
    (req : Req.t) (env : Env) (w w1 : World) (reply : ErrorHandler.Reply) :
  handler = ErrorHandler.errorHandler
  \/ handler = ErrorHandler.getErrorHandler node_env ->
  handler frames node_env err req env w = (Ok reply, w1) ->
  JS.get (JS.get (ErrorHandler.reply_body reply) "error") "statusCode"
    = ErrorHandler.reply_status reply
  /\ JS.truthy (ErrorHandler.reply_status reply) = true
  /\ JS.get (ErrorHandler.reply_body reply) "success" = JBool false
  /\ users w1 = users w
  /\ auditLogs w1 = auditLogs w.
Proof.
  intros Hh H.
  assert (exists w0,
             users w0 = users w /\ auditLogs w0 = auditLogs w
             /\ ErrorHandler.errorHandler frames node_env err req env w0
                = (Ok reply, w1)) as (w0 & U & A & R).
  { destruct Hh as [-> | ->].
    - exists w. auto.
    - apply getErrorHandler_Ok. exact H. }
  apply errorHandler_Ok in R.
  destruct R as (U1 & A1 & error & T & ->). cbn [ErrorHandler.reply_body
    ErrorHandler.reply_status].
  destruct (formatted_statusCode node_env error req T) as [S1 S2].
  repeat split; auto; congruence.
Qed.

Lemma error_reply_status_agrees_witness :
  JS.get
    (JS.get
       (ErrorHandler.reply_body
          (ErrorHandler.mkReply (JS.JInt 401)
             (ErrorUtils.formatErrorResponse (Some "production")
                (mkErrorObject "Object" "Access token is required" None
                   [("statusCode", JS.JInt 401); ("code", JNull);
                    ("details", JNull); ("isOperational", JBool true)])
                (Scenario.get_ "/api/auth/me" (JObj []) None))))
       "error") "statusCode"
  = ErrorHandler.reply_status
      (ErrorHandler.mkReply (JS.JInt 401)
         (ErrorUtils.formatErrorResponse (Some "production")
            (mkErrorObject "Object" "Access token is required" None
               [("statusCode", JS.JInt 401); ("code", JNull);
                ("details", JNull); ("isOperational", JBool true)])
            (Scenario.get_ "/api/auth/me" (JObj []) None)))
  /\ JS.truthy
       (ErrorHandler.reply_status
          (ErrorHandler.mkReply (JS.JInt 401)
             (ErrorUtils.formatErrorResponse (Some "production")
                (mkErrorObject "Object" "Access token is required" None
                   [("statusCode", JS.JInt 401); ("code", JNull);
                    ("details", JNull); ("isOperational", JBool true)])
                (Scenario.get_ "/api/auth/me" (JObj []) None)))) = true
  /\ JS.get
       (ErrorHandler.reply_body
          (ErrorHandler.mkReply (JS.JInt 401)
             (ErrorUtils.formatErrorResponse (Some "production")
                (mkErrorObject "Object" "Access token is required" None
                   [("statusCode", JS.JInt 401); ("code", JNull);
                    ("details", JNull); ("isOperational", JBool true)])
                (Scenario.get_ "/api/auth/me" (JObj []) None))))
       "success" = JBool false
  /\ users
       (snd (ErrorHandler.getErrorHandler (Some "production") ""
               (Some "production")
               (ErrorUtils.createError "" 401 "Access token is required"
                  JUndefined JUndefined)
               (Scenario.get_ "/api/auth/me" (JObj []) None)
               Scenario.env Scenario.world))
     = users Scenario.world
  /\ auditLogs
       (snd (ErrorHandler.getErrorHandler (Some "production") ""
               (Some "production")
               (ErrorUtils.createError "" 401 "Access token is required"
                  JUndefined JUndefined)
               (Scenario.get_ "/api/auth/me" (JObj []) None)
               Scenario.env Scenario.world))
     = auditLogs Scenario.world.
Proof.
  apply (error_reply_status_agrees
           (ErrorHandler.getErrorHandler (Some "production")) ""
           (Some "production")
           (ErrorUtils.createError "" 401 "Access token is required"
              JUndefined JUndefined)
           (Scenario.get_ "/api/auth/me" (JObj []) None)
           Scenario.env Scenario.world).
  - right. reflexivity.
  - vm_compute. reflexivity.
Defined.

Lemma getErrorHandler_run (frames : string) (node_env : option string)
    (err : ErrorObject) (req : Req.t) (env : Env) (w : World) :
  exists w0,
    ErrorHandler.getErrorHandler node_env frames node_env err req env w
    = ErrorHandler.errorHandler frames node_env err req env w0.
Proof.
  unfold ErrorHandler.getErrorHandler.
  destruct (ErrorUtils.development node_env).
  - eexists. unfold ErrorHandler.developmentErrorHandler, bind,
      ErrorHandler.console_line. reflexivity.
  - unfold ErrorHandler.productionErrorHandler, bind.
    destruct (ErrorUtils.isOperationalError err); eexists;
      unfold ErrorHandler.console_line; reflexivity.
Qed.

(** The handler on an error that is none of the recognised kinds: the
    copy of the error is what gets formatted, after the default is
    applied. *)
Lemma errorHandler_plain (frames : string) (node_env : option string)
    (err : ErrorObject) (req : Req.t) (env : Env) (w : World) :
  String.eqb (eo_name err) "ValidationError" = false ->
  String.eqb (eo_name err) "CastError" = false ->
  String.eqb (eo_name err) "JsonWebTokenError" = false ->
  String.eqb (eo_name err) "TokenExpiredError" = false ->
  AuditLogModel.eqb (ErrorUtils.prop err "code") (JS.JInt 11000) = false ->
  exists w1,
    ErrorHandler.errorHandler frames node_env err req env w
    = (Ok (let error0 :=
             mkErrorObject "Object" (eo_message err) None (eo_own err) in
           let error5 :=
             if negb (JS.truthy (ErrorUtils.prop error0 "statusCode")) then
               ErrorUtils.set_prop "code" (JStr "INTERNAL_ERROR")
                 (ErrorUtils.set_message "Internal Server Error"
                    (ErrorUtils.set_prop "statusCode" (JS.JInt 500) error0))
             else error0 in
           ErrorHandler.mkReply (ErrorUtils.prop error5 "statusCode")
             (ErrorUtils.formatErrorResponse node_env error5 req)), w1).
Proof.
  intros N1 N2 N3 N4 C.
  unfold ErrorHandler.errorHandler. rewrite N1, N2, N3, N4, C.
  cbn [orb]. unfold bind, ErrorHandler.console_line, ret.
  destruct (ErrorUtils.development node_env); eexists; reflexivity.
Qed.

(** X17. An error made by [createError] with a non-zero status code
    reaches the client with that status and its message, with the code
    [INTERNAL_ERROR] when none was given (as in every two-argument call),
    and never with its stack, not even in development: the handler
    formats a spread copy of the error, which has no stack. *)
Theorem createError_reply (frames frames' : string) (node_env : option string)
    (statusCode : Z) (message : string) (code details : jsval) (req : Req.t)
    (env : Env) (w : World) :
  statusCode <> 0 ->
  AuditLogModel.eqb (default_to JNull code) (JS.JInt 11000) = false ->
  exists w1,
    ErrorHandler.getErrorHandler node_env frames' node_env
      (ErrorUtils.createError frames statusCode message code details)
      req env w
    = (Ok (ErrorHandler.mkReply (JS.JInt statusCode)
             (JObj
                [("success", JBool false);
                 ("error",
                  JObj ([("message", JStr message);
                         ("code",
                          js_or (default_to JNull code) (JStr "INTERNAL_ERROR"));
                         ("statusCode", JS.JInt statusCode)]
                        ++ (if (ErrorUtils.development node_env
                                || AuditLogModel.eqb (default_to JNull code)
                                     (JStr "VALIDATION_ERROR"))
                               && JS.truthy (default_to JNull details)
                            then [("details", default_to JNull details)]
                            else [])
                        ++ (if JS.truthy (Req.requestId req)
                            then [("requestId", Req.requestId req)]
                            else []))%list)])), w1).
Proof.
  intros Hs Hc.
  destruct (getErrorHandler_run frames' node_env
              (ErrorUtils.createError frames statusCode message code details)
              req env w) as (w0 & ->).
  destruct (errorHandler_plain frames' node_env
              (ErrorUtils.createError frames statusCode message code details)
              req env w0) as (w1 & ->); try reflexivity.
  { exact Hc. }
  exists w1. cbv zeta.
  assert (T : JS.truthy (JS.JInt statusCode) = true).
  { cbn. apply Z.eqb_neq in Hs. rewrite Hs. reflexivity. }
  unfold ErrorUtils.createError, ErrorUtils.prop.
  cbn [eo_own eo_message eo_stack eo_name String.eqb Ascii.eqb Bool.eqb
       JS.get JS.assoc].
  rewrite T. cbn [negb].
  unfold ErrorUtils.formatErrorResponse, ErrorUtils.prop.
  cbn [eo_own eo_message eo_stack eo_name String.eqb Ascii.eqb Bool.eqb
       JS.get JS.assoc].
  unfold js_or at 2. rewrite T.
  cbn [JS.truthy andb]. rewrite !andb_false_r. cbn [app].
  reflexivity.
Qed.

Lemma createError_reply_witness :
  exists w1,
    ErrorHandler.getErrorHandler (Some "development") ""
      (Some "development")
      (ErrorUtils.createError "" 401 "Invalid email or password"
         JUndefined JUndefined)
      (Scenario.signin_req "not-the-password") Scenario.env Scenario.world
    = (Ok (ErrorHandler.mkReply (JS.JInt 401)
             (JObj
                [("success", JBool false);
                 ("error",
                  JObj ([("message", JStr "Invalid email or password");
                         ("code",
                          js_or (default_to JNull JUndefined)
                            (JStr "INTERNAL_ERROR"));
                         ("statusCode", JS.JInt 401)]
                        ++ (if (ErrorUtils.development (Some "development")
                                || AuditLogModel.eqb
                                     (default_to JNull JUndefined)
                                     (JStr "VALIDATION_ERROR"))
                               && JS.truthy (default_to JNull JUndefined)
                            then [("details", default_to JNull JUndefined)]
                            else [])
                        ++ (if JS.truthy
                                 (Req.requestId
                                    (Scenario.signin_req "not-the-password"))
                            then [("requestId",
                                   Req.requestId
                                     (Scenario.signin_req "not-the-password"))]
                            else []))%list)])), w1).
Proof.
  apply (createError_reply "" "" (Some "development") 401
           "Invalid email or password" JUndefined JUndefined
           (Scenario.signin_req "not-the-password") Scenario.env
           Scenario.world).
  - intros H. discriminate H.
  - reflexivity.
Defined.

(** X18. An error that carries no status code and is none of the kinds
    the handler recognises (a thrown [TypeError], a failed mail
    delivery, ...) is answered with 500, the message
    [Internal Server Error] and the code [INTERNAL_ERROR]: its own
    message does not reach the client. *)
Theorem unknown_error_is_generic_500 (frames : string)
    (node_env : option string) (err : ErrorObject) (req : Req.t) (env : Env)
    (w : World) :
  String.eqb (eo_name err) "ValidationError" = false ->
  String.eqb (eo_name err) "CastError" = false ->
  String.eqb (eo_name err) "JsonWebTokenError" = false ->
  String.eqb (eo_name err) "TokenExpiredError" = false ->
  AuditLogModel.eqb (ErrorUtils.prop err "code") (JS.JInt 11000) = false ->
  JS.truthy (ErrorUtils.prop err "statusCode") = false ->
  exists reply w1,
    ErrorHandler.getErrorHandler node_env frames node_env err req env w
      = (Ok reply, w1)
    /\ ErrorHandler.reply_status reply = JS.JInt 500
    /\ JS.get (JS.get (ErrorHandler.reply_body reply) "error") "message"
       = JStr "Internal Server Error"
    /\ JS.get (JS.get (ErrorHandler.reply_body reply) "error") "code"
       = JStr "INTERNAL_ERROR"
    /\ JS.get (JS.get (ErrorHandler.reply_body reply) "error") "statusCode"
       = JS.JInt 500.
Proof.
  intros N1 N2 N3 N4 C S.
  destruct (getErrorHandler_run frames node_env err req env w) as (w0 & ->).
  destruct (errorHandler_plain frames node_env err req env w0 N1 N2 N3 N4 C)
    as (w1 & ->).
  eexists _, w1. split; [reflexivity |]. cbv zeta.
  assert (S0 : JS.truthy
                 (ErrorUtils.prop
                    (mkErrorObject "Object" (eo_message err) None (eo_own err))
                    "statusCode") = false) by exact S.
  rewrite S0. cbn [negb ErrorHandler.reply_status ErrorHandler.reply_body].
  assert (P1 : ErrorUtils.prop
                 (ErrorUtils.set_prop "code" (JStr "INTERNAL_ERROR")
                    (ErrorUtils.set_message "Internal Server Error"
                       (ErrorUtils.set_prop "statusCode" (JS.JInt 500)
                          (mkErrorObject "Object" (eo_message err) None
                             (eo_own err))))) "statusCode" = JS.JInt 500).
  { unfold ErrorUtils.prop, ErrorUtils.set_prop, ErrorUtils.set_message.
    cbn [String.eqb Ascii.eqb Bool.eqb eo_own JS.get].
    rewrite assoc_set_other by reflexivity.
    rewrite assoc_set_same. reflexivity. }
  assert (P2 : ErrorUtils.prop
                 (ErrorUtils.set_prop "code" (JStr "INTERNAL_ERROR")
                    (ErrorUtils.set_message "Internal Server Error"
                       (ErrorUtils.set_prop "statusCode" (JS.JInt 500)
                          (mkErrorObject "Object" (eo_message err) None
                             (eo_own err))))) "code" = JStr "INTERNAL_ERROR").
  { unfold ErrorUtils.prop, ErrorUtils.set_prop, ErrorUtils.set_message.
    cbn [String.eqb Ascii.eqb Bool.eqb eo_own JS.get].
    rewrite assoc_set_same. reflexivity. }
  split; [exact P1 |].
  unfold ErrorUtils.formatErrorResponse.
  cbn [JS.get JS.assoc String.eqb Ascii.eqb Bool.eqb app].
  rewrite P1, P2. repeat split; reflexivity.
Qed.

Lemma unknown_error_is_generic_500_witness :
  exists reply w1,
    ErrorHandler.getErrorHandler (Some "development") ""
      (Some "development")
      (mkErrorObject "TypeError"
         "Cannot read properties of undefined (reading 'convertToCSV')"
         (Some "TypeError: at exportAuditLogs") [])
      (Scenario.get_ "/api/audit/export" (JObj [("format", JStr "csv")])
         (Some Scenario.alice))
      Scenario.env Scenario.world
      = (Ok reply, w1)
    /\ ErrorHandler.reply_status reply = JS.JInt 500
    /\ JS.get (JS.get (ErrorHandler.reply_body reply) "error") "message"
       = JStr "Internal Server Error"
    /\ JS.get (JS.get (ErrorHandler.reply_body reply) "error") "code"
       = JStr "INTERNAL_ERROR"
    /\ JS.get (JS.get (ErrorHandler.reply_body reply) "error") "statusCode"
       = JS.JInt 500.
Proof.
  apply (unknown_error_is_generic_500 "" (Some "development")
           (mkErrorObject "TypeError"
              "Cannot read properties of undefined (reading 'convertToCSV')"
              (Some "TypeError: at exportAuditLogs") [])
           (Scenario.get_ "/api/audit/export" (JObj [("format", JStr "csv")])
              (Some Scenario.alice))
           Scenario.env Scenario.world); reflexivity.
Defined.

(** *** Profile, password change and password reset *)

Lemma save_Ok (u : User.t) (x : unit) (env : Env) (w w1 : World) :
  UserModel.save u env w = (Ok x, w1) ->
  users w1 = UserModel.upsert u (users w)
  /\ auditLogs w1 = auditLogs w /\ now w1 = now w.
Proof.
  unfold UserModel.save. intros H.
  apply bind_Ok in H. destruct H as (env' & w2 & H0 & H).
  apply ask_Ok in H0. destruct H0 as [-> ->].
  destruct (user_save_ok env u); [| apply throw_not_Ok in H; destruct H].
  apply bind_Ok in H. destruct H as (w' & w2 & H0 & H).
  apply get_world_Ok in H0. destruct H0 as [-> ->].
  unfold UserModel.put_users in H. injection H as _ <-. cbn. auto.
Qed.

(** A failed save writes nothing. *)
Lemma save_Throw (u : User.t) (e : JsError) (env : Env) (w w1 : World) :
  UserModel.save u env w = (Throw e, w1) -> w1 = w.
Proof.
  unfold UserModel.save, bind, ask, get_world, UserModel.put_users, throw.
  destruct (user_save_ok env u); intros H; inversion H. reflexivity.
Qed.

Lemma logger_keeps_users (p : AuditLogModel.params) (env : Env) (w : World) :
  exists r w',
    AuditLogService.createLog p env w = (Ok r, w')
    /\ users w' = users w /\ now w' = now w.
Proof.
  destruct (service_createLog_absorbs p env w) as (r & w' & E & _).
  exists r, w'. split; [exact E |].
  apply service_createLog_frame in E. tauto.
Qed.

Lemma upsert_map_keeps {A} (f : User.t -> A) (u' user : User.t)
    (us : list User.t) :
  NoDup (map User._id us) ->
  In user us ->
  User._id u' = User._id user ->
  f u' = f user ->
  map f (UserModel.upsert u' us) = map f us.
Proof.
  intros Hnd Hin Hid Hf.
  induction us as [| x r IH]; [destruct Hin |].
  cbn [UserModel.upsert]. inversion Hnd as [| ? ? Hx Hr]; subst.
  destruct (String.eqb (User._id x) (User._id u')) eqn:E.
  - apply String.eqb_eq in E. cbn [map]. f_equal.
    destruct Hin as [-> | Hin]; [exact Hf |].
    exfalso. apply Hx. rewrite E, Hid. apply in_map. exact Hin.
  - cbn [map]. f_equal. apply IH; [exact Hr |].
    destruct Hin as [-> | Hin]; [| exact Hin].
    rewrite Hid, String.eqb_refl in E. discriminate E.
Qed.

Lemma updateProfile_users (updatedAt : jsval) (req : Req.t) (env : Env)
    (w w1 : World) (out : Outcome) (user : User.t) :
  Req.user req = Some user ->
  AuthAccount.updateProfile updatedAt req env w = (Ok out, w1) ->
  users w1 = users w
  \/ exists n a,
       users w1
       = UserModel.upsert
           (UserModel.set_avatar (AuthAccount.set_name user n) a) (users w).
Proof.
  intros Hu H. unfold AuthAccount.updateProfile in H.
  apply try_catch_Ok in H.
  set (body :=
         (AuthController.destructure (Req.body req) ;;;
          _)%monad) in H.
  assert (forall r w2, body env w = (r, w2) ->
            users w2 = users w
            \/ exists n a,
                 users w2
                 = UserModel.upsert
                     (UserModel.set_avatar (AuthAccount.set_name user n) a)
                     (users w)) as Hbody.
  { clear H. subst body. intros r w2 H. unfold bind at 1 in H.
    destruct (AuthController.destructure (Req.body req) env w)
      as [[u0 | e0] w3] eqn:D.
    2:{ pose proof (readonly_destructure (Req.body req) env w) as R.
        rewrite D in R. cbn in R. inversion H; subst. auto. }
    apply destructure_Ok in D. subst w3.
    unfold bind at 1 in H. unfold AuthAccount.the_user in H. rewrite Hu in H.
    cbn [ret] in H.
    unfold bind at 1 in H.
    match type of H with
    | context [match ?c env w with _ => _ end] =>
        assert (exists n, c env w = (Ok (AuthAccount.set_name user n), w)
                          \/ exists e, c env w = (Throw e, w)) as (n & Hn)
    end.
    { destruct (JS.get (Req.body req) "name") as [| | b | z | s | xs | fs | fn];
        cbn.
      - exists (User.name user). left. destruct user; reflexivity.
      - exists (User.name user). right. eauto.
      - exists (User.name user). right. eauto.
      - exists (User.name user). right. eauto.
      - exists (AuthAccount.trim s). left. reflexivity.
      - exists (User.name user). right. eauto.
      - exists (User.name user). right. eauto.
      - exists (User.name user). right. eauto. }
    destruct Hn as [Hn | (e & Hn)]; rewrite Hn in H;
      [| inversion H; subst; auto].
    unfold bind at 1 in H.
    match type of H with
    | context [match ?c env w with _ => _ end] =>
        assert (c env w = (Ok None, w)
                \/ exists a,
                     c env w
                     = (Ok (Some (UserModel.set_avatar
                                    (AuthAccount.set_name user n) a)), w))
          as Ha
    end.
    { destruct (JS.get (Req.body req) "avatar") as [| | b | z | s | xs | fs | fn];
        cbn.
      - right. exists (User.avatar user). destruct user; reflexivity.
      - right. eexists. reflexivity.
      - right. eexists. reflexivity.
      - right. eexists. reflexivity.
      - right. eexists. reflexivity.
      - left. reflexivity.
      - destruct (JS.assoc "_id" fs) as [[| | b | z | s | xs | gs | fn] |];
          try (left; reflexivity).
        destruct (Str.nonempty s); [right; eexists; reflexivity
                                   | left; reflexivity].
      - right. eexists. reflexivity. }
    destruct Ha as [Ha | (a & Ha)]; rewrite Ha in H.
    { inversion H; subst. auto. }
    unfold bind at 1 in H.
    destruct (UserModel.save
                (UserModel.set_avatar (AuthAccount.set_name user n) a) env w)
      as [[u1 | e1] w3] eqn:S.
    2:{ apply save_Throw in S. inversion H; subst. auto. }
    apply save_Ok in S. destruct S as (S & _ & _).
    unfold bind at 1 in H. unfold AuditLogService.logUpdate in H.
    match type of H with
    | context [AuditLogService.createLog ?p env w3] =>
        destruct (logger_keeps_users p env w3) as (r0 & w4 & L & U & _)
    end.
    rewrite L in H. cbn [ret] in H. inversion H; subst.
    right. exists n, a. congruence. }
  destruct H as [H | (e & w2 & Hthrow & H)].
  - exact (Hbody _ _ H).
  - apply ret_Ok in H. destruct H as [_ ->].
    exact (Hbody _ _ Hthrow).
Qed.

(** With unique ids, replacing a stored account is a map over the
    accounts. *)
Lemma upsert_as_map (u' user : User.t) (us : list User.t) :
  NoDup (map User._id us) ->
  In user us ->
  User._id u' = User._id user ->
  UserModel.upsert u' us
  = map (fun u => if String.eqb (User._id u) (User._id user) then u' else u) us.
Proof.
  intros Hnd Hin Hid.
  induction us as [| x r IH]; [destruct Hin |].
  cbn [UserModel.upsert map]. inversion Hnd as [| ? ? Hx Hr]; subst.
  rewrite Hid.
  destruct (String.eqb (User._id x) (User._id user)) eqn:E.
  - f_equal. apply String.eqb_eq in E.
    transitivity (map (fun u : User.t => u) r); [symmetry; apply map_id |].
    apply map_ext_in. intros y Hy.
    destruct (String.eqb (User._id y) (User._id user)) eqn:Ey; [| reflexivity].
    exfalso. apply String.eqb_eq in Ey. apply Hx. rewrite E, <- Ey.
    apply in_map. exact Hy.
  - f_equal. apply IH; [exact Hr |].
    destruct Hin as [-> | Hin]; [| exact Hin].
    rewrite String.eqb_refl in E. discriminate E.
Qed.

(** X19. The profile update cannot escalate: whatever the body holds (a
    role, an email, a password, ...) and however the handler ends, every
    stored account keeps its id, email, role, active flag and password;
    only the name and the avatar of the caller's account can change:
    every other account is stored as it was, and the caller's account
    keeps every field but these two. Stated for a caller who is a stored
    account, ids being unique. *)
Theorem updateProfile_keeps_identity (updatedAt : jsval) (req : Req.t)
    (env : Env) (w w1 : World) (out : Outcome) (user : User.t) :
  Req.user req = Some user ->
  In user (users w) ->
  NoDup (map User._id (users w)) ->
  AuthAccount.updateProfile updatedAt req env w = (Ok out, w1) ->
  map identity_of (users w1) = map identity_of (users w)
  /\ exists name avatar,
       users w1
       = map (fun u =>
                if String.eqb (User._id u) (User._id user)
                then User.mk (User._id u) name (User.email u) (User.password u)
                       (User.googleId u) avatar (User.role u)
                       (User.isEmailVerified u) (User.isActive u)
                       (User.lastLogin u) (User.loginAttempts u)
                       (User.lockUntil u) (User.passwordResetToken u)
                       (User.passwordResetTokenExpires u)
                else u) (users w).
Proof.
  intros Hu Hin Hnd H.
  assert (forall n a,
            UserModel.upsert
              (UserModel.set_avatar (AuthAccount.set_name user n) a) (users w)
            = map (fun u =>
                     if String.eqb (User._id u) (User._id user)
                     then User.mk (User._id u) n (User.email u) (User.password u)
                            (User.googleId u) a (User.role u)
                            (User.isEmailVerified u) (User.isActive u)
                            (User.lastLogin u) (User.loginAttempts u)
                            (User.lockUntil u) (User.passwordResetToken u)
                            (User.passwordResetTokenExpires u)
                     else u) (users w)) as Hmap.
  { intros n a.
    rewrite (upsert_as_map _ user) by (auto; reflexivity).
    apply map_ext_in. intros u Hu'.
    destruct (String.eqb (User._id u) (User._id user)) eqn:E; [| reflexivity].
    apply String.eqb_eq in E.
    rewrite (same_id_same_account u user (users w) Hnd Hu' Hin E).
    reflexivity. }
  destruct (updateProfile_users updatedAt req env w w1 out user Hu H)
    as [-> | (n & a & ->)].
  - split; [reflexivity |].
    exists (User.name user), (User.avatar user). rewrite <- Hmap.
    transitivity (map (fun u : User.t => u) (users w));
      [symmetry; apply map_id |].
    rewrite (upsert_as_map _ user) by (auto; reflexivity).
    apply map_ext_in. intros u Hu'.
    destruct (String.eqb (User._id u) (User._id user)) eqn:E; [| reflexivity].
    apply String.eqb_eq in E.
    rewrite (same_id_same_account u user (users w) Hnd Hu' Hin E).
    destruct user; reflexivity.
  - split.
    + apply (upsert_map_keeps identity_of _ user); auto.
    + exists n, a. apply Hmap.
Qed.

Lemma updateProfile_keeps_identity_witness :
  map identity_of
    (users (snd (AuthAccount.updateProfile JUndefined Resetting.profile_req
                   Scenario.env Scenario.world)))
  = map identity_of (users Scenario.world)
  /\ exists name avatar,
       users (snd (AuthAccount.updateProfile JUndefined Resetting.profile_req
                     Scenario.env Scenario.world))
       = map (fun u =>
                if String.eqb (User._id u) (User._id Scenario.alice)
                then User.mk (User._id u) name (User.email u) (User.password u)
                       (User.googleId u) avatar (User.role u)
                       (User.isEmailVerified u) (User.isActive u)
                       (User.lastLogin u) (User.loginAttempts u)
                       (User.lockUntil u) (User.passwordResetToken u)
                       (User.passwordResetTokenExpires u)
                else u) (users Scenario.world).
Proof.
  apply (updateProfile_keeps_identity JUndefined Resetting.profile_req
           Scenario.env Scenario.world
           (snd (AuthAccount.updateProfile JUndefined Resetting.profile_req
                   Scenario.env Scenario.world))
           Resetting.profile_outcome Scenario.alice).
  - reflexivity.
  - left. reflexivity.
  - vm_compute. repeat constructor; cbn; intuition discriminate.
  - vm_compute. reflexivity.
Defined.

Lemma save_with_password_Ok (hash : string -> string) (u u' : User.t)
    (password : jsval) (env : Env) (w w1 : World) :
  AuthAccount.save_with_password hash u password env w = (Ok u', w1) ->
  exists p,
    AuthAccount.cast_string password = Some p
    /\ u' = AuthAccount.set_password u (option_map hash p)
    /\ users w1 = UserModel.upsert u' (users w)
    /\ now w1 = now w.
Proof.
  unfold AuthAccount.save_with_password.
  destruct (AuthAccount.cast_string password) as [p |];
    [| intros H; apply throw_not_Ok in H; destruct H].
  intros H. apply bind_Ok in H. destruct H as (x & w2 & S & H).
  apply save_Ok in S. destruct S as (S & _ & N).
  apply ret_Ok in H. destruct H as [-> ->].
  exists p. auto.
Qed.

Lemma the_user_Ok (reading : string) (req : Req.t) (u : User.t) (env : Env)
    (w w1 : World) :
  AuthAccount.the_user reading req env w = (Ok u, w1) ->
  Req.user req = Some u /\ w1 = w.
Proof.
  unfold AuthAccount.the_user. destruct (Req.user req) as [x |].
  - intros H. apply ret_Ok in H. destruct H as [-> ->]. auto.
  - intros H. apply throw_not_Ok in H. destruct H.
Qed.

(** X20. A password change that answers 200 was entitled to: the caller's
    stored account either had a password and the current password given
    matched it, or had none (a Google-only account) and no current
    password was given; and the only effect on the accounts is that this
    account now holds the hash of the new password. *)
Theorem changePassword_sound (hash : string -> string) (req : Req.t)
    (env : Env) (w w1 : World) (status : Z) (body : jsval) :
  AuthAccount.changePassword hash req env w
    = (Ok (Responded status body), w1) ->
  exists caller account p,
    Req.user req = Some caller
    /\ stored w (User._id caller) = Some account
    /\ (if UserModel.present (User.password account)
        then UserModel.comparePassword env account
               (JS.get (Req.body req) "currentPassword") = true
        else JS.truthy (JS.get (Req.body req) "currentPassword") = false)
    /\ AuthAccount.cast_string (JS.get (Req.body req) "newPassword") = Some p
    /\ users w1
       = UserModel.upsert
           (AuthAccount.set_password account (option_map hash p)) (users w).
Proof.
  intros H. unfold AuthAccount.changePassword in H.
  apply try_next_Responded in H.
  apply bind_Ok in H. destruct H as (u0 & w2 & D & H).
  apply destructure_Ok in D. subst w2.
  apply bind_Ok in H. destruct H as (caller & w2 & C & H).
  apply the_user_Ok in C. destruct C as [Hc ->].
  apply bind_Ok in H. destruct H as (found & w2 & F & H).
  unfold AuthAccount.findById_with_password in F.
  apply bind_Ok in F. destruct F as (w' & w3 & F0 & F).
  apply get_world_Ok in F0. destruct F0 as [-> ->].
  apply ret_Ok in F. destruct F as [-> ->].
  destruct (List.find (fun u => String.eqb (User._id u) (User._id caller))
              (users w)) as [account |] eqn:Hfind;
    [| apply throw_not_Ok in H; destruct H].
  apply bind_Ok in H. destruct H as (env' & w2 & A & H).
  apply ask_Ok in A. destruct A as [-> ->].
  exists caller, account.
  destruct (UserModel.present (User.password account)) eqn:P.
  - destruct (UserModel.comparePassword env account
                (JS.get (Req.body req) "currentPassword")) eqn:Cmp;
      cbn [negb] in H; [| ret_inv H; discriminate H].
    apply bind_Ok in H. destruct H as (user1 & w2 & S & H).
    apply save_with_password_Ok in S. destruct S as (p & Hp & -> & Hs & _).
    apply bind_Ok in H. destruct H as (r & w3 & L & H).
    unfold AuditLogService.logUpdate in L.
    match type of L with
    | AuditLogService.createLog ?q env w2 = _ =>
        destruct (logger_keeps_users q env w2) as (r0 & w4 & L' & U & _)
    end.
    rewrite L' in L. injection L as _ <-.
    apply ret_Ok in H. destruct H as [_ ->].
    exists p. unfold stored. repeat split; auto. congruence.
  - destruct (JS.truthy (JS.get (Req.body req) "currentPassword")) eqn:T;
      [ret_inv H; discriminate H |].
    apply bind_Ok in H. destruct H as (user1 & w2 & S & H).
    apply save_with_password_Ok in S. destruct S as (p & Hp & -> & Hs & _).
    apply bind_Ok in H. destruct H as (r & w3 & L & H).
    unfold AuditLogService.logUpdate in L.
    match type of L with
    | AuditLogService.createLog ?q env w2 = _ =>
        destruct (logger_keeps_users q env w2) as (r0 & w4 & L' & U & _)
    end.
    rewrite L' in L. injection L as _ <-.
    apply ret_Ok in H. destruct H as [_ ->].
    exists p. unfold stored. repeat split; auto. congruence.
Qed.

Lemma changePassword_sound_witness :
  exists caller account p,
    Req.user Resetting.password_req = Some caller
    /\ stored Scenario.world (User._id caller) = Some account
    /\ (if UserModel.present (User.password account)
        then UserModel.comparePassword Scenario.env account
               (JS.get (Req.body Resetting.password_req) "currentPassword")
             = true
        else JS.truthy
               (JS.get (Req.body Resetting.password_req) "currentPassword")
             = false)
    /\ AuthAccount.cast_string
         (JS.get (Req.body Resetting.password_req) "newPassword") = Some p
    /\ users
         (snd (AuthAccount.changePassword Resetting.hash
                 Resetting.password_req Scenario.env Scenario.world))
       = UserModel.upsert
           (AuthAccount.set_password account (option_map Resetting.hash p))
           (users Scenario.world).
Proof.
  apply (changePassword_sound Resetting.hash Resetting.password_req
           Scenario.env Scenario.world
           (snd (AuthAccount.changePassword Resetting.hash
                   Resetting.password_req Scenario.env Scenario.world))
           200
           (JObj [("success", JBool true);
                  ("message", JStr "Password changed successfully")])).
  vm_compute. reflexivity.
Defined.

(** X21. A reset token works once: after a reset that answered 200, the
    same request is answered 400 [Invalid or expired password reset
    token] at any later time and changes nothing, because the stored
    hash was cleared. Stated for a store with unique ids in which no two
    accounts hold the same token hash. *)
Theorem reset_token_single_use (hash : string -> string) (req : Req.t)
    (env : Env) (w w1 : World) (status : Z) (body : jsval) (t : Z) :
  NoDup (map User._id (users w)) ->
  (forall x y,
      In x (users w) -> In y (users w) ->
      User.passwordResetToken x = User.passwordResetToken y ->
      User.passwordResetToken x <> None ->
      User._id x = User._id y) ->
  AuthAccount.resetPassword hash req env w = (Ok (Responded status body), w1) ->
  AuthAccount.resetPassword hash req env (at_time t w1)
  = (Ok (Next (createError 400 "Invalid or expired password reset token")),
     at_time t w1).
Proof.
  intros Hnd Huniq H. pose proof H as Hrun.
  unfold AuthAccount.resetPassword in H. apply try_next_Responded in H.
  apply bind_Ok in H. destruct H as (u0 & w2 & D & H).
  pose proof D as D'. apply destructure_Ok in D. subst w2.
  destruct (negb (JS.truthy (JS.get (Req.body req) "token"))
            || negb (JS.truthy (JS.get (Req.body req) "password"))) eqn:G;
    [ret_inv H; discriminate H |].
  apply bind_Ok in H. destruct H as (hashed & w2 & Hh & H).
  assert (exists s, JS.get (Req.body req) "token" = JStr s
                    /\ hashed = sha256_hex env s /\ w2 = w) as (s & Htok & -> & ->).
  { unfold AuthAccount.sha256_m in Hh.
    apply bind_Ok in Hh. destruct Hh as (env' & w3 & A & Hh).
    apply ask_Ok in A. destruct A as [-> ->].
    destruct (JS.get (Req.body req) "token") as [| | b | z | s | xs | fs | fn];
      try (apply throw_not_Ok in Hh; destruct Hh).
    apply ret_Ok in Hh. destruct Hh as [-> ->]. eauto. }
  apply bind_Ok in H. destruct H as (found & w2 & F & H).
  unfold AuthAccount.findOne_reset in F.
  apply bind_Ok in F. destruct F as (t0 & w3 & F0 & F).
  assert (w3 = w) as -> by (cbv [Date_now] in F0; congruence). clear F0.
  apply bind_Ok in F. destruct F as (w' & w3 & F0 & F).
  apply get_world_Ok in F0. destruct F0 as [-> ->].
  apply ret_Ok in F. destruct F as [-> ->].
  destruct (List.find (AuthAccount.holds_reset_token (sha256_hex env s) t0)
              (users w)) as [user |] eqn:Hfind;
    [| ret_inv H; discriminate H].
  apply find_some in Hfind. destruct Hfind as [Hin Hholds].
  destruct (negb (User.isActive user)); [ret_inv H; discriminate H |].
  apply bind_Ok in H. destruct H as (user1 & w2 & R & H).
  assert (User._id user1 = User._id user
          /\ (users w2 = users w
              \/ users w2 = UserModel.upsert user1 (users w))) as [Hid1 Hw2].
  { destruct (0 <? User.loginAttempts user).
    - unfold UserModel.resetLoginAttempts in R.
      apply bind_Ok in R. destruct R as (w' & w3 & R0 & R).
      apply get_world_Ok in R0. destruct R0 as [-> ->].
      apply bind_Ok in R. destruct R as (x & w3 & R0 & R).
      unfold UserModel.put_users in R0. injection R0 as _ <-.
      apply ret_Ok in R. destruct R as [-> ->]. cbn. auto.
    - apply ret_Ok in R. destruct R as [-> ->]. auto. }
  apply bind_Ok in H. destruct H as (user3 & w3 & S & H).
  apply save_with_password_Ok in S. destruct S as (p & Hp & -> & Hs & _).
  apply bind_Ok in H. destruct H as (r & w4 & L & H).
  unfold AuditLogService.logUpdate in L.
  match type of L with
  | AuditLogService.createLog ?q env w3 = _ =>
      destruct (logger_keeps_users q env w3) as (r0 & w5 & L' & U & _)
  end.
  rewrite L' in L. injection L as _ <-.
  apply ret_Ok in H. destruct H as [_ ->].
  set (final := AuthAccount.set_password (UserModel.set_reset user1 None None)
                  (option_map hash p)) in *.
  assert (Hfinal : users w5 = UserModel.upsert final (users w)).
  { rewrite U, Hs. destruct Hw2 as [-> | ->]; [reflexivity |].
    apply upsert_upsert. exact eq_refl. }
  (* the second attempt *)
  unfold AuthAccount.resetPassword, AuthController.try_next, try_catch.
  unfold bind at 1.
  assert (AuthController.destructure (Req.body req) env (at_time t w5)
          = (Ok tt, at_time t w5)) as ->.
  { destruct (Req.body req); cbn in D' |- *; try reflexivity; discriminate D'. }
  rewrite G. unfold bind at 1.
  unfold AuthAccount.sha256_m at 1. unfold bind at 1, ask at 1.
  rewrite Htok. cbn [ret].
  unfold bind at 1. unfold AuthAccount.findOne_reset.
  cbv [bind Date_now get_world ret]. cbn [users at_time now].
  rewrite Hfinal.
  match goal with
  | |- context [List.find ?f ?l] =>
      destruct (List.find f l) as [x |] eqn:Hx; [| reflexivity]
  end.
  exfalso. apply find_some in Hx. destruct Hx as [Hxin Hxh].
  apply (In_upsert_inv _ _ _ Hnd) in Hxin.
  destruct Hxin as [-> | [Hxin Hne]].
  - cbn in Hxh. discriminate Hxh.
  - apply Hne. unfold final. cbn [User._id AuthAccount.set_password
      UserModel.set_reset]. rewrite Hid1.
    apply Huniq; auto.
    + unfold AuthAccount.holds_reset_token in Hxh, Hholds.
      destruct (User.passwordResetToken x) as [hx |]; [| discriminate Hxh].
      destruct (User.passwordResetTokenExpires x); [| discriminate Hxh].
      destruct (User.passwordResetToken user) as [hu |]; [| discriminate Hholds].
      destruct (User.passwordResetTokenExpires user); [| discriminate Hholds].
      apply andb_prop in Hxh. destruct Hxh as [Hxh _].
      apply andb_prop in Hholds. destruct Hholds as [Hholds _].
      apply String.eqb_eq in Hxh, Hholds. congruence.
    + unfold AuthAccount.holds_reset_token in Hxh.
      destruct (User.passwordResetToken x); [discriminate | discriminate Hxh].
Qed.

Lemma reset_token_single_use_witness :
  AuthAccount.resetPassword Resetting.hash Resetting.req Scenario.env
    (at_time 1700000001000
       (snd (AuthAccount.resetPassword Resetting.hash Resetting.req
               Scenario.env Resetting.world)))
  = (Ok (Next (createError 400 "Invalid or expired password reset token")),
     at_time 1700000001000
       (snd (AuthAccount.resetPassword Resetting.hash Resetting.req
               Scenario.env Resetting.world))).
Proof.
  apply (reset_token_single_use Resetting.hash Resetting.req Scenario.env
           Resetting.world
           (snd (AuthAccount.resetPassword Resetting.hash Resetting.req
                   Scenario.env Resetting.world))
           200
           (JObj [("success", JBool true);
                  ("message",
                   JStr "Password has been reset successfully. Please login with your new password.")])
           1700000001000).
  - vm_compute. repeat constructor; cbn; intuition discriminate.
  - intros x y [<- | [<- | []]] [<- | [<- | []]]; cbn; intros H N;
      try reflexivity; try discriminate H; exfalso; apply N; reflexivity.
  - vm_compute. reflexivity.
Defined.

(** *** The audit store's verdict and the primary request path *)

Section Blind.

Variable v : AuditLog.t -> bool.
Variable env : Env.

Lemma blind_ret {A} (R : A -> A -> Prop) (a a' : A) :
  R a a' -> blind v env R (ret a) (ret a').
Proof. intros H w w' S. split; [exact S | exact H]. Qed.

Lemma blind_throw {A} (R : A -> A -> Prop) (e : JsError) :
  blind v env R (throw e) (throw e).
Proof. intros w w' S. split; [exact S | reflexivity]. Qed.

Lemma blind_lift {A} (r : result A) :
  blind v env eq (lift_result r) (lift_result r).
Proof. intros w w' S. split; [exact S |]. destruct r; reflexivity. Qed.

Lemma blind_bind {A B} (R0 : A -> A -> Prop) (R : B -> B -> Prop)
    (c c' : M A) (k k' : A -> M B) :
  blind v env R0 c c' ->
  (forall a a', R0 a a' -> blind v env R (k a) (k' a')) ->
  blind v env R (bind c k) (bind c' k').
Proof.
  intros Hc Hk w w' S. unfold bind. specialize (Hc w w' S).
  destruct (c env w) as [[a | e] w1],
    (c' (with_audit_verdict v env) w') as [[a' | e'] w1'];
    destruct Hc as [S1 Hr]; cbn in S1, Hr; try contradiction.
  - exact (Hk a a' Hr w1 w1' S1).
  - split; [exact S1 | exact Hr].
Qed.

Lemma blind_try_catch {A} (R : A -> A -> Prop) (c c' : M A)
    (h h' : JsError -> M A) :
  blind v env R c c' ->
  (forall e, blind v env R (h e) (h' e)) ->
  blind v env R (try_catch c h) (try_catch c' h').
Proof.
  intros Hc Hh w w' S. unfold try_catch. specialize (Hc w w' S).
  destruct (c env w) as [[a | e] w1],
    (c' (with_audit_verdict v env) w') as [[a' | e'] w1'];
    destruct Hc as [S1 Hr]; cbn in S1, Hr; try contradiction.
  - split; [exact S1 | exact Hr].
  - subst e'. exact (Hh e w1 w1' S1).
Qed.

Lemma blind_ask {A} (R : A -> A -> Prop) (k k' : Env -> M A) :
  blind v env R (k env) (k' (with_audit_verdict v env)) ->
  blind v env R (bind ask k) (bind ask k').
Proof. intros H w w' S. exact (H w w' S). Qed.

Lemma blind_get_world {A} (R : A -> A -> Prop) (k k' : World -> M A) :
  (forall w0 w0', same_but_audit w0 w0' -> blind v env R (k w0) (k' w0')) ->
  blind v env R (bind get_world k) (bind get_world k').
Proof. intros H w w' S. exact (H w w' S w w' S). Qed.

Lemma blind_Date_now : blind v env eq Date_now Date_now.
Proof.
  intros w w' S. split; [exact S |]. cbn.
  destruct S as (_ & _ & Hn & _). exact Hn.
Qed.

Lemma blind_fresh_oid : blind v env eq fresh_oid fresh_oid.
Proof.
  intros w w' (Hu & Ho & Hn & Hi). unfold fresh_oid. split.
  - cbn [snd]. unfold same_but_audit. cbn [users outbox now next_oid].
    rewrite Hu, Ho, Hn, Hi. auto.
  - cbn [fst]. rewrite Hi. reflexivity.
Qed.

Lemma blind_put_users (us : list User.t) :
  blind v env eq (UserModel.put_users us) (UserModel.put_users us).
Proof.
  intros w w' (Hu & Ho & Hn & Hi). unfold UserModel.put_users. split; cbn.
  - repeat split; cbn; congruence.
  - reflexivity.
Qed.

Lemma blind_console_error (label : string) (e : JsError) :
  blind v env eq (console_error label e) (console_error label e).
Proof.
  intros w w' (Hu & Ho & Hn & Hi). unfold console_error. split; cbn.
  - repeat split; cbn; congruence.
  - reflexivity.
Qed.

Lemma blind_sendPasswordResetEmail (to token name : string) :
  blind v env eq (EmailService.sendPasswordResetEmail to token name)
    (EmailService.sendPasswordResetEmail to token name).
Proof.
  intros w w' (Hu & Ho & Hn & Hi).
  unfold EmailService.sendPasswordResetEmail. cbn.
  destruct (email_send_ok env (mkMail to token name)); split; cbn;
    repeat split; cbn; congruence.
Qed.

(** The recorder: whatever the two verdicts are, the runs differ in the
    audit trail and the console only. *)
Lemma blind_createLog (p : AuditLogModel.params) :
  blind v env (fun _ _ => True) (AuditLogService.createLog p)
    (AuditLogService.createLog p).
Proof.
  intros w w' (Hu & Ho & Hn & Hi).
  unfold AuditLogService.createLog, AuditLogModel.createLog, try_catch, bind,
    lift_result.
  cbn [AuditLogModel.action AuditLogModel.entityId AuditLogModel.userId
       AuditLogModel.entity AuditLogModel.changes AuditLogModel.metadata
       AuditLogModel.description].
  destruct (toUpperCase_m (AuditLogModel.action p)) as [a | e];
    [| split; cbn; repeat split; cbn; congruence].
  destruct (toString_m (AuditLogModel.entityId p)) as [i | e];
    [| split; cbn; repeat split; cbn; congruence].
  cbv [fresh_oid Date_now]. cbn [now next_oid]. rewrite <- Hn, <- Hi.
  match goal with |- context [AuditLogModel.document ?id ?u ?a ?e ?i ?c ?m ?t ?d] =>
    destruct (AuditLogModel.document id u a e i c m t d) as [doc |] end;
    [| split; cbn; repeat split; cbn; congruence].
  unfold AuditLogModel.save.
  cbn [audit_save_ok with_audit_verdict users auditLogs console outbox now
       next_oid].
  destruct (audit_save_ok env doc), (v doc);
    split; cbn; repeat split; cbn; congruence.
Qed.

End Blind.

Ltac head_of t :=
  match t with
  | ?f _ => head_of f
  | _ => t
  end.

Ltac env_norm :=
  unfold UserModel.comparePassword, JWTService.issuer;
  cbn [with_audit_verdict audit_save_ok user_save_ok email_configured
       email_send_ok verifyGoogleToken password_matches sha256_hex
       random_token jwt_render JWT_SECRET JWT_REFRESH_SECRET JWT_EXPIRES_IN
       JWT_REFRESH_EXPIRES_IN expires_seconds date_parse date_to_string
       joi_integer APP_NAME].

Ltac world_norm S :=
  let Hu := fresh "Hu" in
  let Ho := fresh "Ho" in
  let Hn := fresh "Hn" in
  let Hi := fresh "Hi" in
  destruct S as (Hu & Ho & Hn & Hi);
  rewrite <- ?Hu, <- ?Ho, <- ?Hn, <- ?Hi.

Ltac blind_leaf :=
  first
    [ apply blind_ret; reflexivity
    | apply blind_ret; exact I
    | apply blind_throw
    | apply blind_lift
    | apply blind_Date_now
    | apply blind_fresh_oid
    | apply blind_put_users
    | apply blind_console_error
    | apply blind_sendPasswordResetEmail
    | apply blind_createLog ].

Ltac blind_step :=
  env_norm;
  match goal with
  | |- blind _ _ _ (bind ask _) (bind ask _) => apply blind_ask
  | |- blind _ _ _ (bind get_world _) (bind get_world _) =>
      let w0 := fresh "w0" in
      let w0' := fresh "w0'" in
      let S := fresh "S" in
      apply blind_get_world; intros w0 w0' S; world_norm S
  | |- blind _ _ _ (bind (AuditLogService.logRead _ _ _ _ _) _) _ =>
      apply (blind_bind _ _ (fun _ _ => True));
      [unfold AuditLogService.logRead; apply blind_createLog | intros ? ? _]
  | |- blind _ _ _ (bind (AuditLogService.logUpdate _ _ _ _ _ _ _) _) _ =>
      apply (blind_bind _ _ (fun _ _ => True));
      [unfold AuditLogService.logUpdate; apply blind_createLog | intros ? ? _]
  | |- blind _ _ _ (bind (AuditLogService.logCreate _ _ _ _ _ _) _) _ =>
      apply (blind_bind _ _ (fun _ _ => True));
      [unfold AuditLogService.logCreate; apply blind_createLog | intros ? ? _]
  | |- blind _ _ _ (bind _ _) (bind _ _) =>
      apply (blind_bind _ _ eq); [| intros ? ? <-]
  | |- blind _ _ _ (try_catch _ _) (try_catch _ _) =>
      apply blind_try_catch; [| intros ?]
  | |- blind _ _ _ (if ?b then _ else _) _ => destruct b
  | |- blind _ _ _ (match ?x with _ => _ end) _ => destruct x
  | |- _ => blind_leaf
  | |- blind _ _ _ ?c _ => let h := head_of c in unfold h
  end.

Ltac blind_auto := repeat blind_step.

Section BlindHandlers.

Variable v : AuditLog.t -> bool.
Variable env : Env.

Lemma blind_logout (req : Req.t) :
  blind v env eq (AuthAccount.logout req) (AuthAccount.logout req).
Proof.
  unfold AuthAccount.logout, AuthController.try_next. blind_auto.
Qed.

Lemma blind_getProfile (createdAt updatedAt : jsval) (req : Req.t) :
  blind v env eq (AuthAccount.getProfile createdAt updatedAt req)
    (AuthAccount.getProfile createdAt updatedAt req).
Proof.
  unfold AuthAccount.getProfile, AuthController.try_next. blind_auto.
Qed.

Lemma blind_changePassword (hash : string -> string) (req : Req.t) :
  blind v env eq (AuthAccount.changePassword hash req)
    (AuthAccount.changePassword hash req).
Proof.
  unfold AuthAccount.changePassword, AuthController.try_next. blind_auto.
Qed.

Lemma blind_updateProfile (updatedAt : jsval) (req : Req.t) :
  blind v env eq (AuthAccount.updateProfile updatedAt req)
    (AuthAccount.updateProfile updatedAt req).
Proof.
  unfold AuthAccount.updateProfile, AuthController.try_next. blind_auto.
Qed.

Lemma blind_resetPassword (hash : string -> string) (req : Req.t) :
  blind v env eq (AuthAccount.resetPassword hash req)
    (AuthAccount.resetPassword hash req).
Proof.
  unfold AuthAccount.resetPassword, AuthController.try_next. blind_auto.
Qed.

Lemma blind_signin (req : Req.t) :
  blind v env eq (AuthController.signin req) (AuthController.signin req).
Proof.
  unfold AuthController.signin, AuthController.try_next. blind_auto.
Qed.

Lemma blind_forgotPassword (req : Req.t) :
  blind v env eq (AuthController.forgotPassword req)
    (AuthController.forgotPassword req).
Proof.
  unfold AuthController.forgotPassword, AuthController.try_next. blind_auto.
Qed.

Lemma blind_googleAuth (req : Req.t) :
  blind v env eq (AuthController.googleAuth req)
    (AuthController.googleAuth req).
Proof.
  unfold AuthController.googleAuth. blind_auto.
Qed.

End BlindHandlers.

Lemma blind_same_start {A} (v : AuditLog.t -> bool) (env : Env) (c : M A)
    (w : World) :
  blind v env eq c c ->
  fst (c env w) = fst (c (with_audit_verdict v env) w)
  /\ users (snd (c env w)) = users (snd (c (with_audit_verdict v env) w))
  /\ outbox (snd (c env w)) = outbox (snd (c (with_audit_verdict v env) w)).
Proof.
  intros B.
  assert (S : same_but_audit w w) by (repeat split).
  destruct (B w w S) as [(Hu & Ho & _) Hr].
  split; [| split; assumption].
  destruct (fst (c env w)), (fst (c (with_audit_verdict v env) w));
    try contradiction; congruence.
Qed.

(** X22. Auditing never blocks or alters the primary path of the
    authentication routes: for sign-in, Google sign-in, forgot-password,
    reset-password, profile, profile update, password change and logout,
    the outcome handed to the client, the accounts and the outbox are
    the same whatever the audit store answers to the entries written on
    the way; only the audit trail and the console can differ. *)
Theorem audit_verdict_never_reaches_the_client (hash : string -> string)
    (createdAt updatedAt : jsval) (v : AuditLog.t -> bool) (env : Env) :
  Forall
    (fun handler : Req.t -> M Outcome =>
       forall (req : Req.t) (w : World),
         fst (handler req env w)
         = fst (handler req (with_audit_verdict v env) w)
         /\ users (snd (handler req env w))
            = users (snd (handler req (with_audit_verdict v env) w))
         /\ outbox (snd (handler req env w))
            = outbox (snd (handler req (with_audit_verdict v env) w)))
    (audited_handlers hash createdAt updatedAt).
Proof.
  unfold audited_handlers.
  repeat (apply Forall_cons; [intros req w; apply blind_same_start |]);
    [| | | | | | | | apply Forall_nil].
  - apply blind_signin.
  - apply blind_googleAuth.
  - apply blind_forgotPassword.
  - apply blind_resetPassword.
  - apply blind_getProfile.
  - apply blind_updateProfile.
  - apply blind_changePassword.
  - apply blind_logout.
Qed.

(** With an audit store that rejects every entry, alice still signs in. *)
Lemma signin_with_failing_audit :
  exists body w',
    AuthController.signin (Scenario.signin_req "Password123")
      (with_audit_verdict rejecting Scenario.env) Scenario.world
    = (Ok (Responded 200 body), w')
    /\ auditLogs w' = [].
Proof. eexists _, _. vm_compute. split; reflexivity. Qed.

(** *** Sign-in failures *)

(** X23. Sign-in does not tell a wrong password from an unknown address:
    for an active account that is not locked, a wrong password is passed
    on as the same 401 [Invalid email or password] that an address
    without an account gets (the latter without any write). *)
Theorem signin_failures_look_alike (env : Env) (w : World)
    (known unknown : Req.t) (address address' : string) (user : User.t) :
  toLowerCase_m (JS.get (Req.body known) "email") = Ok address ->
  List.find (fun u => String.eqb (User.email u) address) (users w) = Some user ->
  UserModel.isLocked user (now w) = false ->
  User.isActive user = true ->
  UserModel.comparePassword env user (JS.get (Req.body known) "password")
    = false ->
  toLowerCase_m (JS.get (Req.body unknown) "email") = Ok address' ->
  List.find (fun u => String.eqb (User.email u) address') (users w) = None ->
  fst (AuthController.signin known env w) = Ok (Next bad_credentials)
  /\ AuthController.signin unknown env w = (Ok (Next bad_credentials), w).
Proof.
  intros Hl Hf Hunlocked Hactive Hwrong Hl' Hf'.
  split.
  - unfold AuthController.signin, AuthController.try_next, try_catch, bind.
    assert (Hd : AuthController.destructure (Req.body known) env w = (Ok tt, w)).
    { destruct (Req.body known); cbn in *; try reflexivity; discriminate Hl. }
    rewrite Hd. unfold lift_result. rewrite Hl.
    unfold UserModel.findOne_email, bind, get_world, ret. rewrite Hf.
    unfold Date_now. rewrite Hunlocked, Hactive. cbn [negb].
    unfold ask. rewrite Hwrong. cbn [negb].
    unfold UserModel.incLoginAttempts, bind, Date_now, get_world,
      UserModel.put_users. reflexivity.
  - unfold AuthController.signin, AuthController.try_next, try_catch, bind.
    assert (Hd : AuthController.destructure (Req.body unknown) env w = (Ok tt, w)).
    { destruct (Req.body unknown); cbn in *; try reflexivity; discriminate Hl'. }
    rewrite Hd. unfold lift_result. rewrite Hl'.
    unfold UserModel.findOne_email, bind, get_world, ret. rewrite Hf'.
    reflexivity.
Qed.

Lemma signin_failures_look_alike_witness :
  fst (AuthController.signin (Scenario.signin_req "not-the-password")
         Scenario.env Scenario.world) = Ok (Next bad_credentials)
  /\ AuthController.signin
       (Scenario.post "/api/auth/signin"
          (JObj [("email", JStr "Nobody@Example.com");
                 ("password", JStr "whatever")]) None)
       Scenario.env Scenario.world
     = (Ok (Next bad_credentials), Scenario.world).
Proof.
  apply (signin_failures_look_alike Scenario.env Scenario.world
           (Scenario.signin_req "not-the-password")
           (Scenario.post "/api/auth/signin"
              (JObj [("email", JStr "Nobody@Example.com");
                     ("password", JStr "whatever")]) None)
           "alice@example.com" "nobody@example.com" Scenario.alice);
    reflexivity.
Defined.

(** *** Audit statistics *)

Lemma sum_counts_count_doc (doc : AuditLog.t) (groups : list ActionStat) :
  sum_counts (AuditStats.count_doc doc groups) = sum_counts groups + 1.
Proof.
  induction groups as [| g r IH]; cbn; [lia |].
  destruct (String.eqb (as_action g) (AuditLog.action doc)
            && AuditLogModel.eqb (as_entity g) (AuditLog.entity doc)); cbn; lia.
Qed.

Lemma sum_counts_fold (docs : list AuditLog.t) (acc : list ActionStat) :
  sum_counts (fold_left (fun groups doc => AuditStats.count_doc doc groups)
                docs acc)
  = sum_counts acc + Z.of_nat (List.length docs).
Proof.
  revert acc. induction docs as [| d r IH]; intros acc; cbn [fold_left].
  - cbn. lia.
  - rewrite IH, sum_counts_count_doc. cbn [List.length]. lia.
Qed.

Lemma positive_count_doc (doc : AuditLog.t) (groups : list ActionStat) :
  Forall (fun a => 0 < as_count a) groups ->
  Forall (fun a => 0 < as_count a) (AuditStats.count_doc doc groups).
Proof.
  induction groups as [| g r IH]; intros H; cbn.
  - constructor; [cbn; lia | constructor].
  - inversion H as [| ? ? Hg Hr]; subst.
    destruct (String.eqb (as_action g) (AuditLog.action doc)
              && AuditLogModel.eqb (as_entity g) (AuditLog.entity doc)).
    + constructor; [cbn; lia | exact Hr].
    + constructor; [exact Hg | exact (IH Hr)].
Qed.

Lemma positive_group_actions (docs : list AuditLog.t) :
  Forall (fun a => 0 < as_count a) (AuditStats.group_actions docs).
Proof.
  unfold AuditStats.group_actions.
  assert (forall acc,
             Forall (fun a => 0 < as_count a) acc ->
             Forall (fun a => 0 < as_count a)
               (fold_left (fun groups doc => AuditStats.count_doc doc groups)
                  docs acc)) as H.
  { induction docs as [| d r IH]; intros acc Hacc; cbn; [exact Hacc |].
    apply IH. apply positive_count_doc. exact Hacc. }
  apply H. constructor.
Qed.

Lemma sum_counts_app (l1 l2 : list ActionStat) :
  sum_counts (l1 ++ l2) = sum_counts l1 + sum_counts l2.
Proof. induction l1 as [| a r IH]; cbn; [reflexivity | rewrite IH; lia]. Qed.

Lemma sum_totals_push (a : ActionStat) (groups : list EntityStat) :
  sum_totals (AuditStats.push_action a groups) = sum_totals groups + as_count a.
Proof.
  induction groups as [| g r IH]; cbn; [lia |].
  destruct (AuditLogModel.eqb (es_entity g) (as_entity a)); cbn; lia.
Qed.

Lemma sum_totals_fold (stats : list ActionStat) (acc : list EntityStat) :
  sum_totals (fold_left (fun groups a => AuditStats.push_action a groups)
                stats acc)
  = sum_totals acc + sum_counts stats.
Proof.
  revert acc. induction stats as [| a r IH]; intros acc; cbn [fold_left].
  - cbn. lia.
  - rewrite IH, sum_totals_push. cbn. lia.
Qed.

Lemma sound_push (a : ActionStat) (groups : list EntityStat) :
  0 < as_count a ->
  Forall sound_group groups ->
  Forall sound_group (AuditStats.push_action a groups).
Proof.
  intros Ha. induction groups as [| g r IH]; intros H; cbn.
  - constructor; [| constructor]. unfold sound_group. cbn.
    repeat split; [lia | | lia]. constructor; [exact Ha | constructor].
  - inversion H as [| ? ? Hg Hr]; subst.
    destruct (AuditLogModel.eqb (es_entity g) (as_entity a)).
    + constructor; [| exact Hr]. destruct Hg as (Ht & Hp & Hpos).
      unfold sound_group. cbn. rewrite sum_counts_app. cbn.
      repeat split; [lia | | lia].
      apply Forall_app. split; [exact Hp |]. constructor; [exact Ha | constructor].
    + constructor; [exact Hg | exact (IH Hr)].
Qed.

Lemma sound_group_entities (stats : list ActionStat) :
  Forall (fun a => 0 < as_count a) stats ->
  Forall sound_group (AuditStats.group_entities stats).
Proof.
  unfold AuditStats.group_entities.
  assert (forall acc,
             Forall (fun a => 0 < as_count a) stats ->
             Forall sound_group acc ->
             Forall sound_group
               (fold_left (fun groups a => AuditStats.push_action a groups)
                  stats acc)) as H.
  { induction stats as [| a r IH]; intros acc Hs Hacc; cbn; [exact Hacc |].
    inversion Hs as [| ? ? Ha Hr]; subst.
    apply IH; [exact Hr |]. apply sound_push; assumption. }
  intros Hs. apply H; [exact Hs | constructor].
Qed.

Lemma In_insert_total (g x : EntityStat) (l : list EntityStat) :
  In x (AuditStats.insert_total g l) <-> x = g \/ In x l.
Proof.
  induction l as [| y r IH]; cbn.
  - intuition congruence.
  - destruct (es_totalCount y <? es_totalCount g); cbn.
    + intuition congruence.
    + rewrite IH. intuition congruence.
Qed.

Lemma In_sort_total (x : EntityStat) (l : list EntityStat) :
  In x (AuditStats.sort_total l) <-> In x l.
Proof.
  induction l as [| y r IH]; [cbn; tauto |].
  change (AuditStats.sort_total (y :: r))
    with (AuditStats.insert_total y (AuditStats.sort_total r)).
  rewrite In_insert_total, IH. cbn. intuition congruence.
Qed.

Lemma sum_totals_insert (g : EntityStat) (l : list EntityStat) :
  sum_totals (AuditStats.insert_total g l) = es_totalCount g + sum_totals l.
Proof.
  induction l as [| y r IH]; cbn; [reflexivity |].
  destruct (es_totalCount y <? es_totalCount g); cbn; lia.
Qed.

Lemma sum_totals_sort (l : list EntityStat) :
  sum_totals (AuditStats.sort_total l) = sum_totals l.
Proof.
  induction l as [| y r IH]; [reflexivity |].
  change (AuditStats.sort_total (y :: r))
    with (AuditStats.insert_total y (AuditStats.sort_total r)).
  rewrite sum_totals_insert, IH. reflexivity.
Qed.

Lemma descending_insert (g : EntityStat) (l : list EntityStat) :
  descending l -> descending (AuditStats.insert_total g l).
Proof.
  induction l as [| y r IH]; intros H; cbn.
  - split; [intros x [] | exact I].
  - destruct H as [Hy Hr].
    destruct (es_totalCount y <? es_totalCount g) eqn:E.
    + apply Z.ltb_lt in E. split; [| split; assumption].
      intros x [<- | Hx]; [lia |]. specialize (Hy x Hx). lia.
    + apply Z.ltb_ge in E. split; [| exact (IH Hr)].
      intros x Hx. apply (proj1 (In_insert_total _ _ _)) in Hx.
      destruct Hx as [-> | Hx]; [exact E | exact (Hy x Hx)].
Qed.

Lemma descending_sort (l : list EntityStat) :
  descending (AuditStats.sort_total l).
Proof.
  induction l as [| y r IH]; [exact I |].
  change (AuditStats.sort_total (y :: r))
    with (AuditStats.insert_total y (AuditStats.sort_total r)).
  apply descending_insert. exact IH.
Qed.

(** The stages after the match, on any list of documents. *)
Lemma pipeline_sound (matched : list AuditLog.t) :
  sum_totals (AuditStats.pipeline matched) = Z.of_nat (List.length matched)
  /\ Forall sound_group (AuditStats.pipeline matched)
  /\ descending (AuditStats.pipeline matched).
Proof.
  unfold AuditStats.pipeline. split; [| split].
  - rewrite sum_totals_sort. unfold AuditStats.group_entities.
    rewrite sum_totals_fold. unfold AuditStats.group_actions.
    rewrite sum_counts_fold. cbn. lia.
  - apply Forall_forall. intros x Hx.
    apply (proj1 (In_sort_total _ _)) in Hx.
    pose proof (sound_group_entities _ (positive_group_actions matched)) as S.
    rewrite Forall_forall in S. exact (S x Hx).
  - apply descending_sort.
Qed.

(** X24. The statistics account for every matching entry exactly once:
    whatever the filter, the totals of the entities returned by
    [getStats] add up to the number of stored entries the match stage
    lets through; each total is the sum of the counts of its actions,
    all positive; and the entities come in descending order of their
    totals. Nothing is written. *)
Theorem stats_account_for_every_entry (objectId : jsval -> result jsval)
    (matcher : list (string * jsval) -> AuditLog.t -> bool) (options : jsval)
    (env : Env) (w w1 : World) (stats : list EntityStat) :
  AuditStats.getStats objectId matcher options env w = (Ok stats, w1) ->
  w1 = w
  /\ (exists matchStage,
        sum_totals stats
        = Z.of_nat (List.length (filter (matcher matchStage) (auditLogs w))))
  /\ Forall sound_group stats
  /\ descending stats.
Proof.
  intros H. unfold AuditStats.getStats in H. cbv zeta in H.
  apply bind_Ok in H. destruct H as (u & w2 & D & H).
  apply destructure_Ok in D. subst w2.
  apply bind_Ok in H. destruct H as (env' & w2 & A & H).
  apply ask_Ok in A. destruct A as [-> ->].
  apply bind_Ok in H. destruct H as (userId' & w2 & U & H).
  assert (w2 = w) as ->.
  { destruct (JS.truthy (JS.get (default_to (JObj []) options) "userId")).
    - apply bind_Ok in U. destruct U as (i & w3 & U0 & U).
      apply lift_result_Ok in U0. destruct U0 as [_ ->].
      apply ret_Ok in U. tauto.
    - apply ret_Ok in U. tauto. }
  clear U.
  apply bind_Ok in H. destruct H as (w' & w2 & G & H).
  apply get_world_Ok in G. destruct G as [-> ->].
  apply ret_Ok in H. destruct H as [-> ->].
  split; [reflexivity |].
  match goal with
  | |- context [AuditStats.pipeline ?m] =>
      destruct (pipeline_sound m) as (S1 & S2 & S3)
  end.
  split; [eexists; exact S1 | split; assumption].
Qed.

Lemma stats_account_for_every_entry_witness :
  snd scenario_stats = Scenario.audit_world
  /\ (exists matchStage,
        sum_totals (stats_of (fst scenario_stats))
        = Z.of_nat
            (List.length
               (filter (AuditLogModel.matches matchStage)
                  (auditLogs Scenario.audit_world))))
  /\ Forall sound_group (stats_of (fst scenario_stats))
  /\ descending (stats_of (fst scenario_stats)).
Proof.
  apply (stats_account_for_every_entry objectId_of AuditLogModel.matches
           (JObj []) Scenario.env Scenario.audit_world
           (snd scenario_stats) (stats_of (fst scenario_stats))).
  vm_compute. reflexivity.
Defined.

(** In the scenario's trail of three reads the result is one entity with
    one action counted three times. *)
Lemma scenario_stats_value :
  map AuditStats.to_json (stats_of (fst scenario_stats))
  = [JObj [("_id", JStr "");
           ("actions",
            JArr [JObj [("action", JStr "READ");
                        ("count", JS.JInt 3);
                        ("lastActivity",
                         AuditLogModel.JDate (Int 1699999999000))]]);
           ("totalCount", JS.JInt 3)]].
Proof. vm_compute. reflexivity. Qed.

(** *** What the log listing lists *)

(** Every entry the store's entity query returns is a stored entry of
    the entity and the id asked for, populated. *)
Lemma model_getEntityLogs_of_entity (env : Env) (w w1 : World)
    (entity entityId options : jsval) (logs : list AuditLog.t) :
  AuditLogModel.getEntityLogs entity entityId options env w = (Ok logs, w1) ->
  forall doc, In doc logs ->
    exists orig,
      In orig (auditLogs w)
      /\ AuditLogModel.eqb (AuditLog.entity orig) entity = true
      /\ toString_m entityId = Ok (AuditLog.entityId orig)
      /\ doc = AuditLogModel.populate (users w) orig.
Proof.
  intros H. unfold AuditLogModel.getEntityLogs in H.
  apply bind_Ok in H. destruct H as (env' & w2 & H0 & H).
  apply ask_Ok in H0. destruct H0 as [-> ->].
  apply bind_Ok in H. destruct H as (i & w2 & H0 & H).
  apply lift_result_Ok in H0. destruct H0 as [Hi ->].
  apply bind_Ok in H. destruct H as (action' & w2 & H0 & H).
  assert (w2 = w) as ->.
  { destruct (JS.truthy (JS.get options "action")).
    - apply bind_Ok in H0. destruct H0 as (a & w3 & H0 & H1).
      apply lift_result_Ok in H0. destruct H0 as [_ ->].
      apply ret_Ok in H1. tauto.
    - apply ret_Ok in H0. tauto. }
  clear H0.
  apply bind_Ok in H. destruct H as (found & w2 & H0 & H).
  apply find_Ok in H0. destruct H0 as [-> Hfound].
  apply bind_Ok in H. destruct H as (x & w2 & H0 & H).
  apply get_world_Ok in H0. destruct H0 as [-> ->].
  apply lift_result_Ok in H. destruct H as [Hpage ->].
  intros doc Hin.
  apply (In_paginate _ _ _ _ _ Hpage) in Hin.
  apply In_sort_desc in Hin. apply in_map_iff in Hin.
  destruct Hin as (orig & Hdoc & Hin). rewrite Hfound in Hin.
  apply filter_In in Hin. destruct Hin as (Hin & Hm).
  exists orig. split; [exact Hin |].
  pose proof (matches_In _ orig "entity" entity Hm (or_introl eq_refl)) as He.
  pose proof (matches_In _ orig "entityId" (JStr i) Hm
                (or_intror (or_introl eq_refl))) as Hid.
  cbn in He, Hid. apply String.eqb_eq in Hid.
  repeat split; auto. rewrite Hi, Hid. reflexivity.
Qed.

Lemma populate_keeps_entity (us : list User.t) (orig : AuditLog.t) :
  AuditLog.entity (AuditLogModel.populate us orig) = AuditLog.entity orig
  /\ AuditLog.entityId (AuditLogModel.populate us orig) = AuditLog.entityId orig.
Proof.
  unfold AuditLogModel.populate.
  destruct (AuditLogModel.find_user (AuditLog.userId orig) us); split;
    reflexivity.
Qed.

Lemma service_getEntityLogs_of_entity (env : Env) (w w1 : World)
    (entity entityId options : jsval) (logs : list AuditLog.t) :
  AuditLogService.getEntityLogs entity entityId options env w = (Ok logs, w1) ->
  forall doc, In doc logs ->
    AuditLogModel.eqb (AuditLog.entity doc) entity = true
    /\ toString_m entityId = Ok (AuditLog.entityId doc).
Proof.
  intros H. unfold AuditLogService.getEntityLogs in H.
  apply try_catch_Ok in H. destruct H as [H | (e & w2 & _ & H)].
  - intros doc Hin.
    destruct (model_getEntityLogs_of_entity _ _ _ _ _ _ _ H doc Hin)
      as (orig & _ & He & Hi & ->).
    destruct (populate_keeps_entity (users w) orig) as [-> ->]. auto.
  - apply bind_Ok in H. destruct H as (u & w3 & _ & H).
    apply ret_Ok in H. destruct H as [-> _]. intros doc [].
Qed.

Lemma service_getEntityLogs_keeps (env : Env) (w w1 : World)
    (entity entityId options : jsval) (r : result (list AuditLog.t)) :
  AuditLogService.getEntityLogs entity entityId options env w = (r, w1) ->
  users w1 = users w /\ auditLogs w1 = auditLogs w.
Proof.
  unfold AuditLogService.getEntityLogs, try_catch.
  pose proof (readonly_model_getEntityLogs entity entityId options env w) as R.
  destruct (AuditLogModel.getEntityLogs entity entityId options env w)
    as [[a | e] w2]; cbn in R; subst w2; intros H.
  - inversion H; subst. auto.
  - unfold bind, console_error, ret in H. inversion H; subst. cbn. auto.
Qed.

Lemma readonly_getAuditLogs_query (req : Req.t) :
  readonly (AuditController.getAuditLogs_query req).
Proof.
  unfold AuditController.getAuditLogs_query.
  apply readonly_bind; [apply readonly_build_query |]. intros q.
  apply readonly_bind; [| intros u; prove_readonly].
  unfold AuditController.req_user. destruct (Req.user req); prove_readonly.
Qed.

Lemma controller_getAuditLogs_blank (env : Env) (w w' : World) (req : Req.t)
    (status : Z) (body : jsval) :
  AuditController.getAuditLogs req env w = (Ok (Responded status body), w') ->
  exists logs query,
    AuditController.getAuditLogs_query req env w = (Ok query, w)
    /\ JS.get (JS.get body "data") "auditLogs"
       = JArr (map AuditLogModel.to_json logs)
    /\ Forall (fun doc =>
                 AuditLog.entity doc = JStr "" /\ AuditLog.entityId doc = "")
         logs
    /\ JS.get (JS.get (JS.get body "data") "pagination") "totalItems"
       = JS.JInt (Z.of_nat
                    (List.length
                       (filter (AuditLogModel.matches query) (auditLogs w)))).
Proof.
  intros H.
  unfold AuditController.getAuditLogs in H. apply try_next_Responded in H.
  apply bind_Ok in H. destruct H as (u0 & w1 & Hd & H).
  apply destructure_Ok in Hd. subst w1.
  apply bind_Ok in H. destruct H as (query & w1 & Hq & H).
  pose proof (readonly_run _ _ _ _ _ (readonly_getAuditLogs_query req) Hq)
    as Hw.
  subst w1.
  apply bind_Ok in H. destruct H as (logs & w2 & Hlogs & H).
  pose proof (service_getEntityLogs_of_entity _ _ _ _ _ _ _ Hlogs) as Hall.
  apply service_getEntityLogs_keeps in Hlogs. destruct Hlogs as [_ Hkeep].
  apply bind_Ok in H. destruct H as (matching & w3 & Hm & H).
  apply find_Ok in Hm. destruct Hm as [-> ->].
  apply ret_Ok in H. destruct H as [H _]. inversion H; subst.
  exists logs, query. split; [exact Hq |]. split; [reflexivity |]. split.
  - apply Forall_forall. intros doc Hdoc.
    destruct (Hall doc Hdoc) as [He Hi].
    apply eqb_JStr in He. cbn in Hi. injection Hi as Hi. auto.
  - cbn. rewrite Hkeep. reflexivity.
Qed.

(** X25. GET /audit/logs asks the store for the entity [''] with the id
    ['']: whatever filters the query string carries, every entry it
    lists has an empty entity name and an empty entity id, while
    [totalItems] counts the stored entries that pass the filter the
    handler built from the query string and the caller. Holds of the controller and of the route that
    validates the query first. *)
Theorem getAuditLogs_lists_blank_entities_only (handler : Req.t -> M Outcome)
    (env : Env) (w w' : World) (req : Req.t) (status : Z) (body : jsval) :
  handler = AuditController.getAuditLogs \/ handler = AuditRoutes.logs ->
  handler req env w = (Ok (Responded status body), w') ->
  exists logs query seen,
    (seen = req
     \/ exists value,
          Validation.auditQuery env (Req.query req) = Some value
          /\ seen = Validation.set_query req value)
    /\ AuditController.getAuditLogs_query seen env w = (Ok query, w)
    /\ JS.get (JS.get body "data") "auditLogs"
       = JArr (map AuditLogModel.to_json logs)
    /\ Forall (fun doc =>
                 AuditLog.entity doc = JStr "" /\ AuditLog.entityId doc = "")
         logs
    /\ JS.get (JS.get (JS.get body "data") "pagination") "totalItems"
       = JS.JInt (Z.of_nat
                    (List.length
                       (filter (AuditLogModel.matches query) (auditLogs w)))).
Proof.
  intros [-> | ->] H.
  - destruct (controller_getAuditLogs_blank _ _ _ _ _ _ H)
      as (logs & query & Hq & Hrest).
    exists logs, query, req. auto.
  - unfold AuditRoutes.logs, Validation.validate_query in H.
    apply bind_Ok in H. destruct H as (env' & w1 & H0 & H).
    apply ask_Ok in H0. destruct H0 as [-> ->].
    destruct (Validation.auditQuery env (Req.query req)) as [value |] eqn:V.
    + destruct (controller_getAuditLogs_blank _ _ _ _ _ _ H)
        as (logs & query & Hq & Hrest).
      exists logs, query, (Validation.set_query req value). eauto 6.
    + apply ret_Ok in H. destruct H as [H _]. discriminate H.
Qed.

Lemma getAuditLogs_lists_blank_entities_only_witness :
  exists logs query seen,
    (seen = Scenario.get_ "/api/audit/logs" (JObj [("entity", JStr "Thing")])
              (Some Scenario.alice)
     \/ exists value,
          Validation.auditQuery Scenario.env
            (Req.query
               (Scenario.get_ "/api/audit/logs"
                  (JObj [("entity", JStr "Thing")]) (Some Scenario.alice)))
          = Some value
          /\ seen = Validation.set_query
                      (Scenario.get_ "/api/audit/logs"
                         (JObj [("entity", JStr "Thing")])
                         (Some Scenario.alice)) value)
    /\ AuditController.getAuditLogs_query seen Scenario.env
         Session.things_world
       = (Ok query, Session.things_world)
    /\ JS.get
      (JS.get
         (body_of
            (fst (AuditRoutes.logs
                    (Scenario.get_ "/api/audit/logs"
                       (JObj [("entity", JStr "Thing")])
                       (Some Scenario.alice))
                    Scenario.env Session.things_world)))
         "data") "auditLogs"
    = JArr (map AuditLogModel.to_json logs)
    /\ Forall (fun doc =>
                 AuditLog.entity doc = JStr "" /\ AuditLog.entityId doc = "")
         logs
    /\ JS.get
         (JS.get
            (JS.get
               (body_of
                  (fst (AuditRoutes.logs
                          (Scenario.get_ "/api/audit/logs"
                             (JObj [("entity", JStr "Thing")])
                             (Some Scenario.alice))
                          Scenario.env Session.things_world)))
               "data") "pagination") "totalItems"
       = JS.JInt (Z.of_nat
                    (List.length
                       (filter (AuditLogModel.matches query)
                          (auditLogs Session.things_world)))).
Proof.
  apply (getAuditLogs_lists_blank_entities_only AuditRoutes.logs Scenario.env
           Session.things_world
           (snd (AuditRoutes.logs
                   (Scenario.get_ "/api/audit/logs"
                      (JObj [("entity", JStr "Thing")]) (Some Scenario.alice))
                   Scenario.env Session.things_world))
           (Scenario.get_ "/api/audit/logs" (JObj [("entity", JStr "Thing")])
              (Some Scenario.alice))
           200
           (body_of
              (fst (AuditRoutes.logs
                      (Scenario.get_ "/api/audit/logs"
                         (JObj [("entity", JStr "Thing")])
                         (Some Scenario.alice))
                      Scenario.env Session.things_world)))).
  - right. reflexivity.
  - vm_compute. reflexivity.
Defined.

(** Asked for her entries on the entity [Thing], alice is told of one
    item and shown none. *)
Lemma logs_route_counts_what_it_does_not_list :
  JS.get
    (JS.get
       (body_of
          (fst (AuditRoutes.logs
                  (Scenario.get_ "/api/audit/logs"
                     (JObj [("entity", JStr "Thing")]) (Some Scenario.alice))
                  Scenario.env Session.things_world)))
       "data") "auditLogs" = JArr []
  /\ JS.get
       (JS.get
          (JS.get
             (body_of
                (fst (AuditRoutes.logs
                        (Scenario.get_ "/api/audit/logs"
                           (JObj [("entity", JStr "Thing")])
                           (Some Scenario.alice))
                        Scenario.env Session.things_world)))
             "data") "pagination") "totalItems" = JS.JInt 1.
Proof. vm_compute. split; reflexivity. Qed.

(** *** From sign-in to the next request *)

Lemma verifyAccessToken_signed (env : Env) (w : World) (t : Token) (e : Z) :
  tk_key t = JWT_SECRET env ->
  JS.assoc "nbf" (tk_payload t) = None ->
  JS.assoc "exp" (tk_payload t) = Some (JNum (Int e)) ->
  JWTService.verifyAccessToken (Jwt.Signed t) env w
  = if e <=? now w / 1000
    then (Throw (PlainError "Access token has expired"), w)
    else (Ok (tk_payload t), w).
Proof.
  intros Hk Hn He.
  cbv [JWTService.verifyAccessToken bind ask try_catch].
  rewrite (verify_signed env w t (JWT_SECRET env) e Hk Hn He).
  destruct (e <=? now w / 1000); reflexivity.
Qed.

(** X26. The access token of a pair that [generateTokens] issued
    authenticates its owner on a later request for as long as it has not
    expired: sent as [Bearer] and the token, it makes [authenticate]
    attach the stored account of that id, provided the account is
    active and not locked; nothing is written. Stated for a rendering
    that holds no space and that the reader of token text inverts on
    this token. *)
Theorem issued_token_authenticates (parse : string -> Jwt.compact)
    (user : User.t) (env : Env) (w0 w : World) (life span : Z) (t : Token)
    (req : Req.t) :
  expires_seconds env (JWT_EXPIRES_IN env) = Some life ->
  expires_seconds env (JWT_REFRESH_EXPIRES_IN env) = Some span ->
  AuditLogger.objectIdRegex (User._id user) = true ->
  JWTService.generateAccessToken
    (JObj [("id", JStr (User._id user));
           ("email", JStr (User.email user));
           ("role", js_or (JStr (User.role user)) (JStr "user"))]) env w0
    = (Ok t, w0) ->
  parse (jwt_render env t) = Jwt.Signed t ->
  jwt_render env t <> EmptyString ->
  no_sep " " (jwt_render env t) = true ->
  exists tokens,
    JWTService.generateTokens user env w0 = (Ok tokens, w0)
    /\ JS.get (JObj tokens) "accessToken" = JStr (jwt_render env t)
    /\ forall account,
         stored w (User._id user) = Some account ->
         User.isActive account = true ->
         UserModel.isLocked account (now w) = false ->
         now w / 1000 < now w0 / 1000 + life ->
         AuthMiddleware.authenticate parse
           (JStr ("Bearer " ++ jwt_render env t)) req env w
         = (Ok (Continue (AuthMiddleware.set_user req account)), w).
Proof.
  intros Hlife Hspan Hid Hsign Hparse Hne Hsp.
  pose proof (generateTokens_payload_plain user) as P. cbv zeta in P.
  rewrite js_or_same in P.
  destruct P as (Pj & Piat & Pnbf & Pexp & Paud & Piss).
  assert (t = mkToken (JWT_SECRET env)
                ([("id", JStr (User._id user));
                  ("email", JStr (User.email user));
                  ("role", js_or (JStr (User.role user)) (JStr "user"))]
                 ++ stamps w0 life "user" (JWTService.issuer env))%list)
    as Ht.
  { cbv [JWTService.generateAccessToken bind ask] in Hsign.
    rewrite (sign_payload env w0 _ _ _ _ _ life Pj Piat Pnbf Pexp Paud Piss
               Hlife) in Hsign.
    injection Hsign as <-. reflexivity. }
  clear Hsign.
  eexists. split; [apply (generateTokens_run user env w0 life span Hlife Hspan) |].
  split; [rewrite Ht; reflexivity |].
  intros account Hst Hact Hlock Hearly.
  assert (V := verifyAccessToken_signed env w t (now w0 / 1000 + life)).
  rewrite Ht in V at 1 2 3. specialize (V eq_refl eq_refl eq_refl).
  assert (E : (now w0 / 1000 + life <=? now w / 1000) = false)
    by (apply Z.leb_gt; lia).
  rewrite E in V.
  unfold AuthMiddleware.authenticate, try_catch, bind at 1, lift_result.
  rewrite (extractToken_of_bearer _ Hsp).
  rewrite (nonempty_truthy _ Hne). cbn [negb].
  unfold bind at 1. cbn [AuthMiddleware.as_compact]. rewrite Hparse, V.
  unfold bind at 1. rewrite Ht.
  cbn [tk_payload app JS.get JS.assoc String.eqb Ascii.eqb Bool.eqb].
  unfold AuthMiddleware.findById. rewrite Hid.
  unfold stored in Hst. cbv [bind get_world ret Date_now]. rewrite Hst, Hact.
  cbn [negb]. rewrite Hlock. reflexivity.
Qed.

Lemma issued_token_authenticates_witness :
  exists tokens,
    JWTService.generateTokens Scenario.alice Header.env Scenario.world
      = (Ok tokens, Scenario.world)
    /\ JS.get (JObj tokens) "accessToken"
       = JStr (jwt_render Header.env Header.access)
    /\ forall account,
         stored (at_time 1700000060000 Scenario.world)
           (User._id Scenario.alice) = Some account ->
         User.isActive account = true ->
         UserModel.isLocked account
           (now (at_time 1700000060000 Scenario.world)) = false ->
         now (at_time 1700000060000 Scenario.world) / 1000
           < now Scenario.world / 1000 + 604800 ->
         AuthMiddleware.authenticate Header.parse
           (JStr ("Bearer " ++ jwt_render Header.env Header.access))
           Header.req Header.env (at_time 1700000060000 Scenario.world)
         = (Ok (Continue (AuthMiddleware.set_user Header.req account)),
            at_time 1700000060000 Scenario.world).
Proof.
  apply (issued_token_authenticates Header.parse Scenario.alice Header.env
           Scenario.world (at_time 1700000060000 Scenario.world)
           604800 2592000 Header.access Header.req).
  - reflexivity.
  - reflexivity.
  - reflexivity.
  - vm_compute. reflexivity.
  - vm_compute. reflexivity.
  - vm_compute. intros H; discriminate H.
  - vm_compute. reflexivity.
Defined.

(** The hypotheses of the witness are met: one minute after sign-in,
    alice's token lets her request through. *)
Lemma issued_token_session_runs :
  AuthMiddleware.authenticate Header.parse
    (JStr ("Bearer " ++ jwt_render Header.env Header.access))
    Header.req Header.env (at_time 1700000060000 Scenario.world)
  = (Ok (Continue (AuthMiddleware.set_user Header.req Scenario.alice)),
     at_time 1700000060000 Scenario.world).
Proof. vm_compute. reflexivity. Qed.

(** *** Reading the trail never raises *)

Lemma swallowed {A} (c : M (list A)) (label : string) (env : Env) (w : World) :
  readonly c ->
  exists l w',
    try_catch c (fun error => console_error label error ;;; ret []) env w
    = (Ok l, w')
    /\ users w' = users w /\ auditLogs w' = auditLogs w
    /\ outbox w' = outbox w
    /\ (c env w = (Ok l, w) /\ w' = w
        \/ (exists e, c env w = (Throw e, w)) /\ l = []
           /\ exists line, console w' = (console w ++ [line])%list).
Proof.
  intros R. unfold try_catch. specialize (R env w).
  destruct (c env w) as [[l | e] w1]; cbn in R; subst w1.
  - exists l, w. auto 10.
  - eexists [], _. unfold bind, console_error, ret. split; [reflexivity |].
    cbn. repeat split; auto. right. split; [eauto |]. split; [reflexivity |].
    eauto.
Qed.

Lemma readonly_getStats (objectId : jsval -> result jsval)
    (matcher : list (string * jsval) -> AuditLog.t -> bool) (options : jsval) :
  readonly (AuditStats.getStats objectId matcher options).
Proof.
  unfold AuditStats.getStats. cbv zeta.
  apply readonly_bind; [apply readonly_destructure |]. intros _.
  prove_readonly.
Qed.

(** X27. The three read operations of the recording service never
    raise and never write to the accounts, the trail or the outbox: when
    the store's query fails (an uncastable date, a malformed id, ...)
    they return an empty list, so a failed query reaches the caller as
    an empty result. *)
Theorem audit_reads_never_raise (objectId : jsval -> result jsval)
    (matcher : list (string * jsval) -> AuditLog.t -> bool)
    (entity entityId userId options : jsval) (env : Env) (w : World) :
  (exists logs w',
      AuditLogService.getEntityLogs entity entityId options env w
        = (Ok logs, w')
      /\ users w' = users w /\ auditLogs w' = auditLogs w
      /\ outbox w' = outbox w
      /\ ((exists e,
              AuditLogModel.getEntityLogs entity entityId options env w
              = (Throw e, w)) -> logs = []))
  /\ (exists logs w',
         AuditLogService.getUserActivity userId options env w = (Ok logs, w')
         /\ users w' = users w /\ auditLogs w' = auditLogs w
         /\ outbox w' = outbox w
         /\ ((exists e,
                 AuditLogModel.getUserActivity userId options env w
                 = (Throw e, w)) -> logs = []))
  /\ (exists stats w',
         AuditStats.service_getStats objectId matcher options env w
           = (Ok stats, w')
         /\ users w' = users w /\ auditLogs w' = auditLogs w
         /\ outbox w' = outbox w
         /\ ((exists e,
                 AuditStats.getStats objectId matcher
                   (default_to (JObj []) options) env w
                 = (Throw e, w)) -> stats = [])).
Proof.
  split; [| split].
  - destruct (swallowed (AuditLogModel.getEntityLogs entity entityId options)
                "Failed to fetch entity audit logs:" env w
                (readonly_model_getEntityLogs _ _ _))
      as (l & w' & H & U & A & O & C).
    exists l, w'. unfold AuditLogService.getEntityLogs.
    repeat split; auto.
    intros (e & He). destruct C as [[C _] | (_ & C & _)]; [| exact C].
    rewrite He in C. discriminate C.
  - destruct (swallowed (AuditLogModel.getUserActivity userId options)
                "Failed to fetch user activity logs:" env w
                (readonly_model_getUserActivity _ _))
      as (l & w' & H & U & A & O & C).
    exists l, w'. unfold AuditLogService.getUserActivity.
    repeat split; auto.
    intros (e & He). destruct C as [[C _] | (_ & C & _)]; [| exact C].
    rewrite He in C. discriminate C.
  - destruct (swallowed (AuditStats.getStats objectId matcher
                           (default_to (JObj []) options))
                "Failed to fetch audit statistics:" env w
                (readonly_getStats _ _ _))
      as (l & w' & H & U & A & O & C).
    exists l, w'. unfold AuditStats.service_getStats.
    repeat split; auto.
    intros (e & He). destruct C as [[C _] | (_ & C & _)]; [| exact C].
    rewrite He in C. discriminate C.
Qed.

(** The entity handler called with a start date that is no date (a
    query the route's validator would have refused): the store rejects
    the query and the handler answers 200 with an empty trail. *)
Lemma getEntityAuditLogs_hides_failed_query :
  exists w',
    AuditController.getEntityAuditLogs
      (AuditRoutes.set_params
         (Scenario.get_ "/api/audit/entity/Thing/t1"
            (JObj [("startDate", JStr "yesterday")]) (Some Scenario.alice))
         (JObj [("entity", JStr "Thing"); ("entityId", JStr "t1")]))
      Scenario.env Session.things_world
    = (Ok (Responded 200
             (JObj [("success", JBool true);
                    ("data",
                     JObj [("entity", JStr "Thing");
                           ("entityId", JStr "t1");
                           ("auditLogs", JArr [])])])), w')
    /\ exists line, console w' = [line].
Proof. eexists. vm_compute. split; [reflexivity | eauto]. Qed.
